(** * OneNote MCP utilities: a shallow embedding and its verified properties

    The development models the JavaScript utilities of the repository
    (the MCP server [onenote-mcp.mjs], the command line tools
    [list-pages.js], [list-sections.js], [get-page-content.js],
    [search-pages.js] and the bulk exporter [download-all-pages.js]):

    - JavaScript strings are sequences of code units below 256, so that
      [toLowerCase], [includes] and [trim] are exact on them;
    - JavaScript values are the JSON values plus [undefined];
    - exceptions are an explicit [outcome]; console output, network requests
      and file writes are events appended to the trace of a [World];
    - the builtins [JSON.parse] and [Date] are an interface ([Engine]), with a
      reference instance used to run the model on concrete inputs;
    - [while] loops over continuation links take fuel; [Diverge] is the
      result of running out of it. *)

From Stdlib Require Import ZArith Ascii String Bool Lia.
From stdpp Require Import gmap strings list pretty.

Open Scope string_scope.
Open Scope Z_scope.
Set Warnings "-register-all".

(** ** Strings *)

Module JsString.

  (** The double quote, written as a code unit. *)
Definition dq : string := String "034"%char EmptyString.

  (** The line feed. *)
Definition nl : string := String "010"%char EmptyString.

  (** [String.prototype.toLowerCase] on one code unit below 256:
      [A-Z] and the Latin-1 capitals (all of 192..222 but the sign 215). *)
Definition lower_unit (c : ascii) : ascii :=
    let n := N_of_ascii c in
    if ((65 <=? n) && (n <=? 90) ||
        (192 <=? n) && (n <=? 222) && negb (n =? 215))%N
    then ascii_of_N (n + 32) else c.

Fixpoint toLowerCase (s : string) : string :=
    match s with
    | EmptyString => EmptyString
    | String c r => String (lower_unit c) (toLowerCase r)
    end.

  (** [s.startsWith(p)] *)
Fixpoint startsWith (s p : string) : bool :=
    match p, s with
    | EmptyString, _ => true
    | String a p', String b s' => Ascii.eqb a b && startsWith s' p'
    | String _ _, EmptyString => false
    end.

  (** [s.includes(needle)] *)
Fixpoint includes (s needle : string) : bool :=
    startsWith s needle ||
    match s with
    | EmptyString => false
    | String _ r => includes r needle
    end.

  (** White space and line terminators below 256, as [trim] sees them. *)
Definition is_space (c : ascii) : bool :=
    let n := N_of_ascii c in
    ((9 <=? n) && (n <=? 13) || (n =? 32) || (n =? 160))%N.

Fixpoint trimStart (s : string) : string :=
    match s with
    | EmptyString => EmptyString
    | String c r => if is_space c then trimStart r else s
    end.

Fixpoint trimEnd (s : string) : string :=
    match s with
    | EmptyString => EmptyString
    | String c r =>
        match trimEnd r with
        | EmptyString => if is_space c then EmptyString else String c EmptyString
        | r' => String c r'
        end
    end.

  (** [s.trim()] *)
Definition trim (s : string) : string := trimEnd (trimStart s).

  (** [parts.join(sep)] *)
Fixpoint join (sep : string) (parts : list string) : string :=
    match parts with
    | [] => EmptyString
    | [x] => x
    | x :: rest => x ++ sep ++ join sep rest
    end.

  (** The character class that [sanitizeFilename] replaces: less-than,
      greater-than, colon, double quote, slash, backslash, bar, question
      mark and star. *)
Definition unsafe_unit (c : ascii) : bool :=
    let n := N_of_ascii c in
    ((n =? 60) || (n =? 62) || (n =? 58) || (n =? 34) || (n =? 47) ||
     (n =? 92) || (n =? 124) || (n =? 63) || (n =? 42))%N.

  (** [sanitizeFilename] of [download-all-pages.js]. *)
Fixpoint sanitizeFilename (filename : string) : string :=
    match filename with
    | EmptyString => EmptyString
    | String c r =>
        String (if unsafe_unit c then "_"%char else c) (sanitizeFilename r)
    end.

  (** [s.substring(0, n)] *)
Fixpoint substring0 (n : nat) (s : string) : string :=
    match n, s with
    | S n', String c r => String c (substring0 n' r)
    | _, _ => EmptyString
    end.

Definition is_digit (c : ascii) : bool :=
    let n := N_of_ascii c in ((48 <=? n) && (n <=? 57))%N.

  (** A code unit matched by the class [a-z0-9] under the flag [i]. *)
Definition is_alnum (c : ascii) : bool :=
    let n := N_of_ascii c in
    ((48 <=? n) && (n <=? 57) || (65 <=? n) && (n <=? 90) ||
     (97 <=? n) && (n <=? 122))%N.

  (** Every code unit outside [a-z0-9] (either case) becomes an underscore:
      the replacement behind [safeFileName]. *)
Fixpoint replace_non_alnum (s : string) : string :=
    match s with
    | EmptyString => EmptyString
    | String c r =>
        String (if is_alnum c then c else "_"%char) (replace_non_alnum r)
    end.

  (** Every tag (a less-than sign, the code units up to the next
      greater-than sign, and that sign if there is one) becomes a space. *)
Fixpoint strip_tags (in_tag : bool) (s : string) : string :=
    match s with
    | EmptyString => EmptyString
    | String c r =>
        if in_tag then
          strip_tags (negb (Ascii.eqb c ">"%char)) r
        else if Ascii.eqb c "<"%char then String " "%char (strip_tags true r)
        else String c (strip_tags false r)
    end.

  (** Every run of white space becomes one space. *)
Fixpoint collapse_spaces (after_space : bool) (s : string) : string :=
    match s with
    | EmptyString => EmptyString
    | String c r =>
        if is_space c then
          if after_space then collapse_spaces true r
          else String " "%char (collapse_spaces true r)
        else String c (collapse_spaces false r)
    end.

  (** [parseInt] of a string of decimal digits. *)
Definition digits_value (s : string) : Z :=
    fold_left (fun acc c => 10 * acc + (Z.of_N (N_of_ascii c) - 48))
              (list_ascii_of_string s) 0.

  (** [String(n).padStart(2, '0')] on the text of a number. *)
Definition padStart2 (s : string) : string :=
    match s with
    | EmptyString => "00"
    | String c EmptyString => String "0"%char s
    | _ => s
    end.

End JsString.
Import JsString.

(** ** Values and exceptions *)

(** A JavaScript value as the tools meet it: a JSON value or [undefined].
    A number [VNum m e] is the literal [m * 10^e]. Object members are kept in
    source order; a later duplicate key wins, as in [JSON.parse]. *)
Inductive value : Type :=
| VUndefined
| VNull
| VBool (b : bool)
| VNum (m e : Z)
| VStr (s : string)
| VArr (items : list value)
| VObj (members : list (string * value)).

(** The result of running a piece of code: a value, a thrown exception
    (its [message]) or, for a loop out of fuel, [Diverge]. *)
Inductive outcome (A : Type) : Type :=
| Ok (a : A)
| Throw (message : string)
| Diverge.
Arguments Ok {A} a.
Arguments Throw {A} message.
Arguments Diverge {A}.

Definition obind {A B} (o : outcome A) (k : A -> outcome B) : outcome B :=
  match o with
  | Ok a => k a
  | Throw m => Throw m
  | Diverge => Diverge
  end.

Declare Scope outcome_scope.
Delimit Scope outcome_scope with outcome.
Notation "'let?' x ':=' c 'in' k" := (obind c (fun x => k))
  (at level 10, x name, c at level 100, k at level 200) : outcome_scope.

(** ToBoolean *)
Definition truthy (v : value) : bool :=
  match v with
  | VUndefined | VNull => false
  | VBool b => b
  | VNum m _ => negb (m =? 0)
  | VStr s => negb (String.eqb s EmptyString)
  | VArr _ | VObj _ => true
  end.

(** [a || b] *)
Definition js_or (a b : value) : value := if truthy a then a else b.

(** The last binding of [k] in a member list. *)
Fixpoint member (k : string) (ms : list (string * value)) : option value :=
  match ms with
  | [] => None
  | (k', v) :: rest =>
      match member k rest with
      | Some v' => Some v'
      | None => if String.eqb k k' then Some v else None
      end
  end.

(** [v.k] for a key [k] that no prototype defines (here [token] and
    [access_token]): a TypeError on [null] and [undefined], [undefined] on
    a primitive, an array or an object without the key. *)
Definition get_prop (v : value) (k : string) : outcome value :=
  match v with
  | VUndefined =>
      Throw ("Cannot read properties of undefined (reading '" ++ k ++ "')")
  | VNull =>
      Throw ("Cannot read properties of null (reading '" ++ k ++ "')")
  | VObj ms => Ok (default VUndefined (member k ms))
  | _ => Ok VUndefined
  end.

(** [v.toLowerCase()] *)
Definition call_toLowerCase (v : value) : outcome string :=
  match v with
  | VStr s => Ok (toLowerCase s)
  | VUndefined =>
      Throw "Cannot read properties of undefined (reading 'toLowerCase')"
  | VNull => Throw "Cannot read properties of null (reading 'toLowerCase')"
  | _ => Throw "toLowerCase is not a function"
  end.

(** [v.trim()] *)
Definition call_trim (v : value) : outcome string :=
  match v with
  | VStr s => Ok (trim s)
  | VUndefined => Throw "Cannot read properties of undefined (reading 'trim')"
  | VNull => Throw "Cannot read properties of null (reading 'trim')"
  | _ => Throw "trim is not a function"
  end.

(** ** The builtins the tools rely on *)

(** [JSON.parse] and [Date] belong to the JavaScript engine: they are an
    interface here.  A time value is a number of milliseconds since the
    epoch; [None] is the time value [NaN] of an invalid date. *)
Class Engine : Type := {
  (** [JSON.parse(text)]; [None] when it throws a SyntaxError *)
  JSON_parse : string -> option value;
  JSON_parse_empty : JSON_parse EmptyString = None;
  (** [JSON.stringify(v)] and [JSON.stringify(v, null, 2)] *)
  JSON_stringify : value -> string;
  JSON_stringify_indented : value -> string;
  (** the time value of [new Date(v)] *)
  Date_new : value -> option Z;
  (** a date-only ISO string is midnight UTC of that day *)
  Date_new_cutoff : Date_new (VStr "2022-01-01") = Some 1640995200000;
  (** [toISOString] of a valid time value *)
  Date_toISOString : Z -> string;
  (** [getFullYear()], [getMonth()] and [getDate()] of a valid time value,
      in the local time zone *)
  Date_local : Z -> Z * Z * Z;
  (** [toLocaleString()] of a date *)
  Date_toLocaleString : option Z -> string;
  (** the time value of [new Date(year, monthIndex, day)] *)
  Date_of_local : Z -> Z -> Z -> option Z;
  (** the time value after [setDate(day)] on a valid date *)
  Date_setDate : Z -> Z -> option Z;
  (** Number::toString of the number [m * 10^e] *)
  Number_toString : Z -> Z -> string
}.

Section Conversions.
Context `{Engine}.

  (** ToString, as a template literal applies it. *)
Fixpoint ToString (v : value) : string :=
    match v with
    | VUndefined => "undefined"
    | VNull => "null"
    | VBool true => "true"
    | VBool false => "false"
    | VNum m e => Number_toString m e
    | VStr s => s
    | VArr items =>
        join "," (map (fun x => match x with
                                | VUndefined | VNull => EmptyString
                                | _ => ToString x
                                end) items)
    | VObj _ => "[object Object]"
    end.

  (** [a < b] on two dates: a comparison of time values, false on [NaN]. *)
Definition date_lt (a b : option Z) : bool :=
    match a, b with
    | Some x, Some y => x <? y
    | _, _ => false
    end.

  (** [d.toISOString()]: a RangeError on an invalid date. *)
Definition toISOString (d : option Z) : outcome string :=
    match d with
    | Some t => Ok (Date_toISOString t)
    | None => Throw "Invalid time value"
    end.

End Conversions.

(** ** The world: file system, network, console *)

(** What a run does to the outside, in order. *)
Inductive event : Type :=
| ApiGet (url : string)              (* [client.api(url).get()] *)
| HttpFetch (url : string)           (* [fetch(url, ...)] *)
| FileWrite (path content : string)  (* [fs.writeFileSync] *)
| MakeDir (path : string)            (* [fs.mkdirSync] *)
| ConsoleLog (msg : string)
| ConsoleError (msg : string)
| Sleep (ms : Z).                    (* [setTimeout] awaited *)

(** A page record as the service returns it. *)
Record page : Type := mkPage {
  id : value;
  title : value;
  lastModifiedDateTime : value;
  createdDateTime : value
}.

(** A notebook or a section. *)
Record entity : Type := mkEntity {
  e_id : value;
  e_displayName : value
}.

(** One page of a collection: [value] and [@odata.nextLink]. *)
Record collection : Type := mkCollection {
  c_value : option (list page);
  c_nextLink : value
}.

(** The response of [fetch]. *)
Record http_response : Type := mkResponse {
  r_ok : bool;
  r_status : Z;
  r_statusText : string;
  r_text : string
}.

(** The outside world answers a request from the requests made before it
    (newest first), so that a server may fail once and then succeed. *)
Record Env : Type := mkEnv {
  get_page : list event -> string -> outcome page;
  get_collection : list event -> string -> outcome collection;
  get_content : list event -> string -> outcome value;
  http_fetch : list event -> string -> outcome http_response;
  (** the [value] of a list of notebooks or sections, and one section *)
  get_entities : list event -> string -> outcome (list entity);
  get_entity : list event -> string -> outcome entity;
  (** the names [fs.readdirSync] lists in a directory *)
  readdir : list event -> string -> list string;
  (** the time value of [new Date()] *)
  clock : list event -> Z;
  (** the error, if any, of writing a file *)
  write_error : list event -> string -> option string;
  (** what a failed write of [content] to [path] leaves in the file: a
      write that fails at the opening of the file leaves it as it is
      ([None]); one that fails later has opened the file with the flag
      [w], which truncates it, and leaves what it wrote before the error *)
  write_left : list event -> string -> string -> option string
}.

Record World : Type := mkWorld {
  files : gmap string string;
  dirs : gset string;
  trace : list event;                (* newest first *)
  (** the globals of the MCP server process *)
  accessToken : value;
  graphClient : bool
}.

Definition is_request (e : event) : bool :=
  match e with
  | ApiGet _ | HttpFetch _ => true
  | _ => false
  end.

(** The requests of a trace. *)
Definition network (tr : list event) : list event :=
  List.filter is_request tr.

Definition record_event (e : event) (w : World) : World :=
  mkWorld (files w) (dirs w) (e :: trace w) (accessToken w) (graphClient w).

Definition IO (A : Type) : Type := World -> outcome A * World.

Definition ret {A} (a : A) : IO A := fun w => (Ok a, w).

Definition throw {A} (msg : string) : IO A := fun w => (Throw msg, w).

Definition bind {A B} (m : IO A) (k : A -> IO B) : IO B :=
  fun w =>
    match m w with
    | (Ok a, w') => k a w'
    | (Throw msg, w') => (Throw msg, w')
    | (Diverge, w') => (Diverge, w')
    end.

(** [try { body } catch (error) { handler(error.message) }] *)
Definition try_catch {A} (body : IO A) (handler : string -> IO A) : IO A :=
  fun w =>
    match body w with
    | (Throw msg, w') => handler msg w'
    | r => r
    end.

Definition lift {A} (o : outcome A) : IO A := fun w => (o, w).

Declare Scope io_scope.
Delimit Scope io_scope with io.
Notation "x <- c ;; k" := (bind c (fun x => k))
  (at level 100, c at next level, right associativity) : io_scope.
Notation "c ;; k" := (bind c (fun _ => k))
  (at level 100, right associativity) : io_scope.
Open Scope io_scope.

Definition emit (e : event) : IO unit := fun w => (Ok tt, record_event e w).
Definition console_log (msg : string) : IO unit := emit (ConsoleLog msg).
Definition console_error (msg : string) : IO unit := emit (ConsoleError msg).
Definition sleep (ms : Z) : IO unit := emit (Sleep ms).

(** [fs.existsSync(path)] *)
Definition existsSync (path : string) : IO bool :=
  fun w => (Ok (bool_decide (is_Some (files w !! path)) ||
                bool_decide (path ∈ dirs w)), w).

(** [fs.readFileSync(path, 'utf8')] *)
Definition readFileSync (path : string) : IO string :=
  fun w =>
    match files w !! path with
    | Some data => (Ok data, w)
    | None =>
        (Throw (if bool_decide (path ∈ dirs w)
                then "EISDIR: illegal operation on a directory, read"
                else "ENOENT: no such file or directory, open '" ++ path ++ "'"),
         w)
    end.

Section Effects.
Context (env : Env).

  (** [fs.writeFileSync(path, content, 'utf8')]; a failed write that got
      as far as opening the file has changed it, and is an event. *)
Definition writeFileSync (path content : string) : IO unit :=
    fun w =>
      match write_error env (trace w) path with
      | Some msg =>
          (Throw msg,
           match write_left env (trace w) path content with
           | Some rest =>
               mkWorld (<[path := rest]> (files w)) (dirs w)
                       (FileWrite path rest :: trace w)
                       (accessToken w) (graphClient w)
           | None => w
           end)
      | None =>
          (Ok tt, mkWorld (<[path := content]> (files w)) (dirs w)
                          (FileWrite path content :: trace w)
                          (accessToken w) (graphClient w))
      end.

  (** [fs.mkdirSync(path, { recursive: true })] *)
Definition mkdirSync (path : string) : IO unit :=
    fun w =>
      (Ok tt, mkWorld (files w) ({[path]} ∪ dirs w) (MakeDir path :: trace w)
                      (accessToken w) (graphClient w)).

  (** [await client.api(url).get()] on a page resource *)
Definition api_get_page (url : string) : IO page :=
    fun w => (get_page env (network (trace w)) url, record_event (ApiGet url) w).

  (** [await client.api(url).get()] on a collection *)
Definition api_get_collection (url : string) : IO collection :=
    fun w =>
      (get_collection env (network (trace w)) url, record_event (ApiGet url) w).

  (** [await client.api(url).header('Accept', 'text/html').get()] *)
Definition api_get_content (url : string) : IO value :=
    fun w =>
      (get_content env (network (trace w)) url, record_event (ApiGet url) w).

  (** [await client.api(url).get()] on a list of notebooks or sections *)
Definition api_get_entities (url : string) : IO (list entity) :=
    fun w =>
      (get_entities env (network (trace w)) url, record_event (ApiGet url) w).

  (** [await client.api(url).get()] on one section *)
Definition api_get_entity (url : string) : IO entity :=
    fun w =>
      (get_entity env (network (trace w)) url, record_event (ApiGet url) w).

  (** [fs.readdirSync(path)] *)
Definition readdirSync (path : string) : IO (list string) :=
    fun w => (Ok (readdir env (trace w) path), w).

  (** [new Date()] *)
Definition date_now : IO Z := fun w => (Ok (clock env (trace w)), w).

  (** [await fetch(url, { headers, signal })] *)
Definition fetch (url : string) : IO http_response :=
    fun w =>
      (http_fetch env (network (trace w)) url, record_event (HttpFetch url) w).

End Effects.

(** ** Credential loading *)

Inductive credential : Type :=
| Token (t : value)
| CredentialMissing.

(** [path.join(__dirname, '.access-token.txt')] *)
Definition tokenFilePath : string := ".access-token.txt".

Section Credentials.
Context `{Engine}.

  (** The inner [try]/[catch] shared by [list-pages.js],
      [get-page-content.js], [search-pages.js], [download-all-pages.js] and
      [onenote-mcp.mjs]:
      [try { accessToken = JSON.parse(tokenData).token }
       catch (parseError) { accessToken = tokenData }]. *)
Definition decodeToken (tokenData : string) : value :=
    match
      (match JSON_parse tokenData with
       | Some parsedToken => get_prop parsedToken "token"
       | None => Throw "Unexpected token"
       end)
    with
    | Ok t => t
    | _ => VStr tokenData
    end.

  (** The token loading of [listPages] in [list-pages.js]. *)
Definition loadToken : IO credential :=
    present <- existsSync tokenFilePath ;;
    if negb present then
      console_error "Access token not found. Please authenticate first." ;;
      ret CredentialMissing
    else
      tokenData <- readFileSync tokenFilePath ;;
      let accessToken := decodeToken tokenData in
      if negb (truthy accessToken) then
        console_error "Access token not found in file." ;;
        ret CredentialMissing
      else ret (Token accessToken).

  (** The inner [try]/[catch] of [listSections]: the file content is trimmed
      first, [access_token] is accepted as a key and the token is trimmed. *)
Definition decodeTokenTrimmed (tokenData : string) : string :=
    match
      (match JSON_parse tokenData with
       | Some parsedToken =>
           (let? t := get_prop parsedToken "token" in
            let? a := get_prop parsedToken "access_token" in
            call_trim (js_or (js_or t a) (VStr EmptyString)))%outcome
       | None => Throw "Unexpected token"
       end)
    with
    | Ok t => t
    | _ => tokenData
    end.

  (** The token loading of [listSections]. *)
Definition loadTokenTrimmed : IO credential :=
    present <- existsSync tokenFilePath ;;
    if negb present then
      console_error "Access token not found. Please authenticate first." ;;
      ret CredentialMissing
    else
      raw <- readFileSync tokenFilePath ;;
      let tokenData := trim raw in
      let accessToken := decodeTokenTrimmed tokenData in
      if negb (truthy (VStr accessToken)) then
        console_error "Access token not found in file." ;;
        ret CredentialMissing
      else ret (Token (VStr accessToken)).

Definition set_accessToken (t : value) : IO unit :=
    fun w => (Ok tt, mkWorld (files w) (dirs w) (trace w) t (graphClient w)).

Definition get_accessToken : IO value := fun w => (Ok (accessToken w), w).

Definition set_graphClient : IO unit :=
    fun w => (Ok tt, mkWorld (files w) (dirs w) (trace w) (accessToken w) true).

  (** [ensureGraphClient] of the MCP server: the token file is read again
      when no client exists yet, and an absent or empty token is an error. *)
Definition ensureGraphClient : IO unit :=
    fun w =>
      if graphClient w then (Ok tt, w)
      else
        (try_catch
           (present <- existsSync tokenFilePath ;;
            if present then
              tokenData <- readFileSync tokenFilePath ;;
              set_accessToken (decodeToken tokenData)
            else ret tt)
           (fun msg => console_error ("Error reading token file: " ++ msg)) ;;
         t <- get_accessToken ;;
         if negb (truthy t) then
           throw "Access token not found. Please save access token first."
         else set_graphClient) w.

End Credentials.

(** ** The inclusion filter *)

(** [{ skip, reason }] of the MCP server's [shouldSkipPage]. *)
Record skipCheck : Type := mkSkipCheck {
  skip : bool;
  reason : option string
}.

Definition show_reason (r : option string) : string := default "undefined" r.

Module Mcp.
Section Filter.
Context `{Engine}.

    (** [shouldSkipPage] of [onenote-mcp.mjs]. *)
Definition shouldSkipPage (p : page) : outcome skipCheck :=
      (let? lowered := call_toLowerCase (js_or (title p) (VStr EmptyString)) in
       if includes lowered "private" || includes lowered "(old)" then
         Ok (mkSkipCheck true
               (Some ("Title contains excluded keyword: " ++ dq ++
                      ToString (title p) ++ dq)))
       else if truthy (lastModifiedDateTime p) then
         let lastModified := Date_new (lastModifiedDateTime p) in
         let cutoffDate := Date_new (VStr "2022-01-01") in
         if date_lt lastModified cutoffDate then
           let? iso := toISOString lastModified in
           Ok (mkSkipCheck true
                 (Some ("Last modified date (" ++ iso ++
                        ") is older than 2022/1/1")))
         else Ok (mkSkipCheck false None)
       else Ok (mkSkipCheck false None))%outcome.

End Filter.
End Mcp.

Module Cli.
Section Filter.
Context `{Engine}.

    (** [shouldSkipPage] of [get-page-content.js] and of the [get-page]
        script: the same test, the reason goes to the console. *)
Definition shouldSkipPage (p : page) : IO bool :=
      lowered <- lift (call_toLowerCase (js_or (title p) (VStr EmptyString))) ;;
      if includes lowered "private" || includes lowered "(old)" then
        console_log ("Skipping page: Title contains excluded keyword: " ++ dq ++
                     ToString (title p) ++ dq) ;;
        ret true
      else if truthy (lastModifiedDateTime p) then
        let lastModified := Date_new (lastModifiedDateTime p) in
        let cutoffDate := Date_new (VStr "2022-01-01") in
        if date_lt lastModified cutoffDate then
          iso <- lift (toISOString lastModified) ;;
          console_log ("Skipping page: Last modified date (" ++ iso ++
                       ") is older than 2022/1/1") ;;
          ret true
        else ret false
      else ret false.

End Filter.
End Cli.

Module Bulk.
Section Filter.
Context `{Engine}.

    (** [shouldSkipPageByTitle] of [download-all-pages.js]; the titles it
        is given are the strings matched in the page list. *)
Definition shouldSkipPageByTitle (title : string) : bool :=
      let lowerTitle := toLowerCase title in
      includes lowerTitle "(old)" || includes lowerTitle "private".

    (** [shouldSkipByDate] of [download-all-pages.js]. *)
Definition shouldSkipByDate (p : page) : bool :=
      if truthy (lastModifiedDateTime p) then
        let lastModified := Date_new (lastModifiedDateTime p) in
        let cutoffDate := Date_new (VStr "2022-01-01") in
        date_lt lastModified cutoffDate
      else false.

End Filter.
End Bulk.

(** ** Single-record retrieval *)

(** [typeof content === 'string' ? content : JSON.stringify(content, ...)],
    as a string whose [length] is read: a TypeError when [JSON.stringify]
    gives [undefined]. *)
Definition content_text `{Engine} (indented : bool) (content : value)
  : outcome string :=
  match content with
  | VStr s => Ok s
  | VUndefined => Throw "Cannot read properties of undefined (reading 'length')"
  | _ => Ok (if indented then JSON_stringify_indented content
             else JSON_stringify content)
  end.

Definition content_url (pageId : string) : string :=
  "https://graph.microsoft.com/v1.0/me/onenote/pages/" ++ pageId ++ "/content".

Definition http_error (response : http_response) : string :=
  "HTTP error! Status: " ++ pretty (r_status response) ++ " " ++
  r_statusText response.

(** The console snippet of the command line retrievers. *)
Definition snippet_of (contentString : string) : string :=
  let plainText :=
    trim (collapse_spaces false (strip_tags false contentString)) in
  if (500 <? String.length plainText)%nat
  then substring0 500 plainText ++ "..."
  else plainText.

Module McpTools.
Section Tools.
Context `{Engine} (env : Env).

    (** The tool [getPage] of [onenote-mcp.mjs]; the result is the [text] of
        the returned content. The objects printed after a console message
        are left out of the message. *)
Definition getPage (pageId : value) : IO string :=
      try_catch
        (console_error "GetPage called with params:" ;;
         ensureGraphClient ;;
         if negb (truthy pageId) then throw "Page ID is required"
         else
           console_error ("Fetching page with ID: " ++ ToString pageId) ;;
           page <- api_get_page env ("/me/onenote/pages/" ++ ToString pageId) ;;
           console_error ("Target page found: " ++ ToString (title page)) ;;
           console_error ("Page ID: " ++ ToString (id page)) ;;
           skipCheck <- lift (Mcp.shouldSkipPage page) ;;
           if skip skipCheck then
             console_error ("Skipping page: " ++ show_reason (reason skipCheck)) ;;
             ret ("Page skipped: " ++ show_reason (reason skipCheck))
           else
             let url := content_url (ToString pageId) in
             console_error ("Fetching content from: " ++ url) ;;
             response <- fetch env url ;;
             if negb (r_ok response) then throw (http_error response)
             else
               let content := r_text response in
               console_error ("Content received! Length: " ++
                              pretty (String.length content) ++ " characters") ;;
               ret content)
        (fun msg =>
           console_error ("Error in getPage: " ++ msg) ;;
           throw ("Failed to get page: " ++ msg)).

    (** The tool [getPageContent] of [onenote-mcp.mjs]. *)
Definition getPageContent (pageId : value) : IO string :=
      try_catch
        (console_error "GetPageContent called with params:" ;;
         ensureGraphClient ;;
         if negb (truthy pageId) then throw "Page ID is required"
         else
           console_error ("Fetching page with ID: " ++ ToString pageId) ;;
           page <- api_get_page env ("/me/onenote/pages/" ++ ToString pageId) ;;
           console_error ("Found page: " ++ ToString (title page)) ;;
           skipCheck <- lift (Mcp.shouldSkipPage page) ;;
           if skip skipCheck then
             console_error ("Skipping page: " ++ show_reason (reason skipCheck)) ;;
             ret ("Page skipped: " ++ show_reason (reason skipCheck))
           else
             console_error "Fetching page content..." ;;
             content <- api_get_content env
                          ("/me/onenote/pages/" ++ ToString pageId ++ "/content") ;;
             contentString <- lift (content_text true content) ;;
             console_error ("Content received! Length: " ++
                            pretty (String.length contentString) ++
                            " characters") ;;
             ret contentString)
        (fun msg =>
           console_error ("Error in getPageContent: " ++ msg) ;;
           throw ("Failed to get page content: " ++ msg)).

    (** The tool [downloadFile] of [onenote-mcp.mjs]. *)
Definition downloadFile (pageId filePath : value) : IO string :=
      try_catch
        (console_error "DownloadFile called with params:" ;;
         ensureGraphClient ;;
         if negb (truthy pageId) then throw "Page ID is required"
         else if negb (truthy filePath) then throw "File path is required"
         else
           console_error ("Fetching page with ID: " ++ ToString pageId) ;;
           page <- api_get_page env ("/me/onenote/pages/" ++ ToString pageId) ;;
           console_error ("Target page found: " ++ ToString (title page)) ;;
           console_error ("Page ID: " ++ ToString (id page)) ;;
           skipCheck <- lift (Mcp.shouldSkipPage page) ;;
           if skip skipCheck then
             console_error ("Skipping page: " ++ show_reason (reason skipCheck)) ;;
             ret ("Page skipped: " ++ show_reason (reason skipCheck))
           else
             let url := content_url (ToString pageId) in
             console_error ("Fetching content from: " ++ url) ;;
             response <- fetch env url ;;
             if negb (r_ok response) then throw (http_error response)
             else
               let content := r_text response in
               console_error ("Content received! Length: " ++
                              pretty (String.length content) ++ " characters") ;;
               writeFileSync env (ToString filePath) content ;;
               console_error ("Content saved to: " ++ ToString filePath) ;;
               ret ("Page " ++ dq ++ ToString (title page) ++ dq ++
                    " successfully downloaded to " ++ ToString filePath ++
                    " (" ++ pretty (String.length content) ++ " characters)"))
        (fun msg =>
           console_error ("Error in downloadFile: " ++ msg) ;;
           throw ("Failed to download file: " ++ msg)).

End Tools.
End McpTools.

(** [page.title.replace(/[^a-z0-9]/gi, '_').toLowerCase()] *)
Definition safeFileName (t : value) : outcome string :=
  match t with
  | VStr s => Ok (toLowerCase (replace_non_alnum s))
  | VUndefined => Throw "Cannot read properties of undefined (reading 'replace')"
  | VNull => Throw "Cannot read properties of null (reading 'replace')"
  | _ => Throw "replace is not a function"
  end.

(** ** [path.join], as Node has it for POSIX paths *)

Module Path.

    (** The segments of a path between its [/] separators. *)
Fixpoint segments (path : string) : list string :=
    match path with
    | EmptyString => [EmptyString]
    | String c rest =>
        if Ascii.eqb c "/" then EmptyString :: segments rest
        else match segments rest with
             | seg :: more => String c seg :: more
             | [] => [String c EmptyString]
             end
    end.

    (** [normalizeString]: empty segments and [.] are dropped, [..] removes
        the segment kept last unless that is [..] itself or there is none,
        in which case it is kept when the path may climb above its start.
        [kept] holds the segments kept so far, the last one first. *)
Fixpoint normalizeString (allowAboveRoot : bool) (kept segs : list string)
    : list string :=
    match segs with
    | [] => rev kept
    | seg :: more =>
        if String.eqb seg "" || String.eqb seg "." then
          normalizeString allowAboveRoot kept more
        else if String.eqb seg ".." then
          match kept with
          | last :: before =>
              if String.eqb last ".." then
                normalizeString allowAboveRoot
                  (if allowAboveRoot then ".." :: kept else kept) more
              else normalizeString allowAboveRoot before more
          | [] =>
              normalizeString allowAboveRoot
                (if allowAboveRoot then [".."] else []) more
          end
        else normalizeString allowAboveRoot (seg :: kept) more
    end.

Fixpoint endsWithSlash (path : string) : bool :=
    match path with
    | EmptyString => false
    | String c EmptyString => Ascii.eqb c "/"
    | String _ rest => endsWithSlash rest
    end.

    (** [path.normalize(path)] *)
Definition normalize (path : string) : string :=
    if String.eqb path "" then "."
    else
      let isAbsolute := startsWith path "/" in
      let trailingSeparator := endsWithSlash path in
      let body :=
        JsString.join "/" (normalizeString (negb isAbsolute) [] (segments path)) in
      if String.eqb body "" then
        if isAbsolute then "/" else if trailingSeparator then "./" else "."
      else
        (if isAbsolute then "/" else "") ++ body ++
        (if trailingSeparator then "/" else "").

    (** [path.join(a, b)]: the arguments that are not empty, joined by [/]
        and normalized. *)
Definition join (a b : string) : string :=
    if String.eqb a "" then
      if String.eqb b "" then "." else normalize b
    else if String.eqb b "" then normalize a
    else normalize (a ++ "/" ++ b).

End Path.

(** [path.join(__dirname, 'output')]. The paths of the scripts are given
    from the directory of the script, [__dirname], which is an absolute
    path: the token file and the output directory are one segment below
    it, and no path that a script joins leaves it. *)
Definition outputDir : string := "output".

Module GetPageContent.
Section Tool.
Context `{Engine} (env : Env).

    (** [getPageContent] of [get-page-content.js], for the page id given on
        the command line. *)
Definition getPageContent (pageId : string) : IO unit :=
      try_catch
        (cred <- loadToken ;;
         match cred with
         | CredentialMissing => ret tt
         | Token _ =>
             console_log ("Fetching page with ID: " ++ dq ++ pageId ++ dq ++ "...") ;;
             page <- api_get_page env ("/me/onenote/pages/" ++ pageId) ;;
             console_log ("Found page: " ++ dq ++ ToString (title page) ++ dq ++
                          " (ID: " ++ ToString (id page) ++ ")") ;;
             skipped <- Cli.shouldSkipPage page ;;
             if skipped then
               console_log "Page will not be downloaded due to filtering rules."
             else
               console_log (nl ++ "Fetching page content...") ;;
               content <- api_get_content env
                            ("/me/onenote/pages/" ++ pageId ++ "/content") ;;
               measured <- lift (content_text false content) ;;
               console_log ("Content received! Length: " ++
                            pretty (String.length measured) ++ " characters") ;;
               present <- existsSync outputDir ;;
               (if negb present then mkdirSync outputDir else ret tt) ;;
               name <- lift (safeFileName (title page)) ;;
               let outputPath :=
                 Path.join outputDir
                   (name ++ "_" ++ substring0 8 pageId ++ ".html") in
               contentString <- lift (content_text true content) ;;
               writeFileSync env outputPath contentString ;;
               console_log ("Full content saved to: " ++ outputPath) ;;
               console_log (nl ++ "--- PAGE CONTENT SNIPPET ---" ++ nl) ;;
               console_log (snippet_of contentString) ;;
               console_log (nl ++ "--- END OF SNIPPET ---" ++ nl)
         end)
        (fun msg => console_error ("Error: " ++ msg)).

End Tool.
End GetPageContent.

Module GetPage.
Section Tool.
Context `{Engine} (env : Env).

    (** [getAccessToken] of the [get-page] script: no existence test, a
        read error gives [null]. *)
Definition getAccessToken : IO value :=
      try_catch
        (tokenData <- readFileSync tokenFilePath ;;
         ret (decodeToken tokenData))
        (fun msg => console_error ("Error reading token: " ++ msg) ;; ret VNull).

    (** [getPageContent] of the [get-page] script, which fetches the content
        over plain HTTP. *)
Definition getPageContent (pageId : string) : IO unit :=
      try_catch
        (accessToken <- getAccessToken ;;
         if negb (truthy accessToken) then console_error "No access token found"
         else
           console_log ("Fetching page with ID: " ++ dq ++ pageId ++ dq ++ "...") ;;
           page <- api_get_page env ("/me/onenote/pages/" ++ pageId) ;;
           console_log ("Found page: " ++ dq ++ ToString (title page) ++ dq ++
                        " (ID: " ++ ToString (id page) ++ ")") ;;
           skipped <- Cli.shouldSkipPage page ;;
           if skipped then
             console_log "Page will not be downloaded due to filtering rules."
           else
             let url := content_url pageId in
             console_log ("Fetching content from: " ++ url) ;;
             response <- fetch env url ;;
             if negb (r_ok response) then throw (http_error response)
             else
               let content := r_text response in
               console_log ("Content received! Length: " ++
                            pretty (String.length content) ++ " characters") ;;
               present <- existsSync outputDir ;;
               (if negb present then mkdirSync outputDir else ret tt) ;;
               name <- lift (safeFileName (title page)) ;;
               let outputPath :=
                 Path.join outputDir
                   (name ++ "_" ++ substring0 8 pageId ++ ".html") in
               writeFileSync env outputPath content ;;
               console_log ("Full content saved to: " ++ outputPath) ;;
               console_log (nl ++ "--- PAGE CONTENT SNIPPET ---" ++ nl) ;;
               console_log (snippet_of content) ;;
               console_log (nl ++ "--- END OF SNIPPET ---" ++ nl))
        (fun msg => console_error ("Error: " ++ msg)).

End Tool.
End GetPage.

(** ** The bulk export driver, [download-all-pages.js] *)

Module BulkExport.

Definition OUTPUT_DIR : string :=
    "/Users/lewisanderson/Library/CloudStorage/GoogleDrive-lewis@amaru.ai/My Drive/Private - Lewis - Amaru/OneNoteExport/Pages/".
Definition FAILED_DOWNLOADS_FILE : string :=
    "/Users/lewisanderson/Library/CloudStorage/GoogleDrive-lewis@amaru.ai/My Drive/Private - Lewis - Amaru/OneNoteExport/failed-downloads.txt".
Definition MAX_CONSECUTIVE_FAILURES : nat := 10.
Definition FAST_MODE_DAYS : Z := 30.

Definition newline : string := nl.

  (** What [downloadPage] returns: [{ success: true, skipped: true, reason }],
      [{ success: true, skipped: false, filename }] or
      [{ success: false, error }]. *)
Inductive download_result : Type :=
  | Skipped (reason : string)
  | Downloaded (filename : string)
  | Failed (error : string).

Definition success (r : download_result) : bool :=
    match r with
    | Failed _ => false
    | _ => true
    end.

  (** An entry of the page list. *)
Record listed : Type := mkListed {
    l_title : string;
    l_pageId : string
  }.

  (** An entry of [failedPages]. *)
Record failure : Type := mkFailure {
    f_title : string;
    f_pageId : string;
    f_error : string
  }.

  (** The variables of the download loop of [main]. *)
Record LoopState : Type := mkLoopState {
    consecutiveFailures : nat;
    totalSuccess : nat;
    totalSkipped : nat;
    totalFailed : nat;
    failedPages : list failure
  }.

Definition initial : LoopState := mkLoopState 0 0 0 0 [].

Fixpoint strip_prefix (p s : string) : option string :=
    match p, s with
    | EmptyString, _ => Some s
    | String a p', String b s' =>
        if Ascii.eqb a b then strip_prefix p' s' else None
    | String _ _, EmptyString => None
    end.

Fixpoint skip_units (n : nat) (s : string) : string :=
    match n, s with
    | S n', String _ r => skip_units n' r
    | _, _ => s
    end.

  (** [s.substring(a, b)] for [a <= b] *)
Definition substring (a b : nat) (s : string) : string :=
    substring0 (b - a) (skip_units a s).

  (** The eight digits of a file name of the form
      [<sanitizedTitle>--<8 digits>.html], if it has that form. *)
Definition dated_name (sanitizedTitle file : string) : option string :=
    match strip_prefix (sanitizedTitle ++ "--") file with
    | Some rest =>
        let dateStr := substring0 8 rest in
        if (String.length dateStr =? 8)%nat &&
           forallb is_digit (list_ascii_of_string dateStr) &&
           String.eqb (skip_units 8 rest) ".html"
        then Some dateStr else None
    | None => None
    end.

  (** [a >= b] on two dates. *)
Definition date_ge (a b : option Z) : bool :=
    match a, b with
    | Some x, Some y => y <=? x
    | _, _ => false
    end.

Section Driver.
Context `{Engine} (env : Env).

    (** [formatDate]: the local calendar date as [YYYYMMDD]. *)
Definition formatDate (dateString : value) : string :=
      match Date_new dateString with
      | Some t =>
          let '(year, month, day) := Date_local t in
          pretty year ++ padStart2 (pretty (month + 1)) ++ padStart2 (pretty day)
      | None => "NaN" ++ "NaN" ++ "NaN"
      end.

    (** The loop of [hasRecentFileByTitle] over the directory listing. *)
Fixpoint first_recent (sanitizedTitle : string) (cutoffDate : option Z)
             (names : list string) : option string :=
      match names with
      | [] => None
      | file :: rest =>
          match dated_name sanitizedTitle file with
          | Some dateStr =>
              let year := digits_value (substring 0 4 dateStr) in
              let month := digits_value (substring 4 6 dateStr) - 1 in
              let day := digits_value (substring 6 8 dateStr) in
              let fileDate := Date_of_local year month day in
              if date_ge fileDate cutoffDate then Some file
              else first_recent sanitizedTitle cutoffDate rest
          | None => first_recent sanitizedTitle cutoffDate rest
          end
      end.

    (** [hasRecentFileByTitle]: the name of the file found, if any. *)
Definition hasRecentFileByTitle (pageTitle : string) (fastModeDays : Z)
      : IO (option string) :=
      present <- existsSync OUTPUT_DIR ;;
      if negb present then ret None
      else
        let sanitizedTitle := sanitizeFilename pageTitle in
        names <- readdirSync env OUTPUT_DIR ;;
        now <- date_now env ;;
        let '(_, _, day) := Date_local now in
        let cutoffDate := Date_setDate now (day - fastModeDays) in
        ret (first_recent sanitizedTitle cutoffDate names).

    (** The body of the [try] block of [downloadPage]. The path
        [path.join(OUTPUT_DIR, filename)] is the directory and the name in
        a row: the directory ends with a separator and the name holds
        none. *)
Definition attempt (pageId pageTitle : string) (fastMode : bool)
      : IO download_result :=
      recentFile <- (if fastMode
                     then hasRecentFileByTitle pageTitle FAST_MODE_DAYS
                     else ret None) ;;
      match recentFile with
      | Some filename =>
          console_log ("  Fast mode: Recent file exists (" ++ filename ++ ")") ;;
          ret (Skipped "fast mode - recent file exists")
      | None =>
          console_log ("Fetching metadata for: " ++ pageTitle) ;;
          page <- api_get_page env ("/me/onenote/pages/" ++ pageId) ;;
          if Bulk.shouldSkipByDate page then
            console_log ("  Skipped (last modified before 2022-01-01): " ++
                         pageTitle) ;;
            ret (Skipped "old date")
          else
            let formattedDate := formatDate (lastModifiedDateTime page) in
            let sanitizedTitle := sanitizeFilename pageTitle in
            let filename := sanitizedTitle ++ "--" ++ formattedDate ++ ".html" in
            let filePath := OUTPUT_DIR ++ filename in
            present <- existsSync filePath ;;
            if present then
              console_log ("  Already exists: " ++ filename) ;;
              ret (Skipped "already exists")
            else
              let url := content_url pageId in
              response <- fetch env url ;;
              if negb (r_ok response) then throw (http_error response)
              else
                let content := r_text response in
                dir <- existsSync OUTPUT_DIR ;;
                (if negb dir then mkdirSync OUTPUT_DIR else ret tt) ;;
                writeFileSync env filePath content ;;
                console_log ("  Downloaded: " ++ filename ++ " (" ++
                             pretty (String.length content) ++ " chars)") ;;
                ret (Downloaded filename)
      end.

    (** [downloadPage] with [retries] further attempts allowed. *)
Fixpoint downloadPage_retrying (retries : nat) (pageId pageTitle : string)
             (fastMode : bool) : IO download_result :=
      try_catch (attempt pageId pageTitle fastMode)
        (fun msg =>
           match retries with
           | S retries' =>
               console_log ("  Error, retrying: " ++ msg) ;;
               downloadPage_retrying retries' pageId pageTitle fastMode
           | O =>
               console_log ("  Failed after retry: " ++ msg) ;;
               ret (Failed msg)
           end).

    (** [downloadPage(pageId, pageTitle, { fastMode, retryCount })]: the
        [catch] block calls it again while [retryCount < 1]. *)
Definition downloadPage (pageId pageTitle : string) (fastMode : bool)
               (retryCount : nat) : IO download_result :=
      downloadPage_retrying (1 - retryCount) pageId pageTitle fastMode.

    (** One turn of the [for] loop of [main] from its second statement on:
        the new variables and whether the loop is left by [break]. *)
Definition account (e : listed) (result : download_result) (st : LoopState)
      : IO (LoopState * bool) :=
      match result with
      | Failed err =>
          let st' :=
            mkLoopState (S (consecutiveFailures st)) (totalSuccess st)
                        (totalSkipped st) (S (totalFailed st))
                        (failedPages st ++ [mkFailure (l_title e) (l_pageId e) err]) in
          if (MAX_CONSECUTIVE_FAILURES <=? consecutiveFailures st')%nat then
            console_log EmptyString ;;
            console_log ("Stopping due to " ++ pretty MAX_CONSECUTIVE_FAILURES ++
                         " consecutive failures") ;;
            ret (st', true)
          else ret (st', false)
      | Skipped _ =>
          ret (mkLoopState 0 (totalSuccess st) (S (totalSkipped st))
                           (totalFailed st) (failedPages st), false)
      | Downloaded _ =>
          ret (mkLoopState 0 (S (totalSuccess st)) (totalSkipped st)
                           (totalFailed st) (failedPages st), false)
      end.

    (** The download loop of [main] over [pagesToDownload] from index [i];
        [total] is [pagesToDownload.length]. Besides the variables of the
        loop it returns the [result] of every turn, in order. *)
Fixpoint download_loop (fastMode : bool) (total i : nat)
             (pagesToDownload : list listed) (st : LoopState)
      : IO (LoopState * list download_result) :=
      match pagesToDownload with
      | [] => ret (st, [])
      | e :: rest =>
          console_log ("[" ++ pretty (S i) ++ "/" ++ pretty total ++ "] " ++
                       l_title e) ;;
          result <- downloadPage (l_pageId e) (l_title e) fastMode 0 ;;
          r <- account e result st ;;
          let '(st', stop) := r in
          if stop then ret (st', [result])
          else
            sleep 100 ;;
            r' <- download_loop fastMode total (S i) rest st' ;;
            ret (fst r', result :: snd r')
      end.

Definition failure_line (p : failure) : string :=
      f_title p ++ " -- " ++ f_pageId p ++ " (Error: " ++ f_error p ++ ")".

    (** [main], from the parsed page list on. *)
Definition main (fastMode : bool) (pages : list listed)
      : IO (LoopState * list download_result) :=
      (if fastMode then
         console_log ("Fast mode enabled: Skipping metadata fetch for pages with recent files (within " ++
                      pretty FAST_MODE_DAYS ++ " days)") ;;
         console_log EmptyString
       else ret tt) ;;
      console_log ("Found " ++ pretty (length pages) ++ " pages in list") ;;
      let pagesToDownload :=
        List.filter (fun p => negb (Bulk.shouldSkipPageByTitle (l_title p))) pages in
      let skippedByTitle := (length pages - length pagesToDownload)%nat in
      console_log ("Skipped " ++ pretty skippedByTitle ++
                   " pages by title (old/private)") ;;
      console_log ("Will attempt to download " ++
                   pretty (length pagesToDownload) ++ " pages") ;;
      console_log EmptyString ;;
      r <- download_loop fastMode (length pagesToDownload) 0 pagesToDownload
             initial ;;
      let st := fst r in
      (if (0 <? length (failedPages st))%nat then
         let failedContent := join newline (map failure_line (failedPages st)) in
         writeFileSync env FAILED_DOWNLOADS_FILE failedContent ;;
         console_log EmptyString ;;
         console_log ("Failed downloads logged to: " ++ FAILED_DOWNLOADS_FILE)
       else ret tt) ;;
      console_log EmptyString ;;
      console_log "=== Summary ===" ;;
      console_log ("Total pages in list: " ++ pretty (length pages)) ;;
      console_log ("Skipped by title (old/private): " ++ pretty skippedByTitle) ;;
      console_log ("Skipped by date (before 2022-01-01): " ++
                   pretty (totalSkipped st)) ;;
      console_log ("Successfully downloaded: " ++ pretty (totalSuccess st)) ;;
      console_log ("Failed: " ++ pretty (totalFailed st)) ;;
      ret r.

End Driver.
End BulkExport.

(** ** Paginated listing *)

(** [response.value || []] *)
Definition records (response : collection) : list page :=
  default [] (c_value response).

(** [Math.floor] of the number [m * 10^e]. *)
Definition floor_num (m e : Z) : Z :=
  if 0 <=? e then m * 10 ^ e else m / 10 ^ (- e).

(** A loop out of fuel. *)
Definition diverge {A} : IO A := fun w => (Diverge, w).

(** [{ value, nextLink }], the object a listing tool serialises. *)
Record listing : Type := mkListing {
  lv_value : list page;
  lv_nextLink : value
}.

Module McpListing.
Section Tools.
Context `{Engine} (env : Env).

    (** The [while] loop of the tool [listPages] under [fetchAll]. *)
Fixpoint follow_links (fuel : nat) (response : collection)
             (allValues : list page) : IO (list page) :=
      if truthy (c_nextLink response) then
        match fuel with
        | O => diverge
        | S fuel' =>
            response' <- api_get_collection env (ToString (c_nextLink response)) ;;
            follow_links fuel' response' (allValues ++ records response')
        end
      else ret allValues.

    (** The query string for [top]: [$top=min(floor(top), 999)] when [top]
        is a number above zero. *)
Definition with_top (url : string) (top : option (Z * Z)) : string :=
      match top with
      | Some (m, e) =>
          if 0 <? m then
            url ++ (if includes url "?" then "&" else "?") ++
            "$top=" ++ pretty (Z.min (floor_num m e) 999)
          else url
      | None => url
      end.

    (** The tool [listPages] of [onenote-mcp.mjs]. *)
Definition listPages (sectionId : value) (top : option (Z * Z))
               (nextLink fetchAllParam : value) (fuel : nat) : IO listing :=
      try_catch
        (ensureGraphClient ;;
         let fetchAll := match fetchAllParam with VBool true => true | _ => false end in
         if truthy nextLink then
           response <- api_get_collection env (ToString nextLink) ;;
           let hasMore := truthy (c_nextLink response) in
           ret (mkListing (records response)
                          (if hasMore then c_nextLink response else VUndefined))
         else
           resolved <-
             (if negb (truthy sectionId) then
                sections <- api_get_entities env "/me/onenote/sections" ;;
                match sections with
                | [] => ret None
                | first :: _ => ret (Some (e_id first))
                end
              else ret (Some sectionId)) ;;
           match resolved with
           | None => ret (mkListing [] VUndefined)
           | Some sectionId' =>
               let url :=
                 with_top ("/me/onenote/sections/" ++ ToString sectionId' ++ "/pages")
                          top in
               response <- api_get_collection env url ;;
               let allValues := records response in
               if fetchAll then
                 allValues' <- follow_links fuel response allValues ;;
                 ret (mkListing allValues' VUndefined)
               else
                 let hasMore := truthy (c_nextLink response) in
                 ret (mkListing allValues
                                (if hasMore then c_nextLink response else VUndefined))
           end)
        (fun msg =>
           console_error ("Error listing pages: " ++ msg) ;;
           throw ("Failed to list pages: " ++ msg)).

    (** The [while] loop of the tool [searchPages]. *)
Fixpoint follow_search (fuel : nat) (response : collection)
             (pages : list page) : IO (list page) :=
      if truthy (c_nextLink response) then
        match fuel with
        | O => diverge
        | S fuel' =>
            console_error "Fetching next page of results..." ;;
            response' <- api_get_collection env (ToString (c_nextLink response)) ;;
            follow_search fuel' response' (pages ++ records response')
        end
      else ret pages.

    (** [pages.filter(page => page.title &&
         page.title.toLowerCase().includes(searchTerm))] *)
Fixpoint filter_by_title (searchTerm : string) (pages : list page)
      : outcome (list page) :=
      match pages with
      | [] => Ok []
      | p :: rest =>
          (let? keep :=
             (if truthy (title p) then
                let? lowered := call_toLowerCase (title p) in
                Ok (includes lowered searchTerm)
              else Ok false) in
           let? rest' := filter_by_title searchTerm rest in
           Ok (if keep then p :: rest' else rest'))%outcome
      end.

    (** The tool [searchPages] of [onenote-mcp.mjs]. *)
Definition searchPages (searchTerm sectionId : value) (fuel : nat)
      : IO (list page) :=
      try_catch
        (ensureGraphClient ;;
         let apiUrl :=
           if truthy sectionId
           then "/me/onenote/sections/" ++ ToString sectionId ++ "/pages"
           else "/me/onenote/pages" in
         console_error ("Searching pages" ++
                        (if truthy sectionId
                         then " in section " ++ ToString sectionId
                         else " across all sections")) ;;
         response <- api_get_collection env apiUrl ;;
         pages <- follow_search fuel response (records response) ;;
         console_error ("Retrieved " ++ pretty (length pages) ++ " total pages") ;;
         hasTerm <-
           (if truthy searchTerm then
              trimmed <- lift (call_trim searchTerm) ;;
              ret (0 <? String.length trimmed)%nat
            else ret false) ;;
         if hasTerm then
           term <- lift (call_toLowerCase searchTerm) ;;
           filteredPages <- lift (filter_by_title term pages) ;;
           console_error ("Filtered to " ++ pretty (length filteredPages) ++
                          " pages matching " ++ dq ++ ToString searchTerm ++ dq) ;;
           ret filteredPages
         else ret pages)
        (fun msg =>
           console_error ("Error searching pages: " ++ msg) ;;
           throw ("Failed to search pages: " ++ msg)).

End Tools.
End McpListing.

(** A number that [parseInt] returns when it is not [NaN]: a double that
    holds an integer, or an infinity. The two zeros are one number here;
    the scripts only compare it with zero. *)
Inductive number : Type :=
| Finite (n : Z)
| Infinite (negative : bool).

(** The double nearest to an integer: the integer itself when 53 bits hold
    it, else its 53 leading bits, rounded to the nearest, to the even one
    of two that are as near, and an infinity when that leaves the range of
    the doubles. *)
Definition to_double (n : Z) : number :=
  let a := Z.abs n in
  let shift := Z.log2 a - 52 in
  if shift <=? 0 then Finite n
  else
    let q := a / 2 ^ shift in
    let r := a mod 2 ^ shift in
    let half := 2 ^ (shift - 1) in
    let q' := if (half <? r) || (half =? r) && Z.odd q then q + 1 else q in
    let v := q' * 2 ^ shift in
    if 2 ^ 1024 <=? v then Infinite (n <? 0) else Finite (Z.sgn n * v).

(** The options [parseArgs] of [list-pages.js] returns. *)
Record options : Type := mkOptions {
  top : option number;         (* [null] or [NaN] is [None] *)
  nextLink : option string;
  fetchAll : bool;
  sectionId : option string
}.

(** ToBoolean of a string or [null]. *)
Definition given (o : option string) : bool :=
  match o with
  | Some s => negb (String.eqb s EmptyString)
  | None => false
  end.

Section Listing.
Context `{Engine} (env : Env).

  (** The query string of the command line tools for [top]:
      [?$top=${Math.min(Math.floor(top), 999)}] when [top] is above zero. *)
Definition cli_with_top (url : string) (top : option number) : string :=
    match top with
    | Some (Finite n) =>
        if 0 <? n then url ++ "?$top=" ++ pretty (Z.min n 999) else url
    | Some (Infinite negative) =>
        if negative then url else url ++ "?$top=" ++ "999"
    | None => url
    end.

  (** [notebooks.find(n => n.displayName &&
       n.displayName.toLowerCase().includes("lewis's notebook"))] *)
Fixpoint find_notebook (notebooks : list entity) : outcome (option entity) :=
    match notebooks with
    | [] => Ok None
    | n :: rest =>
        if truthy (e_displayName n) then
          (let? lowered := call_toLowerCase (e_displayName n) in
           if includes lowered "lewis's notebook" then Ok (Some n)
           else find_notebook rest)%outcome
        else find_notebook rest
    end.

  (** One line per page, numbered from [index + 1]. *)
Fixpoint print_pages (with_id : bool) (index : nat) (pages : list page)
    : IO unit :=
    match pages with
    | [] => ret tt
    | p :: rest =>
        console_log (pretty (S index) ++ ". " ++ ToString (title p) ++
                     " (Created: " ++
                     Date_toLocaleString (Date_new (createdDateTime p)) ++ ")" ++
                     (if with_id then " -- " ++ ToString (id p) else EmptyString)) ;;
        print_pages with_id (S index) rest
    end.

Definition print_listing (with_id : bool) (allPages : list page) : IO unit :=
    match allPages with
    | [] => console_log "No pages found."
    | _ => print_pages with_id 0 allPages
    end.

End Listing.

(** [list-pages.js], the script that lists the first section of the
    notebook. *)
Module ListPagesSingle.
Section Tool.
Context `{Engine} (env : Env).

    (** The [while] loop under [fetchAll]. *)
Fixpoint follow_links (fuel : nat) (response : collection)
             (allPages : list page) : IO (list page) :=
      if truthy (c_nextLink response) then
        match fuel with
        | O => diverge
        | S fuel' =>
            response' <- api_get_collection env (ToString (c_nextLink response)) ;;
            follow_links fuel' response' (allPages ++ records response')
        end
      else ret allPages.

    (** [allPages] once the first response is there. *)
Definition accumulate (fetchAll : bool) (fuel : nat)
               (pagesResponse : collection) : IO (list page) :=
      let allPages := records pagesResponse in
      if fetchAll && truthy (c_nextLink pagesResponse)
      then follow_links fuel pagesResponse allPages
      else ret allPages.

    (** The first response and the display name of the section when a
        continuation link is given. *)
Definition resume (link : string) : IO (option (collection * value)) :=
      console_log "Fetching next page..." ;;
      pagesResponse <- api_get_collection env link ;;
      ret (Some (pagesResponse, VStr EmptyString)).

    (** The first response and the display name of the section found in the
        notebook, or nothing when the script has reported that there is
        nothing to list. *)
Definition discover (opts : options) : IO (option (collection * value)) :=
      console_log "Fetching notebooks..." ;;
      notebooks <- api_get_entities env "/me/onenote/notebooks" ;;
      match notebooks with
      | [] => console_log "No notebooks found." ;; ret None
      | _ =>
          found <- lift (find_notebook notebooks) ;;
          match found with
          | None =>
              console_log ("No notebook with " ++ dq ++ "lewis" ++ dq ++
                           " in the display name found.") ;;
              ret None
          | Some notebook =>
              let name := ToString (e_displayName notebook) in
              console_log ("Using notebook: " ++ dq ++ name ++ dq) ;;
              console_log ("Fetching sections in " ++ dq ++ name ++ dq ++
                           " notebook...") ;;
              sections <- api_get_entities env
                            ("/me/onenote/notebooks/" ++ ToString (e_id notebook) ++
                             "/sections") ;;
              match sections with
              | [] => console_log "No sections found in this notebook." ;; ret None
              | section :: _ =>
                  let sname := ToString (e_displayName section) in
                  console_log ("Using section: " ++ dq ++ sname ++ dq) ;;
                  let url :=
                    cli_with_top ("/me/onenote/sections/" ++
                                  ToString (e_id section) ++ "/pages") (top opts) in
                  console_log ("Fetching pages in " ++ dq ++ sname ++ dq ++
                               " section...") ;;
                  pagesResponse <- api_get_collection env url ;;
                  ret (Some (pagesResponse, e_displayName section))
              end
          end
      end.

    (** [listPages]; it returns the [allPages] it has printed, if it got
        that far. *)
Definition listPages (opts : options) (fuel : nat) : IO (option (list page)) :=
      try_catch
        (cred <- loadToken ;;
         match cred with
         | CredentialMissing => ret None
         | Token _ =>
             first <- (if given (nextLink opts)
                       then resume (default EmptyString (nextLink opts))
                       else discover opts) ;;
             match first with
             | None => ret None
             | Some (pagesResponse, sectionDisplayName) =>
                 allPages <- accumulate (fetchAll opts) fuel pagesResponse ;;
                 console_log (nl ++ "Pages" ++
                              (if truthy sectionDisplayName
                               then " in " ++ ToString sectionDisplayName
                               else EmptyString) ++ ":") ;;
                 console_log "=====================" ;;
                 print_listing false allPages ;;
                 (if negb (fetchAll opts) && truthy (c_nextLink pagesResponse) then
                    console_log (nl ++ "More results available. Run with:") ;;
                    console_log ("  node list-pages.js --next-link=" ++ dq ++
                                 ToString (c_nextLink pagesResponse) ++ dq)
                  else ret tt) ;;
                 ret (Some allPages)
             end
         end)
        (fun msg => console_error ("Error listing pages: " ++ msg) ;; ret None).

End Tool.
End ListPagesSingle.

(** [list-pages.js], the script that lists one section, a continuation
    link or every section, in batches. *)
Module ListPages.
Section Tool.
Context `{Engine} (env : Env).

    (** The [while] loop of a batch run: [allPages] and [batchNum] when
        it ends. A failed batch is reported and ends the loop. *)
Fixpoint fetch_batches (indent : string) (fuel : nat) (response : collection)
             (allPages : list page) (batchNum : nat) : IO (list page * nat) :=
      if truthy (c_nextLink response) then
        match fuel with
        | O => diverge
        | S fuel' =>
            let batchNum := S batchNum in
            fetched <-
              try_catch
                (sleep 100 ;;
                 response' <- api_get_collection env
                                (ToString (c_nextLink response)) ;;
                 let newPages := records response' in
                 let allPages' := (allPages ++ newPages)%list in
                 console_log (indent ++ "Batch " ++ pretty batchNum ++
                              ": Fetched " ++ pretty (length newPages) ++
                              " pages (total: " ++ pretty (length allPages') ++ ")") ;;
                 ret (Some (response', allPages')))
                (fun msg =>
                   console_error (indent ++ "Error fetching batch " ++
                                  pretty batchNum ++ ": " ++ msg) ;;
                   console_log (indent ++ "Continuing with " ++
                                pretty (length allPages) ++
                                " pages fetched so far...") ;;
                   ret None) ;;
            match fetched with
            | Some (response', allPages') =>
                fetch_batches indent fuel' response' allPages' batchNum
            | None => ret (allPages, batchNum)
            end
        end
      else ret (allPages, batchNum).

    (** [allPages] once the first response is there. In the loop over the
        sections of the notebook ([sectioned]) the console lines are
        indented and the last line depends on [batchNum]. *)
Definition accumulate (sectioned : bool) (fetchAll : bool) (fuel : nat)
               (pagesResponse : collection) : IO (list page) :=
      let indent := if sectioned then "  " else EmptyString in
      let allPages := records pagesResponse in
      if fetchAll && truthy (c_nextLink pagesResponse) then
        console_log (indent ++ "Batch 1: Fetched " ++ pretty (length allPages) ++
                     " pages") ;;
        r <- fetch_batches indent fuel pagesResponse allPages 1 ;;
        let '(allPages', batchNum) := r in
        (if sectioned then
           if (1 <? batchNum)%nat then
             console_log ("  Completed! Fetched " ++ pretty (length allPages') ++
                          " total pages in " ++ pretty batchNum ++ " batches")
           else ret tt
         else
           console_log (nl ++ "Completed! Fetched " ++ pretty (length allPages') ++
                        " total pages in " ++ pretty batchNum ++ " batches")) ;;
        ret allPages'
      else ret allPages.

Definition more_results (fetchAll : bool) (pagesResponse : collection)
               (hint : string) : IO unit :=
      if negb fetchAll && truthy (c_nextLink pagesResponse) then
        console_log (nl ++ "More results available. Run with:") ;;
        console_log ("  node list-pages.js " ++ hint ++ "--next-link=" ++ dq ++
                     ToString (c_nextLink pagesResponse) ++ dq)
      else ret tt.

    (** The body of the [for] loop over the sections of the notebook. *)
Fixpoint each_section (opts : options) (fuel : nat) (sections : list entity)
      : IO (list (list page)) :=
      match sections with
      | [] => ret []
      | section :: rest =>
          console_log (nl ++ nl ++ ToString (e_displayName section) ++ " -- " ++
                       ToString (e_id section)) ;;
          let url :=
            cli_with_top ("/me/onenote/sections/" ++ ToString (e_id section) ++
                          "/pages") (top opts) in
          pagesResponse <- api_get_collection env url ;;
          allPages <- accumulate true (fetchAll opts) fuel pagesResponse ;;
          print_listing true allPages ;;
          more_results (fetchAll opts) pagesResponse EmptyString ;;
          others <- each_section opts fuel rest ;;
          ret (allPages :: others)
      end.

    (** [listPages]; it returns the [allPages] it has printed, one list for
        each section listed. *)
Definition listPages (opts : options) (fuel : nat) : IO (list (list page)) :=
      try_catch
        (cred <- loadToken ;;
         match cred with
         | CredentialMissing => ret []
         | Token _ =>
             if given (nextLink opts) then
               console_log "Fetching next page..." ;;
               pagesResponse <- api_get_collection env
                                  (default EmptyString (nextLink opts)) ;;
               allPages <- accumulate false (fetchAll opts) fuel
                             pagesResponse ;;
               console_log (nl ++ "Pages:") ;;
               console_log "=====================" ;;
               print_listing true allPages ;;
               more_results (fetchAll opts) pagesResponse EmptyString ;;
               ret [allPages]
             else if given (sectionId opts) then
               let sid := default EmptyString (sectionId opts) in
               console_log ("Fetching section information for ID: " ++ sid ++ "...") ;;
               section <- api_get_entity env ("/me/onenote/sections/" ++ sid) ;;
               console_log (nl ++ ToString (e_displayName section) ++ " -- " ++
                            ToString (e_id section) ++ nl) ;;
               let url :=
                 cli_with_top ("/me/onenote/sections/" ++ sid ++ "/pages")
                              (top opts) in
               pagesResponse <- api_get_collection env url ;;
               allPages <- accumulate false (fetchAll opts) fuel
                             pagesResponse ;;
               console_log (nl ++ "Pages:") ;;
               console_log "=====================" ;;
               print_listing true allPages ;;
               more_results (fetchAll opts) pagesResponse
                            ("--section-id=" ++ dq ++ sid ++ dq ++ " ") ;;
               ret [allPages]
             else
               console_log "Fetching notebooks..." ;;
               notebooks <- api_get_entities env "/me/onenote/notebooks" ;;
               match notebooks with
               | [] => console_log "No notebooks found." ;; ret []
               | _ =>
                   found <- lift (find_notebook notebooks) ;;
                   match found with
                   | None =>
                       console_log
                         ("No notebook with " ++ dq ++ "lewis" ++ dq ++
                          " in the display name found.") ;;
                       ret []
                   | Some notebook =>
                       let name := ToString (e_displayName notebook) in
                       console_log ("Using notebook: " ++ dq ++ name ++ dq) ;;
                       console_log ("Fetching sections in " ++ dq ++ name ++ dq ++
                                    " notebook...") ;;
                       sections <- api_get_entities env
                                     ("/me/onenote/notebooks/" ++
                                      ToString (e_id notebook) ++ "/sections") ;;
                       match sections with
                       | [] =>
                           console_log "No sections found in this notebook." ;;
                           ret []
                       | _ => each_section opts fuel sections
                       end
                   end
               end
         end)
        (fun msg => console_error ("Error listing pages: " ++ msg) ;; ret []).

End Tool.
End ListPages.

(** ** Command line arguments *)

Module Args.

  (** [arg.slice(n)] *)
Fixpoint slice (n : nat) (s : string) : string :=
    match n, s with
    | S n', String _ r => slice n' r
    | _, _ => s
    end.

  (** The decimal digits a text starts with. *)
Fixpoint leading_digits (s : string) : string :=
    match s with
    | String c r => if is_digit c then String c (leading_digits r) else EmptyString
    | EmptyString => EmptyString
    end.

  (** [parseInt(text, 10)]: leading white space is skipped, a sign is read,
      and the decimal digits that follow are the value; [None] is [NaN].
      The value is a double: the one nearest to the integer that the
      digits denote, as Node computes it. *)
Definition parseInt (text : string) : option number :=
    let s := trimStart text in
    let '(negative, s1) :=
      match s with
      | String c r =>
          if Ascii.eqb c "-"%char then (true, r)
          else if Ascii.eqb c "+"%char then (false, r)
          else (false, s)
      | EmptyString => (false, s)
      end in
    match leading_digits s1 with
    | EmptyString => None
    | ds =>
        Some (to_double (if negative then - digits_value ds else digits_value ds))
    end.

  (** A double or a single quote. *)
Definition is_quote (c : ascii) : bool :=
    let n := N_of_ascii c in ((n =? 34) || (n =? 39))%N.

  (** The last code unit is dropped when it is a quote. *)
Fixpoint drop_closing_quote (s : string) : string :=
    match s with
    | EmptyString => EmptyString
    | String c EmptyString => if is_quote c then EmptyString else s
    | String c r => String c (drop_closing_quote r)
    end.

  (** The replacement of a quote at the start and of a quote at the end by
      nothing, under the flag [g]: the quote at the start is matched first,
      and the quote at the end is looked for in what follows it. *)
Definition strip_quotes (s : string) : string :=
    match s with
    | EmptyString => EmptyString
    | String c r =>
        if is_quote c then drop_closing_quote r
        else String c (drop_closing_quote r)
    end.

End Args.

(** [parseArgs] of the script that lists the first section: the arguments
    are [process.argv.slice(2)]. *)
Module ListPagesSingleArgs.

Definition step (opts : options) (arg : string) : options :=
    if String.eqb arg "--fetch-all" then
      mkOptions (top opts) (nextLink opts) true (sectionId opts)
    else if startsWith arg "--top=" then
      mkOptions (Args.parseInt (Args.slice 6 arg)) (nextLink opts)
                (fetchAll opts) (sectionId opts)
    else if startsWith arg "--next-link=" then
      mkOptions (top opts) (Some (Args.strip_quotes (Args.slice 12 arg)))
                (fetchAll opts) (sectionId opts)
    else opts.

Definition parseArgs (args : list string) : options :=
    fold_left step args (mkOptions None None false None).

End ListPagesSingleArgs.

(** [parseArgs] of the script that lists in batches. *)
Module ListPagesArgs.

Definition step (opts : options) (arg : string) : options :=
    if String.eqb arg "--fetch-all" then
      mkOptions (top opts) (nextLink opts) true (sectionId opts)
    else if startsWith arg "--top=" then
      mkOptions (Args.parseInt (Args.slice 6 arg)) (nextLink opts)
                (fetchAll opts) (sectionId opts)
    else if startsWith arg "--next-link=" then
      mkOptions (top opts) (Some (Args.strip_quotes (Args.slice 12 arg)))
                (fetchAll opts) (sectionId opts)
    else if startsWith arg "--section-id=" then
      mkOptions (top opts) (nextLink opts) (fetchAll opts)
                (Some (Args.strip_quotes (Args.slice 13 arg)))
    else opts.

Definition parseArgs (args : list string) : options :=
    fold_left step args (mkOptions None None false None).

End ListPagesArgs.

(** ** The page list of the bulk exporter *)

(** The regular expressions of the page list, as a backtracking matcher:
    the items of a pattern are tried in order, a greedy repetition tries
    the longest run first and a lazy one the shortest, and the first way
    to match the whole pattern is the match. *)
Module Regex.

Inductive item : Type :=
  | One (class : ascii -> bool)
      (* one code unit of a class *)
  | Many (greedy at_least_one group : bool) (class : ascii -> bool)
      (* a repetition of a class; [group] when it is a capturing group *)
  | AtEnd.
      (* the end of the input *)

  (** A repetition of [class] at the start of [s], followed by what
      [next] matches: [taken] is the text repeated so far, and [enough]
      says that the repetition may stop here. *)
Fixpoint many (greedy group : bool) (class : ascii -> bool)
           (next : string -> option (list string))
           (enough : bool) (taken s : string) : option (list string) :=
    let stop :=
      if enough then
        match next s with
        | Some groups => Some (if group then taken :: groups else groups)
        | None => None
        end
      else None in
    let more :=
      match s with
      | String c s' =>
          if class c
          then many greedy group class next true (taken ++ String c EmptyString) s'
          else None
      | EmptyString => None
      end in
    if greedy
    then match more with Some r => Some r | None => stop end
    else match stop with Some r => Some r | None => more end.

  (** The match of a pattern at the start of [s]: the texts of its groups,
      in order. *)
Fixpoint run (items : list item) (s : string) : option (list string) :=
    match items with
    | [] => Some []
    | AtEnd :: rest =>
        match s with
        | EmptyString => run rest s
        | String _ _ => None
        end
    | One class :: rest =>
        match s with
        | String c s' => if class c then run rest s' else None
        | EmptyString => None
        end
    | Many greedy at_least_one group class :: rest =>
        many greedy group class (run rest) (negb at_least_one) EmptyString s
    end.

  (** The items of a literal text. *)
Fixpoint lit (text : string) : list item :=
    match text with
    | EmptyString => []
    | String c r => One (Ascii.eqb c) :: lit r
    end.

  (** [\d], [\s] and [.] *)
Definition digit : ascii -> bool := is_digit.
Definition space : ascii -> bool := is_space.
Definition dot (c : ascii) : bool :=
    let n := N_of_ascii c in negb ((n =? 10) || (n =? 13))%N.

End Regex.

Module PageList.
Import Regex BulkExport.

Definition PAGE_LIST_FILE : string :=
    "/Users/lewisanderson/Library/CloudStorage/GoogleDrive-lewis@amaru.ai/My Drive/Private - Lewis - Amaru/OneNoteExport/page-list-index.txt".

  (** [/^\d+\.\s+(.+?)\s+\(Created:.*?\)\s+--\s+(.+)$/] *)
Definition entry : list item :=
    [Many true true false digit; One (Ascii.eqb "."%char);
     Many true true false space; Many false true true dot;
     Many true true false space] ++
    lit "(Created:" ++
    [Many false false false dot; One (Ascii.eqb ")"%char);
     Many true true false space] ++
    lit "--" ++
    [Many true true false space; Many true true true dot; AtEnd].

  (** The entry of a line: [{ title: match[1].trim(), pageId:
      match[2].trim() }] when the line matches. *)
Definition parse_line (line : string) : option listed :=
    match run entry line with
    | Some [title; pageId] => Some (mkListed (trim title) (trim pageId))
    | _ => None
    end.

  (** [fileContent.split('\n')] *)
Fixpoint split_lines (fileContent : string) : list string :=
    match fileContent with
    | EmptyString => [EmptyString]
    | String c r =>
        if (N_of_ascii c =? 10)%N then EmptyString :: split_lines r
        else
          match split_lines r with
          | line :: lines => String c line :: lines
          | [] => [String c EmptyString]
          end
    end.

  (** The [pages] that [main] reads from the page list. *)
Definition parse_entries (fileContent : string) : list listed :=
    omap parse_line (split_lines fileContent).

End PageList.

(** ** The session of the MCP server *)

(** The token and the client of [onenote-mcp.mjs]: the statements that run
    when the module is loaded, [createGraphClient] and the tools
    [authenticate] and [saveAccessToken]. *)
Module McpSession.
Section Session.
Context `{Engine} (env : Env).

  (** The device code flow, [credential.getToken(scopes)], is an answer of
      the outside world: the message the prompt callback is given, if it
      is called, and [tokenResponse.token] or the error. *)
Variable getToken : list event -> option string * outcome value.

  (** [graphClient = null] *)
Definition clear_graphClient : IO unit :=
    fun w => (Ok tt, mkWorld (files w) (dirs w) (trace w) (accessToken w) false).

  (** The statements of the module that set [accessToken] and
      [graphClient] when the server starts; [envToken] is
      [process.env.GRAPH_ACCESS_TOKEN]. *)
Definition startup (envToken : value) : IO unit :=
    set_accessToken VNull ;;
    try_catch
      (present <- existsSync tokenFilePath ;;
       if present then
         tokenData <- readFileSync tokenFilePath ;;
         set_accessToken (decodeToken tokenData)
       else ret tt)
      (fun msg => console_error ("Error reading access token file: " ++ msg)) ;;
    t <- get_accessToken ;;
    (if negb (truthy t) && truthy envToken then set_accessToken envToken
     else ret tt) ;;
    clear_graphClient.

  (** [await credential.getToken(scopes)] and the [token] of its result. *)
Definition device_code : IO value :=
    fun w =>
      let '(prompt, result) := getToken (trace w) in
      (result,
       match prompt with
       | Some message => record_event (ConsoleError (nl ++ message)) w
       | None => w
       end).

  (** [JSON.stringify({ token: accessToken })] *)
Definition token_file (t : value) : string :=
    JSON_stringify (VObj [("token", t)]).

  (** [createGraphClient]; the result is the [type] of the object it
      returns. *)
Definition createGraphClient : IO string :=
    t <- get_accessToken ;;
    if truthy t then
      set_graphClient ;;
      ret "token"
    else
      try_catch
        (token <- device_code ;;
         set_accessToken token ;;
         writeFileSync env tokenFilePath (token_file token) ;;
         set_graphClient ;;
         ret "device_code")
        (fun msg =>
           console_error "Authentication error:" ;;
           throw ("Authentication failed: " ++ msg)).

  (** The tool [authenticate]; the result is the [text] of the returned
      content. *)
Definition authenticate : IO string :=
    try_catch
      (type <- createGraphClient ;;
       if String.eqb type "device_code" then
         ret "Authentication started. Please check the console for the URL and code."
       else ret "Already authenticated with an access token.")
      (fun msg =>
         console_error "Error in authentication:" ;;
         throw ("Authentication failed: " ++ msg)).

  (** The tool [saveAccessToken]; [random_string] is
      [params.random_string]. *)
Definition saveAccessToken (random_string : value) : IO string :=
    try_catch
      (set_accessToken random_string ;;
       writeFileSync env tokenFilePath (token_file random_string) ;;
       createGraphClient ;;
       ret "Access token saved successfully")
      (fun msg =>
         console_error "Error saving access token:" ;;
         throw ("Failed to save access token: " ++ msg)).

End Session.
End McpSession.

(** ** Searching from the command line, [search-pages.js] *)

Module SearchPages.

  (** The options [parseArgs] returns. *)
Record options : Type := mkOptions {
    searchTerm : option string;
    sectionId : option string
}.

Definition step (opts : options) (arg : string) : options :=
    if startsWith arg "--section-id=" then
      mkOptions (searchTerm opts)
                (Some (Args.strip_quotes (Args.slice 13 arg)))
    else if negb (startsWith arg "--") then
      mkOptions (Some arg) (sectionId opts)
    else opts.

  (** [parseArgs]; the arguments are [process.argv.slice(2)]. *)
Definition parseArgs (args : list string) : options :=
    fold_left step args (mkOptions None None).

Section Tool.
Context `{Engine} (env : Env).

  (** The text printed for a page without a last-modified time, an em
      dash: a code unit above 255, which the console encodes. *)
Variable dash : string.

  (** The [while] loop over the continuation links. *)
Fixpoint follow_links (fuel : nat) (response : collection)
           (pages : list page) : IO (list page) :=
    if truthy (c_nextLink response) then
      match fuel with
      | O => diverge
      | S fuel' =>
          response' <- api_get_collection env (ToString (c_nextLink response)) ;;
          follow_links fuel' response' (pages ++ records response')
      end
    else ret pages.

  (** The two lines of each page, numbered from [index + 1]. *)
Fixpoint print_pages (index : nat) (pages : list page) : IO unit :=
    match pages with
    | [] => ret tt
    | p :: rest =>
        let modified :=
          if truthy (lastModifiedDateTime p)
          then Date_toLocaleString (Date_new (lastModifiedDateTime p))
          else dash in
        console_log (pretty (S index) ++ ". " ++
                     ToString (js_or (title p) (VStr "(untitled)"))) ;;
        console_log ("   id: " ++ ToString (id p) ++ "  lastModified: " ++
                     modified) ;;
        print_pages (S index) rest
    end.

  (** [searchTerm && searchTerm.trim().length > 0], as a test. *)
Definition hasSearchTerm (opts : options) : bool :=
    match searchTerm opts with
    | Some s => negb (String.eqb s EmptyString) && (0 <? String.length (trim s))%nat
    | None => false
    end.

  (** [searchPages]; the result is the exit code of [process.exit], or the
      pages it has listed. *)
Definition searchPages (opts : options) (fuel : nat) : IO (Z + list page) :=
    try_catch
      (present <- existsSync tokenFilePath ;;
       if negb present then
         console_error "Access token not found. Please authenticate first (e.g. run the MCP server and use saveAccessToken)." ;;
         ret (inl 1)
       else
         tokenData <- readFileSync tokenFilePath ;;
         let accessToken := decodeToken tokenData in
         if negb (truthy accessToken) then
           console_error "Access token not found in file." ;;
           ret (inl 1)
         else
           let sid := default EmptyString (sectionId opts) in
           let apiUrl :=
             if given (sectionId opts)
             then "/me/onenote/sections/" ++ sid ++ "/pages"
             else "/me/onenote/pages" in
           response <- api_get_collection env apiUrl ;;
           fetched <- follow_links fuel response (records response) ;;
           let given_term := default EmptyString (searchTerm opts) in
           pages <-
             (if hasSearchTerm opts then
                let term := toLowerCase (trim given_term) in
                lift (McpListing.filter_by_title term fetched)
              else ret fetched) ;;
           (if hasSearchTerm opts then
              console_log ("Search: " ++ dq ++ given_term ++ dq ++
                           (if given (sectionId opts)
                            then " (section " ++ sid ++ ")"
                            else EmptyString))
            else
              console_log ("All pages" ++
                           (if given (sectionId opts)
                            then " in section " ++ sid
                            else EmptyString) ++ ":")) ;;
           console_log "=====================" ;;
           match pages with
           | [] => console_log "No pages found."
           | _ =>
               print_pages 0 pages ;;
               console_log (nl ++ "Total: " ++ pretty (length pages) ++
                            " page(s)")
           end ;;
           ret (inr pages))
      (fun msg => console_error "Error searching pages:" ;; ret (inl 1)).

End Tool.
End SearchPages.

(** ** A reference engine *)

(** An executable instance of [Engine], used to run the model: a JSON
    parser and printer for texts whose code units are below 256, and the
    UTC forms [YYYY-MM-DD] and [YYYY-MM-DDTHH:mm:ss(.s+)Z] of the date-time
    string format, with UTC as the local time zone. *)
Module Reference.

Definition unit_is (n : N) (c : ascii) : bool := (N_of_ascii c =? n)%N.

Definition json_space (c : ascii) : bool :=
    unit_is 32 c || unit_is 9 c || unit_is 10 c || unit_is 13 c.

Fixpoint skip_ws (l : list ascii) : list ascii :=
    match l with
    | c :: r => if json_space c then skip_ws r else l
    | [] => []
    end.

  (** The leading decimal digits of a text and what follows them. *)
Fixpoint span_digits (l : list ascii) : list ascii * list ascii :=
    match l with
    | c :: r =>
        if is_digit c then let '(ds, rest) := span_digits r in (c :: ds, rest)
        else ([], l)
    | [] => ([], [])
    end.

Definition digits_Z (ds : list ascii) : Z :=
    fold_left (fun acc c => 10 * acc + (Z.of_N (N_of_ascii c) - 48)) ds 0.

Definition hex_digit (c : ascii) : option N :=
    let n := N_of_ascii c in
    if ((48 <=? n) && (n <=? 57))%N then Some (n - 48)%N
    else if ((65 <=? n) && (n <=? 70))%N then Some (n - 55)%N
    else if ((97 <=? n) && (n <=? 102))%N then Some (n - 87)%N
    else None.

  (** The characters of a string literal after its opening quote. *)
Fixpoint parse_chars (l : list ascii) : option (string * list ascii) :=
    match l with
    | [] => None
    | c :: r =>
        if unit_is 34 c then Some (EmptyString, r)
        else if unit_is 92 c then
          match r with
          | e :: r' =>
              let simple (u : N) :=
                match parse_chars r' with
                | Some (s, rest) => Some (String (ascii_of_N u) s, rest)
                | None => None
                end in
              if unit_is 34 e then simple 34%N
              else if unit_is 92 e then simple 92%N
              else if unit_is 47 e then simple 47%N
              else if unit_is 98 e then simple 8%N
              else if unit_is 102 e then simple 12%N
              else if unit_is 110 e then simple 10%N
              else if unit_is 114 e then simple 13%N
              else if unit_is 116 e then simple 9%N
              else if unit_is 117 e then
                match r' with
                | h1 :: h2 :: h3 :: h4 :: r'' =>
                    match hex_digit h1, hex_digit h2, hex_digit h3, hex_digit h4 with
                    | Some a, Some b, Some c', Some d =>
                        let u := (((a * 16 + b) * 16 + c') * 16 + d)%N in
                        if (u <? 256)%N then
                          match parse_chars r'' with
                          | Some (s, rest) => Some (String (ascii_of_N u) s, rest)
                          | None => None
                          end
                        else None
                    | _, _, _, _ => None
                    end
                | _ => None
                end
              else None
          | [] => None
          end
        else if (N_of_ascii c <? 32)%N then None
        else
          match parse_chars r with
          | Some (s, rest) => Some (String c s, rest)
          | None => None
          end
    end.

  (** A number literal: mantissa, decimal exponent and what follows. *)
Definition parse_number (l : list ascii) : option (Z * Z * list ascii) :=
    let '(negative, l1) :=
      match l with
      | c :: r => if unit_is 45 c then (true, r) else (false, l)
      | [] => (false, l)
      end in
    let '(int_ds, l2) := span_digits l1 in
    match int_ds with
    | [] => None
    | d0 :: more =>
        if unit_is 48 d0 && negb (match more with [] => true | _ => false end)
        then None
        else
          let frac :=
            match l2 with
            | c :: r =>
                if unit_is 46 c then
                  let '(fs, l3) := span_digits r in
                  match fs with
                  | [] => None
                  | _ => Some (fs, l3)
                  end
                else Some ([], l2)
            | [] => Some ([], l2)
            end in
          match frac with
          | None => None
          | Some (frac_ds, l3) =>
              let expo :=
                match l3 with
                | c :: r =>
                    if unit_is 101 c || unit_is 69 c then
                      let '(eneg, r1) :=
                        match r with
                        | s :: r' =>
                            if unit_is 45 s then (true, r')
                            else if unit_is 43 s then (false, r')
                            else (false, r)
                        | [] => (false, r)
                        end in
                      let '(es, l4) := span_digits r1 in
                      match es with
                      | [] => None
                      | _ => Some (if eneg then - digits_Z es else digits_Z es, l4)
                      end
                    else Some (0, l3)
                | [] => Some (0, l3)
                end in
              match expo with
              | None => None
              | Some (e, l4) =>
                  let m := digits_Z (int_ds ++ frac_ds) in
                  Some (if negative then - m else m,
                        e - Z.of_nat (length frac_ds), l4)
              end
          end
    end.

  (** A member is added at the end, or takes the place of the member with
      the same key. *)
Fixpoint set_member (k : string) (v : value) (ms : list (string * value))
    : list (string * value) :=
    match ms with
    | [] => [(k, v)]
    | (k', v') :: rest =>
        if String.eqb k k' then (k, v) :: rest
        else (k', v') :: set_member k v rest
    end.

Definition literal (word : string) (l : list ascii) : option (list ascii) :=
    let w := list_ascii_of_string word in
    if bool_decide (take (length w) l = w) then Some (drop (length w) l) else None.

Fixpoint parse_value (fuel : nat) (l : list ascii) : option (value * list ascii) :=
    match fuel with
    | O => None
    | S fuel' =>
        match skip_ws l with
        | [] => None
        | c :: r =>
            if unit_is 123 c then
              match skip_ws r with
              | c' :: r' =>
                  if unit_is 125 c' then Some (VObj [], r')
                  else parse_members fuel' (c' :: r') []
              | [] => None
              end
            else if unit_is 91 c then
              match skip_ws r with
              | c' :: r' =>
                  if unit_is 93 c' then Some (VArr [], r')
                  else parse_elements fuel' (c' :: r') []
              | [] => None
              end
            else if unit_is 34 c then
              match parse_chars r with
              | Some (s, rest) => Some (VStr s, rest)
              | None => None
              end
            else if unit_is 45 c || is_digit c then
              match parse_number (c :: r) with
              | Some (m, e, rest) => Some (VNum m e, rest)
              | None => None
              end
            else
              match literal "true" (c :: r), literal "false" (c :: r),
                    literal "null" (c :: r) with
              | Some rest, _, _ => Some (VBool true, rest)
              | _, Some rest, _ => Some (VBool false, rest)
              | _, _, Some rest => Some (VNull, rest)
              | _, _, _ => None
              end
        end
    end
  with parse_elements (fuel : nat) (l : list ascii) (acc : list value)
       : option (value * list ascii) :=
    match fuel with
    | O => None
    | S fuel' =>
        match parse_value fuel' l with
        | Some (v, r) =>
            match skip_ws r with
            | c :: r' =>
                if unit_is 44 c then parse_elements fuel' r' (acc ++ [v])
                else if unit_is 93 c then Some (VArr (acc ++ [v]), r')
                else None
            | [] => None
            end
        | None => None
        end
    end
  with parse_members (fuel : nat) (l : list ascii) (acc : list (string * value))
       : option (value * list ascii) :=
    match fuel with
    | O => None
    | S fuel' =>
        match skip_ws l with
        | q :: r =>
            if unit_is 34 q then
              match parse_chars r with
              | Some (k, r1) =>
                  match skip_ws r1 with
                  | colon :: r2 =>
                      if unit_is 58 colon then
                        match parse_value fuel' r2 with
                        | Some (v, r3) =>
                            match skip_ws r3 with
                            | c :: r4 =>
                                if unit_is 44 c
                                then parse_members fuel' r4 (set_member k v acc)
                                else if unit_is 125 c
                                then Some (VObj (set_member k v acc), r4)
                                else None
                            | [] => None
                            end
                        | None => None
                        end
                      else None
                  | [] => None
                  end
              | None => None
              end
            else None
        | [] => None
        end
    end.

  (** [JSON.parse] *)
Definition parse (text : string) : option value :=
    let l := list_ascii_of_string text in
    match parse_value (2 * length l + 2) l with
    | Some (v, rest) =>
        match skip_ws rest with
        | [] => Some v
        | _ => None
        end
    | None => None
    end.


  (** *** Printing *)

Definition hex_unit (n : N) : ascii :=
    ascii_of_N (if (n <? 10)%N then n + 48 else n + 87)%N.

Fixpoint escape (s : string) : string :=
    match s with
    | EmptyString => EmptyString
    | String c r =>
        let n := N_of_ascii c in
        (if (n =? 34)%N then String "\"%char dq
         else if (n =? 92)%N then "\\"
         else if (n =? 8)%N then "\b"
         else if (n =? 12)%N then "\f"
         else if (n =? 10)%N then "\n"
         else if (n =? 13)%N then "\r"
         else if (n =? 9)%N then "\t"
         else if (n <? 32)%N then
           "\u00" ++ String (hex_unit (n / 16)) (String (hex_unit (n mod 16)) EmptyString)
         else String c EmptyString) ++ escape r
    end.

Fixpoint zeros (n : nat) : string :=
    match n with
    | O => EmptyString
    | S n' => String "0"%char (zeros n')
    end.

  (** The digits of a fraction without its trailing zeros. *)
Fixpoint drop_trailing_zeros (s : string) : string :=
    match s with
    | EmptyString => EmptyString
    | String c r =>
        match drop_trailing_zeros r with
        | EmptyString => if Ascii.eqb c "0"%char then EmptyString else String c EmptyString
        | r' => String c r'
        end
    end.

  (** Number::toString, for numbers of moderate size. *)
Definition number_text (m e : Z) : string :=
    if 0 <=? e then pretty (m * 10 ^ e)
    else
      let k := Z.to_nat (- e) in
      let a := Z.abs m in
      let whole := a / 10 ^ (- e) in
      let part := pretty (a mod 10 ^ (- e)) in
      let digits := drop_trailing_zeros (zeros (k - String.length part) ++ part) in
      (if m <? 0 then "-" else EmptyString) ++ pretty whole ++
      match digits with
      | EmptyString => EmptyString
      | _ => "." ++ digits
      end.

Definition newline : string := String "010"%char EmptyString.

Fixpoint spaces (n : nat) : string :=
    match n with
    | O => EmptyString
    | S n' => String " "%char (spaces n')
    end.

  (** [JSON.stringify(v, null, gap)] at nesting [depth]; [gap = 0] is the
      compact form. *)
Fixpoint print (gap depth : nat) (v : value) : string :=
    let open_line := if (gap =? 0)%nat then EmptyString
                     else newline ++ spaces (gap * S depth) in
    let close_line := if (gap =? 0)%nat then EmptyString
                      else newline ++ spaces (gap * depth) in
    match v with
    | VUndefined | VNull => "null"
    | VBool true => "true"
    | VBool false => "false"
    | VNum m e => number_text m e
    | VStr s => dq ++ escape s ++ dq
    | VArr [] => "[]"
    | VArr items =>
        "[" ++ open_line ++
        join ("," ++ open_line) (map (print gap (S depth)) items) ++
        close_line ++ "]"
    | VObj ms =>
        let shown :=
          omap (fun kv =>
                  match kv with
                  | (k, VUndefined) => None
                  | (k, x) =>
                      Some (dq ++ escape k ++ dq ++
                            (if (gap =? 0)%nat then ":" else ": ") ++
                            print gap (S depth) x)
                  end) ms in
        match shown with
        | [] => "{}"
        | _ => "{" ++ open_line ++ join ("," ++ open_line) shown ++
               close_line ++ "}"
        end
    end.

  (** *** Dates *)

  (** Days from 1970-01-01 to the civil date [y]-[m]-[d] ([m] in 1..12). *)
Definition days_from_civil (y m d : Z) : Z :=
    let y' := if m <=? 2 then y - 1 else y in
    let era := y' / 400 in
    let yoe := y' - era * 400 in
    let mp := (m + 9) mod 12 in
    let doy := (153 * mp + 2) / 5 + d - 1 in
    let doe := yoe * 365 + yoe / 4 - yoe / 100 + doy in
    era * 146097 + doe - 719468.

  (** The civil date of a day number. *)
Definition civil_from_days (z : Z) : Z * Z * Z :=
    let z' := z + 719468 in
    let era := z' / 146097 in
    let doe := z' - era * 146097 in
    let yoe := (doe - doe / 1460 + doe / 36524 - doe / 146096) / 365 in
    let doy := doe - (365 * yoe + yoe / 4 - yoe / 100) in
    let mp := (5 * doy + 2) / 153 in
    let d := doy - (153 * mp + 2) / 5 + 1 in
    let m := if mp <? 10 then mp + 3 else mp - 9 in
    (if m <=? 2 then yoe + era * 400 + 1 else yoe + era * 400, m, d).

Definition ms_per_day : Z := 86400000.

Definition days_in_month (y m : Z) : Z :=
    days_from_civil (if m =? 12 then y + 1 else y) (if m =? 12 then 1 else m + 1) 1
    - days_from_civil y m 1.

  (** Exactly [n] digits, then the rest. *)
Definition fixed_digits (n : nat) (l : list ascii) : option (Z * list ascii) :=
    let ds := take n l in
    if (length ds =? n)%nat && forallb is_digit ds
    then Some (digits_Z ds, drop n l) else None.

Definition expect (n : N) (l : list ascii) : option (list ascii) :=
    match l with
    | c :: r => if unit_is n c then Some r else None
    | [] => None
    end.

  (** The first three digits of a fraction of a second, as milliseconds. *)
Definition millis (ds : list ascii) : Z :=
    digits_Z (take 3 (ds ++ list_ascii_of_string "000")).

Definition parse_time (l : list ascii) : option Z :=
    match fixed_digits 2 l with
    | Some (hh, l1) =>
        match expect 58 l1 with
        | Some l2 =>
            match fixed_digits 2 l2 with
            | Some (mm, l3) =>
                match expect 58 l3 with
                | Some l4 =>
                    match fixed_digits 2 l4 with
                    | Some (ss, l5) =>
                        let '(frac, l6) :=
                          match expect 46 l5 with
                          | Some l5' => span_digits l5'
                          | None => ([], l5)
                          end in
                        if (hh <? 24) && (mm <? 60) && (ss <? 60) &&
                           bool_decide (l6 = list_ascii_of_string "Z") &&
                           (match expect 46 l5, frac with
                            | Some _, [] => false
                            | _, _ => true
                            end)
                        then Some (((hh * 60 + mm) * 60 + ss) * 1000 + millis frac)
                        else None
                    | None => None
                    end
                | None => None
                end
            | None => None
            end
        | None => None
        end
    | None => None
    end.

  (** The time value of a date-time string in one of the two UTC forms. *)
Definition parse_iso (text : string) : option Z :=
    let l := list_ascii_of_string text in
    match fixed_digits 4 l with
    | Some (y, l1) =>
        match expect 45 l1 with
        | Some l2 =>
            match fixed_digits 2 l2 with
            | Some (m, l3) =>
                match expect 45 l3 with
                | Some l4 =>
                    match fixed_digits 2 l4 with
                    | Some (d, l5) =>
                        if (1 <=? m) && (m <=? 12) && (1 <=? d) &&
                           (d <=? days_in_month y m)
                        then
                          let day_ms := days_from_civil y m d * ms_per_day in
                          match l5 with
                          | [] => Some day_ms
                          | c :: l6 =>
                              if unit_is 84 c then
                                match parse_time l6 with
                                | Some t => Some (day_ms + t)
                                | None => None
                                end
                              else None
                          end
                        else None
                    | None => None
                    end
                | None => None
                end
            | None => None
            end
        | None => None
        end
    | None => None
    end.

  (** [new Date(v)] *)
Definition date_new (v : value) : option Z :=
    match v with
    | VStr s => parse_iso s
    | VNum m e => Some (if 0 <=? e then m * 10 ^ e else Z.quot m (10 ^ (- e)))
    | VNull => Some 0
    | VBool b => Some (if b then 1 else 0)
    | _ => None
    end.

Definition pad (width : nat) (n : Z) : string :=
    let s := pretty n in zeros (width - String.length s) ++ s.

  (** [toISOString], for the years 0 to 9999. *)
Definition iso_text (t : Z) : string :=
    let '(y, m, d) := civil_from_days (t / ms_per_day) in
    let r := t mod ms_per_day in
    pad 4 y ++ "-" ++ pad 2 m ++ "-" ++ pad 2 d ++ "T" ++
    pad 2 (r / 3600000) ++ ":" ++ pad 2 (r / 60000 mod 60) ++ ":" ++
    pad 2 (r / 1000 mod 60) ++ "." ++ pad 3 (r mod 1000) ++ "Z".

  (** [getFullYear], [getMonth] and [getDate] in UTC. *)
Definition local_date (t : Z) : Z * Z * Z :=
    let '(y, m, d) := civil_from_days (t / ms_per_day) in (y, m - 1, d).

  (** [new Date(year, monthIndex, day)] in UTC. *)
Definition of_local (year monthIndex day : Z) : option Z :=
    let year := if (0 <=? year) && (year <=? 99) then 1900 + year else year in
    let y := year + monthIndex / 12 in
    let m := monthIndex mod 12 + 1 in
    Some ((days_from_civil y m 1 + day - 1) * ms_per_day).

  (** [setDate(day)] in UTC. *)
Definition set_date (t day : Z) : option Z :=
    let '(_, _, d) := civil_from_days (t / ms_per_day) in
    Some (t + (day - d) * ms_per_day).

Definition locale_text (d : option Z) : string :=
    match d with
    | Some t => iso_text t
    | None => "Invalid Date"
    end.

  (** The reference engine. *)
Definition engine : Engine :=
    {| JSON_parse := parse;
       JSON_parse_empty := eq_refl;
       JSON_stringify := print 0 0;
       JSON_stringify_indented := print 2 0;
       Date_new := date_new;
       Date_new_cutoff := eq_refl;
       Date_toISOString := iso_text;
       Date_local := local_date;
       Date_toLocaleString := locale_text;
       Date_of_local := of_local;
       Date_setDate := set_date;
       Number_toString := number_text |}.

End Reference.

(** * Vocabulary of the properties *)

(** [kw] occurs in [t] up to the case of the letters of [t]. *)
Definition occurs_ignoring_case (kw t : string) : Prop :=
  exists pre mid post, t = pre ++ mid ++ post /\ toLowerCase mid = kw.

(** The text the filter takes for the title: the title itself, or the
    empty string in place of an absent or empty one. *)
Definition title_text (p : page) : option string :=
  match js_or (title p) (VStr EmptyString) with
  | VStr s => Some s
  | _ => None
  end.

(** The instant [2022-01-01T00:00:00Z]. *)
Definition cutoff_instant : Z := 1640995200000.

Definition keyword_reason (shown : string) : string :=
  "Title contains excluded keyword: " ++ dq ++ shown ++ dq.

Definition date_reason (iso : string) : string :=
  "Last modified date (" ++ iso ++ ") is older than 2022/1/1".

(** The title rule as the specification words it: the reason of an
    exclusion names the keyword that matched. *)
Definition reason_names_keyword `{Engine} : Prop :=
  forall (p : page) (t kw : string),
    title p = VStr t ->
    kw = "private" \/ kw = "(old)" ->
    occurs_ignoring_case kw t ->
    exists text,
      Mcp.shouldSkipPage p = Ok (mkSkipCheck true (Some text)) /\
      includes text kw = true.

(** The date rule as the specification words it: every record modified
    before the cutoff is excluded with the reason of the date rule. *)
Definition date_reason_always_given `{Engine} : Prop :=
  forall (p : page) (t : Z),
    truthy (lastModifiedDateTime p) = true ->
    Date_new (lastModifiedDateTime p) = Some t ->
    t < cutoff_instant ->
    Mcp.shouldSkipPage p =
      Ok (mkSkipCheck true (Some (date_reason (Date_toISOString t)))).

(** Credential loading as the specification words it: a bare token is
    returned trimmed. *)
Definition bare_token_is_trimmed `{Engine} : Prop :=
  forall (w : World) (Y : string),
    files w !! tokenFilePath = Some Y ->
    JSON_parse Y = None ->
    trim Y <> EmptyString ->
    fst (loadToken w) = Ok (Token (VStr (trim Y))).

(** The member [k] of a parsed value, [undefined] when there is none. *)
Definition field (v : value) (k : string) : value :=
  match get_prop v k with
  | Ok t => t
  | _ => VUndefined
  end.

(** The fallback as the claim words it: a file that parses as JSON and has
    no usable token is reported missing. *)
Definition parsed_without_token_is_missing `{Engine} : Prop :=
  forall (w : World) (data : string) (v : value),
    files w !! tokenFilePath = Some data ->
    JSON_parse data = Some v ->
    truthy (field v "token") = false ->
    fst (loadToken w) = Ok CredentialMissing.

(** The console line of a loader that finds no token in the file. *)
Definition no_token_in_file : event :=
  ConsoleError "Access token not found in file.".

(** The console line of a loader that finds no file. *)
Definition no_token_file : event :=
  ConsoleError "Access token not found. Please authenticate first.".

(** A process just started, in a directory that holds a token file with
    the given content and nothing else. *)
Definition world_with_token (content : string) : World :=
  mkWorld {[ tokenFilePath := content ]} ∅ [] VNull false.

(** The text of the object with the one member [key], a string. *)
Definition one_member (key text : string) : string :=
  "{" ++ dq ++ key ++ dq ++ ":" ++ dq ++ text ++ dq ++ "}".

(** Starting from the response [current], the service hands out the
    responses [rest] one after the other: each response but the last
    carries a continuation link, and the request of that link, made after
    the requests of [history], succeeds with the next response. *)
Fixpoint continues `{Engine} (env : Env) (history : list event) (current : collection)
         (rest : list collection) : Prop :=
  match rest with
  | [] => truthy (c_nextLink current) = false
  | next :: rest' =>
      let link := ToString (c_nextLink current) in
      truthy (c_nextLink current) = true /\
      get_collection env history link = Ok next /\
      continues env (ApiGet link :: history) next rest'
  end.


(** The records of a sequence of responses, in order. *)
Definition pages_of (rs : list collection) : list page :=
  concat (map records rs).

(** The address of the pages of a section. *)
Definition section_pages `{Engine} (sectionId : value) : string :=
  "/me/onenote/sections/" ++ ToString sectionId ++ "/pages".


(** The answer of a table to an address. *)
Fixpoint answer {A} (table : list (string * outcome A)) (url : string)
  : outcome A :=
  match table with
  | [] => Throw "404 Not Found"
  | (address, r) :: rest =>
      if String.eqb address url then r else answer rest url
  end.

(** A service that answers from tables, by the address alone; nothing can
    be written and the directories are empty. *)
Definition static_service (pages : list (string * outcome page))
           (collections : list (string * outcome collection))
           (contents : list (string * outcome http_response)) : Env :=
  {| get_page := fun _ url => answer pages url;
     get_collection := fun _ url => answer collections url;
     get_content := fun _ _ => Throw "404 Not Found";
     http_fetch := fun _ url => answer contents url;
     get_entities := fun _ _ => Throw "404 Not Found";
     get_entity := fun _ _ => Throw "404 Not Found";
     readdir := fun _ _ => [];
     clock := fun _ => 1700000000000;
     write_error := fun _ _ => None;
     write_left := fun _ _ _ => None |}.

(** The MCP server with its client ready, no file written yet. *)
Definition ready_world : World := mkWorld ∅ ∅ [] (VStr "eyJ0.abc") true.

(** A page titled [Page <n>] that carries no dates. *)
Definition sample_page (n : string) : page :=
  mkPage (VStr n) (VStr ("Page " ++ n)) VUndefined VUndefined.

(** The first page of the section [s1], which links to a second page. *)
Definition first_of_s1 : collection :=
  mkCollection (Some [sample_page "1"; sample_page "2"]) (VStr "next-2").

Definition second_of_s1 : collection :=
  mkCollection (Some [sample_page "3"]) (VStr "next-3").

(** The last page repeats a record of the first. *)
Definition third_of_s1 : collection :=
  mkCollection (Some [sample_page "4"; sample_page "2"]) VUndefined.

(** A service whose section [s1] has three pages of records. *)
Definition three_pages : Env :=
  static_service []
    [("/me/onenote/sections/s1/pages", Ok first_of_s1);
     ("next-2", Ok second_of_s1);
     ("next-3", Ok third_of_s1)] [].


(** The events that reach the network or the disk. *)
Definition is_effect (e : event) : bool :=
  match e with
  | ApiGet _ | HttpFetch _ | FileWrite _ _ | MakeDir _ => true
  | _ => false
  end.

Definition effects (tr : list event) : list event := List.filter is_effect tr.

(** A run of [m] from [w] ends in a result and a world that satisfy [Q]. *)
Definition wp {A} (m : IO A) (w : World) (Q : outcome A -> World -> Prop) : Prop :=
  Q (fst (m w)) (snd (m w)).

(** [w'] has the files and directories of [w] and a trace with the same
    effects. *)
Definition quiet_since (w w' : World) : Prop :=
  files w' = files w /\ dirs w' = dirs w /\
  effects (trace w') = effects (trace w).

(** [w'] differs from [w] by the one request [ApiGet url]. *)
Definition asked_since (url : string) (w w' : World) : Prop :=
  files w' = files w /\ dirs w' = dirs w /\
  effects (trace w') = ApiGet url :: effects (trace w).

(** The address of the metadata of a page. *)
Definition metadata_url (pageId : string) : string :=
  "/me/onenote/pages/" ++ pageId.

(** What a run on an excluded record may leave behind: nothing on the
    network or the disk, or the one request of the metadata. *)
Definition only_metadata {A} (pageId : string) (w : World)
  : outcome A -> World -> Prop :=
  fun _ w' => quiet_since w w' \/ asked_since (metadata_url pageId) w w'.

(** The same, for a tool that answers with a text when it returns. *)
Definition skipped_with (text : string) (pageId : string) (w : World)
  : outcome string -> World -> Prop :=
  fun o w' => (forall r, o = Ok r -> r = text) /\ only_metadata pageId w o w'.

(** The same, for [downloadPage], which returns a skip. *)
Definition skipped_download (pageId : string) (w : World)
  : outcome BulkExport.download_result -> World -> Prop :=
  fun o w' =>
    (o = Ok (BulkExport.Skipped "old date") \/
     o = Ok (BulkExport.Skipped "fast mode - recent file exists")) /\
    only_metadata pageId w o w'.

(** A page last modified in 2021. *)
Definition old_page : page :=
  mkPage (VStr "p1") (VStr "Meeting notes") (VStr "2021-06-01T08:30:00Z")
         (VStr "2020-01-15T10:00:00Z").

(** A service that knows the page [p1] and its content. *)
Definition old_page_service : Env :=
  static_service
    [(metadata_url "p1", Ok old_page)] []
    [(content_url "p1", Ok (mkResponse true 200 "OK" "<html>notes</html>"))].

(** C7 as it is worded, for [downloadPage] of the bulk driver: a record
    whose fetched metadata the filter excludes, by either rule, is neither
    asked for its content nor written. *)
Definition excluded_record_is_never_downloaded `{Engine} : Prop :=
  forall (env : Env) (w : World) (pageId pageTitle : string) (p : page)
         (why : string),
    get_page env (network (trace w)) (metadata_url pageId) = Ok p ->
    Mcp.shouldSkipPage p = Ok (mkSkipCheck true (Some why)) ->
    wp (BulkExport.downloadPage env pageId pageTitle false 0) w
       (only_metadata pageId w).

(** A page of 2023 that the page list knows as [Diary] and whose title has
    become [Private diary] since. *)
Definition renamed_page : page :=
  mkPage (VStr "p7") (VStr "Private diary") (VStr "2023-03-01T10:00:00Z")
         (VStr "2022-11-05T09:00:00Z").

Definition renamed_page_service : Env :=
  static_service
    [(metadata_url "p7", Ok renamed_page)] []
    [(content_url "p7", Ok (mkResponse true 200 "OK" "<html>diary</html>"))].

(** The name and the path of the file [downloadPage] writes for a title
    and the metadata of the page. *)
Definition expected_name `{Engine} (pageTitle : string) (p : page) : string :=
  sanitizeFilename pageTitle ++ "--" ++
  BulkExport.formatDate (lastModifiedDateTime p) ++ ".html".

Definition expected_path `{Engine} (pageTitle : string) (p : page) : string :=
  BulkExport.OUTPUT_DIR ++ expected_name pageTitle p.

(** Idempotence as the specification words it: a record whose expected
    file exists is skipped without any request. *)
Definition existing_file_needs_no_request `{Engine} : Prop :=
  forall (env : Env) (w : World) (pageId pageTitle : string) (p : page),
    get_page env (network (trace w)) (metadata_url pageId) = Ok p ->
    Bulk.shouldSkipByDate p = false ->
    is_Some (files w !! expected_path pageTitle p) ->
    network (trace (snd (BulkExport.downloadPage env pageId pageTitle false 0 w))) =
      network (trace w).

(** What a second run leaves behind for a record already exported. *)
Definition already_exported (pageId : string) (w : World)
  : outcome BulkExport.download_result -> World -> Prop :=
  fun o w' =>
    (o = Ok (BulkExport.Skipped "already exists") /\
     asked_since (metadata_url pageId) w w') \/
    (o = Ok (BulkExport.Skipped "fast mode - recent file exists") /\
     quiet_since w w').

(** A page last modified in June 2022. *)
Definition recent_page : page :=
  mkPage (VStr "p2") (VStr "Roadmap: Q3") (VStr "2022-06-01T12:34:56Z")
         (VStr "2022-05-01T09:00:00Z").

Definition recent_page_service : Env :=
  static_service
    [(metadata_url "p2", Ok recent_page)] []
    [(content_url "p2", Ok (mkResponse true 200 "OK" "<html>roadmap</html>"))].

(** The output directory after a first run that exported [recent_page]. *)
Definition exported_world : World :=
  mkWorld {[ BulkExport.OUTPUT_DIR ++ "Roadmap_ Q3--20220601.html" :=
               "<html>roadmap</html>" ]}
          {[ BulkExport.OUTPUT_DIR ]} [] VNull false.


(** The number of failed outcomes in a row after the outcomes [outs], when
    it was [c0] before them. *)
Definition in_a_row (c0 : nat) (outs : list BulkExport.download_result) : nat :=
  fold_left (fun c r => if BulkExport.success r then O else S c) outs c0.

(** The failures among the outcomes [outs] of the records [todo]. *)
Fixpoint failures_of (todo : list BulkExport.listed)
         (outs : list BulkExport.download_result) : list BulkExport.failure :=
  match todo, outs with
  | e :: todo', BulkExport.Failed err :: outs' =>
      BulkExport.mkFailure (BulkExport.l_title e) (BulkExport.l_pageId e) err ::
      failures_of todo' outs'
  | _ :: todo', _ :: outs' => failures_of todo' outs'
  | _, _ => []
  end.

(** The header line of a turn of the download loop. *)
Definition turn_header (total i : nat) (e : BulkExport.listed) : event :=
  ConsoleLog ("[" ++ pretty (S i) ++ "/" ++ pretty total ++ "] " ++
              BulkExport.l_title e).

(** A failed outcome. *)
Definition failed (r : BulkExport.download_result) : Prop :=
  BulkExport.success r = false.

(** The records of a page list that pass the title filter of [main]. *)
Definition to_download `{Engine} (pages : list BulkExport.listed)
  : list BulkExport.listed :=
  List.filter
    (fun p => negb (Bulk.shouldSkipPageByTitle (BulkExport.l_title p))) pages.




(** A service that is down: every request fails. *)
Definition service_down : Env := static_service [] [] [].

(** A page list of twelve records. *)
Definition twelve_pages : list BulkExport.listed :=
  map (fun n : nat => BulkExport.mkListed ("Page " ++ pretty n) ("id" ++ pretty n))
      (seq 1 12).

(** Every code unit of [s] is in the class [p]. *)
Fixpoint all_units (p : ascii -> bool) (s : string) : bool :=
  match s with
  | EmptyString => true
  | String c r => p c && all_units p r
  end.

(** The number of segments [..] among the segments of a path. *)
Definition climbs (segs : list string) : nat :=
  length (List.filter (fun seg => String.eqb seg "..") segs).

(** The text of one code unit. *)
Definition unit_text (c : ascii) : string := String c EmptyString.

(** The characters a file name must not hold: less-than, greater-than,
    colon, double quote, slash, backslash, bar, question mark and star. *)
Definition reserved : list string :=
  ["<"; ">"; ":"; dq; "/"; "\"; "|"; "?"; "*"].

(** A lower case letter, a digit or the underscore. *)
Definition plain_unit (c : ascii) : bool :=
  let n := N_of_ascii c in
  ((48 <=? n) && (n <=? 57) || (97 <=? n) && (n <=? 122) || (n =? 95))%N.

(** The text of which [snippet_of] prints the first 500 code units. *)
Definition plain_text (content : string) : string :=
  trim (collapse_spaces false (strip_tags false content)).

(** No white space in [s] but single spaces, none of them at the start
    when [after_space]. *)
Fixpoint single_spaced (after_space : bool) (s : string) : bool :=
  match s with
  | EmptyString => true
  | String c r =>
      if is_space c
      then Ascii.eqb c " "%char && negb after_space && single_spaced true r
      else single_spaced false r
  end.

(** The date [hasRecentFileByTitle] reads in the eight digits of a file
    name: [new Date(year, month - 1, day)]. *)
Definition file_date `{Engine} (dateStr : string) : option Z :=
  Date_of_local (digits_value (BulkExport.substring 0 4 dateStr))
                (digits_value (BulkExport.substring 4 6 dateStr) - 1)
                (digits_value (BulkExport.substring 6 8 dateStr)).

(** A file of the output directory counts as a recent export of a title:
    it is named [<sanitized title>--<eight digits>.html] and the date in
    its name is not before the cutoff. *)
Definition recent_export `{Engine} (sanitizedTitle : string) (cutoffDate : option Z)
           (file : string) : Prop :=
  exists dateStr,
    file = sanitizedTitle ++ "--" ++ dateStr ++ ".html" /\
    String.length dateStr = 8%nat /\
    all_units is_digit dateStr = true /\
    BulkExport.date_ge (file_date dateStr) cutoffDate = true.

(** The world after [fs.mkdirSync(path)]. *)
Definition with_dir (path : string) (w : World) : World :=
  mkWorld (files w) ({[path]} ∪ dirs w) (MakeDir path :: trace w)
          (accessToken w) (graphClient w).

(** The world after a successful [fs.writeFileSync(path, content)]. *)
Definition with_file (path content : string) (w : World) : World :=
  mkWorld (<[path := content]> (files w)) (dirs w)
          (FileWrite path content :: trace w) (accessToken w) (graphClient w).

(** Every file of [w] is a file of [w'], with the same content. *)
Definition keeps_files (w w' : World) : Prop :=
  forall path content,
    files w !! path = Some content -> files w' !! path = Some content.

(** The same, but for the file [spared]. *)
Definition keeps_files_but (spared : string) (w w' : World) : Prop :=
  forall path content,
    path <> spared ->
    files w !! path = Some content -> files w' !! path = Some content.

(** The requests, writes and directories that [w'] adds to [w] are all
    [allowed]. *)
Definition acts_only (allowed : event -> Prop) (w w' : World) : Prop :=
  exists added,
    effects (trace w') = (added ++ effects (trace w))%list /\
    Forall allowed added.

(** What a run of the bulk exporter may do for a page list: ask for the
    metadata or the content of a record that passes the title filter,
    write a file named after the title of such a record in the output
    directory, create that directory, and write the failure log. *)
Definition export_effect `{Engine} (pages : list BulkExport.listed) (ev : event)
  : Prop :=
  (exists e,
     In e (to_download pages) /\
     (ev = ApiGet (metadata_url (BulkExport.l_pageId e)) \/
      ev = HttpFetch (content_url (BulkExport.l_pageId e)) \/
      exists name content,
        ev = FileWrite
               (BulkExport.OUTPUT_DIR ++
                sanitizeFilename (BulkExport.l_title e) ++ "--" ++ name)
               content)) \/
  ev = MakeDir BulkExport.OUTPUT_DIR \/
  exists content, ev = FileWrite BulkExport.FAILED_DOWNLOADS_FILE content.

(** The outcomes of a kind. *)
Definition is_downloaded (r : BulkExport.download_result) : bool :=
  match r with BulkExport.Downloaded _ => true | _ => false end.

Definition is_skipped (r : BulkExport.download_result) : bool :=
  match r with BulkExport.Skipped _ => true | _ => false end.

Definition is_failed (r : BulkExport.download_result) : bool :=
  negb (BulkExport.success r).

(** A service that fails the first request for a page and answers the
    later ones from tables. *)
Definition fails_first (pages : list (string * outcome page))
           (contents : list (string * outcome http_response)) : Env :=
  {| get_page := fun history url =>
                   match history with
                   | [] => Throw "504 Gateway Timeout"
                   | _ => answer pages url
                   end;
     get_collection := fun _ _ => Throw "404 Not Found";
     get_content := fun _ _ => Throw "404 Not Found";
     http_fetch := fun _ url => answer contents url;
     get_entities := fun _ _ => Throw "404 Not Found";
     get_entity := fun _ _ => Throw "404 Not Found";
     readdir := fun _ _ => [];
     clock := fun _ => 1700000000000;
     write_error := fun _ _ => None;
     write_left := fun _ _ _ => None |}.

(** The carriage return. *)
Definition cr : string := String "013"%char EmptyString.

(** White space, at least one unit of it. *)
Definition blank (s : string) : Prop :=
  s <> EmptyString /\ all_units is_space s = true.

(** A text without a line break or a carriage return. *)
Definition one_line (s : string) : Prop := all_units Regex.dot s = true.

(** A text that is not empty and has no white space at its ends. *)
Definition trimmed (s : string) : Prop := s <> EmptyString /\ trim s = s.

(** A line of the form
    [<number>.<gap><title><gap>(Created:<created>)<gap>--<gap><pageId>]. *)
Definition entry_line (number gap1 title gap2 created gap3 gap4 pageId : string)
  : string :=
  number ++ "." ++ gap1 ++ title ++ gap2 ++ "(Created:" ++ created ++ ")" ++
  gap3 ++ "--" ++ gap4 ++ pageId.

(** The line [list-pages.js] prints for a page in a listing with ids. *)
Definition listed_line `{Engine} (index : nat) (p : page) : string :=
  pretty (S index) ++ ". " ++ ToString (title p) ++ " (Created: " ++
  Date_toLocaleString (Date_new (createdDateTime p)) ++ ")" ++
  " -- " ++ ToString (id p).

(** The lines [list-pages.js] prints for the pages of a listing with ids,
    numbered from [index + 1]. *)
Fixpoint listed_lines `{Engine} (index : nat) (pages : list page)
  : list string :=
  match pages with
  | [] => []
  | p :: rest => listed_line index p :: listed_lines (S index) rest
  end.

(** A page whose line can be read back: its title and its id are texts
    without white space at their ends and without a line break, the title
    does not hold the text [(Created:], and the printed date of creation
    holds no line break and no closing parenthesis. *)
Definition readable `{Engine} (p : page) : Prop :=
  exists t i,
    title p = VStr t /\ id p = VStr i /\
    trimmed t /\ one_line t /\ includes t "(Created:" = false /\
    trimmed i /\ one_line i /\
    one_line (Date_toLocaleString (Date_new (createdDateTime p))) /\
    includes (Date_toLocaleString (Date_new (createdDateTime p))) ")" = false.

(** The entry of the page list that stands for a page. *)
Definition listed_of `{Engine} (p : page) : BulkExport.listed :=
  BulkExport.mkListed (ToString (title p)) (ToString (id p)).

(** [w'] has the files and the directories of [w], and what its trace adds
    to the effects of [w] are requests. *)
Definition reads_only (w w' : World) : Prop :=
  files w' = files w /\ dirs w' = dirs w /\
  acts_only (fun e => is_request e = true) w w'.

(** The message of [ensureGraphClient] when it finds no token. *)
Definition no_token_message : string :=
  "Access token not found. Please save access token first.".

(** A call is refused: it throws a message made of [prefix] and of
    [required], or of [no_token_message] when the server has no client
    yet, and the world it leaves has the files, the directories and the
    effects of [w]. *)
Definition refused {A} (w : World) (prefix required : string)
           (run : outcome A * World) : Prop :=
  quiet_since w (snd run) /\
  exists why,
    fst run = Throw (prefix ++ why) /\
    (why = required \/ graphClient w = false /\ why = no_token_message).

(** A service that answers the requests for a page and for its content
    from tables. *)
Definition content_service (pages : list (string * outcome page))
           (texts : list (string * outcome value)) : Env :=
  {| get_page := fun _ url => answer pages url;
     get_collection := fun _ _ => Throw "404 Not Found";
     get_content := fun _ url => answer texts url;
     http_fetch := fun _ _ => Throw "404 Not Found";
     get_entities := fun _ _ => Throw "404 Not Found";
     get_entity := fun _ _ => Throw "404 Not Found";
     readdir := fun _ _ => [];
     clock := fun _ => 1700000000000;
     write_error := fun _ _ => None;
     write_left := fun _ _ _ => None |}.

(** The address [searchPages] lists: the pages of a section, or all. *)
Definition search_url `{Engine} (sectionId : value) : string :=
  if truthy sectionId
  then "/me/onenote/sections/" ++ ToString sectionId ++ "/pages"
  else "/me/onenote/pages".

(** The title of [p] is a text that is not empty and whose lower case
    form holds [term]. *)
Definition title_has (term : string) (p : page) : bool :=
  match title p with
  | VStr t => negb (String.eqb t EmptyString) && includes (toLowerCase t) term
  | _ => false
  end.

(** A client of the tool [listPages] that pages by hand: as long as the
    last answer has a [nextLink], it calls the tool again with that link,
    and with the same other arguments, and it collects the records. *)
Fixpoint page_by_page `{Engine} (env : Env) (sectionId : value)
         (top : option (Z * Z)) (fetchAll : value) (turns : nat)
         (answer : listing) : IO (list page) :=
  if truthy (lv_nextLink answer) then
    match turns with
    | O => diverge
    | S turns' =>
        next <- McpListing.listPages env sectionId top (lv_nextLink answer)
                  fetchAll 0 ;;
        more <- page_by_page env sectionId top fetchAll turns' next ;;
        ret (lv_value answer ++ more)%list
    end
  else ret (lv_value answer).

(** * Properties *)

(** ** Strings *)

Lemma toLowerCase_app (a b : string) :
  toLowerCase (a ++ b) = toLowerCase a ++ toLowerCase b.
Proof. induction a as [|c a IH]; simpl; [reflexivity | now rewrite IH]. Qed.

Lemma toLowerCase_split (t a b : string) :
  toLowerCase t = a ++ b ->
  exists t1 t2, t = t1 ++ t2 /\ toLowerCase t1 = a /\ toLowerCase t2 = b.
Proof.
  revert t. induction a as [|c a IH]; intros t Ht.
  - exists EmptyString, t. auto.
  - destruct t as [|c' t]; simpl in Ht; [discriminate |].
    injection Ht as Hc Ht. destruct (IH _ Ht) as (t1 & t2 & -> & H1 & H2).
    exists (String c' t1), t2. simpl. now rewrite Hc, H1.
Qed.

Lemma startsWith_spec (s p : string) :
  startsWith s p = true <-> exists post, s = p ++ post.
Proof.
  revert s. induction p as [|a p IH]; intros s.
  - split; [intros _; now exists s | intros _; now destruct s].
  - destruct s as [|b s]; simpl.
    + split; [discriminate | intros [post Hp]; discriminate].
    + rewrite andb_true_iff, IH. split.
      * intros [Hab [post ->]]. apply Ascii.eqb_eq in Hab as ->. now exists post.
      * intros [post Hp]. injection Hp as -> ->. split; [apply Ascii.eqb_refl | eauto].
Qed.

Lemma includes_spec (s needle : string) :
  includes s needle = true <-> exists pre post, s = pre ++ needle ++ post.
Proof.
  induction s as [|c s IH].
  - cbn [includes]. rewrite orb_false_r, startsWith_spec. split.
    + intros [post Hp]. now exists EmptyString, post.
    + intros (pre & post & Hp). destruct pre; [now exists post | discriminate].
  - cbn [includes]. rewrite orb_true_iff, startsWith_spec, IH. split.
    + intros [[post Hp] | (pre & post & ->)].
      * now exists EmptyString, post.
      * now exists (String c pre), post.
    + intros (pre & post & Hp). destruct pre as [|c' pre].
      * left. now exists post.
      * right. injection Hp as _ ->. now exists pre, post.
Qed.

Lemma includes_toLowerCase (kw t : string) :
  includes (toLowerCase t) kw = true <-> occurs_ignoring_case kw t.
Proof.
  rewrite includes_spec. split.
  - intros (a & b & Hab).
    destruct (toLowerCase_split _ _ _ Hab) as (t1 & t23 & -> & H1 & H23).
    destruct (toLowerCase_split _ _ _ H23) as (t2 & t3 & -> & H2 & H3).
    now exists t1, t2, t3.
  - intros (pre & mid & post & -> & <-).
    exists (toLowerCase pre), (toLowerCase post).
    now rewrite !toLowerCase_app.
Qed.

(** ** The inclusion filter *)

Section FilterFacts.
Context `{Engine}.

Lemma title_text_lowered (p : page) (t : string) :
    title_text p = Some t ->
    call_toLowerCase (js_or (title p) (VStr EmptyString)) = Ok (toLowerCase t).
  Proof.
    unfold title_text. destruct (js_or _ _); try discriminate.
    now intros [= ->].
  Qed.

Lemma title_text_absent (p : page) :
    title p = VUndefined \/ title p = VNull -> title_text p = Some EmptyString.
  Proof. unfold title_text, js_or. now intros [-> | ->]. Qed.

(** The filter of the MCP server on a record whose title is a text. *)
Lemma shouldSkipPage_unfold (p : page) (t : string) :
    title_text p = Some t ->
    Mcp.shouldSkipPage p =
      if includes (toLowerCase t) "private" || includes (toLowerCase t) "(old)"
      then Ok (mkSkipCheck true (Some (keyword_reason (ToString (title p)))))
      else if Bulk.shouldSkipByDate p
           then obind (toISOString (Date_new (lastModifiedDateTime p)))
                      (fun iso => Ok (mkSkipCheck true (Some (date_reason iso))))
           else Ok (mkSkipCheck false None).
  Proof.
    intros Ht. unfold Mcp.shouldSkipPage, Bulk.shouldSkipByDate.
    rewrite (title_text_lowered _ _ Ht). cbn [obind].
    destruct (_ || _); [reflexivity |].
    destruct (truthy (lastModifiedDateTime p)); [| reflexivity].
    destruct (date_lt _ _); reflexivity.
  Qed.

(** The filter of the command line tools on such a record. *)
Lemma cli_shouldSkipPage_unfold (p : page) (t : string) (w : World) :
  title_text p = Some t ->
  Cli.shouldSkipPage p w =
    if includes (toLowerCase t) "private" || includes (toLowerCase t) "(old)"
    then (Ok true,
          record_event
            (ConsoleLog ("Skipping page: " ++ keyword_reason (ToString (title p)))) w)
    else if Bulk.shouldSkipByDate p
         then match Date_new (lastModifiedDateTime p) with
              | Some at_ =>
                  (Ok true,
                   record_event
                     (ConsoleLog ("Skipping page: " ++
                                  date_reason (Date_toISOString at_))) w)
              | None => (Throw "Invalid time value", w)
              end
         else (Ok false, w).
Proof.
  intros Ht. unfold Cli.shouldSkipPage, Bulk.shouldSkipByDate, bind, lift.
  rewrite (title_text_lowered _ _ Ht).
  destruct (_ || _); [reflexivity |].
  destruct (truthy (lastModifiedDateTime p)); [| reflexivity].
  destruct (date_lt _ _); [| reflexivity].
  destruct (Date_new (lastModifiedDateTime p)); reflexivity.
Qed.

Lemma shouldSkipByDate_true (p : page) :
    Bulk.shouldSkipByDate p = true <->
    truthy (lastModifiedDateTime p) = true /\
    exists t, Date_new (lastModifiedDateTime p) = Some t /\ t < cutoff_instant.
  Proof.
    unfold Bulk.shouldSkipByDate. rewrite Date_new_cutoff.
    destruct (truthy _).
    - destruct (Date_new (lastModifiedDateTime p)) as [t|]; cbn.
      + rewrite Z.ltb_lt. unfold cutoff_instant.
        split; [intros Hlt; split; eauto | intros [_ (t' & [= <-] & Hlt)]; exact Hlt].
      + split; [discriminate | intros [_ (t' & Ht & _)]; discriminate].
    - split; [discriminate | intros [Hf _]; discriminate].
  Qed.

End FilterFacts.

Section FilterClaims.
Context `{Engine}.

Lemma title_text_of_string (p : page) (t : string) :
  title p = VStr t -> title_text p = Some t.
Proof.
  unfold title_text, js_or. intros ->. cbn.
  destruct (String.eqb_spec t EmptyString) as [-> |]; reflexivity.
Qed.

Lemma keyword_occurs (t : string) :
  occurs_ignoring_case "private" t \/ occurs_ignoring_case "(old)" t ->
  includes (toLowerCase t) "private" || includes (toLowerCase t) "(old)" = true.
Proof.
  rewrite orb_true_iff, !includes_toLowerCase. tauto.
Qed.

(** C5, as amended: a record whose title contains [private] or [(old)] in
    any case is excluded by every variant of the filter. The MCP filter
    gives the reason [Title contains excluded keyword: "<title>"], the
    command line filter prints the same text, and the bulk driver only
    answers [true]: the wording is the same for both keywords and quotes
    the original title. *)
Theorem title_keyword_excludes (p : page) (t : string) :
  title p = VStr t ->
  occurs_ignoring_case "private" t \/ occurs_ignoring_case "(old)" t ->
  Mcp.shouldSkipPage p = Ok (mkSkipCheck true (Some (keyword_reason t))) /\
  (forall w : World,
     Cli.shouldSkipPage p w =
       (Ok true,
        record_event (ConsoleLog ("Skipping page: " ++ keyword_reason t)) w)) /\
  Bulk.shouldSkipPageByTitle t = true.
Proof.
  intros Ht Hkw. pose proof (keyword_occurs _ Hkw) as Hin.
  pose proof (title_text_of_string _ _ Ht) as Htext.
  split; [| split].
  - rewrite (shouldSkipPage_unfold _ _ Htext), Hin, Ht. reflexivity.
  - intros w. rewrite (cli_shouldSkipPage_unfold _ _ _ Htext), Hin, Ht.
    reflexivity.
  - unfold Bulk.shouldSkipPageByTitle. rewrite orb_comm. exact Hin.
Qed.

(** C6, as amended: a record whose last-modified timestamp is before
    2022-01-01T00:00:00Z is excluded, and unless the title rule, which is
    tested first, has already excluded it, the reason cites the timestamp
    in ISO form and the cutoff; a timestamp at or after the cutoff, or no
    timestamp, is never a ground for exclusion by the date rule. *)
Theorem date_cutoff_rule (p : page) (shown : string) :
  title_text p = Some shown ->
  let titled :=
    includes (toLowerCase shown) "private" || includes (toLowerCase shown) "(old)" in
  (forall t : Z,
     truthy (lastModifiedDateTime p) = true ->
     Date_new (lastModifiedDateTime p) = Some t ->
     t < cutoff_instant ->
     Bulk.shouldSkipByDate p = true /\
     exists why,
       Mcp.shouldSkipPage p = Ok (mkSkipCheck true (Some why)) /\
       (titled = false -> why = date_reason (Date_toISOString t))) /\
  (forall t : Z,
     Date_new (lastModifiedDateTime p) = Some t ->
     cutoff_instant <= t ->
     Bulk.shouldSkipByDate p = false /\
     (titled = false -> Mcp.shouldSkipPage p = Ok (mkSkipCheck false None))) /\
  (truthy (lastModifiedDateTime p) = false ->
   Bulk.shouldSkipByDate p = false /\
   (titled = false -> Mcp.shouldSkipPage p = Ok (mkSkipCheck false None))).
Proof.
  intros Htext titled. rewrite (shouldSkipPage_unfold _ _ Htext). fold titled.
  split; [| split].
  - intros t Hpresent Ht Hlt.
    assert (Hdate : Bulk.shouldSkipByDate p = true)
      by (apply shouldSkipByDate_true; eauto).
    split; [exact Hdate |]. rewrite Hdate, Ht. cbn.
    destruct titled; eexists; (split; [reflexivity |]); [discriminate | reflexivity].
  - intros t Ht Hge.
    assert (Hdate : Bulk.shouldSkipByDate p = false).
    { destruct (Bulk.shouldSkipByDate p) eqn:E; [| reflexivity].
      apply shouldSkipByDate_true in E as [_ (t' & Ht' & Hlt)].
      rewrite Ht in Ht'. injection Ht' as <-. lia. }
    split; [exact Hdate |]. rewrite Hdate. now intros ->.
  - intros Habsent.
    assert (Hdate : Bulk.shouldSkipByDate p = false)
      by (unfold Bulk.shouldSkipByDate; now rewrite Habsent).
    split; [exact Hdate |]. rewrite Hdate. now intros ->.
Qed.

(** C10: when the title of a record is [undefined] or [null] the filter
    reads it as the empty string. It returns normally, with the answer it
    gives for the same record with an empty title, and it excludes the
    record only when the date rule applies. *)
Theorem absent_title_is_empty_title (p : page) :
  title p = VUndefined \/ title p = VNull ->
  (exists r,
     Mcp.shouldSkipPage p = Ok r /\
     Mcp.shouldSkipPage
       (mkPage (id p) (VStr EmptyString) (lastModifiedDateTime p)
               (createdDateTime p)) = Ok r /\
     skip r = Bulk.shouldSkipByDate p /\
     (skip r = true -> exists iso, reason r = Some (date_reason iso))) /\
  (forall w : World,
     exists w', Cli.shouldSkipPage p w = (Ok (Bulk.shouldSkipByDate p), w')).
Proof.
  intros Habsent. pose proof (title_text_absent _ Habsent) as Htext.
  split.
  - rewrite (shouldSkipPage_unfold _ _ Htext).
    rewrite (shouldSkipPage_unfold _ EmptyString) by reflexivity.
    cbn [toLowerCase includes startsWith orb].
    change (Bulk.shouldSkipByDate (mkPage _ _ _ _)) with (Bulk.shouldSkipByDate p).
    cbn [lastModifiedDateTime].
    destruct (Bulk.shouldSkipByDate p) eqn:Hdate.
    + apply shouldSkipByDate_true in Hdate as [_ (t & -> & _)]. cbn.
      eexists. repeat split; eauto.
    + eexists. repeat split; discriminate.
  - intros w. rewrite (cli_shouldSkipPage_unfold _ _ _ Htext).
    cbn [toLowerCase includes startsWith orb].
    destruct (Bulk.shouldSkipByDate p) eqn:Hdate; [| eexists; reflexivity].
    apply shouldSkipByDate_true in Hdate as [_ (t & -> & _)].
    eexists; reflexivity.
Qed.

End FilterClaims.

Lemma title_keyword_excludes_witness :
  let p := mkPage (VStr "1-a") (VStr "project (OLD)") VUndefined VUndefined in
  title p = VStr "project (OLD)" /\
  (occurs_ignoring_case "private" "project (OLD)" \/
   occurs_ignoring_case "(old)" "project (OLD)") /\
  @Mcp.shouldSkipPage Reference.engine p =
    Ok (mkSkipCheck true (Some (keyword_reason "project (OLD)"))).
Proof.
  intros p.
  assert (Hocc : occurs_ignoring_case "private" "project (OLD)" \/
                 occurs_ignoring_case "(old)" "project (OLD)").
  { right. exists "project ", "(OLD)", EmptyString. split; reflexivity. }
  split; [reflexivity | split; [exact Hocc |]].
  exact (proj1 (@title_keyword_excludes Reference.engine p "project (OLD)"
                  eq_refl Hocc)).
Defined.

(** C5, as stated, fails: the reason given for the title [PRIVATE] names
    neither keyword. *)
Lemma reason_names_no_keyword : ~ @reason_names_keyword Reference.engine.
Proof.
  intros Hclaim.
  destruct (Hclaim (mkPage (VStr "1-a") (VStr "PRIVATE") VUndefined VUndefined)
                   "PRIVATE" "private" eq_refl (or_introl eq_refl))
    as (text & Hresult & Hnamed).
  - exists EmptyString, "PRIVATE", EmptyString. split; reflexivity.
  - vm_compute in Hresult. injection Hresult as <-.
    vm_compute in Hnamed. discriminate.
Qed.

Lemma date_cutoff_rule_witness :
  let p := mkPage (VStr "1-a") (VStr "Notes") (VStr "2021-06-01") VUndefined in
  title_text p = Some "Notes" /\
  @Bulk.shouldSkipByDate Reference.engine p = true /\
  exists why,
    @Mcp.shouldSkipPage Reference.engine p = Ok (mkSkipCheck true (Some why)) /\
    why = date_reason "2021-06-01T00:00:00.000Z".
Proof.
  intros p. split; [reflexivity |].
  destruct (proj1 (@date_cutoff_rule Reference.engine p "Notes" eq_refl)
                  1622505600000 eq_refl eq_refl eq_refl)
    as [Hdate (why & Hskip & Hwhy)].
  split; [exact Hdate |]. exists why. split; [exact Hskip |].
  exact (Hwhy eq_refl).
Defined.

(** C6, as stated, fails: a record modified in 2021 whose title contains
    [private] is excluded with the reason of the title rule, which cites
    neither the timestamp nor the cutoff. *)
Lemma date_reason_not_always_given : ~ @date_reason_always_given Reference.engine.
Proof.
  intros Hclaim.
  specialize (Hclaim (mkPage (VStr "1-a") (VStr "private notes")
                             (VStr "2021-06-01") VUndefined)
                     1622505600000 eq_refl eq_refl eq_refl).
  vm_compute in Hclaim. discriminate.
Qed.

Lemma absent_title_is_empty_title_witness :
  let p := mkPage (VStr "1-a") VUndefined (VStr "2022-06-01") VUndefined in
  (title p = VUndefined \/ title p = VNull) /\
  exists r, @Mcp.shouldSkipPage Reference.engine p = Ok r /\ skip r = false.
Proof.
  intros p. split; [left; reflexivity |].
  destruct (proj1 (@absent_title_is_empty_title Reference.engine p
                     (or_introl eq_refl)))
    as (r & Hr & _ & Hskip & _).
  exists r. split; [exact Hr | exact Hskip].
Defined.

(** ** Credential loading *)

Section CredentialFacts.
Context `{Engine}.

Lemma loadToken_present (w : World) (data : string) :
  files w !! tokenFilePath = Some data ->
  loadToken w =
    if truthy (decodeToken data)
    then (Ok (Token (decodeToken data)), w)
    else (Ok CredentialMissing, record_event no_token_in_file w).
Proof.
  intros Hfile. unfold loadToken, bind, existsSync, readFileSync.
  rewrite Hfile. cbn. rewrite Hfile. cbn.
  destruct (truthy (decodeToken data)); reflexivity.
Qed.

Lemma loadTokenTrimmed_present (w : World) (data : string) :
  files w !! tokenFilePath = Some data ->
  loadTokenTrimmed w =
    if truthy (VStr (decodeTokenTrimmed (trim data)))
    then (Ok (Token (VStr (decodeTokenTrimmed (trim data)))), w)
    else (Ok CredentialMissing, record_event no_token_in_file w).
Proof.
  intros Hfile. unfold loadTokenTrimmed, bind, existsSync, readFileSync.
  rewrite Hfile. cbn -[truthy]. rewrite Hfile. cbn -[truthy].
  destruct (truthy (VStr (decodeTokenTrimmed (trim data)))); reflexivity.
Qed.

Lemma loaders_absent (w : World) :
  files w !! tokenFilePath = None ->
  tokenFilePath ∉ dirs w ->
  loadToken w = (Ok CredentialMissing, record_event no_token_file w) /\
  loadTokenTrimmed w = (Ok CredentialMissing, record_event no_token_file w).
Proof.
  intros Hfile Hdir. unfold loadToken, loadTokenTrimmed, bind, existsSync.
  rewrite Hfile, (bool_decide_eq_false_2 _ Hdir). split; reflexivity.
Qed.

Lemma truthy_text (s : string) :
  truthy (VStr s) = true <-> s <> EmptyString.
Proof.
  cbn. destruct (String.eqb_spec s EmptyString); cbn; split; congruence.
Qed.

Lemma trim_empty : trim EmptyString = EmptyString.
Proof. reflexivity. Qed.

Lemma decodeToken_object (data : string) (ms : list (string * value)) :
  JSON_parse data = Some (VObj ms) ->
  decodeToken data = default VUndefined (member "token" ms).
Proof. unfold decodeToken. now intros ->. Qed.

Lemma decodeToken_bare (data : string) :
  JSON_parse data = None -> decodeToken data = VStr data.
Proof. unfold decodeToken. now intros ->. Qed.

Lemma decodeTokenTrimmed_bare (data : string) :
  JSON_parse data = None -> decodeTokenTrimmed data = data.
Proof. unfold decodeTokenTrimmed. now intros ->. Qed.

Lemma decodeTokenTrimmed_object (data : string) (ms : list (string * value)) :
  JSON_parse data = Some (VObj ms) ->
  decodeTokenTrimmed data =
    match call_trim (js_or (js_or (default VUndefined (member "token" ms))
                                  (default VUndefined (member "access_token" ms)))
                           (VStr EmptyString)) with
    | Ok t => t
    | _ => data
    end.
Proof. unfold decodeTokenTrimmed. now intros ->. Qed.

End CredentialFacts.

Section CredentialClaims.
Context `{Engine}.

Lemma ensureGraphClient_fresh (w : World) (data : string) :
  graphClient w = false ->
  files w !! tokenFilePath = Some data ->
  ensureGraphClient w =
    if truthy (decodeToken data)
    then (Ok tt, mkWorld (files w) (dirs w) (trace w) (decodeToken data) true)
    else (Throw "Access token not found. Please save access token first.",
          mkWorld (files w) (dirs w) (trace w) (decodeToken data) false).
Proof.
  intros Hclient Hfile.
  unfold ensureGraphClient, bind, try_catch, existsSync, readFileSync,
    set_accessToken, get_accessToken, set_graphClient, throw.
  rewrite Hclient, Hfile. cbn. rewrite Hfile. cbn.
  destruct (truthy (decodeToken data)); cbn; rewrite ?Hclient; reflexivity.
Qed.

(** C4, as amended: the loader of [list-pages.js] decodes the content of
    the credential file as it is, the loader of [listSections] decodes the
    content trimmed. When what is decoded parses to an object whose [token]
    is the text X, the first loader returns X when X is not empty and the
    second returns X trimmed when that is not empty. When what is decoded
    is not JSON, the first loader returns the content Y as it is when it is
    not empty, and the second returns Y trimmed when that is not empty: a
    content that is JSON only once it is trimmed is, for the second loader,
    JSON. The credential is reported missing when the file does not exist,
    when it is empty ([list-pages.js]) or when it is empty after trimming
    ([listSections]). *)
Theorem credential_loading (w : World) :
  (files w !! tokenFilePath = None ->
   tokenFilePath ∉ dirs w ->
   fst (loadToken w) = Ok CredentialMissing /\
   fst (loadTokenTrimmed w) = Ok CredentialMissing) /\
  (forall data : string,
     files w !! tokenFilePath = Some data ->
     (forall ms X,
        JSON_parse data = Some (VObj ms) ->
        member "token" ms = Some (VStr X) ->
        X <> EmptyString ->
        loadToken w = (Ok (Token (VStr X)), w)) /\
     (forall ms X,
        JSON_parse (trim data) = Some (VObj ms) ->
        member "token" ms = Some (VStr X) ->
        trim X <> EmptyString ->
        loadTokenTrimmed w = (Ok (Token (VStr (trim X))), w)) /\
     (JSON_parse data = None ->
      data <> EmptyString ->
      loadToken w = (Ok (Token (VStr data)), w)) /\
     (JSON_parse (trim data) = None ->
      trim data <> EmptyString ->
      loadTokenTrimmed w = (Ok (Token (VStr (trim data))), w)) /\
     (data = EmptyString -> fst (loadToken w) = Ok CredentialMissing) /\
     (trim data = EmptyString -> fst (loadTokenTrimmed w) = Ok CredentialMissing)).
Proof.
  split.
  - intros Hfile Hdir. destruct (loaders_absent w Hfile Hdir) as [-> ->].
    split; reflexivity.
  - intros data Hfile.
    rewrite (loadToken_present _ _ Hfile), (loadTokenTrimmed_present _ _ Hfile).
    repeat split.
    + intros ms X Hparse Hmember HX.
      rewrite (decodeToken_object _ _ Hparse), Hmember. cbn [from_option Datatypes.id].
      now rewrite (proj2 (truthy_text X) HX).
    + intros ms X Hparse Hmember HX.
      assert (HX' : X <> EmptyString) by (intros ->; now apply HX).
      rewrite (decodeTokenTrimmed_object _ _ Hparse), Hmember. cbn [from_option Datatypes.id].
      unfold js_or. rewrite !(proj2 (truthy_text X) HX'). cbn [call_trim].
      now rewrite (proj2 (truthy_text (trim X)) HX).
    + intros Hparse Hdata. rewrite (decodeToken_bare _ Hparse).
      now rewrite (proj2 (truthy_text data) Hdata).
    + intros Hparse Hdata. rewrite (decodeTokenTrimmed_bare _ Hparse).
      now rewrite (proj2 (truthy_text (trim data)) Hdata).
    + intros ->. now rewrite (decodeToken_bare _ JSON_parse_empty).
    + intros ->. now rewrite (decodeTokenTrimmed_bare _ JSON_parse_empty).
Qed.

Lemma decodeToken_parsed (data : string) (v : value) :
  JSON_parse data = Some v -> v <> VNull -> v <> VUndefined ->
  decodeToken data = field v "token".
Proof.
  unfold decodeToken, field. intros -> Hnull Hundef.
  destruct v; try reflexivity; congruence.
Qed.

Lemma decodeTokenTrimmed_parsed (data : string) (v : value) :
  JSON_parse data = Some v -> v <> VNull -> v <> VUndefined ->
  truthy (field v "token") = false ->
  truthy (field v "access_token") = false ->
  decodeTokenTrimmed data = EmptyString.
Proof.
  unfold decodeTokenTrimmed, field. intros -> Hnull Hundef.
  destruct v; try congruence; cbn [get_prop obind]; intros Ht Ha;
    try reflexivity.
  unfold js_or. now rewrite Ht, Ha.
Qed.

(** A credential file that parses to a JSON value other than [null] and
    has no usable [token] (no such member, or a falsy one such as the
    empty text): the loader of [list-pages.js] reports the credential as
    missing and [ensureGraphClient] throws; neither takes the file content
    for the token. The loader of [listSections] does the same when the
    value has no usable [access_token] either. *)
Lemma parsed_value_without_token_is_missing
        (w : World) (data : string) (v : value) :
  files w !! tokenFilePath = Some data ->
  v <> VNull ->
  v <> VUndefined ->
  truthy (field v "token") = false ->
  (JSON_parse data = Some v ->
   loadToken w = (Ok CredentialMissing, record_event no_token_in_file w) /\
   (graphClient w = false ->
    fst (ensureGraphClient w) =
      Throw "Access token not found. Please save access token first.")) /\
  (JSON_parse (trim data) = Some v ->
   truthy (field v "access_token") = false ->
   loadTokenTrimmed w = (Ok CredentialMissing, record_event no_token_in_file w)).
Proof.
  intros Hfile Hnull Hundef Htoken. split.
  - intros Hparse. split.
    + rewrite (loadToken_present _ _ Hfile).
      rewrite (decodeToken_parsed _ _ Hparse Hnull Hundef). now rewrite Htoken.
    + intros Hclient.
      rewrite (ensureGraphClient_fresh _ _ Hclient Hfile).
      rewrite (decodeToken_parsed _ _ Hparse Hnull Hundef). now rewrite Htoken.
  - intros Hparse Haccess.
    rewrite (loadTokenTrimmed_present _ _ Hfile).
    now rewrite (decodeTokenTrimmed_parsed _ _ Hparse Hnull Hundef Htoken Haccess).
Qed.

End CredentialClaims.

Lemma credential_loading_witness :
  let w := world_with_token (one_member "token" "eyJ0.abc") in
  files w !! tokenFilePath = Some (one_member "token" "eyJ0.abc") /\
  @JSON_parse Reference.engine (one_member "token" "eyJ0.abc") =
    Some (VObj [("token", VStr "eyJ0.abc")]) /\
  @loadToken Reference.engine w = (Ok (Token (VStr "eyJ0.abc")), w).
Proof.
  intros w.
  assert (Hfile : files w !! tokenFilePath = Some (one_member "token" "eyJ0.abc"))
    by reflexivity.
  assert (Hparse : @JSON_parse Reference.engine (one_member "token" "eyJ0.abc") =
                   Some (VObj [("token", VStr "eyJ0.abc")])) by reflexivity.
  split; [exact Hfile | split; [exact Hparse |]].
  refine (proj1 (proj2 (@credential_loading Reference.engine w) _ Hfile)
                _ _ Hparse eq_refl _).
  discriminate.
Defined.

(** C4, as stated, fails: the loader of [list-pages.js] returns a bare
    token with the line break that ends the file. *)
Lemma bare_token_is_not_trimmed : ~ @bare_token_is_trimmed Reference.engine.
Proof.
  intros Hclaim.
  assert (Hbare : trim ("eyJ0.abc" ++ BulkExport.newline) <> EmptyString)
    by discriminate.
  specialize (Hclaim (world_with_token ("eyJ0.abc" ++ BulkExport.newline))
                     ("eyJ0.abc" ++ BulkExport.newline) eq_refl eq_refl Hbare).
  vm_compute in Hclaim. discriminate.
Qed.

(** A content that is JSON only once it is trimmed: a form feed before an
    object. The loader of [list-pages.js] takes the content for a bare
    token, the loader of [listSections] reads the object. *)
Example trimmed_content_is_json :
  let data := String "012" (one_member "token" "X") in
  let w := world_with_token data in
  @JSON_parse Reference.engine data = None /\
  fst (@loadToken Reference.engine w) = Ok (Token (VStr data)) /\
  fst (@loadTokenTrimmed Reference.engine w) = Ok (Token (VStr "X")).
Proof. vm_compute. repeat split. Qed.

Lemma parsed_value_without_token_is_missing_witness :
  let w := world_with_token (one_member "access_token" "X") in
  let v := VObj [("access_token", VStr "X")] in
  files w !! tokenFilePath = Some (one_member "access_token" "X") /\
  v <> VNull /\ v <> VUndefined /\
  truthy (field v "token") = false /\
  @JSON_parse Reference.engine (one_member "access_token" "X") = Some v /\
  @loadToken Reference.engine w =
    (Ok CredentialMissing, record_event no_token_in_file w).
Proof.
  intros w v.
  assert (Hparse : @JSON_parse Reference.engine (one_member "access_token" "X") =
                   Some v) by reflexivity.
  assert (Hnull : v <> VNull) by discriminate.
  assert (Hundef : v <> VUndefined) by discriminate.
  split; [reflexivity |]. split; [exact Hnull |]. split; [exact Hundef |].
  split; [reflexivity |]. split; [exact Hparse |].
  exact (proj1 (proj1 (@parsed_value_without_token_is_missing Reference.engine
                         w _ v eq_refl Hnull Hundef eq_refl) Hparse)).
Defined.

(** Without the exception for [null] the sentence fails. *)
Lemma null_file_is_not_missing : ~ @parsed_without_token_is_missing Reference.engine.
Proof.
  intros Hclaim.
  specialize (Hclaim (world_with_token "null") "null" VNull
                     eq_refl eq_refl eq_refl).
  vm_compute in Hclaim. discriminate.
Qed.

(** C9 does not hold of the code: a credential file that holds the JSON
    literal [null] parses as JSON and yields no token, yet no loader
    reports the credential as missing. Reading [token] of [null] throws
    inside the [try] block, the handler written for content that is not
    JSON takes the exception, and the file content, the text [null], is
    the token: both loaders return it, and [ensureGraphClient] builds the
    client with it. *)
Theorem null_file_is_taken_for_the_token :
  let w := world_with_token "null" in
  @JSON_parse Reference.engine "null" = Some VNull /\
  fst (@loadToken Reference.engine w) = Ok (Token (VStr "null")) /\
  fst (@loadTokenTrimmed Reference.engine w) = Ok (Token (VStr "null")) /\
  (let run := @ensureGraphClient Reference.engine w in
   fst run = Ok tt /\ accessToken (snd run) = VStr "null" /\
   graphClient (snd run) = true).
Proof. vm_compute. repeat split. Qed.

(** The loader of [listSections] accepts [access_token]. *)
Remark access_token_accepted :
  fst (@loadTokenTrimmed Reference.engine
         (world_with_token (one_member "access_token" " X "))) =
    Ok (Token (VStr "X")).
Proof. reflexivity. Qed.

(** ** Paginated listing *)

Section PaginationFacts.
Context `{Engine} (env : Env).

Lemma network_request (url : string) (w : World) :
  network (trace (record_event (ApiGet url) w)) = ApiGet url :: network (trace w).
Proof. reflexivity. Qed.

Lemma network_silent (e : event) (w : World) :
  is_request e = false ->
  network (trace (record_event e w)) = network (trace w).
Proof. unfold network. cbn. now intros ->. Qed.

Lemma pages_of_cons (r : collection) (rs : list collection) :
  pages_of (r :: rs) = (records r ++ pages_of rs)%list.
Proof. reflexivity. Qed.

Lemma pages_of_length (rs : list collection) :
  length (pages_of rs) = list_sum (map (fun r => length (records r)) rs).
Proof.
  induction rs as [|r rs IH]; [reflexivity |].
  rewrite pages_of_cons, length_app, IH. reflexivity.
Qed.

(** With every page fetched the loop of the MCP tool returns all records. *)
Lemma mcp_follow_links_all (rest : list collection) :
  forall (fuel : nat) (current : collection) (acc : list page) (w : World),
    continues env (network (trace w)) current rest ->
    (length rest <= fuel)%nat ->
    fst (McpListing.follow_links env fuel current acc w) =
      Ok (acc ++ pages_of rest)%list.
Proof.
  induction rest as [|next rest IH]; intros fuel current acc w Hserve Hfuel.
  - cbn in Hserve. destruct fuel; cbn; rewrite Hserve; cbn;
      now rewrite app_nil_r.
  - destruct Hserve as (Hlink & Hget & Hrest).
    destruct fuel as [|fuel]; [cbn in Hfuel; lia |].
    cbn [McpListing.follow_links]. rewrite Hlink.
    unfold bind, api_get_collection. rewrite Hget.
    rewrite IH; [| exact Hrest | cbn in Hfuel; lia].
    now rewrite pages_of_cons, app_assoc.
Qed.



(** The same loop in the script that lists one section. *)
Lemma single_follow_links_all (rest : list collection) :
  forall (fuel : nat) (current : collection) (acc : list page) (w : World),
    continues env (network (trace w)) current rest ->
    (length rest <= fuel)%nat ->
    fst (ListPagesSingle.follow_links env fuel current acc w) =
      Ok (acc ++ pages_of rest)%list.
Proof.
  induction rest as [|next rest IH]; intros fuel current acc w Hserve Hfuel.
  - cbn in Hserve. destruct fuel; cbn; rewrite Hserve; cbn;
      now rewrite app_nil_r.
  - destruct Hserve as (Hlink & Hget & Hrest).
    destruct fuel as [|fuel]; [cbn in Hfuel; lia |].
    cbn [ListPagesSingle.follow_links]. rewrite Hlink.
    unfold bind, api_get_collection. rewrite Hget.
    rewrite IH; [| exact Hrest | cbn in Hfuel; lia].
    now rewrite pages_of_cons, app_assoc.
Qed.

End PaginationFacts.

Section BatchFacts.
Context `{Engine} (env : Env).

(** With every batch fetched the batch loop returns all records. *)
Lemma batches_all (indent : string) (rest : list collection) :
  forall (fuel : nat) (current : collection) (acc : list page) (n : nat)
         (w : World),
    continues env (network (trace w)) current rest ->
    (length rest <= fuel)%nat ->
    exists w',
      ListPages.fetch_batches env indent fuel current acc n w =
        (Ok ((acc ++ pages_of rest)%list, (n + length rest)%nat), w').
Proof.
  induction rest as [|next rest IH]; intros fuel current acc n w Hserve Hfuel.
  - cbn in Hserve. exists w.
    destruct fuel; cbn; rewrite Hserve; unfold ret;
      now rewrite app_nil_r, Nat.add_0_r.
  - destruct Hserve as (Hlink & Hget & Hrest).
    destruct fuel as [|fuel]; [cbn in Hfuel; lia |].
    cbn [ListPages.fetch_batches]. rewrite Hlink.
    unfold bind at 1. unfold try_catch, bind, sleep, emit, api_get_collection.
    rewrite network_silent by reflexivity. rewrite Hget.
    cbn [console_log emit ret].
    match goal with
    | |- context [ListPages.fetch_batches _ _ _ _ _ _ ?W] =>
        destruct (IH fuel next (acc ++ records next)%list (S n) W) as [w' Hw'];
        [exact Hrest | cbn in Hfuel; lia |]
    end.
    exists w'. rewrite Hw'. rewrite pages_of_cons, app_assoc.
    cbn [length]. now rewrite Nat.add_succ_r.
Qed.


End BatchFacts.

Section PaginationClaims.
Context `{Engine} (env : Env).

Lemma ensureGraphClient_ready (w : World) :
  graphClient w = true -> ensureGraphClient w = (Ok tt, w).
Proof. unfold ensureGraphClient. now intros ->. Qed.

(** The [listPages] tool under [fetchAll], once the section is known. *)
Lemma mcp_listPages_fetchAll (w : World) (sectionId : value)
      (top : option (Z * Z)) (fuel : nat) (first : collection) :
  graphClient w = true ->
  truthy sectionId = true ->
  get_collection env (network (trace w))
                 (McpListing.with_top (section_pages sectionId) top) = Ok first ->
  McpListing.listPages env sectionId top VUndefined (VBool true) fuel w =
    let w1 := record_event
                (ApiGet (McpListing.with_top (section_pages sectionId) top)) w in
    match McpListing.follow_links env fuel first (records first) w1 with
    | (Ok all, w2) => (Ok (mkListing all VUndefined), w2)
    | (Throw msg, w2) =>
        (Throw ("Failed to list pages: " ++ msg),
         record_event (ConsoleError ("Error listing pages: " ++ msg)) w2)
    | (Diverge, w2) => (Diverge, w2)
    end.
Proof.
  intros Hready Hsection Hfirst.
  unfold McpListing.listPages, try_catch. unfold bind at 1.
  rewrite (ensureGraphClient_ready _ Hready). cbn [truthy].
  rewrite Hsection. cbn [negb]. unfold bind at 1. unfold ret at 1.
  unfold bind at 1. unfold api_get_collection at 1.
  unfold section_pages in *. rewrite Hfirst. cbv zeta.
  unfold bind at 1.
  destruct (McpListing.follow_links env fuel first (records first) _)
    as [[all | msg |] w2]; reflexivity.
Qed.

(** C2: when every page of a listing is fetched, the records accumulated
    under [fetchAll] are the records of the pages, page after page in the
    order of the fetches, and their number is the sum of the page sizes;
    this holds for the [listPages] tool of the MCP server and for the
    loops of both listing scripts, with any fuel that covers the pages. *)
Theorem fetch_all_concatenates
        (first : collection) (rest : list collection) (fuel : nat) :
  (length rest <= fuel)%nat ->
  (forall (w : World) (sectionId : value) (top : option (Z * Z)),
     graphClient w = true ->
     truthy sectionId = true ->
     get_collection env (network (trace w))
                    (McpListing.with_top (section_pages sectionId) top) = Ok first ->
     continues env
       (ApiGet (McpListing.with_top (section_pages sectionId) top) ::
        network (trace w)) first rest ->
     fst (McpListing.listPages env sectionId top VUndefined (VBool true) fuel w) =
       Ok (mkListing (pages_of (first :: rest)) VUndefined)) /\
  (forall w : World,
     continues env (network (trace w)) first rest ->
     fst (ListPagesSingle.accumulate env true fuel first w) =
       Ok (pages_of (first :: rest)) /\
     forall sectioned : bool,
       fst (ListPages.accumulate env sectioned true fuel first w) =
         Ok (pages_of (first :: rest))) /\
  length (pages_of (first :: rest)) =
    list_sum (map (fun r => length (records r)) (first :: rest)).
Proof.
  intros Hfuel. split; [| split].
  - intros w sectionId top Hready Hsection Hfirst Hserve.
    rewrite (mcp_listPages_fetchAll _ _ _ _ _ Hready Hsection Hfirst). cbv zeta.
    pose proof (mcp_follow_links_all env rest fuel first (records first)
                  (record_event (ApiGet _) w) Hserve Hfuel) as Hrun.
    destruct (McpListing.follow_links _ _ _ _ _) as [o w2].
    cbn in Hrun. subst o. reflexivity.
  - intros w Hserve. split.
    + unfold ListPagesSingle.accumulate. cbn [andb].
      destruct (truthy (c_nextLink first)) eqn:Hlink.
      * now apply single_follow_links_all.
      * destruct rest as [|next rest']; [| destruct Hserve; congruence].
        unfold ret. cbn [fst]. rewrite pages_of_cons. cbn.
        now rewrite app_nil_r.
    + intros sectioned. unfold ListPages.accumulate. cbn [andb]. cbv zeta.
      destruct (truthy (c_nextLink first)) eqn:Hlink.
      * unfold bind at 1. unfold console_log at 1. unfold emit at 1.
        cbv beta iota. unfold bind at 1.
        match goal with
        | |- context [ListPages.fetch_batches _ ?indent _ _ _ _ ?W] =>
            destruct (batches_all env indent rest fuel first (records first) 1 W
                        Hserve Hfuel) as [w' Hw']
        end.
        rewrite Hw'. cbv beta iota.
        destruct sectioned; [destruct (1 <? 1 + length rest)%nat |];
          reflexivity.
      * destruct rest as [|next rest']; [| destruct Hserve; congruence].
        unfold ret. cbn [fst]. rewrite pages_of_cons. cbn.
        now rewrite app_nil_r.
  - apply pages_of_length.
Qed.


End PaginationClaims.

Lemma fetch_all_concatenates_witness :
  (length [second_of_s1; third_of_s1] <= 2)%nat /\
  fst (@McpListing.listPages Reference.engine three_pages (VStr "s1") None
         VUndefined (VBool true) 2 ready_world) =
    Ok (mkListing [sample_page "1"; sample_page "2"; sample_page "3";
                   sample_page "4"; sample_page "2"] VUndefined).
Proof.
  assert (Hfuel : (length [second_of_s1; third_of_s1] <= 2)%nat) by (cbn; lia).
  split; [exact Hfuel |].
  refine (proj1 (@fetch_all_concatenates Reference.engine three_pages first_of_s1
                   [second_of_s1; third_of_s1] 2 Hfuel)
                ready_world (VStr "s1") None eq_refl eq_refl eq_refl _).
  cbn. repeat split; reflexivity.
Defined.



(** ** Reasoning about runs *)

Section Runs.

Lemma wp_ret {A} (a : A) (w : World) (Q : outcome A -> World -> Prop) :
  Q (Ok a) w -> wp (ret a) w Q.
Proof. exact (fun q => q). Qed.

Lemma wp_throw {A} (msg : string) (w : World) (Q : outcome A -> World -> Prop) :
  Q (Throw msg) w -> wp (throw msg) w Q.
Proof. exact (fun q => q). Qed.

Lemma wp_lift {A} (o : outcome A) (w : World) (Q : outcome A -> World -> Prop) :
  Q o w -> wp (lift o) w Q.
Proof. exact (fun q => q). Qed.

Lemma wp_emit (e : event) (w : World) (Q : outcome unit -> World -> Prop) :
  Q (Ok tt) (record_event e w) -> wp (emit e) w Q.
Proof. exact (fun q => q). Qed.

Lemma wp_bind {A B} (m : IO A) (k : A -> IO B) (w : World)
      (Q : outcome B -> World -> Prop) :
  wp m w (fun o w1 =>
            match o with
            | Ok a => wp (k a) w1 Q
            | Throw msg => Q (Throw msg) w1
            | Diverge => Q Diverge w1
            end) ->
  wp (bind m k) w Q.
Proof.
  unfold wp, bind. destruct (m w) as [[a | msg |] w1]; cbn; auto.
Qed.

Lemma wp_try_catch {A} (body : IO A) (handler : string -> IO A) (w : World)
      (Q : outcome A -> World -> Prop) :
  wp body w (fun o w1 =>
               match o with
               | Throw msg => wp (handler msg) w1 Q
               | _ => Q o w1
               end) ->
  wp (try_catch body handler) w Q.
Proof.
  unfold wp, try_catch. destruct (body w) as [[a | msg |] w1]; cbn; auto.
Qed.

Lemma wp_mono {A} (m : IO A) (w : World) (Q Q' : outcome A -> World -> Prop) :
  wp m w Q -> (forall o w', Q o w' -> Q' o w') -> wp m w Q'.
Proof. unfold wp. auto. Qed.

Lemma quiet_refl (w : World) : quiet_since w w.
Proof. repeat split. Qed.

Lemma quiet_trans (w1 w2 w3 : World) :
  quiet_since w1 w2 -> quiet_since w2 w3 -> quiet_since w1 w3.
Proof. unfold quiet_since. intuition congruence. Qed.

Lemma quiet_log (e : event) (w0 w : World) :
  is_effect e = false -> quiet_since w0 w -> quiet_since w0 (record_event e w).
Proof.
  unfold quiet_since, effects. cbn. intros ->. tauto.
Qed.

Lemma asked_log (e : event) (url : string) (w0 w : World) :
  is_effect e = false -> asked_since url w0 w ->
  asked_since url w0 (record_event e w).
Proof.
  unfold asked_since, effects. cbn. intros ->. tauto.
Qed.

Lemma quiet_ask (url : string) (w0 w : World) :
  quiet_since w0 w -> asked_since url w0 (record_event (ApiGet url) w).
Proof.
  unfold quiet_since, asked_since, effects. cbn. intuition congruence.
Qed.

Lemma effects_network (tr : list event) :
  network tr = List.filter is_request (effects tr).
Proof.
  unfold network, effects. induction tr as [|e tr IH]; [reflexivity |].
  destruct e; cbn; now rewrite ?IH.
Qed.

Lemma quiet_network (w0 w : World) :
  quiet_since w0 w -> network (trace w) = network (trace w0).
Proof.
  intros (_ & _ & Heff).
  rewrite (effects_network (trace w)), (effects_network (trace w0)).
  now rewrite Heff.
Qed.

End Runs.

Ltac since :=
  repeat first
    [ assumption
    | apply quiet_refl
    | apply quiet_log; [reflexivity |]
    | apply asked_log; [reflexivity |]
    | apply quiet_ask ].

Ltac wp_step :=
  lazymatch goal with
  | |- wp (bind _ _) _ _ => apply wp_bind
  | |- wp (try_catch _ _) _ _ => apply wp_try_catch
  | |- wp (ret _) _ _ => apply wp_ret
  | |- wp (throw _) _ _ => apply wp_throw
  | |- wp (lift _) _ _ => apply wp_lift
  | |- wp (console_log _) _ _ => apply wp_emit
  | |- wp (console_error _) _ _ => apply wp_emit
  | |- wp (sleep _) _ _ => apply wp_emit
  | |- wp (emit _) _ _ => apply wp_emit
  end; cbv beta iota zeta.

Section Retrieval.
Context `{Engine} (env : Env).


Lemma wp_readFileSync (path : string) (w : World)
      (Q : outcome string -> World -> Prop) :
  (forall data, Q (Ok data) w) -> (forall msg, Q (Throw msg) w) ->
  wp (readFileSync path) w Q.
Proof.
  intros Hok Hthrow. unfold wp, readFileSync.
  destruct (files w !! path); cbn; auto.
Qed.

Lemma wp_api_get_page (url : string) (w : World)
      (Q : outcome page -> World -> Prop) :
  Q (get_page env (network (trace w)) url) (record_event (ApiGet url) w) ->
  wp (api_get_page env url) w Q.
Proof. exact (fun q => q). Qed.

(** [ensureGraphClient] touches neither the network nor the disk. *)
Lemma wp_ensureGraphClient (w : World) (Q : outcome unit -> World -> Prop) :
  (forall w', quiet_since w w' -> Q (Ok tt) w') ->
  (forall msg w', quiet_since w w' -> Q (Throw msg) w') ->
  wp ensureGraphClient w Q.
Proof.
  intros Hok Hthrow. unfold wp, ensureGraphClient.
  destruct (graphClient w); [apply Hok, quiet_refl |].
  unfold bind, try_catch, existsSync, readFileSync, set_accessToken,
    get_accessToken, set_graphClient, throw, console_error, emit, ret.
  destruct (bool_decide _ || bool_decide _); cbn.
  - destruct (files w !! tokenFilePath) as [data |]; cbn.
    + destruct (truthy (decodeToken data)); cbn;
        [apply Hok | apply Hthrow]; repeat split.
    + destruct (truthy (accessToken w)); cbn;
        [apply Hok | apply Hthrow]; repeat split.
  - destruct (truthy (accessToken w)); cbn;
      [apply Hok | apply Hthrow]; repeat split.
Qed.

(** The token loading of the scripts touches neither the network nor the
    disk. *)
Lemma wp_loadToken (w : World) (Q : outcome credential -> World -> Prop) :
  (forall c w', quiet_since w w' -> Q (Ok c) w') ->
  (forall msg w', quiet_since w w' -> Q (Throw msg) w') ->
  wp loadToken w Q.
Proof.
  intros Hok Hthrow. unfold wp, loadToken.
  unfold bind, existsSync, readFileSync, console_error, emit, ret.
  destruct (bool_decide _ || bool_decide _); cbn.
  - destruct (files w !! tokenFilePath) as [data |]; cbn.
    + destruct (truthy (decodeToken data)); cbn; apply Hok; repeat split.
    + apply Hthrow. repeat split.
  - apply Hok. repeat split.
Qed.

Lemma wp_getAccessToken (w : World) (Q : outcome value -> World -> Prop) :
  (forall t w', quiet_since w w' -> Q (Ok t) w') ->
  wp GetPage.getAccessToken w Q.
Proof.
  intros Hok. unfold wp, GetPage.getAccessToken.
  unfold try_catch, bind, readFileSync, console_error, emit, ret.
  destruct (files w !! tokenFilePath) as [data |]; cbn; apply Hok; repeat split.
Qed.

(** A record that the filter of the MCP server excludes is excluded by the
    filter of the command line tools, which only prints the reason. *)
Lemma cli_filter_agrees (p : page) (why : string) (w : World) :
  Mcp.shouldSkipPage p = Ok (mkSkipCheck true (Some why)) ->
  Cli.shouldSkipPage p w =
    (Ok true, record_event (ConsoleLog ("Skipping page: " ++ why)) w).
Proof.
  unfold Mcp.shouldSkipPage, Cli.shouldSkipPage, bind, lift.
  destruct (call_toLowerCase _) as [lowered | |]; cbn [obind]; try discriminate.
  destruct (_ || _).
  - intros [= <-]. reflexivity.
  - destruct (truthy (lastModifiedDateTime p)); [| discriminate].
    destruct (date_lt _ _); [| discriminate].
    destruct (toISOString _) as [iso | |]; cbn [obind]; try discriminate.
    intros [= <-]. reflexivity.
Qed.

End Retrieval.

Ltac wp_run :=
  repeat first
    [ wp_step
    | lazymatch goal with
      | |- wp (if ?b then _ else _) _ _ => destruct b eqn:?
      | |- wp (match ?x with _ => _ end) _ _ => destruct x eqn:?
      end ].

Section ExcludedRecords.
Context `{Engine} (env : Env).

Lemma wp_cli_excluded (p : page) (why : string) (w : World)
      (Q : outcome bool -> World -> Prop) :
  Mcp.shouldSkipPage p = Ok (mkSkipCheck true (Some why)) ->
  Q (Ok true) (record_event (ConsoleLog ("Skipping page: " ++ why)) w) ->
  wp (Cli.shouldSkipPage p) w Q.
Proof.
  intros Hskip HQ. unfold wp. now rewrite (cli_filter_agrees _ _ _ Hskip).
Qed.

Lemma wp_hasRecentFileByTitle (pageTitle : string) (days : Z) (w : World)
      (Q : outcome (option string) -> World -> Prop) :
  (forall found, Q (Ok found) w) ->
  wp (BulkExport.hasRecentFileByTitle env pageTitle days) w Q.
Proof.
  intros HQ. unfold wp, BulkExport.hasRecentFileByTitle.
  unfold bind, existsSync, readdirSync, date_now, ret.
  destruct (bool_decide _ || bool_decide _); cbn; [| apply HQ].
  destruct (Date_local _) as [[y m] d]. apply HQ.
Qed.

Section OnePage.
Variables (w : World) (pageId : string) (p : page).
Hypothesis Hmeta : get_page env (network (trace w)) (metadata_url pageId) = Ok p.

Lemma metadata_answer (w1 : World) :
  quiet_since w w1 ->
  get_page env (network (trace w1)) ("/me/onenote/pages/" ++ pageId) = Ok p.
Proof. intros Hq. now rewrite (quiet_network w w1 Hq). Qed.

Lemma downloadFile_excluded (filePath : value) (why : string) :
  Mcp.shouldSkipPage p = Ok (mkSkipCheck true (Some why)) ->
  wp (McpTools.downloadFile env (VStr pageId) filePath) w
     (skipped_with ("Page skipped: " ++ why) pageId w).
Proof.
  intros Hskip. unfold McpTools.downloadFile.
  do 4 wp_step.
  apply wp_ensureGraphClient; [intros w1 Hq | intros msg w1 Hq]; cbv beta iota;
    wp_run; try (split; [discriminate | left; since]).
  apply wp_api_get_page. cbn [ToString].
  rewrite metadata_answer by since. cbv beta iota. wp_run.
  rewrite Hskip. cbv beta iota. cbn [skip reason show_reason from_option Datatypes.id].
  wp_run. split; [now intros r [= <-] | right; since].
Qed.

Lemma getPage_excluded (why : string) :
  Mcp.shouldSkipPage p = Ok (mkSkipCheck true (Some why)) ->
  wp (McpTools.getPage env (VStr pageId)) w
     (skipped_with ("Page skipped: " ++ why) pageId w).
Proof.
  intros Hskip. unfold McpTools.getPage.
  do 4 wp_step.
  apply wp_ensureGraphClient; [intros w1 Hq | intros msg w1 Hq]; cbv beta iota;
    wp_run; try (split; [discriminate | left; since]).
  apply wp_api_get_page. cbn [ToString].
  rewrite metadata_answer by since. cbv beta iota. wp_run.
  rewrite Hskip. cbv beta iota. cbn [skip reason show_reason from_option Datatypes.id].
  wp_run. split; [now intros r [= <-] | right; since].
Qed.

Lemma getPageContent_excluded (why : string) :
  Mcp.shouldSkipPage p = Ok (mkSkipCheck true (Some why)) ->
  wp (McpTools.getPageContent env (VStr pageId)) w
     (skipped_with ("Page skipped: " ++ why) pageId w).
Proof.
  intros Hskip. unfold McpTools.getPageContent.
  do 4 wp_step.
  apply wp_ensureGraphClient; [intros w1 Hq | intros msg w1 Hq]; cbv beta iota;
    wp_run; try (split; [discriminate | left; since]).
  apply wp_api_get_page. cbn [ToString].
  rewrite metadata_answer by since. cbv beta iota. wp_run.
  rewrite Hskip. cbv beta iota. cbn [skip reason show_reason from_option Datatypes.id].
  wp_run. split; [now intros r [= <-] | right; since].
Qed.

Lemma get_page_script_excluded (why : string) :
  Mcp.shouldSkipPage p = Ok (mkSkipCheck true (Some why)) ->
  wp (GetPage.getPageContent env pageId) w (only_metadata pageId w).
Proof.
  intros Hskip. unfold GetPage.getPageContent.
  do 2 wp_step.
  apply wp_getAccessToken; intros t w1 Hq; cbv beta iota.
  wp_run; try (left; since).
  apply wp_api_get_page.
  rewrite metadata_answer by since. cbv beta iota. wp_run.
  apply (wp_cli_excluded _ _ _ _ Hskip). cbv beta iota.
  wp_run. right; since.
Qed.

Lemma get_page_content_script_excluded (why : string) :
  Mcp.shouldSkipPage p = Ok (mkSkipCheck true (Some why)) ->
  wp (GetPageContent.getPageContent env pageId) w (only_metadata pageId w).
Proof.
  intros Hskip. unfold GetPageContent.getPageContent.
  do 2 wp_step.
  apply wp_loadToken; [intros c w1 Hq | intros msg w1 Hq]; cbv beta iota;
    wp_run; try (left; since).
  apply wp_api_get_page.
  rewrite metadata_answer by since. cbv beta iota. wp_run.
  apply (wp_cli_excluded _ _ _ _ Hskip). cbv beta iota.
  wp_run. right; since.
Qed.

Lemma downloadPage_excluded (pageTitle : string) (fastMode : bool)
      (retryCount : nat) :
  Bulk.shouldSkipByDate p = true ->
  wp (BulkExport.downloadPage env pageId pageTitle fastMode retryCount) w
     (skipped_download pageId w).
Proof.
  intros Hdate. unfold BulkExport.downloadPage.
  assert (Hattempt :
            wp (BulkExport.attempt env pageId pageTitle fastMode) w
               (skipped_download pageId w)).
  { unfold BulkExport.attempt. wp_step.
    destruct fastMode.
    - apply wp_hasRecentFileByTitle. intros [filename |]; cbv beta iota.
      + wp_run. split; [now right | left; since].
      + do 3 wp_step. apply wp_api_get_page.
        rewrite metadata_answer by since. cbv beta iota.
        rewrite Hdate. wp_run. split; [now left | right; since].
    - wp_step. do 3 wp_step. apply wp_api_get_page.
      rewrite metadata_answer by since. cbv beta iota.
      rewrite Hdate. wp_run. split; [now left | right; since]. }
  destruct (1 - retryCount)%nat; cbn [BulkExport.downloadPage_retrying];
    apply wp_try_catch; apply (wp_mono _ _ _ _ Hattempt);
    intros o w' HQ; destruct HQ as [[-> | ->] Honly]; split; auto.
Qed.

End OnePage.
End ExcludedRecords.

(** C7, as amended: when the fetched metadata of a record is excluded by
    the filter, by its title or by its date, a run of the tools
    [downloadFile], [getPage] and [getPageContent] of the MCP server, which
    answer [Page skipped: <reason>], and of both command line retrievers
    leaves the files as they were and adds to the network at most the
    request of the metadata: no content is requested and nothing is
    written. [downloadPage] of the bulk driver checks the fetched metadata
    for the date only: when the date rule excludes the record, in either
    mode and at any retry count, it asks for no content and writes
    nothing. *)
Theorem excluded_record_is_never_fetched
        `{Engine} (env : Env) (w : World) (pageId : string) (p : page) :
  get_page env (network (trace w)) (metadata_url pageId) = Ok p ->
  (forall why : string,
     Mcp.shouldSkipPage p = Ok (mkSkipCheck true (Some why)) ->
     (forall filePath : value,
        wp (McpTools.downloadFile env (VStr pageId) filePath) w
           (skipped_with ("Page skipped: " ++ why) pageId w)) /\
     wp (McpTools.getPage env (VStr pageId)) w
        (skipped_with ("Page skipped: " ++ why) pageId w) /\
     wp (McpTools.getPageContent env (VStr pageId)) w
        (skipped_with ("Page skipped: " ++ why) pageId w) /\
     wp (GetPage.getPageContent env pageId) w (only_metadata pageId w) /\
     wp (GetPageContent.getPageContent env pageId) w (only_metadata pageId w)) /\
  (Bulk.shouldSkipByDate p = true ->
   forall (pageTitle : string) (fastMode : bool) (retryCount : nat),
     wp (BulkExport.downloadPage env pageId pageTitle fastMode retryCount) w
        (skipped_download pageId w)).
Proof.
  intros Hmeta. split.
  - intros why Hskip. split; [| split; [| split; [| split]]].
    + intros filePath. now apply downloadFile_excluded with (p := p).
    + now apply getPage_excluded with (p := p).
    + now apply getPageContent_excluded with (p := p).
    + now apply get_page_script_excluded with (p := p) (why := why).
    + now apply get_page_content_script_excluded with (p := p) (why := why).
  - intros Hdate pageTitle fastMode retryCount.
    now apply downloadPage_excluded with (p := p).
Qed.

Lemma excluded_record_is_never_fetched_witness :
  get_page old_page_service (network (trace ready_world)) (metadata_url "p1") =
    Ok old_page /\
  @Bulk.shouldSkipByDate Reference.engine old_page = true /\
  wp (@McpTools.downloadFile Reference.engine old_page_service (VStr "p1")
        (VStr "/tmp/notes.html")) ready_world
     (skipped_with
        ("Page skipped: " ++ date_reason "2021-06-01T08:30:00.000Z") "p1"
        ready_world) /\
  wp (@BulkExport.downloadPage Reference.engine old_page_service "p1"
        "Meeting notes" false 0) ready_world
     (skipped_download "p1" ready_world).
Proof.
  assert (Hmeta : get_page old_page_service (network (trace ready_world))
                           (metadata_url "p1") = Ok old_page) by reflexivity.
  pose proof (@excluded_record_is_never_fetched Reference.engine
                old_page_service ready_world "p1" old_page Hmeta)
    as (Hfilter & Hdate).
  split; [exact Hmeta | split; [reflexivity | split]].
  - exact (proj1 (Hfilter _ eq_refl) (VStr "/tmp/notes.html")).
  - exact (Hdate eq_refl "Meeting notes" false 0%nat).
Defined.

(** C7, as stated, fails for the bulk driver: the title rule is applied to
    the title of the page list, before the loop, and [downloadPage] checks
    the fetched metadata for the date only. A page that the list knows as
    [Diary] and whose fetched title is [Private diary] is excluded by the
    filter, yet its content is requested and written. *)
Lemma retitled_page_is_downloaded :
  ~ @excluded_record_is_never_downloaded Reference.engine.
Proof.
  intros Hclaim.
  specialize (Hclaim renamed_page_service ready_world "p7" "Diary"
                     renamed_page _ eq_refl eq_refl).
  unfold wp, only_metadata, quiet_since, asked_since in Hclaim.
  destruct Hclaim as [(_ & _ & Heffects) | (_ & _ & Heffects)];
    vm_compute in Heffects; discriminate Heffects.
Qed.

(** What the run on that page does: one request for the metadata, one for
    the content, and the file is written under the title of the list. *)
Example retitled_page_run :
  let run :=
    @BulkExport.downloadPage Reference.engine renamed_page_service "p7" "Diary"
      false 0 ready_world in
  (exists why,
     @Mcp.shouldSkipPage Reference.engine renamed_page =
       Ok (mkSkipCheck true (Some why))) /\
  Bulk.shouldSkipPageByTitle "Diary" = false /\
  fst run = Ok (BulkExport.Downloaded "Diary--20230301.html") /\
  files (snd run) !! (BulkExport.OUTPUT_DIR ++ "Diary--20230301.html") =
    Some "<html>diary</html>" /\
  network (trace (snd run)) =
    [HttpFetch (content_url "p7"); ApiGet (metadata_url "p7")].
Proof.
  cbv zeta. split; [eexists; vm_compute; reflexivity |].
  vm_compute. repeat split.
Qed.

(** ** The bulk export driver *)

Section Idempotence.
Context `{Engine} (env : Env).

Lemma wp_existsSync_exact (path : string) (w : World)
      (Q : outcome bool -> World -> Prop) :
  Q (Ok (bool_decide (is_Some (files w !! path)) ||
         bool_decide (path ∈ dirs w))) w ->
  wp (existsSync path) w Q.
Proof. exact (fun q => q). Qed.

(** C3, as amended: when the file expected for a record already exists (and
    the record is not excluded by date), a run of [downloadPage] skips the
    record without a content request and without writing. It first asks
    for the metadata, from which the date in the file name is taken; only
    in fast mode, when a recent file is found for the title, is the record
    skipped without any request. *)
Theorem existing_file_is_skipped
        (w : World) (pageId pageTitle : string) (p : page) (retryCount : nat) :
  get_page env (network (trace w)) (metadata_url pageId) = Ok p ->
  Bulk.shouldSkipByDate p = false ->
  is_Some (files w !! expected_path pageTitle p) ->
  BulkExport.downloadPage env pageId pageTitle false retryCount w =
    (Ok (BulkExport.Skipped "already exists"),
     record_event (ConsoleLog ("  Already exists: " ++ expected_name pageTitle p))
       (record_event (ApiGet (metadata_url pageId))
          (record_event (ConsoleLog ("Fetching metadata for: " ++ pageTitle)) w))) /\
  wp (BulkExport.downloadPage env pageId pageTitle true retryCount) w
     (already_exported pageId w).
Proof.
  intros Hmeta Hdate Hfile.
  assert (Hexists : forall w1 : World,
             files w1 = files w ->
             bool_decide (is_Some (files w1 !! expected_path pageTitle p)) ||
             bool_decide (expected_path pageTitle p ∈ dirs w1) = true).
  { intros w1 ->. now rewrite (bool_decide_eq_true_2 _ Hfile). }
  split.
  - unfold BulkExport.downloadPage.
    assert (Hattempt :
              BulkExport.attempt env pageId pageTitle false w =
                (Ok (BulkExport.Skipped "already exists"),
                 record_event
                   (ConsoleLog ("  Already exists: " ++ expected_name pageTitle p))
                   (record_event (ApiGet (metadata_url pageId))
                      (record_event
                         (ConsoleLog ("Fetching metadata for: " ++ pageTitle)) w)))).
    { unfold BulkExport.attempt, bind, ret, console_log, emit, api_get_page.
      rewrite network_silent by reflexivity.
      change ("/me/onenote/pages/" ++ pageId) with (metadata_url pageId).
      rewrite Hmeta, Hdate. unfold existsSync.
      change (BulkExport.OUTPUT_DIR ++ _) with (expected_path pageTitle p).
      rewrite Hexists by reflexivity. reflexivity. }
    destruct (1 - retryCount)%nat; cbn [BulkExport.downloadPage_retrying];
      unfold try_catch; now rewrite Hattempt.
  - unfold BulkExport.downloadPage.
    assert (Hattempt :
              wp (BulkExport.attempt env pageId pageTitle true) w
                 (already_exported pageId w)).
    { unfold BulkExport.attempt. wp_step.
      apply wp_hasRecentFileByTitle. intros [filename |]; cbv beta iota.
      - wp_run. right. split; [reflexivity | since].
      - do 3 wp_step. apply wp_api_get_page.
        rewrite metadata_answer with (p := p) (w := w) by (assumption || since).
        cbv beta iota. rewrite Hdate. wp_step.
        apply wp_existsSync_exact.
        change (BulkExport.OUTPUT_DIR ++ _) with (expected_path pageTitle p).
        rewrite Hexists by reflexivity. wp_run.
        left. split; [reflexivity | since]. }
    destruct (1 - retryCount)%nat; cbn [BulkExport.downloadPage_retrying];
      apply wp_try_catch; apply (wp_mono _ _ _ _ Hattempt);
      intros o w' [[-> Hw] | [-> Hw]]; cbv beta iota;
      ((now left) || (now right)).
Qed.

End Idempotence.

Lemma existing_file_is_skipped_witness :
  get_page recent_page_service (network (trace exported_world))
           (metadata_url "p2") = Ok recent_page /\
  @Bulk.shouldSkipByDate Reference.engine recent_page = false /\
  is_Some (files exported_world !!
             @expected_path Reference.engine "Roadmap: Q3" recent_page) /\
  fst (@BulkExport.downloadPage Reference.engine recent_page_service "p2"
         "Roadmap: Q3" false 0 exported_world) =
    Ok (BulkExport.Skipped "already exists").
Proof.
  assert (Hfile : is_Some (files exported_world !!
                             @expected_path Reference.engine "Roadmap: Q3"
                               recent_page))
    by (exists "<html>roadmap</html>"; reflexivity).
  split; [reflexivity | split; [reflexivity | split; [exact Hfile |]]].
  rewrite (proj1 (@existing_file_is_skipped Reference.engine recent_page_service
                    exported_world "p2" "Roadmap: Q3" recent_page 0
                    eq_refl eq_refl Hfile)).
  reflexivity.
Defined.

(** C3, as stated, fails: with the expected file in place the driver still
    asks for the metadata of the record. *)
Lemma existing_file_needs_metadata :
  ~ @existing_file_needs_no_request Reference.engine.
Proof.
  intros Hclaim.
  assert (Hfile : is_Some (files exported_world !!
                             @expected_path Reference.engine "Roadmap: Q3"
                               recent_page))
    by (exists "<html>roadmap</html>"; reflexivity).
  specialize (Hclaim recent_page_service exported_world "p2" "Roadmap: Q3"
                     recent_page eq_refl eq_refl Hfile).
  vm_compute in Hclaim. discriminate.
Qed.

Section Driver.
Context `{Engine} (env : Env).

Lemma wp_fetch (url : string) (w : World)
      (Q : outcome http_response -> World -> Prop) :
  Q (http_fetch env (network (trace w)) url) (record_event (HttpFetch url) w) ->
  wp (fetch env url) w Q.
Proof. exact (fun q => q). Qed.







End Driver.

Section Outcomes.
Import BulkExport.





End Outcomes.

Section DriverLoop.
Context `{Engine} (env : Env).
Import BulkExport.

Lemma account_spec (e : listed) (result : download_result) (st : LoopState)
      (w : World) :
  exists st1 stop w1,
    account e result st w = (Ok (st1, stop), w1) /\
    consecutiveFailures st1 = in_a_row (consecutiveFailures st) [result] /\
    failedPages st1 = (failedPages st ++ failures_of [e] [result])%list /\
    totalFailed st1 = (totalFailed st + length (failures_of [e] [result]))%nat /\
    (stop = true <-> (10 <= consecutiveFailures st1)%nat) /\
    quiet_since w w1.
Proof.
  destruct result as [why | filename | err]; cbn -[Nat.leb].
  - eexists _, false, w. repeat split; cbn; try lia; try discriminate.
    now rewrite app_nil_r.
  - eexists _, false, w. repeat split; cbn; try lia; try discriminate.
    now rewrite app_nil_r.
  - unfold MAX_CONSECUTIVE_FAILURES.
    destruct (Nat.leb_spec 10 (S (consecutiveFailures st))) as [Hle | Hlt].
    + eexists _, true, _. split; [reflexivity |].
      repeat split; cbn; try lia; try (intros; assumption).
    + eexists _, false, w. split; [reflexivity |].
      repeat split; cbn; try lia; try discriminate.
Qed.

(** One turn of the loop, from the results of its two steps. *)
Lemma loop_turn (fastMode : bool) (total i : nat) (e : listed)
      (rest : list listed) (st st1 : LoopState) (w w1 w2 : World)
      (result : download_result) (stop : bool) :
  downloadPage env (l_pageId e) (l_title e) fastMode 0
               (record_event (turn_header total i e) w) = (Ok result, w1) ->
  account e result st w1 = (Ok (st1, stop), w2) ->
  download_loop env fastMode total i (e :: rest) st w =
    if stop then (Ok (st1, [result]), w2)
    else
      match download_loop env fastMode total (S i) rest st1
                          (record_event (Sleep 100) w2) with
      | (Ok r, w3) => (Ok (fst r, result :: snd r), w3)
      | (Throw msg, w3) => (Throw msg, w3)
      | (Diverge, w3) => (Diverge, w3)
      end.
Proof.
  intros Hdl Hacc. cbn [download_loop].
  unfold bind at 1. unfold console_log at 1. unfold emit at 1. cbv beta iota.
  unfold bind at 1. fold (turn_header total i e). rewrite Hdl. cbv beta iota.
  unfold bind at 1. rewrite Hacc. cbv beta iota.
  destruct stop; [reflexivity |].
  unfold bind at 1. unfold sleep at 1. unfold emit at 1. cbv beta iota.
  unfold bind at 1.
  destruct (download_loop env fastMode total (S i) rest st1 _) as [[r | msg |] w3];
    reflexivity.
Qed.

End DriverLoop.

Section Breaker.
Context `{Engine} (env : Env).
Import BulkExport.


End Breaker.

Section BreakerClaim.
Context `{Engine} (env : Env).
Import BulkExport.


Lemma wp_write_done (path content : string) (w : World)
      (Q : outcome unit -> World -> Prop) :
  write_error env (trace w) path = None ->
  Q (Ok tt) (mkWorld (<[path := content]> (files w)) (dirs w)
                     (FileWrite path content :: trace w)
                     (accessToken w) (graphClient w)) ->
  wp (writeFileSync env path content) w Q.
Proof. intros Hnone HQ. unfold wp, writeFileSync. now rewrite Hnone. Qed.




End BreakerClaim.


(** Twelve records and a service that is down: the driver asks for the
    metadata of the first ten records, twice each, and for nothing else;
    the records 11 and 12 are never attempted. *)
Example twelve_failures_stop_at_ten :
  fst (@BulkExport.main Reference.engine service_down false twelve_pages
         ready_world) =
    Ok (BulkExport.mkLoopState 10 0 0 10
          (map (fun n : nat =>
                  BulkExport.mkFailure ("Page " ++ pretty n) ("id" ++ pretty n)
                                       "404 Not Found") (seq 1 10)),
        replicate 10 (BulkExport.Failed "404 Not Found")) /\
  files (snd (@BulkExport.main Reference.engine service_down false
                twelve_pages ready_world)) !! BulkExport.FAILED_DOWNLOADS_FILE =
    Some (join nl
            (map (fun n : nat =>
                    "Page " ++ pretty n ++ " -- id" ++ pretty n ++
                    " (Error: 404 Not Found)") (seq 1 10))) /\
  network (trace (snd (@BulkExport.main Reference.engine service_down false
                         twelve_pages ready_world))) =
    flat_map (fun n : nat =>
                [ApiGet (metadata_url ("id" ++ pretty n));
                 ApiGet (metadata_url ("id" ++ pretty n))])
             (rev (seq 1 10)).
Proof. split; [| split]; vm_compute; reflexivity. Qed.

(** Three records, the second of which fails twice: the driver goes on
    past the failure. *)
Example one_failure_does_not_stop :
  let service :=
    static_service
      [(metadata_url "a", Ok recent_page); (metadata_url "c", Ok recent_page)] []
      [(content_url "a", Ok (mkResponse true 200 "OK" "<p>a</p>"));
       (content_url "c", Ok (mkResponse true 200 "OK" "<p>c</p>"))] in
  obind (fst (@BulkExport.main Reference.engine service false
                     [BulkExport.mkListed "A" "a"; BulkExport.mkListed "B" "b";
                      BulkExport.mkListed "C" "c"] ready_world))
        (fun r => Ok (snd r)) =
    Ok [BulkExport.Downloaded "A--20220601.html";
        BulkExport.Failed "404 Not Found";
        BulkExport.Downloaded "C--20220601.html"].
Proof. vm_compute. reflexivity. Qed.

(** ** Texts *)

Lemma text_app_unit (c : ascii) (a b : string) :
  String c a ++ b = String c (a ++ b).
Proof. reflexivity. Qed.

Lemma text_app_empty (s : string) : s ++ EmptyString = s.
Proof.
  induction s as [|c s IH]; [reflexivity | now rewrite text_app_unit, IH].
Qed.

Lemma text_app_assoc (a b c : string) : (a ++ b) ++ c = a ++ b ++ c.
Proof.
  induction a as [|x a IH]; [reflexivity | now rewrite !text_app_unit, IH].
Qed.

Lemma text_app_length (a b : string) :
  String.length (a ++ b) = (String.length a + String.length b)%nat.
Proof.
  induction a as [|x a IH]; [reflexivity |].
  rewrite text_app_unit. cbn [String.length]. now rewrite IH.
Qed.

(** Two ways to cut one text: one of the first parts starts the other. *)
Lemma text_app_cut (a b c d : string) :
  a ++ b = c ++ d ->
  (exists e, a = c ++ e /\ d = e ++ b) \/ (exists e, c = a ++ e /\ b = e ++ d).
Proof.
  revert c. induction a as [|x a IH]; intros c Heq.
  - right. exists c. split; [reflexivity | exact Heq].
  - destruct c as [|y c].
    + left. exists (String x a). split; [reflexivity | now symmetry].
    + rewrite !text_app_unit in Heq. injection Heq as -> Heq.
      destruct (IH _ Heq) as [(e & -> & ->) | (e & -> & ->)];
        [left | right]; exists e; split; reflexivity.
Qed.

Lemma all_units_app (p : ascii -> bool) (a b : string) :
  all_units p (a ++ b) = all_units p a && all_units p b.
Proof.
  induction a as [|x a IH]; [reflexivity |].
  rewrite text_app_unit. cbn [all_units]. now rewrite IH, andb_assoc.
Qed.

Lemma all_units_weaken (p q : ascii -> bool) (s : string) :
  (forall c, p c = true -> q c = true) ->
  all_units p s = true -> all_units q s = true.
Proof.
  intros Hpq. induction s as [|c s IH]; cbn; [reflexivity |].
  rewrite !andb_true_iff. intros [Hc Hs]. split; auto.
Qed.

(** A text that holds the code unit [c] has a unit outside the class of
    the others. *)
Lemma includes_unit (c : ascii) (s : string) (p : ascii -> bool) :
  includes s (unit_text c) = true -> all_units p s = true -> p c = true.
Proof.
  intros Hin Hall. apply includes_spec in Hin as (pre & post & ->).
  change (unit_text c ++ post) with (String c post) in Hall.
  rewrite all_units_app in Hall. cbn [all_units] in Hall.
  apply andb_true_iff in Hall as [_ Hall].
  now apply andb_true_iff in Hall as [Hc _].
Qed.

Lemma includes_first_unit (c : ascii) (s : string) :
  includes (String c s) (unit_text c) = true.
Proof.
  cbn [includes startsWith unit_text]. rewrite Ascii.eqb_refl. now destruct s.
Qed.

(** ** File names *)

Lemma unsafe_unit_reserved (c : ascii) :
  unsafe_unit c = true <-> In (unit_text c) reserved.
Proof.
  destruct c as [[|] [|] [|] [|] [|] [|] [|] [|]]; vm_compute;
    (split; [intros Hu; try discriminate Hu; tauto | intros Hin; intuition congruence]).
Qed.

Lemma sanitizeFilename_units (filename : string) :
  all_units (fun c => negb (unsafe_unit c)) (sanitizeFilename filename) = true.
Proof.
  induction filename as [|c r IH]; cbn; [reflexivity |]. rewrite IH, andb_true_r.
  destruct (unsafe_unit c) eqn:Hc; [reflexivity | now rewrite Hc].
Qed.

(** The name [sanitizeFilename] returns has the length of the title, holds
    none of the [reserved] characters (so no path separator), and is the
    title itself when the title holds none of them. *)
Theorem sanitized_name_is_safe (filename : string) :
  String.length (sanitizeFilename filename) = String.length filename /\
  (forall c : string,
     In c reserved -> includes (sanitizeFilename filename) c = false) /\
  ((forall c : string, In c reserved -> includes filename c = false) ->
   sanitizeFilename filename = filename).
Proof.
  split; [| split].
  - induction filename as [|c r IH]; cbn; [reflexivity | now rewrite IH].
  - intros c Hc.
    destruct (includes (sanitizeFilename filename) c) eqn:Hin; [| reflexivity].
    assert (Hunit : exists u, c = unit_text u /\ unsafe_unit u = true).
    { cbn in Hc. unfold dq in Hc.
      repeat (destruct Hc as [<- | Hc]; [eexists; split; reflexivity |]).
      destruct Hc. }
    destruct Hunit as (u & -> & Hu).
    pose proof (includes_unit _ _ _ Hin (sanitizeFilename_units filename)) as Hsafe.
    cbv beta in Hsafe. now rewrite Hu in Hsafe.
  - induction filename as [|c r IH]; intros Hfree; [reflexivity |].
    cbn. destruct (unsafe_unit c) eqn:Hc.
    + apply unsafe_unit_reserved in Hc.
      specialize (Hfree _ Hc). now rewrite includes_first_unit in Hfree.
    + f_equal. apply IH. intros c' Hc'.
      specialize (Hfree _ Hc'). cbn [includes] in Hfree.
      now apply orb_false_iff in Hfree as [_ Hfree].
Qed.

Lemma plain_unit_lowered (c : ascii) :
  plain_unit (lower_unit (if is_alnum c then c else "_"%char)) = true.
Proof. destruct c as [[|] [|] [|] [|] [|] [|] [|] [|]]; reflexivity. Qed.

(** The file name the command line retrievers derive from the title of a
    page has the length of the title and holds only lower case letters,
    digits and underscores; a title that is no text makes the derivation
    throw. *)
Theorem safe_file_name_is_plain (t : value) :
  match t with
  | VStr s =>
      exists name,
        safeFileName t = Ok name /\
        String.length name = String.length s /\
        all_units plain_unit name = true
  | _ => exists msg, safeFileName t = Throw msg
  end.
Proof.
  destruct t as [| | b | m e | s | items | members]; cbn [safeFileName];
    try (eexists; reflexivity).
  eexists. split; [reflexivity |].
  induction s as [|c r [Hlen Hall]]; [split; reflexivity |].
  cbn [replace_non_alnum toLowerCase String.length all_units].
  rewrite Hlen, Hall, plain_unit_lowered. split; reflexivity.
Qed.

(** ** The console snippet *)

Lemma strip_tags_units (in_tag : bool) (s : string) :
  all_units (fun c => negb (Ascii.eqb c "<"%char)) (strip_tags in_tag s) = true.
Proof.
  revert in_tag. induction s as [|c r IH]; intros in_tag; [reflexivity |].
  cbn [strip_tags]. destruct in_tag; [apply IH |].
  destruct (Ascii.eqb c "<"%char) eqn:Hc; cbn [all_units].
  - now rewrite IH.
  - now rewrite Hc, IH.
Qed.

Lemma collapse_spaces_units (p : ascii -> bool) (after_space : bool) (s : string) :
  p " "%char = true ->
  all_units p s = true -> all_units p (collapse_spaces after_space s) = true.
Proof.
  intros Hsp. revert after_space.
  induction s as [|c r IH]; intros after_space Hall; [reflexivity |].
  cbn [all_units] in Hall. apply andb_true_iff in Hall as [Hc Hr].
  cbn [collapse_spaces].
  destruct (is_space c); [destruct after_space |]; cbn [all_units];
    rewrite ?Hsp, ?Hc, ?IH; auto.
Qed.

Lemma trimStart_units (p : ascii -> bool) (s : string) :
  all_units p s = true -> all_units p (trimStart s) = true.
Proof.
  induction s as [|c r IH]; [reflexivity |]. intros Hall. cbn [trimStart].
  destruct (is_space c); [| exact Hall].
  cbn [all_units] in Hall. apply andb_true_iff in Hall as [_ Hr]. auto.
Qed.

Lemma trimEnd_units (p : ascii -> bool) (s : string) :
  all_units p s = true -> all_units p (trimEnd s) = true.
Proof.
  induction s as [|c r IH]; [reflexivity |]. intros Hall.
  cbn [all_units] in Hall. apply andb_true_iff in Hall as [Hc Hr].
  cbn [trimEnd]. specialize (IH Hr).
  destruct (trimEnd r) as [|c' r'].
  - destruct (is_space c); cbn [all_units]; [reflexivity | now rewrite Hc].
  - cbn [all_units] in *. now rewrite Hc, IH.
Qed.

Lemma substring0_units (p : ascii -> bool) (n : nat) (s : string) :
  all_units p s = true -> all_units p (substring0 n s) = true.
Proof.
  revert s. induction n as [|n IH]; intros [|c r] Hall; try reflexivity.
  cbn [all_units] in Hall. apply andb_true_iff in Hall as [Hc Hr].
  cbn [substring0 all_units]. now rewrite Hc, IH.
Qed.

Lemma substring0_length (n : nat) (s : string) :
  (String.length (substring0 n s) <= n)%nat.
Proof.
  revert s. induction n as [|n IH]; intros [|c r]; cbn; try lia.
  specialize (IH r). lia.
Qed.

Lemma single_spaced_weaken (after_space : bool) (s : string) :
  single_spaced after_space s = true -> single_spaced false s = true.
Proof.
  destruct s as [|c r]; [reflexivity |]. cbn [single_spaced].
  destruct (is_space c); [| auto].
  rewrite !andb_true_iff. intros [[Hc _] Hr]. now rewrite Hc, Hr.
Qed.

Lemma collapse_spaces_single (after_space : bool) (s : string) :
  single_spaced after_space (collapse_spaces after_space s) = true.
Proof.
  revert after_space. induction s as [|c r IH]; intros after_space; [reflexivity |].
  cbn [collapse_spaces]. destruct (is_space c) eqn:Hc.
  - destruct after_space; [apply IH |]. cbn [single_spaced]. now rewrite IH.
  - cbn [single_spaced]. rewrite Hc. apply IH.
Qed.

Lemma trimStart_single (s : string) :
  single_spaced false s = true -> single_spaced false (trimStart s) = true.
Proof.
  induction s as [|c r IH]; [reflexivity |]. intros Hs. cbn [trimStart].
  destruct (is_space c) eqn:Hc; [| exact Hs].
  cbn [single_spaced] in Hs. rewrite Hc in Hs.
  apply andb_true_iff in Hs as [_ Hr]. apply IH.
  now apply single_spaced_weaken with (after_space := true).
Qed.

Lemma trimEnd_single (after_space : bool) (s : string) :
  single_spaced after_space s = true ->
  single_spaced after_space (trimEnd s) = true.
Proof.
  revert after_space. induction s as [|c r IH]; intros after_space Hs;
    [reflexivity |].
  cbn [trimEnd]. cbn [single_spaced] in Hs.
  destruct (is_space c) eqn:Hc.
  - apply andb_true_iff in Hs as [Hfirst Hr]. specialize (IH _ Hr).
    destruct (trimEnd r) as [|c' r']; [reflexivity |].
    cbn [single_spaced] in *. now rewrite Hc, Hfirst, IH.
  - specialize (IH _ Hs).
    destruct (trimEnd r) as [|c' r']; cbn [single_spaced] in *;
      rewrite Hc; [reflexivity | exact IH].
Qed.

Lemma substring0_single (after_space : bool) (n : nat) (s : string) :
  single_spaced after_space s = true ->
  single_spaced after_space (substring0 n s) = true.
Proof.
  revert after_space s. induction n as [|n IH]; intros after_space [|c r] Hs;
    try reflexivity.
  cbn [substring0 single_spaced] in *.
  destruct (is_space c); [| now apply IH].
  apply andb_true_iff in Hs as [Hfirst Hr]. now rewrite Hfirst, IH.
Qed.

Lemma single_spaced_dots (after_space : bool) (s : string) :
  single_spaced after_space s = true ->
  single_spaced after_space (s ++ "...") = true.
Proof.
  revert after_space. induction s as [|c r IH]; intros after_space Hs;
    [reflexivity |].
  rewrite text_app_unit. cbn [single_spaced] in *.
  destruct (is_space c); [| now apply IH].
  apply andb_true_iff in Hs as [Hfirst Hr]. now rewrite Hfirst, IH.
Qed.

(** A text with single spaces only holds neither two spaces in a row nor
    any other white space. *)
Lemma single_spaced_pair (after_space : bool) (pre post : string) :
  single_spaced after_space (pre ++ "  " ++ post) = false.
Proof.
  revert after_space. induction pre as [|c r IH]; intros after_space.
  - change (single_spaced after_space (String " " (String " " post)) = false).
    cbn [single_spaced]. change (is_space " "%char) with true. cbv iota.
    cbn [negb andb]. now rewrite andb_false_r.
  - rewrite text_app_unit. cbn [single_spaced].
    destruct (is_space c); rewrite IH; [apply andb_false_r | reflexivity].
Qed.

Lemma single_spaced_units (after_space : bool) (s : string) :
  single_spaced after_space s = true ->
  all_units (fun c => negb (is_space c) || Ascii.eqb c " "%char) s = true.
Proof.
  revert after_space. induction s as [|c r IH]; intros after_space Hs;
    [reflexivity |].
  cbn [single_spaced all_units] in *. destruct (is_space c).
  - apply andb_true_iff in Hs as [[Hc _]%andb_true_iff Hr].
    rewrite Hc. cbn. eauto.
  - cbn. eauto.
Qed.

Lemma plain_text_single (content : string) :
  single_spaced false (plain_text content) = true.
Proof.
  unfold plain_text, trim. apply trimEnd_single, trimStart_single.
  apply collapse_spaces_single.
Qed.

Lemma snippet_single (content : string) :
  single_spaced false (snippet_of content) = true.
Proof.
  unfold snippet_of. fold (plain_text content).
  destruct (_ <? _)%nat; [| apply plain_text_single].
  apply single_spaced_dots, substring0_single, plain_text_single.
Qed.

(** The snippet the command line retrievers print is at most 503 code
    units long and holds no tag opening, no two spaces in a row and no
    line break. *)
Theorem snippet_is_short_and_plain (content : string) :
  (String.length (snippet_of content) <= 503)%nat /\
  includes (snippet_of content) "<" = false /\
  includes (snippet_of content) "  " = false /\
  includes (snippet_of content) nl = false.
Proof.
  split; [| split; [| split]].
  - unfold snippet_of. destruct (Nat.ltb_spec 500 (String.length (trim
      (collapse_spaces false (strip_tags false content))))) as [Hlong | Hshort].
    + rewrite text_app_length. cbn [String.length].
      pose proof (substring0_length 500
                    (trim (collapse_spaces false (strip_tags false content)))).
      lia.
    + lia.
  - destruct (includes (snippet_of content) "<") eqn:Hin; [| reflexivity].
    assert (Hall : all_units (fun c => negb (Ascii.eqb c "<"%char))
                             (snippet_of content) = true).
    { unfold snippet_of.
      assert (Hplain : all_units (fun c => negb (Ascii.eqb c "<"%char))
                         (trim (collapse_spaces false (strip_tags false content)))
                       = true).
      { unfold trim. apply trimEnd_units, trimStart_units.
        apply collapse_spaces_units; [reflexivity | apply strip_tags_units]. }
      destruct (_ <? _)%nat; [| exact Hplain].
      rewrite all_units_app, substring0_units by exact Hplain. reflexivity. }
    pose proof (includes_unit "<"%char _ _ Hin Hall) as Habs. discriminate Habs.
  - destruct (includes (snippet_of content) "  ") eqn:Hin; [| reflexivity].
    apply includes_spec in Hin as (pre & post & Heq).
    pose proof (snippet_single content) as Hs.
    rewrite Heq, single_spaced_pair in Hs. discriminate Hs.
  - destruct (includes (snippet_of content) nl) eqn:Hin; [| reflexivity].
    pose proof (single_spaced_units _ _ (snippet_single content)) as Hall.
    pose proof (includes_unit "010"%char _ _ Hin Hall) as Habs.
    discriminate Habs.
Qed.

(** ** Numbers in texts *)

Lemma units_app (a b : string) :
  list_ascii_of_string (a ++ b) =
    (list_ascii_of_string a ++ list_ascii_of_string b)%list.
Proof.
  induction a as [|c a IH]; [reflexivity |].
  rewrite text_app_unit. cbn [list_ascii_of_string]. now rewrite IH.
Qed.

Lemma digits_value_last (ds : string) (c : ascii) :
  digits_value (ds ++ unit_text c) =
    10 * digits_value ds + (Z.of_N (N_of_ascii c) - 48).
Proof.
  unfold digits_value. rewrite units_app, fold_left_app. reflexivity.
Qed.

Lemma pretty_N_char_digit (k : N) :
  (k < 10)%N ->
  is_digit (pretty_N_char k) = true /\
  Z.of_N (N_of_ascii (pretty_N_char k)) - 48 = Z.of_N k.
Proof.
  intros Hk.
  assert (Hcases : (k = 0 \/ k = 1 \/ k = 2 \/ k = 3 \/ k = 4 \/ k = 5 \/
                    k = 6 \/ k = 7 \/ k = 8 \/ k = 9)%N) by lia.
  repeat (destruct Hcases as [-> | Hcases]; [split; reflexivity |]).
  subst k. split; reflexivity.
Qed.

(** The digits [pretty_N_go] puts before a text are the decimal digits of
    the number. *)
Lemma pretty_N_go_digits (x : N) :
  forall s : string,
    exists ds,
      pretty_N_go x s = ds ++ s /\
      all_units is_digit ds = true /\
      digits_value ds = Z.of_N x /\
      ((0 < x)%N -> ds <> EmptyString).
Proof.
  induction (N.lt_wf_0 x) as [x _ IH]. intros s.
  destruct (N.eq_dec x 0%N) as [-> | Hpos].
  - exists EmptyString. rewrite pretty_N_go_0. repeat split. lia.
  - rewrite pretty_N_go_step by lia.
    destruct (IH (x `div` 10)%N ltac:(apply N.div_lt; lia)
                 (String (pretty_N_char (x `mod` 10)) s))
      as (ds & -> & Hall & Hval & _).
    destruct (pretty_N_char_digit (x `mod` 10)%N ltac:(apply N.mod_lt; lia))
      as [Hdigit Hunit].
    exists (ds ++ unit_text (pretty_N_char (x `mod` 10))).
    rewrite text_app_assoc. split; [reflexivity |].
    rewrite all_units_app, Hall, digits_value_last, Hval, Hunit.
    cbn [unit_text all_units]. rewrite Hdigit. repeat split.
    + pose proof (N.div_mod x 10 ltac:(lia)). lia.
    + intros _. now destruct ds.
Qed.

(** The text of a natural number: decimal digits, at least one, that
    denote it. *)
Lemma pretty_N_text (n : N) :
  all_units is_digit (pretty n) = true /\
  pretty n <> EmptyString /\
  digits_value (pretty n) = Z.of_N n.
Proof.
  unfold pretty, pretty_N. destruct (decide (n = 0%N)) as [-> | Hn].
  - repeat split. discriminate.
  - destruct (pretty_N_go_digits n EmptyString) as (ds & -> & Hall & Hval & Hne).
    rewrite text_app_empty. repeat split; auto. apply Hne. lia.
Qed.

Lemma pretty_Z_N (z : Z) : 0 <= z -> pretty z = pretty (Z.to_N z).
Proof. intros Hz. destruct z as [| p | p]; [reflexivity | reflexivity | lia]. Qed.

Lemma pretty_nat_text (n : nat) :
  all_units is_digit (pretty n) = true /\
  pretty n <> EmptyString /\
  digits_value (pretty n) = Z.of_nat n.
Proof.
  unfold pretty, pretty_nat.
  destruct (pretty_N_text (N.of_nat n)) as (Hall & Hne & Hval).
  repeat split; auto. rewrite Hval. lia.
Qed.

Lemma pretty_Z_text (z : Z) :
  0 <= z ->
  all_units is_digit (pretty z) = true /\
  pretty z <> EmptyString /\
  digits_value (pretty z) = z.
Proof.
  intros Hz. rewrite (pretty_Z_N z Hz).
  destruct (pretty_N_text (Z.to_N z)) as (Hall & Hne & Hval).
  repeat split; auto. rewrite Hval. lia.
Qed.

(** The text of a number of four digits. *)
Lemma pretty_four_digits (y : Z) :
  1000 <= y <= 9999 ->
  exists a b c d,
    pretty y = String a (String b (String c (String d EmptyString))) /\
    all_units is_digit (pretty y) = true /\
    digits_value (pretty y) = y.
Proof.
  intros Hy. destruct (pretty_Z_text y ltac:(lia)) as (Hall & _ & Hval).
  rewrite (pretty_Z_N y ltac:(lia)) in *.
  set (n := Z.to_N y) in *. assert (Hn : (1000 <= n <= 9999)%N) by lia.
  clearbody n. unfold pretty, pretty_N in *.
  destruct (decide (n = 0%N)) as [-> | _]; [lia |].
  assert (Hstep : forall k : N,
             exists q r, (k = 10 * q + r /\ r < 10 /\ q = k / 10 /\ r = k mod 10)%N).
  { intros k. exists (k / 10)%N, (k mod 10)%N.
    pose proof (N.div_mod k 10 ltac:(lia)).
    pose proof (N.mod_lt k 10 ltac:(lia)). repeat split; assumption. }
  destruct (Hstep n) as (q1 & r1 & Hn1 & Hr1 & Hq1 & Hm1).
  destruct (Hstep q1) as (q2 & r2 & Hn2 & Hr2 & Hq2 & Hm2).
  destruct (Hstep q2) as (q3 & r3 & Hn3 & Hr3 & Hq3 & Hm3).
  destruct (Hstep q3) as (q4 & r4 & Hn4 & Hr4 & Hq4 & Hm4).
  assert (Hgo : pretty_N_go n EmptyString =
                String (pretty_N_char r4)
                  (String (pretty_N_char r3)
                     (String (pretty_N_char r2)
                        (String (pretty_N_char r1) EmptyString)))).
  { rewrite pretty_N_go_step, <- Hq1, <- Hm1 by lia.
    rewrite pretty_N_go_step, <- Hq2, <- Hm2 by lia.
    rewrite pretty_N_go_step, <- Hq3, <- Hm3 by lia.
    rewrite pretty_N_go_step, <- Hq4, <- Hm4 by lia.
    assert (Hzero : q4 = 0%N) by lia. rewrite Hzero. apply pretty_N_go_0. }
  rewrite Hgo in *. eauto 10.
Qed.

(** The text of a number below 100, padded to two digits. *)
Lemma padStart2_two_digits (k : Z) :
  0 <= k <= 99 ->
  exists a b,
    padStart2 (pretty k) = String a (String b EmptyString) /\
    all_units is_digit (padStart2 (pretty k)) = true /\
    digits_value (padStart2 (pretty k)) = k.
Proof.
  intros Hk.
  assert (Hall : Forall (fun k : Z =>
                   exists a b,
                     padStart2 (pretty k) = String a (String b EmptyString) /\
                     all_units is_digit (padStart2 (pretty k)) = true /\
                     digits_value (padStart2 (pretty k)) = k) (seqZ 0 100)).
  { repeat (constructor; [do 2 eexists; repeat split; reflexivity |]).
    constructor. }
  rewrite Forall_seqZ in Hall. apply Hall. lia.
Qed.

(** ** The names of the exported files *)

Section ExportNames.
Import BulkExport.

Lemma strip_prefix_spec (p s rest : string) :
  strip_prefix p s = Some rest <-> s = p ++ rest.
Proof.
  revert s. induction p as [|a p IH]; intros s.
  - cbn. split; [now intros [= ->] | now intros ->].
  - destruct s as [|b s]; cbn [strip_prefix]; rewrite ?text_app_unit.
    + split; discriminate.
    + destruct (Ascii.eqb_spec a b) as [-> | Hab].
      * rewrite IH. split; [now intros -> | now intros [= ->]].
      * split; [discriminate | intros [= Heq _]; now symmetry in Heq].
Qed.

Lemma substring0_app (a b : string) :
  substring0 (String.length a) (a ++ b) = a.
Proof.
  induction a as [|c a IH]; [now destruct b |].
  rewrite text_app_unit. cbn [String.length substring0]. now rewrite IH.
Qed.

Lemma skip_units_app (a b : string) :
  skip_units (String.length a) (a ++ b) = b.
Proof.
  induction a as [|c a IH]; [now destruct b |].
  rewrite text_app_unit. cbn [String.length skip_units]. apply IH.
Qed.

Lemma substring0_skip_units (n : nat) (s : string) :
  s = substring0 n s ++ skip_units n s.
Proof.
  revert s. induction n as [|n IH]; intros [|c r]; try reflexivity.
  cbn [substring0 skip_units]. rewrite text_app_unit. now rewrite <- IH.
Qed.

Lemma forallb_units (p : ascii -> bool) (s : string) :
  forallb p (list_ascii_of_string s) = all_units p s.
Proof. induction s as [|c r IH]; cbn; [reflexivity | now rewrite IH]. Qed.

Lemma text_app_same_length (a b c d : string) :
  a ++ c = b ++ d -> String.length a = String.length b -> a = b /\ c = d.
Proof.
  revert b. induction a as [|x a IH]; intros [|y b] Heq Hlen;
    try discriminate Hlen.
  - now split.
  - rewrite !text_app_unit in Heq. injection Heq as -> Heq.
    injection Hlen as Hlen. destruct (IH _ Heq Hlen) as [-> ->]. now split.
Qed.

(** The pattern of [hasRecentFileByTitle] matches the names of the form
    [<sanitized title>--<eight digits>.html], and nothing else. *)
Lemma dated_name_spec (sanitizedTitle file dateStr : string) :
  dated_name sanitizedTitle file = Some dateStr <->
  file = sanitizedTitle ++ "--" ++ dateStr ++ ".html" /\
  String.length dateStr = 8%nat /\
  all_units is_digit dateStr = true.
Proof.
  unfold dated_name. split.
  - destruct (strip_prefix _ file) as [rest |] eqn:Hrest; [| discriminate].
    apply strip_prefix_spec in Hrest as ->. cbv zeta.
    remember (substring0 8 rest) as ds eqn:Hds.
    remember (skip_units 8 rest) as tail eqn:Htl.
    destruct (_ && _) eqn:Hcheck; [| discriminate]. intros [= <-].
    apply andb_true_iff in Hcheck as [Hcheck Htail].
    apply andb_true_iff in Hcheck as [Hlen Hdigits].
    apply Nat.eqb_eq in Hlen. apply String.eqb_eq in Htail.
    rewrite forallb_units in Hdigits.
    split; [| split; assumption].
    rewrite (substring0_skip_units 8 rest), <- Hds, <- Htl, Htail.
    apply text_app_assoc.
  - intros (-> & Hlen & Hdigits).
    assert (Hrest : strip_prefix (sanitizedTitle ++ "--")
                      (sanitizedTitle ++ "--" ++ dateStr ++ ".html") =
                    Some (dateStr ++ ".html"))
      by (apply strip_prefix_spec; now rewrite text_app_assoc).
    rewrite Hrest. cbv zeta.
    assert (Hdate : substring0 8 (dateStr ++ ".html") = dateStr)
      by (rewrite <- Hlen; apply substring0_app).
    assert (Htail : skip_units 8 (dateStr ++ ".html") = ".html")
      by (rewrite <- Hlen; apply skip_units_app).
    now rewrite Hdate, Htail, forallb_units, Hdigits, Hlen.
Qed.

Context `{Engine}.

Lemma recent_export_dated (sanitizedTitle file : string) (cutoffDate : option Z) :
  recent_export sanitizedTitle cutoffDate file <->
  exists dateStr,
    dated_name sanitizedTitle file = Some dateStr /\
    date_ge (file_date dateStr) cutoffDate = true.
Proof.
  unfold recent_export. split.
  - intros (dateStr & Hfile & Hlen & Hdigits & Hdate). exists dateStr.
    split; [now apply dated_name_spec | exact Hdate].
  - intros (dateStr & Hname & Hdate). exists dateStr.
    apply dated_name_spec in Hname as (Hfile & Hlen & Hdigits). auto.
Qed.

Lemma first_recent_step (sanitizedTitle file : string) (cutoffDate : option Z)
      (rest : list string) :
  first_recent sanitizedTitle cutoffDate (file :: rest) =
    match dated_name sanitizedTitle file with
    | Some dateStr =>
        if date_ge (file_date dateStr) cutoffDate then Some file
        else first_recent sanitizedTitle cutoffDate rest
    | None => first_recent sanitizedTitle cutoffDate rest
    end.
Proof. reflexivity. Qed.

(** In fast mode the file found for a title is the first name of the
    directory listing that is a recent export of the title, and no file is
    found only when the listing holds no recent export of it. *)
Theorem fast_mode_finds_first_export
        (sanitizedTitle : string) (cutoffDate : option Z) (names : list string) :
  match first_recent sanitizedTitle cutoffDate names with
  | Some file =>
      exists before after,
        names = (before ++ file :: after)%list /\
        recent_export sanitizedTitle cutoffDate file /\
        Forall (fun f => ~ recent_export sanitizedTitle cutoffDate f) before
  | None =>
      Forall (fun f => ~ recent_export sanitizedTitle cutoffDate f) names
  end.
Proof.
  induction names as [|file rest IH]; [constructor |].
  rewrite first_recent_step.
  assert (Hskip :
            (forall dateStr, dated_name sanitizedTitle file = Some dateStr ->
                             date_ge (file_date dateStr) cutoffDate = false) ->
            ~ recent_export sanitizedTitle cutoffDate file).
  { intros Hold Hrecent. apply recent_export_dated in Hrecent
      as (dateStr & Hname & Hdate).
    rewrite (Hold _ Hname) in Hdate. discriminate. }
  destruct (dated_name sanitizedTitle file) as [dateStr |] eqn:Hname.
  - destruct (date_ge (file_date dateStr) cutoffDate) eqn:Hdate.
    + exists [], rest. split; [reflexivity |]. split; [| constructor].
      apply recent_export_dated. eauto.
    + assert (Hfile : ~ recent_export sanitizedTitle cutoffDate file)
        by (apply Hskip; now intros d [= <-]).
      destruct (first_recent sanitizedTitle cutoffDate rest) as [found |].
      * destruct IH as (before & after & -> & Hfound & Hbefore).
        exists (file :: before), after. repeat split; auto.
      * now constructor.
  - assert (Hfile : ~ recent_export sanitizedTitle cutoffDate file)
      by (apply Hskip; discriminate).
    destruct (first_recent sanitizedTitle cutoffDate rest) as [found |].
    + destruct IH as (before & after & -> & Hfound & Hbefore).
      exists (file :: before), after. repeat split; auto.
    + now constructor.
Qed.

(** The eight digits [formatDate] gives for a date of a year of four
    digits, and the date read back from them. *)
Lemma formatDate_digits (v : value) (t y m d : Z) :
  Date_new v = Some t ->
  Date_local t = (y, m, d) ->
  1000 <= y <= 9999 -> 0 <= m <= 11 -> 1 <= d <= 31 ->
  String.length (formatDate v) = 8%nat /\
  all_units is_digit (formatDate v) = true /\
  file_date (formatDate v) = Date_of_local y m d.
Proof.
  intros Hnew Hlocal Hy Hm Hd. unfold formatDate, file_date.
  rewrite Hnew, Hlocal.
  destruct (pretty_four_digits y Hy) as (y1 & y2 & y3 & y4 & Hyear & Hyd & Hyv).
  destruct (padStart2_two_digits (m + 1) ltac:(lia))
    as (m1 & m2 & Hmonth & Hmd & Hmv).
  destruct (padStart2_two_digits d ltac:(lia)) as (d1 & d2 & Hday & Hdd & Hdv).
  rewrite !all_units_app, Hyd, Hmd, Hdd.
  rewrite Hyear, Hmonth, Hday in *.
  change (String y1 (String y2 (String y3 (String y4 EmptyString))) ++
          String m1 (String m2 EmptyString) ++ String d1 (String d2 EmptyString))
    with (String y1 (String y2 (String y3 (String y4 (String m1
            (String m2 (String d1 (String d2 EmptyString)))))))).
  unfold substring. cbn [Nat.sub skip_units substring0 String.length].
  rewrite Hyv, Hmv, Hdv. repeat split. f_equal. lia.
Qed.

(** A file that [downloadPage] has written for a page modified in a year
    of four digits is recognised in fast mode: its name matches the
    pattern, the date read in the name is the local date of the last
    modification, and the file is found when that date is not before the
    cutoff. *)
Theorem exported_file_is_recognised
        (pageTitle : string) (p : page) (t y m d : Z) (cutoffDate : option Z)
        (others : list string) :
  Date_new (lastModifiedDateTime p) = Some t ->
  Date_local t = (y, m, d) ->
  1000 <= y <= 9999 -> 0 <= m <= 11 -> 1 <= d <= 31 ->
  dated_name (sanitizeFilename pageTitle) (expected_name pageTitle p) =
    Some (formatDate (lastModifiedDateTime p)) /\
  file_date (formatDate (lastModifiedDateTime p)) = Date_of_local y m d /\
  first_recent (sanitizeFilename pageTitle) cutoffDate
               (expected_name pageTitle p :: others) =
    if date_ge (Date_of_local y m d) cutoffDate
    then Some (expected_name pageTitle p)
    else first_recent (sanitizeFilename pageTitle) cutoffDate others.
Proof.
  intros Hnew Hlocal Hy Hm Hd.
  destruct (formatDate_digits _ _ _ _ _ Hnew Hlocal Hy Hm Hd)
    as (Hlen & Hdigits & Hdate).
  assert (Hname : dated_name (sanitizeFilename pageTitle)
                             (expected_name pageTitle p) =
                  Some (formatDate (lastModifiedDateTime p)))
    by (apply dated_name_spec; unfold expected_name; auto).
  split; [exact Hname | split; [exact Hdate |]].
  now rewrite first_recent_step, Hname, Hdate.
Qed.

(** A page whose last-modified time is no date is not excluded by the
    date rule; [downloadPage] names its file [<title>--NaNNaNNaN.html],
    and fast mode never takes that file for an export of the title. *)
Theorem undated_page_is_not_recognised
        (pageTitle : string) (p : page) (cutoffDate : option Z)
        (others : list string) :
  Date_new (lastModifiedDateTime p) = None ->
  Bulk.shouldSkipByDate p = false /\
  expected_name pageTitle p = sanitizeFilename pageTitle ++ "--NaNNaNNaN.html" /\
  first_recent (sanitizeFilename pageTitle) cutoffDate
               (expected_name pageTitle p :: others) =
    first_recent (sanitizeFilename pageTitle) cutoffDate others.
Proof.
  intros Hnew.
  assert (Hname : expected_name pageTitle p =
                  sanitizeFilename pageTitle ++ "--NaNNaNNaN.html")
    by (unfold expected_name, formatDate; now rewrite Hnew).
  split; [| split; [exact Hname |]].
  - unfold Bulk.shouldSkipByDate. rewrite Hnew. now destruct (truthy _).
  - rewrite first_recent_step.
    destruct (dated_name _ (expected_name pageTitle p)) as [dateStr |] eqn:Hd;
      [| reflexivity].
    apply dated_name_spec in Hd as (Hfile & Hlen & Hdigits).
    rewrite Hname in Hfile.
    change (sanitizeFilename pageTitle ++ "--NaNNaNNaN.html")
      with (sanitizeFilename pageTitle ++ "--" ++ "NaNNaNNa" ++ "N.html") in Hfile.
    apply (inj (String.append (sanitizeFilename pageTitle))) in Hfile.
    apply (inj (String.append "--")) in Hfile.
    apply text_app_same_length in Hfile as [<- _]; [| now rewrite Hlen].
    discriminate Hdigits.
Qed.

End ExportNames.

Lemma exported_file_is_recognised_witness :
  @Date_new Reference.engine (lastModifiedDateTime recent_page) =
    Some 1654086896000 /\
  @Date_local Reference.engine 1654086896000 = (2022, 5, 1) /\
  BulkExport.dated_name (sanitizeFilename "Roadmap: Q3")
    (@expected_name Reference.engine "Roadmap: Q3" recent_page) =
    Some "20220601".
Proof.
  split; [reflexivity | split; [reflexivity |]].
  exact (proj1 (@exported_file_is_recognised Reference.engine "Roadmap: Q3"
                  recent_page 1654086896000 2022 5 1 None []
                  eq_refl eq_refl ltac:(lia) ltac:(lia) ltac:(lia))).
Defined.

Lemma undated_page_is_not_recognised_witness :
  @Date_new Reference.engine (lastModifiedDateTime (sample_page "7")) = None /\
  @expected_name Reference.engine "Page 7" (sample_page "7") =
    "Page 7--NaNNaNNaN.html".
Proof.
  split; [reflexivity |].
  exact (proj1 (proj2 (@undated_page_is_not_recognised Reference.engine "Page 7"
                         (sample_page "7") None [] eq_refl))).
Defined.

(** ** What a run of the bulk exporter may do *)

Lemma wp_mkdir_done (path : string) (w : World)
      (Q : outcome unit -> World -> Prop) :
  Q (Ok tt) (with_dir path w) -> wp (mkdirSync path) w Q.
Proof. exact (fun q => q). Qed.

Lemma wp_write_cases (env : Env) (path content : string) (w : World)
      (Q : outcome unit -> World -> Prop) :
  (forall msg, Q (Throw msg) w) ->
  (forall msg rest, Q (Throw msg) (with_file path rest w)) ->
  Q (Ok tt) (with_file path content w) ->
  wp (writeFileSync env path content) w Q.
Proof.
  intros Hthrow Hrest Hok. unfold wp, writeFileSync.
  destruct (write_error env (trace w) path); [| exact Hok].
  destruct (write_left env (trace w) path content); [apply Hrest | apply Hthrow].
Qed.

Lemma absent_when_not_found (path : string) (w : World) :
  bool_decide (is_Some (files w !! path)) || bool_decide (path ∈ dirs w) = false ->
  files w !! path = None.
Proof.
  intros Hno. apply orb_false_iff in Hno as [Hfile _].
  apply bool_decide_eq_false in Hfile. now apply eq_None_not_Some.
Qed.

(** A relation between the world before and the world after that holds
    whatever the exporter does, as long as it holds of each of its steps. *)
Section Footprint.
Context `{Engine} (env : Env).
Variable R : World -> World -> Prop.
Variables may_get may_fetch may_mkdir may_write may_replace : string -> Prop.
Hypothesis R_refl : forall w, R w w.
Hypothesis R_trans : forall w1 w2 w3, R w1 w2 -> R w2 w3 -> R w1 w3.
Hypothesis R_log :
  forall e w, is_effect e = false -> R w (record_event e w).
Hypothesis R_get :
  forall url w, may_get url -> R w (record_event (ApiGet url) w).
Hypothesis R_fetch :
  forall url w, may_fetch url -> R w (record_event (HttpFetch url) w).
Hypothesis R_mkdir :
  forall path w, may_mkdir path -> R w (with_dir path w).
Hypothesis R_write :
  forall path content w,
    may_write path -> files w !! path = None -> R w (with_file path content w).
Hypothesis R_replace :
  forall path content w, may_replace path -> R w (with_file path content w).
Import BulkExport.

Lemma within_log (e : event) (w0 w : World) :
  is_effect e = false -> R w0 w -> R w0 (record_event e w).
Proof. intros He Hw. eapply R_trans; [exact Hw | now apply R_log]. Qed.

Lemma within_get (url : string) (w0 w : World) :
  may_get url -> R w0 w -> R w0 (record_event (ApiGet url) w).
Proof. intros He Hw. eapply R_trans; [exact Hw | now apply R_get]. Qed.

Lemma within_fetch (url : string) (w0 w : World) :
  may_fetch url -> R w0 w -> R w0 (record_event (HttpFetch url) w).
Proof. intros He Hw. eapply R_trans; [exact Hw | now apply R_fetch]. Qed.

Lemma within_mkdir (path : string) (w0 w : World) :
  may_mkdir path -> R w0 w -> R w0 (with_dir path w).
Proof. intros He Hw. eapply R_trans; [exact Hw | now apply R_mkdir]. Qed.

Lemma within_write (path content : string) (w0 w : World) :
  may_write path -> files w !! path = None -> R w0 w ->
  R w0 (with_file path content w).
Proof. intros He Hnone Hw. eapply R_trans; [exact Hw | now apply R_write]. Qed.

Lemma within_replace (path content : string) (w0 w : World) :
  may_replace path -> R w0 w -> R w0 (with_file path content w).
Proof. intros He Hw. eapply R_trans; [exact Hw | now apply R_replace]. Qed.

Ltac absent :=
  cbn [files with_dir record_event];
  match goal with
  | Hno : _ || _ = false |- _ =>
      apply absent_when_not_found in Hno; cbn [files record_event] in Hno;
      exact Hno
  end.

Ltac within :=
  repeat first
    [ assumption
    | apply R_refl
    | apply within_log; [reflexivity |]
    | apply within_get; [solve [auto] |]
    | apply within_fetch; [solve [auto] |]
    | apply within_mkdir; [solve [auto] |]
    | apply within_replace; [solve [auto] |]
    | apply within_write; [solve [auto] | absent |] ].

Ltac walk :=
  repeat first
    [ wp_step
    | apply wp_existsSync_exact; cbv beta iota
    | apply wp_api_get_page; cbv beta iota
    | apply wp_fetch; cbv beta iota
    | apply wp_mkdir_done; cbv beta iota
    | apply wp_write_cases; [intros ? | intros ? ? |]; cbv beta iota
    | lazymatch goal with
      | |- wp (if ?b then _ else _) _ _ => destruct b eqn:?
      | |- wp (match ?x with _ => _ end) _ _ => destruct x eqn:?
      | |- match ?x with _ => _ end => destruct x eqn:?
      end ].

Section OnePage.
Variables (pageId pageTitle : string) (fastMode : bool).
Hypothesis Hget : may_get (metadata_url pageId).
Hypothesis Hfetch : may_fetch (content_url pageId).
Hypothesis Hmkdir : may_mkdir OUTPUT_DIR.
Hypothesis Hwrite :
  forall name, may_write (OUTPUT_DIR ++ sanitizeFilename pageTitle ++ "--" ++ name).

Lemma attempt_within (w0 w : World) :
  R w0 w ->
  wp (attempt env pageId pageTitle fastMode) w (fun _ w' => R w0 w').
Proof.
  intros Hw. unfold attempt. wp_step.
  destruct fastMode;
    [apply wp_hasRecentFileByTitle; intros [filename |] | wp_step];
    cbv beta iota.
  all: change ("/me/onenote/pages/" ++ pageId) with (metadata_url pageId).
  all: walk; within.
Qed.

Lemma retrying_within (retries : nat) (w0 w : World) :
  R w0 w ->
  wp (downloadPage_retrying env retries pageId pageTitle fastMode) w
     (fun _ w' => R w0 w').
Proof.
  revert w. induction retries as [|retries IH]; intros w Hw;
    cbn [downloadPage_retrying]; apply wp_try_catch;
    apply (wp_mono _ _ _ _ (attempt_within w0 w Hw));
    intros [r | msg |] w1 Hw1; cbv beta iota; try exact Hw1.
  - walk. within.
  - wp_step. wp_step. apply IH. within.
Qed.

Lemma downloadPage_within (retryCount : nat) (w0 w : World) :
  R w0 w ->
  wp (downloadPage env pageId pageTitle fastMode retryCount) w
     (fun _ w' => R w0 w').
Proof. apply retrying_within. Qed.

End OnePage.

Lemma account_within (e : listed) (result : download_result) (st : LoopState)
      (w0 w : World) :
  R w0 w -> wp (account e result st) w (fun _ w' => R w0 w').
Proof. intros Hw. unfold account. walk; within. Qed.

Section Pages.
Variable todo : list listed.
Hypothesis Hget : forall e, In e todo -> may_get (metadata_url (l_pageId e)).
Hypothesis Hfetch : forall e, In e todo -> may_fetch (content_url (l_pageId e)).
Hypothesis Hmkdir : may_mkdir OUTPUT_DIR.
Hypothesis Hwrite :
  forall e name,
    In e todo ->
    may_write (OUTPUT_DIR ++ sanitizeFilename (l_title e) ++ "--" ++ name).

Lemma download_loop_within (fastMode : bool) (total : nat) :
  forall (rest : list listed) (i : nat) (st : LoopState) (w0 w : World),
    (forall e, In e rest -> In e todo) ->
    R w0 w ->
    wp (download_loop env fastMode total i rest st) w (fun _ w' => R w0 w').
Proof.
  induction rest as [|e rest IH]; intros i st w0 w Hsub Hw;
    cbn [download_loop]; [wp_step; exact Hw |].
  assert (He : In e todo) by (apply Hsub; now left).
  wp_step. wp_step. wp_step.
  match goal with
  | |- wp _ ?W _ =>
      assert (HW : R w0 W) by within;
      apply (wp_mono _ _ _ _
               (downloadPage_within (l_pageId e) (l_title e) fastMode
                  (Hget e He) (Hfetch e He) Hmkdir (fun name => Hwrite e name He)
                  0 w0 W HW))
  end.
  intros [result | msg |] w1 Hw1; cbv beta iota; try exact Hw1.
  wp_step.
  apply (wp_mono _ _ _ _ (account_within e result st w0 w1 Hw1)).
  intros [[st1 stop] | msg |] w2 Hw2; cbv beta iota; try exact Hw2.
  destruct stop; [wp_step; exact Hw2 |].
  wp_step. wp_step. wp_step.
  match goal with
  | |- wp _ ?W _ =>
      assert (HW' : R w0 W) by within;
      apply (wp_mono _ _ _ _
               (IH (S i) st1 w0 W (fun e' He' => Hsub e' (or_intror He')) HW'))
  end.
  intros [r | msg |] w3 Hw3; cbv beta iota; exact Hw3.
Qed.

End Pages.

Lemma main_within (fastMode : bool) (pages : list listed) (w : World) :
  (forall e, In e (to_download pages) -> may_get (metadata_url (l_pageId e))) ->
  (forall e, In e (to_download pages) -> may_fetch (content_url (l_pageId e))) ->
  may_mkdir OUTPUT_DIR ->
  (forall e name,
     In e (to_download pages) ->
     may_write (OUTPUT_DIR ++ sanitizeFilename (l_title e) ++ "--" ++ name)) ->
  may_replace FAILED_DOWNLOADS_FILE ->
  wp (main env fastMode pages) w (fun _ w' => R w w').
Proof.
  intros Hget Hfetch Hmkdir Hwrite Hlog. unfold main.
  fold (to_download pages). wp_step.
  destruct fastMode; repeat wp_step.
  all: match goal with
       | |- wp (download_loop _ ?fm ?total _ _ _) ?W _ =>
           assert (HW : R w W) by within;
           apply (wp_mono _ _ _ _
                    (download_loop_within (to_download pages) Hget Hfetch Hmkdir
                       Hwrite fm total (to_download pages) 0 initial w W
                       (fun e He => He) HW))
       end.
  all: intros [r | msg |] w1 Hw1; cbv beta iota; try exact Hw1.
  all: walk; within.
Qed.

End Footprint.

(** ** Files and requests of the bulk exporter *)

Section ExportFootprint.
Context `{Engine} (env : Env).
Import BulkExport.

Lemma keeps_files_same (w w' : World) :
  files w' = files w -> keeps_files w w'.
Proof. intros Hsame path content. now rewrite Hsame. Qed.

Lemma keeps_files_trans (w1 w2 w3 : World) :
  keeps_files w1 w2 -> keeps_files w2 w3 -> keeps_files w1 w3.
Proof. intros H12 H23 path content Hfile. auto. Qed.

Lemma keeps_files_new (path content : string) (w : World) :
  files w !! path = None -> keeps_files w (with_file path content w).
Proof.
  intros Hnone other data Hfile. cbn [files with_file].
  rewrite lookup_insert_ne; [exact Hfile | congruence].
Qed.

Lemma keeps_files_but_weaken (spared : string) (w w' : World) :
  keeps_files w w' -> keeps_files_but spared w w'.
Proof. intros Hkeep path content _. apply Hkeep. Qed.

Lemma keeps_files_but_trans (spared : string) (w1 w2 w3 : World) :
  keeps_files_but spared w1 w2 -> keeps_files_but spared w2 w3 ->
  keeps_files_but spared w1 w3.
Proof. intros H12 H23 path content Hne Hfile. auto. Qed.

(** The exporter never changes or removes a file that is there: a run of
    [downloadPage] keeps every file with its content, and a run of [main]
    keeps every file but the failure log. *)
Theorem export_keeps_existing_files (fastMode : bool) (w : World) :
  (forall (pageId pageTitle : string) (retryCount : nat),
     keeps_files w (snd (downloadPage env pageId pageTitle fastMode retryCount w))) /\
  (forall pages : list listed,
     keeps_files_but FAILED_DOWNLOADS_FILE w (snd (main env fastMode pages w))).
Proof.
  split.
  - intros pageId pageTitle retryCount.
    apply (downloadPage_within env keeps_files
             (fun _ => True) (fun _ => True) (fun _ => True) (fun _ => True));
      solve [ intros;
              first [ exact I
                    | apply keeps_files_same; reflexivity
                    | eapply keeps_files_trans; eassumption
                    | apply keeps_files_new; assumption ] ].
  - intros pages.
    apply (main_within env (keeps_files_but FAILED_DOWNLOADS_FILE)
             (fun _ => True) (fun _ => True) (fun _ => True) (fun _ => True)
             (fun path => path = FAILED_DOWNLOADS_FILE));
      try solve [ intros;
                  first [ exact I
                        | reflexivity
                        | apply keeps_files_but_weaken, keeps_files_same;
                          reflexivity
                        | eapply keeps_files_but_trans; eassumption
                        | apply keeps_files_but_weaken, keeps_files_new;
                          assumption ] ].
    intros path content w1 -> other data Hne Hfile. cbn [files with_file].
    rewrite lookup_insert_ne; [exact Hfile | congruence].
Qed.

Lemma acts_only_refl (allowed : event -> Prop) (w : World) :
  acts_only allowed w w.
Proof. exists []. split; [reflexivity | constructor]. Qed.

Lemma acts_only_trans (allowed : event -> Prop) (w1 w2 w3 : World) :
  acts_only allowed w1 w2 -> acts_only allowed w2 w3 -> acts_only allowed w1 w3.
Proof.
  intros (a12 & H12 & Hall12) (a23 & H23 & Hall23).
  exists (a23 ++ a12)%list. split.
  - now rewrite H23, H12, app_assoc.
  - apply Forall_app. now split.
Qed.

Lemma acts_only_step (allowed : event -> Prop) (e : event) (w w' : World) :
  effects (trace w') = e :: effects (trace w) -> allowed e ->
  acts_only allowed w w'.
Proof. intros Htrace He. exists [e]. split; [exact Htrace | now constructor]. Qed.

(** Every request, write and directory of a run of [main] is for the page
    list: a request asks for the metadata or the content of a record that
    passes the title filter, a file written in the output directory is
    named after the title of such a record, and the only other file
    written is the failure log. *)
Theorem export_acts_for_listed_pages
        (fastMode : bool) (pages : list listed) (w : World) :
  acts_only (export_effect pages) w (snd (main env fastMode pages w)).
Proof.
  apply (main_within env (acts_only (export_effect pages))
           (fun url => export_effect pages (ApiGet url))
           (fun url => export_effect pages (HttpFetch url))
           (fun path => export_effect pages (MakeDir path))
           (fun path => forall content, export_effect pages (FileWrite path content))
           (fun path => forall content, export_effect pages (FileWrite path content))).
  - apply acts_only_refl.
  - apply acts_only_trans.
  - intros e w1 He. exists []. split; [| constructor].
    unfold effects. cbn. now rewrite He.
  - intros url w1 Hok. now apply acts_only_step with (e := ApiGet url).
  - intros url w1 Hok. now apply acts_only_step with (e := HttpFetch url).
  - intros path w1 Hok. now apply acts_only_step with (e := MakeDir path).
  - intros path content w1 Hok _.
    now apply acts_only_step with (e := FileWrite path content).
  - intros path content w1 Hok.
    now apply acts_only_step with (e := FileWrite path content).
  - intros e He. left. exists e. auto.
  - intros e He. left. exists e. auto.
  - right. now left.
  - intros e name He content. left. exists e. split; [exact He |].
    right. right. now exists name, content.
  - intros content. right. right. now exists content.
Qed.

End ExportFootprint.

(** ** The counters of the summary *)

Section Counters.
Context `{Engine} (env : Env).
Import BulkExport.

Lemma account_counts (e : listed) (result : download_result) (st st1 : LoopState)
      (stop : bool) (w w1 : World) :
  account e result st w = (Ok (st1, stop), w1) ->
  totalSuccess st1 = (totalSuccess st + length (List.filter is_downloaded [result]))%nat /\
  totalSkipped st1 = (totalSkipped st + length (List.filter is_skipped [result]))%nat /\
  totalFailed st1 = (totalFailed st + length (List.filter is_failed [result]))%nat.
Proof.
  unfold account. destruct result as [why | filename | err].
  - intros [= <- _ _]. cbn. lia.
  - intros [= <- _ _]. cbn. lia.
  - destruct (_ <=? _)%nat; intros [= <- _ _]; cbn; lia.
Qed.

(** The counters of the download loop count the outcomes of its turns. *)
Lemma download_loop_counts (fastMode : bool) (total : nat) :
  forall (todo : list listed) (i : nat) (st st' : LoopState)
         (outs : list download_result) (w w' : World),
    download_loop env fastMode total i todo st w = (Ok (st', outs), w') ->
    totalSuccess st' = (totalSuccess st + length (List.filter is_downloaded outs))%nat /\
    totalSkipped st' = (totalSkipped st + length (List.filter is_skipped outs))%nat /\
    totalFailed st' = (totalFailed st + length (List.filter is_failed outs))%nat /\
    (length outs <= length todo)%nat.
Proof.
  induction todo as [|e rest IH]; intros i st st' outs w w' Hrun.
  - injection Hrun as <- <- _. cbn. lia.
  - destruct (downloadPage env (l_pageId e) (l_title e) fastMode 0
                (record_event (turn_header total i e) w))
      as [[result | msg |] w1] eqn:Hdl.
    2, 3: cbn [download_loop] in Hrun; unfold bind at 1 in Hrun;
          unfold console_log at 1, emit at 1 in Hrun; cbv beta iota in Hrun;
          unfold bind at 1 in Hrun; fold (turn_header total i e) in Hrun;
          rewrite Hdl in Hrun; discriminate Hrun.
    destruct (account_spec e result st w1) as (st1 & stop & w2 & Hacc & _).
    rewrite (loop_turn env _ _ _ _ _ _ _ _ _ _ _ _ Hdl Hacc) in Hrun.
    destruct (account_counts _ _ _ _ _ _ _ Hacc) as (Hs & Hk & Hf).
    destruct stop.
    + injection Hrun as <- <- _. cbn [length]. repeat split; try assumption. lia.
    + destruct (download_loop env fastMode total (S i) rest st1 _)
        as [[[st2 outs2] | msg |] w3] eqn:Hrest; try discriminate Hrun.
      injection Hrun as <- <- _. cbn [fst snd].
      destruct (IH _ _ _ _ _ _ Hrest) as (Hs' & Hk' & Hf' & Hlen).
      change (result :: outs2) with ([result] ++ outs2)%list.
      rewrite !List.filter_app, !length_app. cbn [length] in *. lia.
Qed.

Lemma download_loop_counts_wp (fastMode : bool) (total : nat)
      (todo : list listed) (i : nat) (st : LoopState) (w : World) :
  wp (download_loop env fastMode total i todo st) w
     (fun o _ =>
        forall st' outs,
          o = Ok (st', outs) ->
          totalSuccess st' =
            (totalSuccess st + length (List.filter is_downloaded outs))%nat /\
          totalSkipped st' =
            (totalSkipped st + length (List.filter is_skipped outs))%nat /\
          totalFailed st' =
            (totalFailed st + length (List.filter is_failed outs))%nat /\
          (length outs <= length todo)%nat).
Proof.
  unfold wp.
  destruct (download_loop env fastMode total i todo st w) as [o w'] eqn:Hrun.
  cbn [fst snd]. intros st' outs ->. now apply download_loop_counts in Hrun.
Qed.

(** When [main] returns, the three counters of its summary count the
    downloaded, the skipped and the failed outcomes of the records it has
    attempted, whatever the reason of a skip; they add up to the number
    of records attempted, which is at most the number of records that
    pass the title filter. *)
Theorem summary_counts_the_outcomes
        (fastMode : bool) (pages : list listed) (w : World)
        (st : LoopState) (outs : list download_result) :
  fst (main env fastMode pages w) = Ok (st, outs) ->
  totalSuccess st = length (List.filter is_downloaded outs) /\
  totalSkipped st = length (List.filter is_skipped outs) /\
  totalFailed st = length (List.filter is_failed outs) /\
  (totalSuccess st + totalSkipped st + totalFailed st)%nat = length outs /\
  (length outs <= length (to_download pages))%nat.
Proof.
  intros Hmain.
  assert (Hwp :
            wp (main env fastMode pages) w
               (fun o _ =>
                  forall st outs,
                    o = Ok (st, outs) ->
                    totalSuccess st = length (List.filter is_downloaded outs) /\
                    totalSkipped st = length (List.filter is_skipped outs) /\
                    totalFailed st = length (List.filter is_failed outs) /\
                    (length outs <= length (to_download pages))%nat)).
  { unfold main. fold (to_download pages). wp_step.
    destruct fastMode; repeat wp_step.
    all: match goal with
         | |- wp (download_loop _ ?fm ?total ?i ?todo ?s) ?W _ =>
             apply (wp_mono _ _ _ _ (download_loop_counts_wp fm total todo i s W))
         end.
    all: intros [[st1 outs1] | msg |] w1 Hloop; cbv beta iota;
      try (intros st0 outs0; discriminate).
    all: specialize (Hloop _ _ eq_refl); cbn [initial totalSuccess totalSkipped
           totalFailed Nat.add] in Hloop.
    all: wp_step.
    all: destruct (0 <? length (failedPages (fst (st1, outs1))))%nat;
      [wp_step; apply wp_write_cases; [intros msg | intros msg rest |];
         cbv beta iota |].
    all: repeat wp_step.
    all: try (intros st0 outs0; discriminate).
    all: intros st0 outs0 [= <- <-]; exact Hloop. }
  specialize (Hwp st outs Hmain). destruct Hwp as (Hs & Hk & Hf & Hlen).
  repeat split; try assumption.
  rewrite Hs, Hk, Hf. clear.
  induction outs as [|r outs IH]; [reflexivity |].
  destruct r; cbn in *; lia.
Qed.

End Counters.

Lemma summary_counts_the_outcomes_witness :
  let service :=
    static_service
      [(metadata_url "a", Ok recent_page); (metadata_url "c", Ok recent_page)] []
      [(content_url "a", Ok (mkResponse true 200 "OK" "<p>a</p>"));
       (content_url "c", Ok (mkResponse true 200 "OK" "<p>c</p>"))] in
  let pages := [BulkExport.mkListed "A" "a"; BulkExport.mkListed "B" "b";
                BulkExport.mkListed "C (old)" "c"; BulkExport.mkListed "C" "c"] in
  exists st outs,
    fst (@BulkExport.main Reference.engine service false pages ready_world) =
      Ok (st, outs) /\
    BulkExport.totalSuccess st = 2%nat /\
    BulkExport.totalFailed st = 1%nat /\
    length outs = 3%nat.
Proof.
  intros service pages.
  assert (Hrun : exists st outs,
             fst (@BulkExport.main Reference.engine service false pages ready_world) =
               Ok (st, outs) /\
             outs = [BulkExport.Downloaded "A--20220601.html";
                     BulkExport.Failed "404 Not Found";
                     BulkExport.Downloaded "C--20220601.html"]).
  { vm_compute. eexists _, _. split; reflexivity. }
  destruct Hrun as (st & outs & Hrun & Houts). exists st, outs.
  destruct (@summary_counts_the_outcomes Reference.engine service false pages
              ready_world st outs Hrun) as (Hs & _ & Hf & _ & _).
  split; [exact Hrun |]. rewrite Hs, Hf, Houts. repeat split; reflexivity.
Defined.

(** ** The retry of [downloadPage] *)

Section Retry.
Context `{Engine} (env : Env).
Import BulkExport.

Lemma network_of_trace (e : event) (w : World) :
  network (trace (record_event e w)) =
    if is_request e then e :: network (trace w) else network (trace w).
Proof. unfold network. cbn. now destruct (is_request e). Qed.

(** The service fails the first request for the metadata of a page and
    answers the next one: the retry of [downloadPage] absorbs the failure.
    The page is downloaded with two requests for the metadata and one for
    the content, and its outcome is a download; a call that has no retry
    left reports the failure instead. *)
Theorem transient_failure_is_retried
        (w : World) (pageId pageTitle msg : string) (p : page)
        (response : http_response) :
  let asked := ApiGet (metadata_url pageId) in
  get_page env (network (trace w)) (metadata_url pageId) = Throw msg ->
  get_page env (asked :: network (trace w)) (metadata_url pageId) = Ok p ->
  Bulk.shouldSkipByDate p = false ->
  files w !! expected_path pageTitle p = None ->
  expected_path pageTitle p ∉ dirs w ->
  http_fetch env (asked :: asked :: network (trace w)) (content_url pageId) =
    Ok response ->
  r_ok response = true ->
  (forall tr, write_error env tr (expected_path pageTitle p) = None) ->
  (exists w',
     downloadPage env pageId pageTitle false 0 w =
       (Ok (Downloaded (expected_name pageTitle p)), w') /\
     files w' !! expected_path pageTitle p = Some (r_text response) /\
     network (trace w') =
       HttpFetch (content_url pageId) :: asked :: asked :: network (trace w)) /\
  fst (downloadPage env pageId pageTitle false 1 w) = Ok (Failed msg).
Proof.
  intros asked Hfail Hpage Hdate Hfile Hdir Hcontent Hok Hwrite.
  assert (Hfirst :
            attempt env pageId pageTitle false w =
              (Throw msg,
               record_event asked
                 (record_event (ConsoleLog ("Fetching metadata for: " ++ pageTitle))
                    w))).
  { unfold attempt, bind, ret, console_log, emit, api_get_page.
    rewrite network_silent by reflexivity.
    change ("/me/onenote/pages/" ++ pageId) with (metadata_url pageId).
    now rewrite Hfail. }
  split.
  - unfold downloadPage. cbn [Nat.sub downloadPage_retrying].
    unfold try_catch at 1. rewrite Hfirst.
    unfold bind at 1, console_log at 1, emit at 1. cbv beta iota.
    unfold try_catch at 1.
    set (w1 := record_event (ConsoleLog ("  Error, retrying: " ++ msg)) _).
    assert (Hsecond :
              wp (attempt env pageId pageTitle false) w1
                 (fun o w' =>
                    o = Ok (Downloaded (expected_name pageTitle p)) /\
                    files w' !! expected_path pageTitle p = Some (r_text response) /\
                    network (trace w') =
                      HttpFetch (content_url pageId) :: asked :: asked ::
                      network (trace w))).
    { unfold attempt. repeat wp_step. apply wp_api_get_page.
      change ("/me/onenote/pages/" ++ pageId) with (metadata_url pageId).
      unfold w1. rewrite !network_of_trace. cbn [is_request asked].
      fold asked. rewrite Hpage. cbv beta iota. rewrite Hdate.
      wp_step. apply wp_existsSync_exact.
      change (OUTPUT_DIR ++ _) with (expected_path pageTitle p).
      cbn [files dirs record_event].
      rewrite Hfile, (bool_decide_eq_false_2 _ Hdir).
      rewrite bool_decide_eq_false_2 by (intros [x Hx]; discriminate Hx).
      cbv beta iota. cbn [orb]. wp_step. apply wp_fetch.
      rewrite !network_of_trace. cbn [is_request asked]. fold asked.
      rewrite Hcontent. cbv beta iota. rewrite Hok. cbn [negb].
      wp_step. apply wp_existsSync_exact. cbv beta iota. wp_step.
      destruct (negb _); [apply wp_mkdir_done | wp_step]; cbv beta iota.
      all: wp_step; apply wp_write_done; [apply Hwrite |]; cbv beta iota.
      all: repeat wp_step; split; [reflexivity |].
      all: cbn [files record_event with_dir trace].
      all: rewrite lookup_insert_eq; split; [reflexivity |].
      all: unfold network; cbn; reflexivity. }
    unfold wp in Hsecond.
    destruct (attempt env pageId pageTitle false w1) as [o w'].
    cbn [fst snd] in Hsecond. destruct Hsecond as (-> & Hsaved & Hasked).
    exists w'. auto.
  - unfold downloadPage. cbn [Nat.sub downloadPage_retrying].
    unfold try_catch. now rewrite Hfirst.
Qed.

End Retry.

Lemma transient_failure_is_retried_witness :
  let service :=
    fails_first [(metadata_url "p2", Ok recent_page)]
                [(content_url "p2", Ok (mkResponse true 200 "OK" "<p>q3</p>"))] in
  get_page service (network (trace ready_world)) (metadata_url "p2") =
    Throw "504 Gateway Timeout" /\
  fst (@BulkExport.downloadPage Reference.engine service "p2" "Roadmap: Q3"
         false 0 ready_world) =
    Ok (BulkExport.Downloaded "Roadmap_ Q3--20220601.html") /\
  fst (@BulkExport.downloadPage Reference.engine service "p2" "Roadmap: Q3"
         false 1 ready_world) =
    Ok (BulkExport.Failed "504 Gateway Timeout").
Proof.
  intros service.
  assert (Hdir : @expected_path Reference.engine "Roadmap: Q3" recent_page ∉
                 dirs ready_world) by (cbn; set_solver).
  destruct (@transient_failure_is_retried Reference.engine service ready_world
              "p2" "Roadmap: Q3" "504 Gateway Timeout" recent_page
              (mkResponse true 200 "OK" "<p>q3</p>")
              eq_refl eq_refl eq_refl eq_refl Hdir eq_refl eq_refl
              (fun _ => eq_refl))
    as [(w' & Hrun & _) Hlast].
  split; [reflexivity |]. split; [| exact Hlast].
  rewrite Hrun. reflexivity.
Defined.

(** ** Matching a pattern *)

Section Matching.
Import Regex.

Lemma many_unfold (greedy group : bool) (class : ascii -> bool)
      (next : string -> option (list string)) (enough : bool) (taken s : string) :
  many greedy group class next enough taken s =
    let stop :=
      if enough then
        match next s with
        | Some groups => Some (if group then taken :: groups else groups)
        | None => None
        end
      else None in
    let more :=
      match s with
      | String c s' =>
          if class c
          then many greedy group class next true (taken ++ unit_text c) s'
          else None
      | EmptyString => None
      end in
    if greedy
    then match more with Some r => Some r | None => stop end
    else match stop with Some r => Some r | None => more end.
Proof. destruct s; reflexivity. Qed.

(** What a repetition has matched when it succeeds. *)
Lemma many_sound (greedy group : bool) (class : ascii -> bool)
      (next : string -> option (list string)) :
  forall (s : string) (enough : bool) (taken : string) (r : list string),
    many greedy group class next enough taken s = Some r ->
    exists x rest groups,
      s = x ++ rest /\
      all_units class x = true /\
      (enough = false -> x <> EmptyString) /\
      next rest = Some groups /\
      r = if group then (taken ++ x) :: groups else groups.
Proof.
  assert (Hstop : forall (s : string) (enough : bool) (taken : string)
                          (r : list string),
             (if enough then
                match next s with
                | Some groups => Some (if group then taken :: groups else groups)
                | None => None
                end
              else None) = Some r ->
             exists x rest groups,
               s = x ++ rest /\ all_units class x = true /\
               (enough = false -> x <> EmptyString) /\
               next rest = Some groups /\
               r = if group then (taken ++ x) :: groups else groups).
  { intros s [|] taken r; [| discriminate].
    destruct (next s) as [groups |] eqn:Hnext; [| discriminate].
    intros [= <-]. exists EmptyString, s, groups.
    rewrite text_app_empty. repeat split; auto. }
  induction s as [|c s IH]; intros enough taken r; rewrite many_unfold; cbv zeta.
  - destruct greedy; [exact (Hstop _ _ _ _) |].
    destruct (if enough then _ else None) as [r' |] eqn:Hs; [| discriminate].
    intros [= <-]. now apply Hstop in Hs.
  - assert (Hmore :
              (if class c
               then many greedy group class next true (taken ++ unit_text c) s
               else None) = Some r ->
              exists x rest groups,
                String c s = x ++ rest /\ all_units class x = true /\
                (enough = false -> x <> EmptyString) /\
                next rest = Some groups /\
                r = if group then (taken ++ x) :: groups else groups).
    { destruct (class c) eqn:Hc; [| discriminate]. intros Hrun.
      destruct (IH _ _ _ Hrun) as (x & rest & groups & -> & Hx & _ & Hnext & ->).
      exists (String c x), rest, groups. cbn [all_units].
      rewrite Hc, Hx, text_app_assoc. repeat split; auto. }
    destruct greedy.
    + destruct (if class c then _ else None) as [r' |] eqn:Hm.
      * intros [= <-]. now apply Hmore.
      * apply Hstop.
    + destruct (if enough then _ else None) as [r' |] eqn:Hs.
      * intros [= <-]. now apply Hstop in Hs.
      * exact Hmore.
Qed.

(** A greedy repetition takes the whole run of its class when what
    follows matches there. *)
Lemma many_greedy_run (group : bool) (class : ascii -> bool)
      (next : string -> option (list string)) (rest : string)
      (groups : list string) :
  match rest with
  | String c _ => class c = false
  | EmptyString => True
  end ->
  next rest = Some groups ->
  forall (x : string) (enough : bool) (taken : string),
    all_units class x = true ->
    (enough = false -> x <> EmptyString) ->
    many true group class next enough taken (x ++ rest) =
      Some (if group then (taken ++ x) :: groups else groups).
Proof.
  intros Hedge Hnext. induction x as [|c x IH]; intros enough taken Hx Hne.
  - destruct enough; [| now contradiction Hne].
    change (EmptyString ++ rest) with rest. rewrite many_unfold, Hnext.
    rewrite text_app_empty. cbv zeta.
    destruct rest as [|c rest]; [reflexivity | now rewrite Hedge].
  - cbn [all_units] in Hx. apply andb_true_iff in Hx as [Hc Hx].
    rewrite text_app_unit, many_unfold. cbv zeta. rewrite Hc.
    rewrite IH by (auto; discriminate).
    now rewrite text_app_assoc.
Qed.

(** A lazy repetition stops at the first place where what follows
    matches. *)
Lemma many_lazy_first (group : bool) (class : ascii -> bool)
      (next : string -> option (list string)) (rest : string)
      (groups : list string) :
  next rest = Some groups ->
  forall (x : string) (enough : bool) (taken : string),
    all_units class x = true ->
    (enough = false -> x <> EmptyString) ->
    (forall x1 x2,
       x = x1 ++ x2 -> x2 <> EmptyString ->
       (enough = false -> x1 <> EmptyString) ->
       next (x2 ++ rest) = None) ->
    many false group class next enough taken (x ++ rest) =
      Some (if group then (taken ++ x) :: groups else groups).
Proof.
  intros Hnext. induction x as [|c x IH]; intros enough taken Hx Hne Hearly.
  - destruct enough; [| now contradiction Hne].
    change (EmptyString ++ rest) with rest.
    now rewrite many_unfold, Hnext, text_app_empty.
  - cbn [all_units] in Hx. apply andb_true_iff in Hx as [Hc Hx].
    rewrite text_app_unit, many_unfold. cbv zeta. rewrite Hc.
    assert (Hstop : (if enough then
                       match next (String c (x ++ rest)) with
                       | Some gs => Some (if group then taken :: gs else gs)
                       | None => None
                       end
                     else None) = None).
    { destruct enough; [| reflexivity].
      rewrite <- text_app_unit.
      rewrite (Hearly EmptyString (String c x)); auto; try discriminate. }
    rewrite Hstop, IH; auto; try discriminate.
    + now rewrite text_app_assoc.
    + intros x1 x2 -> Hx2 _.
      apply (Hearly (String c x1) x2); auto; try discriminate.
Qed.

Lemma run_lit (text : string) (items : list item) (s : string) :
  run (lit text ++ items) (text ++ s) = run items s.
Proof.
  induction text as [|c text IH]; [reflexivity |].
  rewrite text_app_unit. cbn [lit app run]. now rewrite Ascii.eqb_refl.
Qed.

Lemma run_lit_sound (text : string) (items : list item) (s : string)
      (r : list string) :
  run (lit text ++ items) s = Some r ->
  exists rest, s = text ++ rest /\ run items rest = Some r.
Proof.
  revert s. induction text as [|c text IH]; intros s Hrun.
  - now exists s.
  - cbn [lit app run] in Hrun. destruct s as [|c' s]; [discriminate |].
    destruct (Ascii.eqb_spec c c') as [<- |]; [| discriminate].
    destruct (IH _ Hrun) as (rest & -> & Hrest). now exists rest.
Qed.

Lemma run_one_sound (class : ascii -> bool) (items : list item) (s : string)
      (r : list string) :
  run (One class :: items) s = Some r ->
  exists c rest, s = String c rest /\ class c = true /\ run items rest = Some r.
Proof.
  cbn [run]. destruct s as [|c s]; [discriminate |].
  destruct (class c) eqn:Hc; [| discriminate]. eauto.
Qed.

Lemma run_many (greedy at_least_one group : bool) (class : ascii -> bool)
      (items : list item) (s : string) :
  run (Many greedy at_least_one group class :: items) s =
    many greedy group class (run items) (negb at_least_one) EmptyString s.
Proof. reflexivity. Qed.

Lemma run_one (class : ascii -> bool) (items : list item) (c : ascii)
      (s : string) :
  class c = true -> run (One class :: items) (String c s) = run items s.
Proof. intros Hc. cbn [run]. now rewrite Hc. Qed.

Lemma run_at_end_sound (s : string) (r : list string) :
  run [AtEnd] s = Some r -> s = EmptyString /\ r = [].
Proof. destruct s; [now intros [= <-] | discriminate]. Qed.

End Matching.

(** ** Trimmed texts *)

Lemma trimStart_length (s : string) :
  (String.length (trimStart s) <= String.length s)%nat.
Proof.
  induction s as [|c s IH]; cbn [trimStart]; [lia |].
  destruct (is_space c); cbn [String.length]; lia.
Qed.

Lemma trimEnd_length (s : string) :
  (String.length (trimEnd s) <= String.length s)%nat.
Proof.
  induction s as [|c s IH]; cbn [trimEnd]; [lia |].
  destruct (trimEnd s); [destruct (is_space c) |]; cbn [String.length] in *; lia.
Qed.

(** A text that [trimEnd] leaves as it is has no white space at its end:
    none of the texts it ends with is white space all through. *)
Lemma trimEnd_fixed (s : string) :
  trimEnd s = s ->
  forall x y, s = x ++ y -> y <> EmptyString -> all_units is_space y = false.
Proof.
  induction s as [|c s IH]; intros Hfix x y Hcut Hy.
  - destruct x, y; try discriminate Hcut. now contradiction Hy.
  - cbn [trimEnd] in Hfix.
    assert (Hrest : s = EmptyString /\ is_space c = false \/
                    s <> EmptyString /\ trimEnd s = s).
    { destruct s as [|c' s']; [left | right].
      - cbn in Hfix. split; [reflexivity |]. now destruct (is_space c).
      - split; [discriminate |].
        destruct (trimEnd (String c' s')) as [|c'' s''] eqn:Hend.
        + destruct (is_space c); discriminate Hfix.
        + injection Hfix as -> ->. reflexivity. }
    destruct x as [|a x].
    + change (EmptyString ++ y) with y in Hcut. subst y. cbn [all_units].
      destruct Hrest as [[-> Hc] | [Hne Hs]]; [now rewrite Hc |].
      rewrite (IH Hs EmptyString s eq_refl Hne). apply andb_false_r.
    + rewrite text_app_unit in Hcut. injection Hcut as <- Hcut.
      destruct Hrest as [[-> _] | [_ Hs]].
      * destruct x, y; try discriminate Hcut. now contradiction Hy.
      * exact (IH Hs x y Hcut Hy).
Qed.

(** A trimmed text starts with a unit that is no white space, and ends
    with one. *)
Lemma trimmed_ends (s : string) :
  trimmed s ->
  (exists c r, s = String c r /\ is_space c = false) /\
  (forall x y, s = x ++ y -> y <> EmptyString -> all_units is_space y = false).
Proof.
  intros [Hne Htrim]. unfold trim in Htrim.
  assert (Hstart : trimStart s = s).
  { destruct s as [|c r]; [reflexivity |]. cbn [trimStart] in *.
    destruct (is_space c); [| reflexivity]. exfalso.
    pose proof (trimEnd_length (trimStart r)) as H1.
    pose proof (trimStart_length r) as H2.
    rewrite Htrim in H1. cbn [String.length] in H1. lia. }
  rewrite Hstart in Htrim. split; [| now apply trimEnd_fixed].
  destruct s as [|c r]; [now contradiction Hne |].
  exists c, r. split; [reflexivity |].
  cbn [trimStart] in Hstart. destruct (is_space c) eqn:Hc; [| reflexivity].
  exfalso. pose proof (trimStart_length r) as Hlen.
  rewrite Hstart in Hlen. cbn [String.length] in Hlen. lia.
Qed.

(** ** The page list *)

Section PageListFacts.
Import Regex PageList BulkExport.

Lemma blank_first (gap : string) :
  blank gap -> exists c r, gap = String c r /\ is_space c = true.
Proof.
  intros [Hne Hall]. destruct gap as [|c r]; [now contradiction Hne |].
  cbn [all_units] in Hall. apply andb_true_iff in Hall as [Hc _]. eauto.
Qed.

(** The groups of a match of the pattern of an entry, and the line that
    was matched. *)
Lemma entry_sound (line : string) (groups : list string) :
  run entry line = Some groups ->
  exists number gap1 title gap2 created gap3 gap4 pageId,
    line = entry_line number gap1 title gap2 created gap3 gap4 pageId /\
    groups = [title; pageId] /\
    number <> EmptyString /\ all_units is_digit number = true /\
    blank gap1 /\ blank gap2 /\ blank gap3 /\ blank gap4 /\
    title <> EmptyString /\ one_line title /\ one_line created /\
    pageId <> EmptyString /\ one_line pageId.
Proof.
  unfold entry. cbn [app]. intros Hrun.
  rewrite run_many in Hrun.
  apply many_sound in Hrun as (number & s1 & g1 & -> & Hnumber & Hn & Hrun & ->).
  apply run_one_sound in Hrun as (c1 & s2 & -> & Hc1 & Hrun).
  apply Ascii.eqb_eq in Hc1 as <-.
  rewrite run_many in Hrun.
  apply many_sound in Hrun as (gap1 & s3 & g3 & -> & Hgap1 & Hg1 & Hrun & ->).
  rewrite run_many in Hrun.
  apply many_sound in Hrun as (title & s4 & g4 & -> & Htitle & Ht & Hrun & ->).
  rewrite run_many in Hrun.
  apply many_sound in Hrun as (gap2 & s5 & g5 & -> & Hgap2 & Hg2 & Hrun & ->).
  apply run_lit_sound in Hrun as (s6 & -> & Hrun).
  rewrite run_many in Hrun.
  apply many_sound in Hrun as (created & s7 & g7 & -> & Hcreated & _ & Hrun & ->).
  apply run_one_sound in Hrun as (c2 & s8 & -> & Hc2 & Hrun).
  apply Ascii.eqb_eq in Hc2 as <-.
  rewrite run_many in Hrun.
  apply many_sound in Hrun as (gap3 & s9 & g9 & -> & Hgap3 & Hg3 & Hrun & ->).
  apply run_lit_sound in Hrun as (s10 & -> & Hrun).
  rewrite run_many in Hrun.
  apply many_sound in Hrun as (gap4 & s11 & g11 & -> & Hgap4 & Hg4 & Hrun & ->).
  rewrite run_many in Hrun.
  apply many_sound in Hrun as (pageId & s12 & g12 & -> & Hid & Hi & Hrun & ->).
  apply run_at_end_sound in Hrun as [-> ->].
  exists number, gap1, title, gap2, created, gap3, gap4, pageId.
  unfold entry_line, blank, one_line. rewrite text_app_empty.
  cbn [negb] in *. repeat split; auto.
Qed.

(** Every entry that [main] reads comes from a line of the form
    [<digits>.<gap><title><gap>(Created:<text>)<gap>--<gap><id>], where
    the gaps are white space and the title, the text and the id hold no
    line break; its title and its id are the trimmed title and id of the
    line. *)
Theorem entry_comes_from_a_listed_line (line : string) (e : listed) :
  parse_line line = Some e ->
  exists number gap1 title gap2 created gap3 gap4 pageId,
    line = entry_line number gap1 title gap2 created gap3 gap4 pageId /\
    e = mkListed (trim title) (trim pageId) /\
    number <> EmptyString /\ all_units is_digit number = true /\
    blank gap1 /\ blank gap2 /\ blank gap3 /\ blank gap4 /\
    title <> EmptyString /\ one_line title /\ one_line created /\
    pageId <> EmptyString /\ one_line pageId.
Proof.
  unfold parse_line. destruct (run entry line) as [groups |] eqn:Hrun;
    [| discriminate].
  apply entry_sound in Hrun
    as (number & gap1 & title & gap2 & created & gap3 & gap4 & pageId &
        Hline & -> & Hrest).
  intros [= <-].
  exists number, gap1, title, gap2, created, gap3, gap4, pageId. auto.
Qed.

(** A unit of a text is the first unit of what follows it in some cut of
    the text. *)
Lemma no_unit_at_cut (s : string) (c : ascii) :
  includes s (unit_text c) = false ->
  forall x1 x2 r, s = x1 ++ x2 -> x2 <> String c r.
Proof.
  intros Hno x1 x2 r -> ->.
  assert (Hin : includes (x1 ++ String c r) (unit_text c) = true).
  { apply includes_spec. now exists x1, r. }
  congruence.
Qed.

(** A trimmed title without the text [(Created:] cannot be cut before its
    end so that white space and [(Created:] follow the cut. *)
Lemma title_ends_at_created (title gap rest : string) :
  trimmed title ->
  includes title "(Created:" = false ->
  blank gap ->
  forall x1 x2 ws rest',
    title = x1 ++ x2 -> x2 <> EmptyString ->
    all_units is_space ws = true ->
    x2 ++ gap ++ "(Created:" ++ rest = ws ++ "(Created:" ++ rest' ->
    False.
Proof.
  intros Ht Hno Hgap x1 x2 ws rest' Hcut Hx2 Hws Heq.
  destruct (trimmed_ends _ Ht) as [_ Hend].
  pose proof (Hend x1 x2 Hcut Hx2) as Hnot.
  apply text_app_cut in Heq as [(e & -> & Heq) | (e & -> & _)].
  - symmetry in Heq.
    apply text_app_cut in Heq as [(e' & -> & _) | (e' & Hc & Heq)].
    + assert (Hin : includes title "(Created:" = true).
      { apply includes_spec. exists (x1 ++ ws), e'.
        rewrite Hcut. now rewrite !text_app_assoc. }
      congruence.
    + destruct e' as [|a e'].
      * rewrite text_app_empty in Hc. subst e.
        assert (Hin : includes title "(Created:" = true).
        { apply includes_spec. exists (x1 ++ ws), EmptyString.
          rewrite Hcut. now rewrite !text_app_assoc. }
        congruence.
      * apply blank_first in Hgap as (g & gr & -> & Hg).
        rewrite !text_app_unit in Heq. injection Heq as <- _.
        assert (Hin : all_units (fun c => negb (is_space c)) "(Created:" = true)
          by reflexivity.
        rewrite Hc, all_units_app in Hin. cbn [all_units] in Hin.
        rewrite Hg in Hin. cbn [negb] in Hin.
        rewrite andb_false_l, andb_false_r in Hin. discriminate Hin.
  - rewrite all_units_app in Hws. apply andb_true_iff in Hws as [Hws _].
    congruence.
Qed.

Lemma entry_complete
      (number gap1 title gap2 created gap3 gap4 pageId : string) :
  number <> EmptyString -> all_units is_digit number = true ->
  blank gap1 -> blank gap2 -> blank gap3 -> blank gap4 ->
  trimmed title -> one_line title -> includes title "(Created:" = false ->
  one_line created -> includes created ")" = false ->
  trimmed pageId -> one_line pageId ->
  run entry (entry_line number gap1 title gap2 created gap3 gap4 pageId) =
    Some [title; pageId].
Proof.
  intros Hn Hnumber Hg1 Hg2 Hg3 Hg4 Ht Htl Htc Hcl Hcc Hi Hil.
  destruct (trimmed_ends _ Ht) as [(tc & tr & Hteq & Htc0) _].
  destruct (trimmed_ends _ Hi) as [(ic & ir & Hieq & Hic0) _].
  unfold entry, entry_line. cbn [app].
  rewrite run_many.
  apply (many_greedy_run false digit _ _ [title; pageId]);
    [reflexivity | | exact Hnumber | intros _; exact Hn].
  refine (eq_trans (run_one _ _ "."%char _ eq_refl) _).
  rewrite run_many.
  apply (many_greedy_run false space _ _ [title; pageId]);
    [rewrite Hteq; exact Htc0 | | exact (proj2 Hg1) | intros _; exact (proj1 Hg1)].
  rewrite run_many.
  refine (many_lazy_first true dot _ _ [pageId] _ title _ _ Htl _ _).
  2: { intros _. exact (proj1 Ht). }
  2: { intros x1 x2 Hcut Hx2 _.
       match goal with |- ?m = None => destruct m as [r |] eqn:Hrun end;
         [exfalso | reflexivity].
       rewrite run_many in Hrun.
       apply many_sound in Hrun as (ws & r1 & g & Heq & Hws & _ & Hrun & _).
       apply run_lit_sound in Hrun as (r2 & -> & _).
       exact (title_ends_at_created title gap2 _ Ht Htc Hg2 x1 x2 ws r2
                Hcut Hx2 Hws Heq). }
  rewrite run_many.
  apply (many_greedy_run false space _ _ [pageId]);
    [reflexivity | | exact (proj2 Hg2) | intros _; exact (proj1 Hg2)].
  rewrite run_lit, run_many.
  refine (many_lazy_first false dot _ _ [pageId] _ created _ _ Hcl _ _).
  2: { intros [=]. }
  2: { intros x1 x2 Hcut Hx2 _. destruct x2 as [|c x2]; [now contradiction Hx2 |].
       rewrite text_app_unit. cbn [run].
       destruct (Ascii.eqb ")" c) eqn:Hc; [exfalso | reflexivity].
       apply Ascii.eqb_eq in Hc as <-.
       exact (no_unit_at_cut created ")"%char Hcc x1 _ _ Hcut eq_refl). }
  refine (eq_trans (run_one _ _ ")"%char _ eq_refl) _).
  rewrite run_many.
  apply (many_greedy_run false space _ _ [pageId]);
    [reflexivity | | exact (proj2 Hg3) | intros _; exact (proj1 Hg3)].
  rewrite run_lit, run_many.
  apply (many_greedy_run false space _ _ [pageId]);
    [rewrite Hieq; exact Hic0 | | exact (proj2 Hg4) | intros _; exact (proj1 Hg4)].
  rewrite run_many.
  pose proof (many_greedy_run true dot (run [AtEnd]) EmptyString [] I eq_refl
                pageId false EmptyString Hil (fun _ => proj1 Hi)) as Hlast.
  rewrite text_app_empty in Hlast. exact Hlast.
Qed.

(** [trim] leaves a trimmed text as it is. *)
Lemma parse_line_entry
      (number gap1 title gap2 created gap3 gap4 pageId : string) :
  number <> EmptyString -> all_units is_digit number = true ->
  blank gap1 -> blank gap2 -> blank gap3 -> blank gap4 ->
  trimmed title -> one_line title -> includes title "(Created:" = false ->
  one_line created -> includes created ")" = false ->
  trimmed pageId -> one_line pageId ->
  parse_line (entry_line number gap1 title gap2 created gap3 gap4 pageId) =
    Some (mkListed title pageId).
Proof.
  intros Hn Hnumber Hg1 Hg2 Hg3 Hg4 Ht Htl Htc Hcl Hcc Hi Hil.
  unfold parse_line.
  rewrite (entry_complete number gap1 title gap2 created gap3 gap4 pageId)
    by assumption.
  now rewrite (proj2 Ht), (proj2 Hi).
Qed.

End PageListFacts.

(** ** From the listing to the page list *)

Section ListingRoundTrip.
Import Regex PageList BulkExport.
Context `{Engine}.

Lemma split_lines_one_line (line : string) :
  one_line line -> split_lines line = [line].
Proof.
  unfold one_line. induction line as [|c line IH]; [reflexivity |].
  cbn [all_units split_lines]. intros Hall.
  apply andb_true_iff in Hall as [Hc Hall]. unfold dot in Hc. cbn zeta in Hc.
  destruct (N_of_ascii c =? 10)%N; [discriminate Hc |].
  now rewrite (IH Hall).
Qed.

Lemma split_lines_next (line rest : string) :
  one_line line ->
  split_lines (line ++ nl ++ rest) = line :: split_lines rest.
Proof.
  unfold one_line. induction line as [|c line IH]; [reflexivity |].
  rewrite text_app_unit. cbn [all_units split_lines]. intros Hall.
  apply andb_true_iff in Hall as [Hc Hall]. unfold dot in Hc. cbn zeta in Hc.
  destruct (N_of_ascii c =? 10)%N; [discriminate Hc |].
  now rewrite (IH Hall).
Qed.

Lemma split_lines_join (lines : list string) :
  lines <> [] -> Forall one_line lines ->
  split_lines (join nl lines) = lines.
Proof.
  induction lines as [|line lines IH]; [now intros Hne |].
  intros _ Hall. inversion Hall as [|? ? Hline Hrest]; subst.
  destruct lines as [|line' lines].
  - now apply split_lines_one_line.
  - change (join nl (line :: line' :: lines))
      with (line ++ nl ++ join nl (line' :: lines)).
    rewrite split_lines_next by exact Hline.
    now rewrite IH.
Qed.

Lemma one_line_app (a b : string) :
  one_line a -> one_line b -> one_line (a ++ b).
Proof.
  unfold one_line. intros Ha Hb. now rewrite all_units_app, Ha, Hb.
Qed.

Lemma one_line_digits (s : string) :
  all_units is_digit s = true -> one_line s.
Proof.
  apply all_units_weaken. intros c Hc. unfold is_digit in Hc. unfold dot.
  cbn zeta. destruct (N_of_ascii c =? 10)%N eqn:H10;
    [apply N.eqb_eq in H10; rewrite H10 in Hc; discriminate Hc |].
  destruct (N_of_ascii c =? 13)%N eqn:H13;
    [apply N.eqb_eq in H13; rewrite H13 in Hc; discriminate Hc |].
  reflexivity.
Qed.

Lemma listed_line_entry (index : nat) (p : page) :
  listed_line index p =
    entry_line (pretty (S index)) " " (ToString (title p)) " "
      (" " ++ Date_toLocaleString (Date_new (createdDateTime p))) " " " "
      (ToString (id p)).
Proof. reflexivity. Qed.

Lemma readable_line (index : nat) (p : page) :
  readable p ->
  one_line (listed_line index p) /\
  parse_line (listed_line index p) = Some (listed_of p).
Proof.
  intros (t & i & Ht & Hi & Htrim & Htl & Htc & Hitrim & Hil & Hcl & Hcc).
  destruct (pretty_nat_text (S index)) as (Hdigits & Hne & _).
  split.
  - unfold listed_line. rewrite Ht, Hi. cbn [ToString].
    repeat apply one_line_app;
      try assumption; try reflexivity. now apply one_line_digits.
  - rewrite listed_line_entry. unfold listed_of. rewrite Ht, Hi. cbn [ToString].
    apply parse_line_entry; try assumption;
      try (split; [discriminate | reflexivity]).
Qed.

Lemma print_pages_trace (pages : list page) :
  forall (index : nat) (w : World),
    fst (print_pages true index pages w) = Ok tt /\
    trace (snd (print_pages true index pages w)) =
      (rev (map ConsoleLog (listed_lines index pages)) ++ trace w)%list.
Proof.
  induction pages as [|p pages IH]; intros index w; [now split |].
  cbn [print_pages listed_lines map rev].
  unfold bind, console_log, emit. cbn [fst snd].
  destruct (IH (S index) (record_event (ConsoleLog (listed_line index p)) w))
    as [Hfst Hsnd].
  split; [exact Hfst |].
  unfold listed_line in *. rewrite Hsnd. cbn [record_event trace].
  now rewrite <- app_assoc.
Qed.

Lemma listed_lines_read (pages : list page) :
  forall index : nat,
    Forall readable pages ->
    Forall one_line (listed_lines index pages) /\
    omap parse_line (listed_lines index pages) = map listed_of pages.
Proof.
  induction pages as [|p pages IH]; intros index Hall; [now split |].
  inversion Hall as [|? ? Hp Hrest]; subst.
  destruct (readable_line index p Hp) as [Hline Hparse].
  destruct (IH (S index) Hrest) as [Hlines Hread].
  cbn [listed_lines omap list_omap map]. split; [now constructor |].
  change (omap parse_line (listed_line index p :: listed_lines (S index) pages))
    with (match parse_line (listed_line index p) with
          | Some e => e :: omap parse_line (listed_lines (S index) pages)
          | None => omap parse_line (listed_lines (S index) pages)
          end).
  now rewrite Hparse, Hread.
Qed.

(** The lines that [list-pages.js] prints for the pages of a listing with
    ids are a page list that [download-all-pages.js] reads back: when every
    page is readable, a file that holds these lines gives one entry per
    page, in the order of the listing, with the title and the id of the
    page. *)
Theorem listing_is_read_back (index : nat) (pages : list page) (w : World) :
  Forall readable pages ->
  trace (snd (print_pages true index pages w)) =
    (rev (map ConsoleLog (listed_lines index pages)) ++ trace w)%list /\
  parse_entries (join nl (listed_lines index pages)) = map listed_of pages.
Proof.
  intros Hall. split; [apply print_pages_trace |].
  destruct (listed_lines_read pages index Hall) as [Hlines Hread].
  unfold parse_entries.
  destruct (listed_lines index pages) as [|line lines] eqn:Heq.
  - rewrite <- Hread. reflexivity.
  - rewrite split_lines_join; [exact Hread | discriminate | exact Hlines].
Qed.

End ListingRoundTrip.

Section PageListEdges.
Import Regex PageList BulkExport.

Lemma entry_comes_from_a_listed_line_witness :
  exists number gap1 title gap2 created gap3 gap4 pageId,
    "12.  Budget   (Created: 5/1/2022, 9:00:00 AM)  --  1-abc " =
      entry_line number gap1 title gap2 created gap3 gap4 pageId /\
    mkListed "Budget" "1-abc" = mkListed (trim title) (trim pageId) /\
    number <> EmptyString /\ all_units is_digit number = true /\
    blank gap1 /\ blank gap2 /\ blank gap3 /\ blank gap4 /\
    title <> EmptyString /\ one_line title /\ one_line created /\
    pageId <> EmptyString /\ one_line pageId.
Proof.
  apply (entry_comes_from_a_listed_line
           "12.  Budget   (Created: 5/1/2022, 9:00:00 AM)  --  1-abc "
           (mkListed "Budget" "1-abc")).
  vm_compute. reflexivity.
Defined.

Lemma listing_is_read_back_witness :
  trace (snd (print_pages (H := Reference.engine) true 0
                [recent_page; sample_page "7"] ready_world)) =
    (rev (map ConsoleLog
            (listed_lines (H := Reference.engine) 0
               [recent_page; sample_page "7"])) ++
     trace ready_world)%list /\
  parse_entries
    (join nl (listed_lines (H := Reference.engine) 0
                [recent_page; sample_page "7"])) =
    [mkListed "Roadmap: Q3" "p2"; mkListed "Page 7" "7"].
Proof.
  apply (listing_is_read_back (H := Reference.engine) 0
           [recent_page; sample_page "7"] ready_world).
  repeat constructor.
  - exists "Roadmap: Q3", "p2". vm_compute. repeat split; congruence.
  - exists "Page 7", "7". vm_compute. repeat split; congruence.
Defined.

(** The last unit of a text that is cut in two is the last unit of its
    second part. *)
Lemma last_unit_of_cut (a b s : string) (c : ascii) :
  a ++ b = s ++ unit_text c -> b <> EmptyString ->
  exists b', b = b' ++ unit_text c.
Proof.
  intros Heq Hb.
  apply text_app_cut in Heq as [(e & -> & He) | (e & -> & He)].
  - destruct e as [|x e].
    + exists EmptyString. now rewrite He.
    + destruct e; [| destruct b; discriminate He].
      destruct b; [| discriminate He]. now contradiction Hb.
  - now exists e.
Qed.

(** A line that ends with a carriage return, as the lines of a file with
    Windows line ends do after [split], is no entry; neither is a line that
    does not start with a digit. *)
Theorem lines_that_are_no_entry (line : string) :
  parse_line (line ++ cr) = None /\
  (match line with String c _ => is_digit c = false | EmptyString => True end ->
   parse_line line = None).
Proof.
  split.
  - unfold parse_line.
    destruct (run entry (line ++ cr)) as [groups |] eqn:Hrun; [| reflexivity].
    exfalso. apply entry_sound in Hrun
      as (number & gap1 & title & gap2 & created & gap3 & gap4 & pageId &
          Hline & _ & _ & _ & _ & _ & _ & _ & _ & _ & _ & Hid & Hone).
    unfold entry_line in Hline.
    repeat rewrite <- text_app_assoc in Hline. symmetry in Hline.
    apply last_unit_of_cut in Hline as [b' ->]; [| exact Hid].
    unfold one_line in Hone. rewrite all_units_app in Hone.
    apply andb_true_iff in Hone as [_ Hone]. discriminate Hone.
  - intros Hfirst.
    unfold parse_line.
    destruct (run entry line) as [groups |] eqn:Hrun; [| reflexivity].
    exfalso. apply entry_sound in Hrun
      as (number & gap1 & title & gap2 & created & gap3 & gap4 & pageId &
          -> & _ & Hn & Hdigits & _).
    unfold entry_line in Hfirst.
    destruct number as [|c number]; [now contradiction Hn |].
    rewrite text_app_unit in Hfirst. cbn [all_units] in Hdigits.
    apply andb_true_iff in Hdigits as [Hc _]. congruence.
Qed.

End PageListEdges.

(** ** The tools of the server and the file system *)

Lemma reads_refl (w : World) : reads_only w w.
Proof. repeat split. exists []. now split. Qed.

Lemma reads_trans (w1 w2 w3 : World) :
  reads_only w1 w2 -> reads_only w2 w3 -> reads_only w1 w3.
Proof.
  intros (Hf & Hd & a & Ha & Hall) (Hf' & Hd' & a' & Ha' & Hall').
  repeat split; [congruence | congruence |].
  exists (a' ++ a)%list. split; [| now apply Forall_app].
  now rewrite Ha', Ha, app_assoc.
Qed.

Lemma reads_quiet (w0 w w' : World) :
  reads_only w0 w -> quiet_since w w' -> reads_only w0 w'.
Proof.
  intros Hw (Hf & Hd & He). apply (reads_trans _ _ _ Hw).
  repeat split; [exact Hf | exact Hd |]. exists []. now split.
Qed.

Lemma reads_log (e : event) (w0 w : World) :
  is_effect e = false -> reads_only w0 w -> reads_only w0 (record_event e w).
Proof.
  intros He Hw. apply (reads_quiet _ _ _ Hw).
  apply quiet_log; [exact He | apply quiet_refl].
Qed.

Lemma reads_request (e : event) (w0 w : World) :
  is_request e = true -> reads_only w0 w -> reads_only w0 (record_event e w).
Proof.
  intros He Hw. apply (reads_trans _ _ _ Hw).
  repeat split. exists [e]. split; [| now repeat constructor].
  unfold effects. cbn [record_event trace List.filter].
  destruct e; try discriminate He; reflexivity.
Qed.

Lemma wp_api_get_collection (env : Env) (url : string) (w : World)
      (Q : outcome collection -> World -> Prop) :
  Q (get_collection env (network (trace w)) url) (record_event (ApiGet url) w) ->
  wp (api_get_collection env url) w Q.
Proof. exact (fun q => q). Qed.

Lemma wp_api_get_content (env : Env) (url : string) (w : World)
      (Q : outcome value -> World -> Prop) :
  Q (get_content env (network (trace w)) url) (record_event (ApiGet url) w) ->
  wp (api_get_content env url) w Q.
Proof. exact (fun q => q). Qed.

Lemma wp_api_get_entities (env : Env) (url : string) (w : World)
      (Q : outcome (list entity) -> World -> Prop) :
  Q (get_entities env (network (trace w)) url) (record_event (ApiGet url) w) ->
  wp (api_get_entities env url) w Q.
Proof. exact (fun q => q). Qed.

Lemma wp_api_get_entity (env : Env) (url : string) (w : World)
      (Q : outcome entity -> World -> Prop) :
  Q (get_entity env (network (trace w)) url) (record_event (ApiGet url) w) ->
  wp (api_get_entity env url) w Q.
Proof. exact (fun q => q). Qed.

Ltac reading :=
  repeat first
    [ assumption
    | apply reads_refl
    | apply reads_log; [reflexivity |]
    | apply reads_request; [reflexivity |]
    | eapply reads_quiet; [| eassumption] ].

(** One step of a run of a tool: the request steps are opened, the tests
    are split, and [ensureGraphClient] is taken as a quiet step. *)
Ltac stride :=
  repeat first
    [ wp_step
    | apply wp_ensureGraphClient; [intros ? ? | intros ? ? ?]
    | apply wp_api_get_page; cbv beta iota
    | apply wp_fetch; cbv beta iota
    | apply wp_api_get_collection; cbv beta iota
    | apply wp_api_get_content; cbv beta iota
    | apply wp_api_get_entities; cbv beta iota
    | apply wp_api_get_entity; cbv beta iota
    | lazymatch goal with
      | |- wp (if ?b then _ else _) _ _ => destruct b eqn:?
      | |- wp (match ?x with _ => _ end) _ _ => destruct x eqn:?
      | |- match ?x with _ => _ end => destruct x eqn:?
      end ].

Section ReadTools.
Context `{Engine} (env : Env).

Lemma follow_links_reads (fuel : nat) :
  forall (response : collection) (allValues : list page) (w0 w : World),
    reads_only w0 w ->
    wp (McpListing.follow_links env fuel response allValues) w
       (fun _ w' => reads_only w0 w').
Proof.
  induction fuel as [|fuel IH]; intros response allValues w0 w Hw;
    cbn [McpListing.follow_links]; stride; try exact Hw; try reading.
  apply IH. reading.
Qed.

Lemma follow_search_reads (fuel : nat) :
  forall (response : collection) (pages : list page) (w0 w : World),
    reads_only w0 w ->
    wp (McpListing.follow_search env fuel response pages) w
       (fun _ w' => reads_only w0 w').
Proof.
  induction fuel as [|fuel IH]; intros response pages w0 w Hw;
    cbn [McpListing.follow_search]; stride; try exact Hw; try reading.
  apply IH. reading.
Qed.

(** The tools of the server that read never touch the file system:
    whatever the service answers and whatever the arguments are, a call of
    [getPage], [getPageContent], [listPages] or [searchPages] leaves the
    files and the directories as they are, and the only effects it adds
    are requests. *)
Theorem reading_tools_write_nothing (w : World) :
  (forall pageId, reads_only w (snd (McpTools.getPage env pageId w))) /\
  (forall pageId, reads_only w (snd (McpTools.getPageContent env pageId w))) /\
  (forall sectionId top nextLink fetchAll fuel,
     reads_only w
       (snd (McpListing.listPages env sectionId top nextLink fetchAll fuel w))) /\
  (forall searchTerm sectionId fuel,
     reads_only w (snd (McpListing.searchPages env searchTerm sectionId fuel w))).
Proof.
  split; [| split; [| split]].
  - intros pageId.
    change (wp (McpTools.getPage env pageId) w (fun _ w' => reads_only w w')).
    unfold McpTools.getPage. stride; reading.
  - intros pageId.
    change (wp (McpTools.getPageContent env pageId) w
              (fun _ w' => reads_only w w')).
    unfold McpTools.getPageContent. stride; reading.
  - intros sectionId top nextLink fetchAll fuel.
    change (wp (McpListing.listPages env sectionId top nextLink fetchAll fuel) w
              (fun _ w' => reads_only w w')).
    unfold McpListing.listPages. stride; try reading.
    all: match goal with
         | |- wp (McpListing.follow_links _ _ _ _) ?W _ =>
             eapply wp_mono; [apply (follow_links_reads _ _ _ w W); reading |]
         end.
    all: intros [r | msg |] w2 Hw2; cbv beta iota; stride; reading.
  - intros searchTerm sectionId fuel.
    change (wp (McpListing.searchPages env searchTerm sectionId fuel) w
              (fun _ w' => reads_only w w')).
    unfold McpListing.searchPages. stride; try reading.
    all: match goal with
         | |- wp (McpListing.follow_search _ _ _ _) ?W _ =>
             eapply wp_mono; [apply (follow_search_reads _ _ _ w W); reading |]
         end.
    all: intros [r | msg |] w2 Hw2; cbv beta iota; stride; reading.
Qed.

End ReadTools.

Section WritingTool.
Context `{Engine} (env : Env).

Lemma reads_files (w w' : World) :
  reads_only w w' -> files w' = files w /\ dirs w' = dirs w.
Proof. intros (Hf & Hd & _). now split. Qed.

Lemma wp_write_exact (path content : string) (w : World)
      (Q : outcome unit -> World -> Prop) :
  (forall err,
     write_error env (trace w) path = Some err ->
     write_left env (trace w) path content = None ->
     Q (Throw err) w) ->
  (forall err rest,
     write_error env (trace w) path = Some err ->
     write_left env (trace w) path content = Some rest ->
     Q (Throw err) (with_file path rest w)) ->
  (write_error env (trace w) path = None ->
   Q (Ok tt) (with_file path content w)) ->
  wp (writeFileSync env path content) w Q.
Proof.
  intros Hthrow Hrest Hok. unfold wp, writeFileSync.
  destruct (write_error env (trace w) path) as [err |]; [| now apply Hok].
  destruct (write_left env (trace w) path content) as [rest |];
    [now apply Hrest | now apply Hthrow].
Qed.

(** [downloadFile] touches one file at most, the file asked for, and
    creates no directory. When it returns, either it reports a skipped
    page and no file has changed, or the file asked for holds the text of
    a successful response to the request for the content of the page.
    When it throws, the message starts with [Failed to download file: ],
    and no file has changed unless the write itself failed after it had
    opened the file: the file asked for then holds what that write left.
    When a request never ends, no file has changed. *)
Theorem download_file_touches_one_file (pageId filePath : value) (w : World) :
  let run := McpTools.downloadFile env pageId filePath w in
  dirs (snd run) = dirs w /\
  match fst run with
  | Ok text =>
      (files (snd run) = files w /\ exists why, text = "Page skipped: " ++ why) \/
      (exists history response,
         http_fetch env history (content_url (ToString pageId)) = Ok response /\
         r_ok response = true /\
         files (snd run) = <[ToString filePath := r_text response]> (files w))
  | Throw msg =>
      (exists why, msg = "Failed to download file: " ++ why) /\
      (files (snd run) = files w \/
       exists tr content err rest,
         write_error env tr (ToString filePath) = Some err /\
         write_left env tr (ToString filePath) content = Some rest /\
         msg = "Failed to download file: " ++ err /\
         files (snd run) = <[ToString filePath := rest]> (files w))
  | Diverge => files (snd run) = files w
  end.
Proof.
  cbv zeta.
  change (wp (McpTools.downloadFile env pageId filePath) w
            (fun o w' =>
               dirs w' = dirs w /\
               match o with
               | Ok text =>
                   (files w' = files w /\
                    exists why, text = "Page skipped: " ++ why) \/
                   (exists history response,
                      http_fetch env history (content_url (ToString pageId)) =
                        Ok response /\
                      r_ok response = true /\
                      files w' =
                        <[ToString filePath := r_text response]> (files w))
               | Throw msg =>
                   (exists why, msg = "Failed to download file: " ++ why) /\
                   (files w' = files w \/
                    exists tr content err rest,
                      write_error env tr (ToString filePath) = Some err /\
                      write_left env tr (ToString filePath) content =
                        Some rest /\
                      msg = "Failed to download file: " ++ err /\
                      files w' = <[ToString filePath := rest]> (files w))
               | Diverge => files w' = files w
               end)).
  unfold McpTools.downloadFile.
  repeat first
    [ wp_step
    | apply wp_ensureGraphClient; [intros ? ? | intros ? ? ?]
    | apply wp_api_get_page; cbv beta iota
    | apply wp_fetch; cbv beta iota
    | apply wp_write_exact; [intros ? ? ? | intros ? ? ? ? | intros ?];
      cbv beta iota
    | lazymatch goal with
      | |- wp (if ?b then _ else _) _ _ => destruct b eqn:?
      | |- wp (match ?x with _ => _ end) _ _ => destruct x eqn:?
      | |- match ?x with _ => _ end => destruct x eqn:?
      end ].
  all: lazymatch goal with
       | |- dirs ?W = _ /\ _ =>
           first
             [ let Hr := fresh "Hr" in
               assert (Hr : reads_only w W) by reading;
               destruct (reads_files _ _ Hr) as [Hf Hd];
               split; [exact Hd |];
               first [ exact Hf
                     | split; [eexists; reflexivity | left; exact Hf]
                     | left; split; [exact Hf | eexists; reflexivity] ]
             | lazymatch goal with
               | |- context [with_file _ _ ?W1] =>
                   let Hr := fresh "Hr" in
                   assert (Hr : reads_only w W1) by reading;
                   destruct (reads_files _ _ Hr) as [Hf Hd];
                   cbn [files record_event with_file] in Hf;
                   split; [exact Hd |]
               end ]
       end.
  - split; [eexists; reflexivity |]. right.
    eexists _, _, _, _. split; [eassumption |]. split; [eassumption |].
    split; [reflexivity |].
    cbn [files record_event with_file]. now rewrite Hf.
  - right. eexists _, _. split; [eassumption |].
    split; [now apply negb_false_iff |].
    cbn [files record_event with_file]. now rewrite Hf.
Qed.

End WritingTool.

Section Arguments.
Context `{Engine} (env : Env).

(** [ensureGraphClient] is quiet, and the only message it throws is
    [no_token_message], which it throws only when there is no client. *)
Lemma wp_ensureGraphClient_message (w : World)
      (Q : outcome unit -> World -> Prop) :
  (forall w', quiet_since w w' -> Q (Ok tt) w') ->
  (forall w',
     quiet_since w w' -> graphClient w = false ->
     Q (Throw no_token_message) w') ->
  wp ensureGraphClient w Q.
Proof.
  intros Hok Hthrow. unfold wp, ensureGraphClient.
  destruct (graphClient w) eqn:Hclient; [apply Hok, quiet_refl |].
  unfold bind, try_catch, existsSync, readFileSync, set_accessToken,
    get_accessToken, set_graphClient, throw, console_error, emit, ret.
  destruct (bool_decide _ || bool_decide _); cbn.
  - destruct (files w !! tokenFilePath) as [data |]; cbn.
    + destruct (truthy (decodeToken data)); cbn;
        [apply Hok | apply Hthrow]; repeat split.
    + destruct (truthy (accessToken w)); cbn;
        [apply Hok | apply Hthrow]; repeat split.
  - destruct (truthy (accessToken w)); cbn;
      [apply Hok | apply Hthrow]; repeat split.
Qed.

Ltac refuse :=
  repeat first
    [ wp_step
    | apply wp_ensureGraphClient_message; [intros ? ? | intros ? ? ?]
    | lazymatch goal with
      | |- wp (if ?b then _ else _) _ _ => destruct b eqn:?
      end ].

(** A tool that needs the id of a page refuses a call without one before
    it asks the service for anything: for a page id that is absent, empty,
    [null], [0] or [false], [getPage], [getPageContent] and
    [downloadFile] throw [Page ID is required] behind their own prefix,
    and [downloadFile] throws [File path is required] for such a file
    path. No request is made and no file is written. *)
Theorem missing_argument_is_refused (pageId filePath : value) (w : World) :
  (truthy pageId = false ->
   refused w "Failed to get page: " "Page ID is required"
           (McpTools.getPage env pageId w) /\
   refused w "Failed to get page content: " "Page ID is required"
           (McpTools.getPageContent env pageId w) /\
   refused w "Failed to download file: " "Page ID is required"
           (McpTools.downloadFile env pageId filePath w)) /\
  (truthy pageId = true -> truthy filePath = false ->
   refused w "Failed to download file: " "File path is required"
           (McpTools.downloadFile env pageId filePath w)).
Proof.
  split; [intros Hid; split; [| split] | intros Hid Hpath].
  - change (wp (McpTools.getPage env pageId) w
              (fun o w' =>
                 refused w "Failed to get page: " "Page ID is required" (o, w'))).
    unfold McpTools.getPage. rewrite Hid. cbn [negb]. refuse.
    all: split; [cbn [snd]; since | eexists; split; [reflexivity |]; auto].
  - change (wp (McpTools.getPageContent env pageId) w
              (fun o w' =>
                 refused w "Failed to get page content: " "Page ID is required"
                         (o, w'))).
    unfold McpTools.getPageContent. rewrite Hid. cbn [negb]. refuse.
    all: split; [cbn [snd]; since | eexists; split; [reflexivity |]; auto].
  - change (wp (McpTools.downloadFile env pageId filePath) w
              (fun o w' =>
                 refused w "Failed to download file: " "Page ID is required"
                         (o, w'))).
    unfold McpTools.downloadFile. rewrite Hid. cbn [negb]. refuse.
    all: split; [cbn [snd]; since | eexists; split; [reflexivity |]; auto].
  - change (wp (McpTools.downloadFile env pageId filePath) w
              (fun o w' =>
                 refused w "Failed to download file: " "File path is required"
                         (o, w'))).
    unfold McpTools.downloadFile. rewrite Hid, Hpath. cbn [negb]. refuse.
    all: split; [cbn [snd]; since | eexists; split; [reflexivity |]; auto].
Qed.

End Arguments.

(** ** Pages without a title *)

Section Untitled.
Context `{Engine} (env : Env).

Lemma wp_cli_filter (p : page) (w : World)
      (Q : outcome bool -> World -> Prop) :
  (forall b w', quiet_since w w' -> Q (Ok b) w') ->
  (forall msg w', quiet_since w w' -> Q (Throw msg) w') ->
  (forall w', quiet_since w w' -> Q Diverge w') ->
  wp (Cli.shouldSkipPage p) w Q.
Proof.
  intros Hok Hthrow Hdiverge. unfold Cli.shouldSkipPage.
  repeat first
    [ wp_step
    | lazymatch goal with
      | |- wp (if ?b then _ else _) _ _ => destruct b eqn:?
      | |- match ?x with _ => _ end => destruct x eqn:?
      end ];
    first [apply Hok | apply Hthrow | apply Hdiverge]; since.
Qed.

Variables (pageId : string) (p : page) (w : World).
Hypothesis Hget :
  get_page env (network (trace w)) (metadata_url pageId) = Ok p.
Hypothesis Htitle : forall s, title p <> VStr s.

Lemma untitled_name_throws : exists msg, safeFileName (title p) = Throw msg.
Proof.
  destruct (title p) eqn:Ht; cbn [safeFileName]; eauto.
  now contradiction (Htitle s).
Qed.

Ltac save_nothing :=
  repeat first
    [ wp_step
    | apply wp_loadToken; [intros ? ? ? | intros ? ? ?]
    | apply wp_getAccessToken; intros ? ? ?
    | apply wp_cli_filter; [intros ? ? ? | intros ? ? ? | intros ? ?]
    | apply wp_existsSync_exact; cbv beta iota
    | apply wp_mkdir_done; cbv beta iota
    | apply wp_fetch; cbv beta iota
    | apply wp_api_get_content; cbv beta iota
    | apply wp_api_get_page; cbv beta iota;
      match goal with
      | |- context [get_page env (network (trace ?W)) _] =>
          rewrite (quiet_network w W) by since
      end;
      change ("/me/onenote/pages/" ++ pageId) with (metadata_url pageId);
      rewrite Hget
    | match goal with
      | Hm : safeFileName (title p) = Throw _ |- _ => rewrite Hm
      end
    | lazymatch goal with
      | |- wp (if ?b then _ else _) _ _ => destruct b eqn:?
      | |- wp (match ?x with _ => _ end) _ _ => destruct x eqn:?
      | |- match ?x with _ => _ end => destruct x eqn:?
      end ].

Ltac same_files :=
  cbn [files record_event with_dir];
  repeat match goal with
         | Hq : quiet_since _ ?x |- files ?x = _ =>
             rewrite (proj1 Hq); cbn [files record_event with_dir]
         end;
  reflexivity.

Lemma content_script_saves_nothing :
  wp (GetPageContent.getPageContent env pageId) w
     (fun _ w' => files w' = files w).
Proof.
  destruct untitled_name_throws as [m Hm].
  unfold GetPageContent.getPageContent. save_nothing; same_files.
Qed.

Lemma page_script_saves_nothing :
  wp (GetPage.getPageContent env pageId) w (fun _ w' => files w' = files w).
Proof.
  destruct untitled_name_throws as [m Hm].
  unfold GetPage.getPageContent. save_nothing; same_files.
Qed.

Lemma content_script_fetches_untitled (data content : string) :
  files w !! tokenFilePath = Some data ->
  truthy (decodeToken data) = true ->
  title p = VUndefined ->
  Bulk.shouldSkipByDate p = false ->
  get_content env (ApiGet (metadata_url pageId) :: network (trace w))
              (metadata_url pageId ++ "/content") = Ok (VStr content) ->
  wp (GetPageContent.getPageContent env pageId) w
     (fun o w' =>
        o = Ok tt /\
        network (trace w') =
          ApiGet (metadata_url pageId ++ "/content") ::
          ApiGet (metadata_url pageId) :: network (trace w) /\
        (files w !! outputDir = None -> outputDir ∈ dirs w') /\
        head (trace w') =
          Some (ConsoleError
                  "Error: Cannot read properties of undefined (reading 'replace')")).
Proof.
  intros Hfile Htoken Ht Hdate Hcontent.
  unfold GetPageContent.getPageContent.
  apply wp_try_catch, wp_bind. unfold wp at 1.
  rewrite (loadToken_present w data Hfile), Htoken. cbn [fst snd].
  wp_step. wp_step. wp_step.
  apply wp_api_get_page.
  change ("/me/onenote/pages/" ++ pageId) with (metadata_url pageId).
  rewrite network_silent by reflexivity. rewrite Hget.
  wp_step. wp_step. wp_step. unfold wp at 1.
  rewrite (cli_shouldSkipPage_unfold p EmptyString _
             (title_text_absent p (or_introl Ht))).
  change (includes (toLowerCase EmptyString) "private" ||
          includes (toLowerCase EmptyString) "(old)") with false.
  cbv iota. rewrite Hdate. cbn [fst snd].
  wp_step. wp_step. wp_step.
  apply wp_api_get_content.
  change ("/me/onenote/pages/" ++ pageId ++ "/content")
    with (metadata_url pageId ++ "/content").
  rewrite 2!network_silent by reflexivity.
  rewrite network_request, network_silent by reflexivity.
  rewrite Hcontent. repeat wp_step. cbn [content_text]. repeat wp_step.
  apply wp_existsSync_exact.
  rewrite Ht. cbn [safeFileName].
  destruct (bool_decide (is_Some (files w !! outputDir)) ||
            bool_decide (outputDir ∈ dirs w)) eqn:Hpresent;
    cbn [negb files dirs record_event]; rewrite Hpresent; cbn [negb];
    repeat first [wp_step | apply wp_mkdir_done; cbv beta iota].
  - repeat split; try reflexivity. intros Hnone.
    apply orb_true_iff in Hpresent as [Hp | Hp].
    + apply bool_decide_eq_true in Hp. rewrite Hnone in Hp.
      now destruct Hp.
    + now apply bool_decide_eq_true in Hp.
  - repeat split; try reflexivity. intros _.
    cbn [dirs record_event with_dir]. set_solver.
Qed.

(** A page whose title is no text is never saved by the command line
    retrievers, whatever the service answers after the metadata: the file
    name cannot be derived from the title, and no file is written. A page
    without a title that passes the date rule is fetched all the same:
    [get-page-content.js] asks for its content and creates the output
    directory before it reports the error. *)
Theorem untitled_page_is_not_saved :
  files (snd (GetPageContent.getPageContent env pageId w)) = files w /\
  files (snd (GetPage.getPageContent env pageId w)) = files w /\
  (forall data content : string,
     files w !! tokenFilePath = Some data ->
     truthy (decodeToken data) = true ->
     title p = VUndefined ->
     Bulk.shouldSkipByDate p = false ->
     get_content env (ApiGet (metadata_url pageId) :: network (trace w))
                 (metadata_url pageId ++ "/content") = Ok (VStr content) ->
     let run := GetPageContent.getPageContent env pageId w in
     fst run = Ok tt /\
     network (trace (snd run)) =
       ApiGet (metadata_url pageId ++ "/content") ::
       ApiGet (metadata_url pageId) :: network (trace w) /\
     (files w !! outputDir = None -> outputDir ∈ dirs (snd run)) /\
     head (trace (snd run)) =
       Some (ConsoleError
               "Error: Cannot read properties of undefined (reading 'replace')")).
Proof.
  split; [exact content_script_saves_nothing |].
  split; [exact page_script_saves_nothing |].
  intros data content Hfile Htoken Ht Hdate Hcontent.
  exact (content_script_fetches_untitled data content Hfile Htoken Ht Hdate
           Hcontent).
Qed.

End Untitled.

Lemma untitled_page_is_not_saved_witness :
  let p := mkPage (VStr "p9") VUndefined (VStr "2023-03-01T10:00:00Z")
                  VUndefined in
  let env :=
    content_service
      [(metadata_url "p9", Ok p)]
      [(metadata_url "p9" ++ "/content", Ok (VStr "<p>text</p>"))] in
  let w := world_with_token "eyJ0.abc" in
  let run := GetPageContent.getPageContent (H := Reference.engine) env "p9" w in
  files (snd run) = files w /\
  network (trace (snd run)) =
    [ApiGet (metadata_url "p9" ++ "/content"); ApiGet (metadata_url "p9")] /\
  outputDir ∈ dirs (snd run).
Proof.
  intros p env w run.
  destruct (untitled_page_is_not_saved (H := Reference.engine) env "p9" p w
              eq_refl ltac:(discriminate)) as (Hsame & _ & Hrun).
  destruct (Hrun "eyJ0.abc" "<p>text</p>" eq_refl eq_refl eq_refl eq_refl
              eq_refl) as (_ & Hnet & Hdir & _).
  split; [exact Hsame |]. split; [exact Hnet |]. now apply Hdir.
Defined.

(** ** The copies of the filter *)

Section FilterCopies.
Context `{Engine}.

(** The three copies of the inclusion filter decide alike. On a page
    whose title is a text, or is absent or empty, the filter of the server
    and the filter of the command line retrievers return the same answer,
    which is the answer of the two tests of the bulk exporter taken
    together, and the server gives a reason exactly when it skips. On a
    page whose title is another value both filters throw the same error. *)
Theorem filters_agree (p : page) (w : World) :
  (forall t,
     title_text p = Some t ->
     exists r,
       Mcp.shouldSkipPage p = Ok r /\
       fst (Cli.shouldSkipPage p w) = Ok (skip r) /\
       skip r = Bulk.shouldSkipPageByTitle t || Bulk.shouldSkipByDate p /\
       (skip r = true <-> is_Some (reason r))) /\
  (title_text p = None ->
   exists msg,
     Mcp.shouldSkipPage p = Throw msg /\
     fst (Cli.shouldSkipPage p w) = Throw msg).
Proof.
  split.
  - intros t Ht.
    rewrite (shouldSkipPage_unfold p t Ht), (cli_shouldSkipPage_unfold p t w Ht).
    unfold Bulk.shouldSkipPageByTitle.
    rewrite (orb_comm (includes (toLowerCase t) "(old)")).
    destruct (includes (toLowerCase t) "private" ||
              includes (toLowerCase t) "(old)").
    + eexists. repeat split; eauto.
    + cbn [orb]. destruct (Bulk.shouldSkipByDate p) eqn:Hdate.
      * apply shouldSkipByDate_true in Hdate as (_ & at_ & -> & _).
        cbn [toISOString obind]. eexists. repeat split; eauto.
      * eexists. repeat split; try reflexivity; cbn [skip reason].
        -- discriminate.
        -- intros [x Hx]. discriminate Hx.
  - unfold title_text, Mcp.shouldSkipPage, Cli.shouldSkipPage, bind, lift.
    destruct (js_or (title p) (VStr EmptyString)); try discriminate;
      intros _; cbn [call_toLowerCase obind fst]; eauto.
Qed.

End FilterCopies.

(** ** Searching by title *)

Section Search.
Context `{Engine} (env : Env).

Lemma follow_search_all (rest : list collection) :
  forall (fuel : nat) (current : collection) (acc : list page) (w : World)
         (Q : outcome (list page) -> World -> Prop),
    continues env (network (trace w)) current rest ->
    (length rest <= fuel)%nat ->
    (forall w', Q (Ok (acc ++ pages_of rest)%list) w') ->
    wp (McpListing.follow_search env fuel current acc) w Q.
Proof.
  induction rest as [|next rest IH]; intros fuel current acc w Q Hserve Hfuel HQ.
  - cbn in Hserve. destruct fuel; cbn [McpListing.follow_search];
      rewrite Hserve; wp_step; rewrite <- (app_nil_r acc); apply HQ.
  - destruct Hserve as (Hlink & Hget & Hrest).
    destruct fuel as [|fuel]; [cbn in Hfuel; lia |].
    cbn [McpListing.follow_search]. rewrite Hlink.
    wp_step. wp_step. wp_step. apply wp_api_get_collection.
    rewrite network_silent by reflexivity. rewrite Hget.
    apply IH; [exact Hrest | cbn in Hfuel; lia |].
    intros w'. rewrite <- app_assoc, <- pages_of_cons. apply HQ.
Qed.

Lemma filter_by_title_spec (term : string) (pages : list page) :
  Forall (fun p => title_text p <> None) pages ->
  McpListing.filter_by_title term pages = Ok (List.filter (title_has term) pages).
Proof.
  induction 1 as [|p pages Hp Hall IH]; [reflexivity |].
  cbn [McpListing.filter_by_title List.filter]. rewrite IH.
  unfold title_has, title_text, js_or in *.
  destruct (title p) as [| | b | m e | t | items | members];
    cbn [truthy] in *; try reflexivity.
  - destruct b; [now contradiction Hp | reflexivity].
  - destruct (m =? 0); [reflexivity | now contradiction Hp].
  - destruct (String.eqb t EmptyString); reflexivity.
  - now contradiction Hp.
  - now contradiction Hp.
Qed.

(** [searchPages] with a term that is not blank returns the pages, of all
    the pages the service lists and in their order, whose title holds the
    term, whatever the case of the letters; the term is taken as it is
    given, with the white space around it. With a blank term it returns
    all the pages. *)
Theorem search_keeps_matching_titles
        (term : string) (sectionId : value) (fuel : nat) (w : World)
        (first : collection) (rest : list collection) :
  graphClient w = true ->
  get_collection env (network (trace w)) (search_url sectionId) = Ok first ->
  continues env (ApiGet (search_url sectionId) :: network (trace w)) first rest ->
  (length rest <= fuel)%nat ->
  Forall (fun p => title_text p <> None) (pages_of (first :: rest)) ->
  fst (McpListing.searchPages env (VStr term) sectionId fuel w) =
    Ok (if String.eqb (trim term) EmptyString
        then pages_of (first :: rest)
        else List.filter (title_has (toLowerCase term)) (pages_of (first :: rest))).
Proof.
  intros Hclient Hfirst Hserve Hfuel Htitles.
  change (wp (McpListing.searchPages env (VStr term) sectionId fuel) w
            (fun o _ =>
               o = Ok (if String.eqb (trim term) EmptyString
                       then pages_of (first :: rest)
                       else List.filter (title_has (toLowerCase term))
                                        (pages_of (first :: rest))))).
  unfold McpListing.searchPages. fold (search_url sectionId).
  apply wp_try_catch, wp_bind. unfold wp at 1.
  rewrite (ensureGraphClient_ready w Hclient). cbn [fst snd].
  wp_step. wp_step. wp_step. apply wp_api_get_collection.
  rewrite network_silent by reflexivity. rewrite Hfirst.
  wp_step.
  apply (follow_search_all rest); [exact Hserve | exact Hfuel |].
  intros w1. rewrite <- pages_of_cons.
  wp_step. wp_step. wp_step. cbn [truthy call_trim].
  destruct (String.eqb term EmptyString) eqn:Hterm.
  - apply String.eqb_eq in Hterm as ->. cbn [negb]. repeat wp_step.
    reflexivity.
  - cbn [negb]. repeat wp_step.
    destruct (trim term) as [|c t] eqn:Htrim; cbn [String.length Nat.ltb Nat.leb];
      repeat wp_step; [reflexivity |].
    cbn [call_toLowerCase]. repeat wp_step.
    rewrite (filter_by_title_spec _ _ Htitles). repeat wp_step. reflexivity.
Qed.

End Search.

Lemma search_keeps_matching_titles_witness :
  fst (McpListing.searchPages (H := Reference.engine) three_pages (VStr "GE 2")
         (VStr "s1") 2 ready_world) =
    Ok [sample_page "2"; sample_page "2"].
Proof.
  refine (search_keeps_matching_titles (H := Reference.engine) three_pages
            "GE 2" (VStr "s1") 2 ready_world first_of_s1
            [second_of_s1; third_of_s1] eq_refl eq_refl _ (le_n 2) _).
  - cbn. repeat split; reflexivity.
  - repeat constructor; discriminate.
Defined.

(** ** Paging by hand *)

Section Paging.
Context `{Engine} (env : Env).

(** What [listPages] answers for a response. *)
Lemma listPages_first (w : World) (sectionId : value) (top : option (Z * Z))
      (fetchAll : value) (first : collection)
      (Q : outcome listing -> World -> Prop) :
  graphClient w = true ->
  truthy sectionId = true ->
  fetchAll <> VBool true ->
  get_collection env (network (trace w))
                 (McpListing.with_top (section_pages sectionId) top) = Ok first ->
  Q (Ok (mkListing (records first)
                   (if truthy (c_nextLink first) then c_nextLink first
                    else VUndefined)))
    (record_event
       (ApiGet (McpListing.with_top (section_pages sectionId) top)) w) ->
  wp (McpListing.listPages env sectionId top VUndefined fetchAll 0) w Q.
Proof.
  intros Hclient Hsection Hone Hfirst HQ. unfold McpListing.listPages.
  apply wp_try_catch, wp_bind. unfold wp at 1.
  rewrite (ensureGraphClient_ready w Hclient). cbn [fst snd truthy].
  rewrite Hsection. cbn [negb]. wp_step. wp_step.
  fold (section_pages sectionId). wp_step. apply wp_api_get_collection.
  rewrite Hfirst.
  assert (Hflag : match fetchAll with VBool true => true | _ => false end = false).
  { destruct fetchAll as [| | [|] | | | |]; try reflexivity. now contradiction Hone. }
  rewrite Hflag. wp_step. exact HQ.
Qed.

Lemma listPages_next (w : World) (sectionId : value) (top : option (Z * Z))
      (link fetchAll : value) (fuel : nat) (next : collection)
      (Q : outcome listing -> World -> Prop) :
  graphClient w = true ->
  truthy link = true ->
  get_collection env (network (trace w)) (ToString link) = Ok next ->
  Q (Ok (mkListing (records next)
                   (if truthy (c_nextLink next) then c_nextLink next
                    else VUndefined)))
    (record_event (ApiGet (ToString link)) w) ->
  wp (McpListing.listPages env sectionId top link fetchAll fuel) w Q.
Proof.
  intros Hclient Hlink Hnext HQ. unfold McpListing.listPages.
  apply wp_try_catch, wp_bind. unfold wp at 1.
  rewrite (ensureGraphClient_ready w Hclient). cbn [fst snd].
  rewrite Hlink. wp_step. apply wp_api_get_collection. rewrite Hnext.
  wp_step. exact HQ.
Qed.

Lemma page_by_page_all (sectionId : value) (top : option (Z * Z))
      (fetchAll : value) (rest : list collection) :
  forall (turns : nat) (current : collection) (w : World)
         (Q : outcome (list page) -> World -> Prop),
    graphClient w = true ->
    continues env (network (trace w)) current rest ->
    (length rest <= turns)%nat ->
    (forall w', Q (Ok (pages_of (current :: rest))) w') ->
    wp (page_by_page env sectionId top fetchAll turns
          (mkListing (records current)
                     (if truthy (c_nextLink current) then c_nextLink current
                      else VUndefined))) w Q.
Proof.
  induction rest as [|next rest IH]; intros turns current w Q Hclient Hserve Hturns HQ.
  - cbn in Hserve. rewrite Hserve.
    destruct turns; cbn [page_by_page lv_nextLink lv_value truthy];
      wp_step; rewrite <- (app_nil_r (records current)); apply HQ.
  - destruct Hserve as (Hlink & Hget & Hrest). rewrite Hlink.
    destruct turns as [|turns]; [cbn in Hturns; lia |].
    cbn [page_by_page lv_nextLink lv_value]. rewrite Hlink. wp_step.
    apply (listPages_next _ _ _ _ _ _ next);
      [exact Hclient | exact Hlink | exact Hget |].
    wp_step.
    apply IH; [exact Hclient | exact Hrest | cbn in Hturns; lia |].
    intros w'. wp_step. apply HQ.
Qed.

(** Paging by hand gives what [fetchAll] gives. A client that calls
    [listPages] for a section and then again with each [nextLink] it is
    given collects the records of all the pages of the service, in order:
    the records that one call with [fetchAll] returns. The calls with a
    link ignore the other arguments, [fetchAll] among them. *)
Theorem paging_by_hand_matches_fetch_all
        (sectionId : value) (top : option (Z * Z)) (fetchAll : value)
        (turns : nat) (w : World)
        (first : collection) (rest : list collection) :
  graphClient w = true ->
  truthy sectionId = true ->
  get_collection env (network (trace w))
                 (McpListing.with_top (section_pages sectionId) top) = Ok first ->
  continues env
            (ApiGet (McpListing.with_top (section_pages sectionId) top) ::
             network (trace w)) first rest ->
  (length rest <= turns)%nat ->
  fst ((answer <- McpListing.listPages env sectionId top VUndefined
                    (VBool false) 0 ;;
        page_by_page env sectionId top fetchAll turns answer) w) =
    Ok (pages_of (first :: rest)) /\
  fst (McpListing.listPages env sectionId top VUndefined (VBool true) turns w) =
    Ok (mkListing (pages_of (first :: rest)) VUndefined).
Proof.
  intros Hclient Hsection Hfirst Hserve Hturns. split.
  - match goal with
    | |- fst (?m w) = ?r => change (wp m w (fun o _ => o = r))
    end.
    wp_step.
    apply (listPages_first _ _ _ _ first);
      [exact Hclient | exact Hsection | discriminate | exact Hfirst |].
    apply (page_by_page_all sectionId top fetchAll rest);
      [exact Hclient | exact Hserve | exact Hturns | reflexivity].
  - rewrite (mcp_listPages_fetchAll env w sectionId top turns first
               Hclient Hsection Hfirst).
    cbv zeta.
    pose proof (mcp_follow_links_all env rest turns first (records first)
                  (record_event
                     (ApiGet (McpListing.with_top (section_pages sectionId) top))
                     w) Hserve Hturns) as Hall.
    destruct (McpListing.follow_links _ _ _ _ _) as [[all | msg |] w2];
      cbn [fst] in Hall |- *; try discriminate Hall.
    injection Hall as ->. now rewrite pages_of_cons.
Qed.

End Paging.

Lemma paging_by_hand_matches_fetch_all_witness :
  fst ((answer <- McpListing.listPages (H := Reference.engine) three_pages
                    (VStr "s1") None VUndefined (VBool false) 0 ;;
        page_by_page (H := Reference.engine) three_pages (VStr "s1") None
          (VBool true) 2 answer) ready_world) =
    Ok [sample_page "1"; sample_page "2"; sample_page "3"; sample_page "4";
        sample_page "2"] /\
  fst (McpListing.listPages (H := Reference.engine) three_pages (VStr "s1") None
         VUndefined (VBool true) 2 ready_world) =
    Ok (mkListing [sample_page "1"; sample_page "2"; sample_page "3";
                   sample_page "4"; sample_page "2"] VUndefined).
Proof.
  refine (paging_by_hand_matches_fetch_all (H := Reference.engine) three_pages
            (VStr "s1") None (VBool true) 2 ready_world first_of_s1
            [second_of_s1; third_of_s1] eq_refl eq_refl eq_refl _ (le_n 2)).
  cbn. repeat split; reflexivity.
Defined.

(** ** The arguments of the command line *)

Section CommandLine.
Import Args.

Lemma leading_digits_all (ds : string) :
  all_units is_digit ds = true -> leading_digits ds = ds.
Proof.
  induction ds as [|c ds IH]; [reflexivity |]. cbn [all_units leading_digits].
  intros Hall. apply andb_true_iff in Hall as [-> Hall]. now rewrite IH.
Qed.

Lemma digit_is_no_space (c : ascii) : is_digit c = true -> is_space c = false.
Proof.
  unfold is_digit, is_space. intros Hd.
  destruct c as [[|] [|] [|] [|] [|] [|] [|] [|]]; vm_compute in Hd |- *;
    congruence.
Qed.

Lemma parseInt_digits (ds : string) :
  ds <> EmptyString -> all_units is_digit ds = true ->
  parseInt ds = Some (to_double (digits_value ds)) /\
  parseInt ("-" ++ ds) = Some (to_double (- digits_value ds)).
Proof.
  intros Hne Hall. destruct ds as [|c ds]; [now contradiction Hne |].
  pose proof Hall as Hc. cbn [all_units] in Hc.
  apply andb_true_iff in Hc as [Hc _].
  pose proof (leading_digits_all _ Hall) as Hlead.
  split.
  - unfold parseInt. cbn [trimStart]. rewrite (digit_is_no_space c Hc).
    assert (Hminus : Ascii.eqb c "-" = false).
    { apply Ascii.eqb_neq. intros ->. discriminate Hc. }
    assert (Hplus : Ascii.eqb c "+" = false).
    { apply Ascii.eqb_neq. intros ->. discriminate Hc. }
    rewrite Hminus, Hplus, Hlead. reflexivity.
  - unfold parseInt. change ("-" ++ String c ds) with (String "-" (String c ds)).
    cbn [trimStart]. change (is_space "-") with false. cbv iota.
    change (Ascii.eqb "-" "-") with true. cbv iota. rewrite Hlead. reflexivity.
Qed.

(** [parseInt] reads back the decimal text of an integer as the double
    nearest to it. *)
Lemma parseInt_pretty (n : Z) : parseInt (pretty n) = Some (to_double n).
Proof.
  destruct n as [| p | p].
  - reflexivity.
  - destruct (pretty_Z_text (Z.pos p)) as (Hall & Hne & Hval); [lia |].
    destruct (parseInt_digits _ Hne Hall) as [-> _]. now rewrite Hval.
  - destruct (pretty_Z_text (Z.pos p)) as (Hall & Hne & Hval); [lia |].
    change (pretty (Z.neg p)) with ("-" ++ pretty (Z.pos p)).
    destruct (parseInt_digits _ Hne Hall) as [_ ->]. now rewrite Hval.
Qed.

Lemma drop_closing_quote_app (s : string) : drop_closing_quote (s ++ dq) = s.
Proof.
  induction s as [|c s IH]; [reflexivity |].
  rewrite text_app_unit. cbn [drop_closing_quote]. rewrite IH.
  destruct s; reflexivity.
Qed.

(** The quotes around a text are stripped, whatever the text. *)
Lemma strip_quotes_quoted (s : string) : strip_quotes (dq ++ s ++ dq) = s.
Proof. apply drop_closing_quote_app. Qed.

Lemma drop_closing_quote_plain (s : string) :
  (forall r c, s = r ++ unit_text c -> is_quote c = false) ->
  drop_closing_quote s = s.
Proof.
  induction s as [|c s IH]; [reflexivity |]. intros Hlast.
  cbn [drop_closing_quote]. destruct s as [|c' s].
  - now rewrite (Hlast EmptyString c eq_refl).
  - rewrite IH; [reflexivity |]. intros r x Hr.
    apply (Hlast (String c r) x). now rewrite Hr.
Qed.

Lemma flag_top (text : string) (opts : options) :
  ListPagesArgs.step opts ("--top=" ++ text) =
    mkOptions (parseInt text) (nextLink opts) (fetchAll opts) (sectionId opts) /\
  ListPagesSingleArgs.step opts ("--top=" ++ text) =
    mkOptions (parseInt text) (nextLink opts) (fetchAll opts) (sectionId opts).
Proof.
  assert (Hflag : startsWith ("--top=" ++ text) "--top=" = true)
    by (apply startsWith_spec; now exists text).
  unfold ListPagesArgs.step, ListPagesSingleArgs.step. rewrite Hflag.
  split; reflexivity.
Qed.

Lemma flag_next_link (text : string) (opts : options) :
  ListPagesArgs.step opts ("--next-link=" ++ text) =
    mkOptions (top opts) (Some (strip_quotes text)) (fetchAll opts)
              (sectionId opts) /\
  ListPagesSingleArgs.step opts ("--next-link=" ++ text) =
    mkOptions (top opts) (Some (strip_quotes text)) (fetchAll opts)
              (sectionId opts).
Proof.
  assert (Hflag : startsWith ("--next-link=" ++ text) "--next-link=" = true)
    by (apply startsWith_spec; now exists text).
  unfold ListPagesArgs.step, ListPagesSingleArgs.step. rewrite Hflag.
  split; reflexivity.
Qed.

Lemma flag_section_id (text : string) (opts : options) :
  ListPagesArgs.step opts ("--section-id=" ++ text) =
    mkOptions (top opts) (nextLink opts) (fetchAll opts)
              (Some (strip_quotes text)).
Proof.
  assert (Hflag : startsWith ("--section-id=" ++ text) "--section-id=" = true)
    by (apply startsWith_spec; now exists text).
  unfold ListPagesArgs.step. rewrite Hflag. reflexivity.
Qed.

(** An integer that 53 bits hold is a double. *)
Lemma to_double_exact (n : Z) : Z.abs n <= 2 ^ 53 -> to_double n = Finite n.
Proof.
  intros Hn. unfold to_double.
  destruct (Z.eq_dec (Z.abs n) (2 ^ 53)) as [Hmax | Hless].
  - destruct n as [| q | q]; cbn [Z.abs] in Hmax.
    + discriminate Hmax.
    + injection Hmax as ->. vm_compute. reflexivity.
    + injection Hmax as ->. vm_compute. reflexivity.
  - assert (Hlog : Z.log2 (Z.abs n) < 53).
    { destruct (Z.eq_dec (Z.abs n) 0) as [-> | Hpos]; [reflexivity |].
      apply Z.log2_lt_pow2; lia. }
    destruct (Z.leb_spec (Z.log2 (Z.abs n) - 52) 0); [reflexivity | lia].
Qed.

(** The double nearest to a longer integer is as far from zero as [2^53],
    on the side of the integer. *)
Lemma to_double_large (n : Z) :
  2 ^ 53 < Z.abs n ->
  (exists v, to_double n = Finite (Z.sgn n * v) /\ 2 ^ 53 <= v) \/
  to_double n = Infinite (n <? 0).
Proof.
  intros Hn. unfold to_double.
  set (a := Z.abs n) in *. set (shift := Z.log2 a - 52).
  assert (Hlog : 53 <= Z.log2 a) by (apply Z.log2_le_pow2; lia).
  assert (Hshift : 0 < shift) by (unfold shift; lia).
  destruct (Z.leb_spec shift 0) as [Hle | _]; [lia |]. cbv zeta.
  set (q := a / 2 ^ shift).
  match goal with
  | |- context [if ?c then q + 1 else q] =>
      set (q' := if c then q + 1 else q)
  end.
  destruct (Z.leb_spec (2 ^ 1024) (q' * 2 ^ shift)) as [_ | _];
    [now right | left].
  eexists. split; [reflexivity |].
  assert (Hpow : 0 < 2 ^ shift) by (apply Z.pow_pos_nonneg; lia).
  assert (Hq : 2 ^ 52 <= q).
  { unfold q. apply Z.div_le_lower_bound; [exact Hpow |].
    rewrite <- Z.pow_add_r by lia.
    replace (shift + 52) with (Z.log2 a) by (unfold shift; lia).
    apply Z.log2_spec. lia. }
  assert (Hq' : q <= q').
  { unfold q'. match goal with |- _ <= if ?c then _ else _ => destruct c end; lia. }
  assert (Htwo : 2 <= 2 ^ shift).
  { change 2 with (2 ^ 1) at 1. apply Z.pow_le_mono_r; lia. }
  change (2 ^ 53) with (2 ^ 52 * 2). nia.
Qed.

Example long_count_is_rounded :
  parseInt "9007199254740993" = Some (Finite 9007199254740992) /\
  parseInt "9007199254740995" = Some (Finite 9007199254740996) /\
  parseInt " -12px" = Some (Finite (-12)) /\
  parseInt "px" = None.
Proof. repeat split; vm_compute; reflexivity. Qed.

(** The largest double is [(2^53 - 1) * 2^971]; the integers from half
    way to [2^1024] on are read as an infinity. *)
Example range_of_the_doubles :
  to_double (2 ^ 1024 - 2 ^ 970 - 1) = Finite ((2 ^ 53 - 1) * 2 ^ 971) /\
  to_double (2 ^ 1024 - 2 ^ 970) = Infinite false /\
  to_double (- 10 ^ 400) = Infinite true.
Proof. repeat split; vm_compute; reflexivity. Qed.

(** The options of [list-pages.js]. A count given as [--top=<integer>] is
    read as the double nearest to that integer, which is the integer
    itself when it is no further from zero than [2^53]; the request asks
    for the count when it is above zero, capped at 999, whatever the
    integer; an argument that is none of the options, such as a misspelt
    one or a value given after a space, is ignored without a word. *)
Theorem command_line_count (n : Z) (url : string) :
  let opts := ListPagesArgs.parseArgs ["--top=" ++ pretty n] in
  opts = mkOptions (Some (to_double n)) None false None /\
  (Z.abs n <= 2 ^ 53 -> top opts = Some (Finite n)) /\
  ListPagesSingleArgs.parseArgs ["--top=" ++ pretty n] = opts /\
  cli_with_top url (top opts) =
    (if 0 <? n then url ++ "?$top=" ++ pretty (Z.min n 999) else url) /\
  (forall (before after : list string) (arg : string),
     arg <> "--fetch-all" ->
     startsWith arg "--top=" = false ->
     startsWith arg "--next-link=" = false ->
     startsWith arg "--section-id=" = false ->
     ListPagesArgs.parseArgs (before ++ arg :: after) =
       ListPagesArgs.parseArgs (before ++ after)).
Proof.
  cbv zeta. unfold ListPagesArgs.parseArgs, ListPagesSingleArgs.parseArgs.
  cbn [fold_left].
  rewrite (proj1 (flag_top _ _)), (proj2 (flag_top _ _)), parseInt_pretty.
  cbn [nextLink fetchAll sectionId top].
  split; [reflexivity |].
  split; [intros Hn; now rewrite to_double_exact |].
  split; [reflexivity |]. split.
  - destruct (Z_le_gt_dec (Z.abs n) (2 ^ 53)) as [Hsmall | Hlarge].
    + now rewrite to_double_exact.
    + destruct (to_double_large n ltac:(lia)) as [(v & -> & Hv) | ->];
        cbn [cli_with_top].
      * assert (H999 : 999 < 2 ^ 53) by reflexivity.
        destruct (Z.ltb_spec 0 n) as [Hpos | Hneg].
        -- rewrite (Z.sgn_pos n Hpos), Z.mul_1_l.
           destruct (Z.ltb_spec 0 v); [| lia].
           rewrite !Z.min_r by lia. reflexivity.
        -- assert (Hs : Z.sgn n = -1) by (apply Z.sgn_neg; lia).
           rewrite Hs. destruct (Z.ltb_spec 0 (-1 * v)); [lia | reflexivity].
      * assert (H999 : 999 < 2 ^ 53) by reflexivity.
        destruct (Z.ltb_spec n 0), (Z.ltb_spec 0 n); try lia; [reflexivity |].
        rewrite Z.min_r by lia. reflexivity.
  - intros before after arg Hall Htop Hlink Hid.
    rewrite !fold_left_app. cbn [fold_left]. f_equal.
    unfold ListPagesArgs.step. rewrite Htop, Hlink, Hid.
    apply String.eqb_neq in Hall. now rewrite Hall.
Qed.

End CommandLine.

(** ** Resuming a listing *)

Section Resume.
Context `{Engine} (env : Env).

Lemma wp_print_pages (with_id : bool) (pages : list page) :
  forall (index : nat) (w0 w : World) (Q : outcome unit -> World -> Prop),
    quiet_since w0 w ->
    (forall w', quiet_since w0 w' -> Q (Ok tt) w') ->
    wp (print_pages with_id index pages) w Q.
Proof.
  induction pages as [|p pages IH]; intros index w0 w Q Hw HQ;
    cbn [print_pages]; wp_step; [now apply HQ |].
  wp_step. apply (IH _ w0); [since | exact HQ].
Qed.

Lemma wp_print_listing (with_id : bool) (pages : list page) (w0 w : World)
      (Q : outcome unit -> World -> Prop) :
  quiet_since w0 w ->
  (forall w', quiet_since w0 w' -> Q (Ok tt) w') ->
  wp (print_listing with_id pages) w Q.
Proof.
  intros Hw HQ. destruct pages as [|p pages].
  - cbn [print_listing]. wp_step. apply HQ. since.
  - now apply (wp_print_pages with_id (p :: pages) 0 w0).
Qed.

(** The hint a run of [list-pages.js] prints resumes the listing. Given
    back as arguments, with or without its quotes, the hint is read as the
    link it holds; the run then asks the service for that link and for
    nothing else, whatever section id comes with it, lists the records of
    the answer, and ends with the hint for the next link when the answer
    has one. *)
Theorem hint_resumes_the_listing
        (sid link data : string) (fuel : nat) (w : World)
        (response : collection) :
  link <> EmptyString ->
  files w !! tokenFilePath = Some data ->
  truthy (decodeToken data) = true ->
  get_collection env (network (trace w)) link = Ok response ->
  let opts :=
    ListPagesArgs.parseArgs
      ["--section-id=" ++ dq ++ sid ++ dq; "--next-link=" ++ dq ++ link ++ dq] in
  opts = mkOptions None (Some link) false (Some sid) /\
  ((forall r c, link = r ++ unit_text c -> Args.is_quote c = false) ->
   (forall r c, link = String c r -> Args.is_quote c = false) ->
   ListPagesArgs.parseArgs ["--next-link=" ++ link] =
     mkOptions None (Some link) false None) /\
  exists w',
    ListPages.listPages env opts fuel w = (Ok [records response], w') /\
    network (trace w') = ApiGet link :: network (trace w) /\
    (truthy (c_nextLink response) = true ->
     head (trace w') =
       Some (ConsoleLog ("  node list-pages.js --next-link=" ++ dq ++
                         ToString (c_nextLink response) ++ dq))).
Proof.
  intros Hlink Hfile Htoken Hget. cbv zeta.
  unfold ListPagesArgs.parseArgs. cbn [fold_left].
  rewrite flag_section_id, (proj1 (flag_next_link _ _)), !strip_quotes_quoted.
  cbn [top nextLink fetchAll sectionId].
  split; [reflexivity |]. split.
  - intros Hlast Hfirst.
    rewrite (proj1 (flag_next_link _ _)). cbn [top nextLink fetchAll sectionId].
    do 2 f_equal. destruct link as [|c r]; [reflexivity |].
    unfold Args.strip_quotes. rewrite (Hfirst r c eq_refl).
    rewrite drop_closing_quote_plain; [reflexivity |].
    intros r' c' Hr. apply (Hlast (String c r') c'). now rewrite Hr.
  - assert (Hwp :
      wp (ListPages.listPages env (mkOptions None (Some link) false (Some sid))
            fuel) w
         (fun o w' =>
            o = Ok [records response] /\
            network (trace w') = ApiGet link :: network (trace w) /\
            (truthy (c_nextLink response) = true ->
             head (trace w') =
               Some (ConsoleLog ("  node list-pages.js --next-link=" ++ dq ++
                                 ToString (c_nextLink response) ++ dq))))).
    { unfold ListPages.listPages. apply wp_try_catch, wp_bind. unfold wp at 1.
      rewrite (loadToken_present w data Hfile), Htoken. cbn [fst snd].
      cbn [nextLink given fetchAll default].
      apply String.eqb_neq in Hlink. rewrite Hlink. cbn [negb].
      wp_step. wp_step. wp_step. apply wp_api_get_collection.
      change (Datatypes.id link) with link.
      rewrite network_silent by reflexivity. rewrite Hget.
      unfold ListPages.accumulate. cbn [andb]. repeat wp_step.
      match goal with
      | |- wp _ (record_event _ (record_event _ ?W)) _ =>
          apply (wp_print_listing true (records response) W); [since |]
      end.
      intros w1 Hw1. wp_step. unfold ListPages.more_results. cbn [negb andb].
      pose proof (quiet_network _ _ Hw1) as Hnet.
      rewrite network_request, network_silent in Hnet by reflexivity.
      destruct (truthy (c_nextLink response)); repeat wp_step.
      - split; [reflexivity |]. split; [| intros _; reflexivity].
        rewrite !network_silent by reflexivity. exact Hnet.
      - split; [reflexivity |]. split; [exact Hnet | discriminate]. }
    unfold wp in Hwp.
    destruct (ListPages.listPages env _ fuel w) as [o w'].
    cbn [fst snd] in Hwp. destruct Hwp as (-> & Hnet & Hhint).
    exists w'. repeat split; assumption.
Qed.

End Resume.

Lemma hint_resumes_the_listing_witness :
  "next-2" <> EmptyString /\
  fst (ListPages.listPages (H := Reference.engine) three_pages
         (ListPagesArgs.parseArgs
            ["--section-id=" ++ dq ++ "s1" ++ dq;
             "--next-link=" ++ dq ++ "next-2" ++ dq])
         0 (world_with_token "eyJ0.abc")) =
    Ok [[sample_page "3"]].
Proof.
  assert (Hlink : "next-2" <> EmptyString) by discriminate.
  split; [exact Hlink |].
  destruct (hint_resumes_the_listing (H := Reference.engine) three_pages
              "s1" "next-2" "eyJ0.abc" 0 (world_with_token "eyJ0.abc")
              second_of_s1 Hlink eq_refl eq_refl eq_refl)
    as (_ & _ & w' & Hrun & _).
  rewrite Hrun. reflexivity.
Defined.

(** ** The token of the server *)

Section Session.
Import McpSession.
Context `{Engine} (env : Env).
Variable getToken : list event -> option string * outcome value.

Lemma startup_without_file (envToken : value) (w : World) :
  files w !! tokenFilePath = None ->
  tokenFilePath ∉ dirs w ->
  startup envToken w =
    (Ok tt,
     mkWorld (files w) (dirs w) (trace w)
             (if truthy envToken then envToken else VNull) false).
Proof.
  intros Hfile Hdir.
  unfold startup, bind, try_catch, existsSync, set_accessToken, get_accessToken,
    clear_graphClient, ret.
  cbn [files dirs trace accessToken graphClient fst snd].
  rewrite Hfile. rewrite (bool_decide_eq_false_2 _ Hdir).
  rewrite bool_decide_eq_false_2 by (intros [x Hx]; discriminate Hx).
  cbn. destruct (truthy envToken); reflexivity.
Qed.

Lemma startup_with_file (envToken : value) (w : World) (data : string) :
  files w !! tokenFilePath = Some data ->
  startup envToken w =
    (Ok tt,
     mkWorld (files w) (dirs w) (trace w)
             (if truthy (decodeToken data) then decodeToken data
              else if truthy envToken then envToken else decodeToken data)
             false).
Proof.
  intros Hfile.
  unfold startup, bind, try_catch, existsSync, readFileSync, set_accessToken,
    get_accessToken, clear_graphClient, ret.
  cbn [files dirs trace accessToken graphClient fst snd].
  rewrite Hfile. rewrite bool_decide_eq_true_2 by eauto.
  cbn. rewrite ?Hfile. cbn.
  destruct (truthy (decodeToken data)); cbn; [reflexivity |].
  destruct (truthy envToken); reflexivity.
Qed.

(** The token of the environment and the token file. When there is no
    token file, the server starts with the token of the environment, and
    its tools work when that token is there. When there is a token file,
    the token of the environment only stands in at the start for a file
    without a token, and what becomes of it depends on the first call. A
    call of [authenticate] finds it, and the tools work with it from then
    on. A call of a tool reads the file again, fails for want of a token
    and leaves the server with what the file gave: the token of the
    environment is lost, and a call of [authenticate] after it starts the
    device code flow. *)
Theorem environment_token_and_token_file (envToken : value) (w : World) :
  let started := snd (startup envToken w) in
  (files w !! tokenFilePath = None ->
   tokenFilePath ∉ dirs w ->
   accessToken started = (if truthy envToken then envToken else VNull) /\
   fst (ensureGraphClient started) =
     if truthy envToken then Ok tt else Throw no_token_message) /\
  (forall data,
     files w !! tokenFilePath = Some data ->
     fst (ensureGraphClient started) =
       (if truthy (decodeToken data) then Ok tt else Throw no_token_message) /\
     accessToken (snd (ensureGraphClient started)) = decodeToken data /\
     (truthy (decodeToken data) = false ->
      truthy envToken = true ->
      exists w2,
        authenticate env getToken started =
          (Ok "Already authenticated with an access token.", w2) /\
        ensureGraphClient w2 = (Ok tt, w2) /\
        accessToken w2 = envToken) /\
     (truthy (decodeToken data) = false ->
      forall (prompt : option string) (result : outcome value),
        getToken (trace w) = (prompt, result) ->
        let run :=
          authenticate env getToken (snd (ensureGraphClient started)) in
        match result with
        | Ok token =>
            (forall tr, write_error env tr tokenFilePath = None) ->
            fst run =
              Ok "Authentication started. Please check the console for the URL and code." /\
            files (snd run) = <[tokenFilePath := token_file token]> (files w) /\
            accessToken (snd run) = token
        | Throw msg =>
            fst run =
              Throw ("Authentication failed: Authentication failed: " ++ msg)
        | Diverge => fst run = Diverge
        end)).
Proof.
  cbv zeta. split.
  - intros Hfile Hdir. rewrite (startup_without_file envToken w Hfile Hdir).
    cbn [snd accessToken]. split; [reflexivity |].
    unfold ensureGraphClient, bind, try_catch, existsSync, get_accessToken,
      set_graphClient, throw, ret.
    cbn [files dirs trace accessToken graphClient fst snd].
    rewrite Hfile. rewrite (bool_decide_eq_false_2 _ Hdir).
    rewrite bool_decide_eq_false_2 by (intros [x Hx]; discriminate Hx).
    cbn. destruct (truthy envToken) eqn:Henv; cbn; [now rewrite Henv |].
    reflexivity.
  - intros data Hfile. rewrite (startup_with_file envToken w data Hfile).
    cbn [snd].
    match goal with
    | |- context [ensureGraphClient ?W] =>
        rewrite (ensureGraphClient_fresh W data eq_refl Hfile)
    end.
    split; [now destruct (truthy (decodeToken data)) |].
    split; [now destruct (truthy (decodeToken data)) |].
    split.
    + intros Hnone Henv. rewrite Hnone, Henv.
      unfold authenticate, createGraphClient, bind, try_catch, get_accessToken,
        set_graphClient, ret.
      cbn [files dirs trace accessToken graphClient fst snd]. rewrite Henv.
      cbn. eexists. split; [reflexivity |]. split; reflexivity.
    + intros Hnone prompt result Hflow.
      cbn [files dirs trace accessToken graphClient fst snd].
      rewrite Hnone.
      destruct (truthy (if truthy envToken then envToken else decodeToken data));
        cbn [snd].
      all: unfold authenticate, createGraphClient, device_code, bind,
             try_catch, set_accessToken, writeFileSync, get_accessToken,
             set_graphClient, throw, console_error, emit, ret.
      all: cbn [files dirs trace accessToken graphClient fst snd].
      all: rewrite Hnone; cbn [trace]; rewrite Hflow.
      all: destruct result as [token | msg |];
             cbn [files dirs trace accessToken graphClient fst snd record_event].
      all: try (intros Hwrite; rewrite Hwrite).
      all: destruct prompt;
             cbn [files dirs trace accessToken graphClient fst snd record_event];
             rewrite ?String.eqb_refl; repeat split.
Qed.

(** A file without a token and a token in the environment: a tool called
    first fails and [authenticate] then asks for a device code, whereas
    [authenticate] called first answers that the token is there. *)
Example tool_call_loses_the_environment_token :
  let flow : list event -> option string * outcome value :=
    fun _ => (None, Throw "no device code") in
  let started :=
    snd (startup (H := Reference.engine) (VStr "env-token")
           (world_with_token "{}")) in
  let failed := snd (ensureGraphClient (H := Reference.engine) started) in
  fst (authenticate (H := Reference.engine) three_pages flow started) =
    Ok "Already authenticated with an access token." /\
  fst (ensureGraphClient (H := Reference.engine) started) =
    Throw no_token_message /\
  fst (authenticate (H := Reference.engine) three_pages flow failed) =
    Throw "Authentication failed: Authentication failed: no device code".
Proof. vm_compute. repeat split. Qed.

Lemma decodeToken_saved (t : string) :
  JSON_parse (token_file (VStr t)) = Some (VObj [("token", VStr t)]) ->
  decodeToken (token_file (VStr t)) = VStr t.
Proof. intros Hparse. unfold decodeToken. now rewrite Hparse. Qed.

(** A token that is saved is the token that is loaded. [saveAccessToken]
    with a text that is not empty writes the token file, sets the token
    and the client of the server and asks the service for nothing; when
    the engine parses the text it has written, the loader of the command
    line tools finds the token in the file, and so does a server that
    starts afterwards, whatever the token of its environment. *)
Theorem saved_token_is_loaded (t : string) (w : World) :
  t <> EmptyString ->
  write_error env (trace w) tokenFilePath = None ->
  JSON_parse (token_file (VStr t)) = Some (VObj [("token", VStr t)]) ->
  exists w',
    saveAccessToken env getToken (VStr t) w =
      (Ok "Access token saved successfully", w') /\
    files w' = <[tokenFilePath := token_file (VStr t)]> (files w) /\
    accessToken w' = VStr t /\
    graphClient w' = true /\
    network (trace w') = network (trace w) /\
    fst (loadToken w') = Ok (Token (VStr t)) /\
    (forall envToken, accessToken (snd (startup envToken w')) = VStr t).
Proof.
  intros Ht Hwrite Hparse.
  assert (Htruthy : truthy (VStr t) = true) by now apply truthy_text.
  unfold saveAccessToken, createGraphClient, bind, try_catch, set_accessToken,
    writeFileSync, get_accessToken, set_graphClient, ret.
  cbn [files dirs trace accessToken graphClient fst snd].
  rewrite Hwrite. cbn [files dirs trace accessToken graphClient fst snd].
  rewrite Htruthy. eexists. split; [reflexivity |].
  cbn [files dirs trace accessToken graphClient].
  repeat split.
  - erewrite loadToken_present;
      [| cbn [files]; apply lookup_insert_eq].
    rewrite (decodeToken_saved t Hparse), Htruthy. reflexivity.
  - intros envToken. erewrite startup_with_file;
      [| cbn [files]; apply lookup_insert_eq].
    cbn [snd accessToken]. now rewrite (decodeToken_saved t Hparse), Htruthy.
Qed.

(** Saving no token asks for one. [saveAccessToken] with a value that is
    absent or empty overwrites the token file all the same and starts the
    device code flow: the token of the flow is saved in its place, and
    when the flow fails the tool fails, with the file left as it was
    overwritten. *)
Theorem save_without_a_token_asks_for_one
        (random_string : value) (w : World)
        (prompt : option string) (result : outcome value) :
  truthy random_string = false ->
  (forall tr, write_error env tr tokenFilePath = None) ->
  getToken (FileWrite tokenFilePath (token_file random_string) :: trace w) =
    (prompt, result) ->
  let run := saveAccessToken env getToken random_string w in
  match result with
  | Ok token =>
      fst run = Ok "Access token saved successfully" /\
      files (snd run) = <[tokenFilePath := token_file token]> (files w) /\
      accessToken (snd run) = token /\
      graphClient (snd run) = true
  | Throw msg =>
      fst run =
        Throw ("Failed to save access token: Authentication failed: " ++ msg) /\
      files (snd run) = <[tokenFilePath := token_file random_string]> (files w) /\
      graphClient (snd run) = graphClient w
  | Diverge =>
      fst run = Diverge /\
      files (snd run) = <[tokenFilePath := token_file random_string]> (files w)
  end.
Proof.
  intros Hfalsy Hwrite Hflow. cbv zeta.
  unfold saveAccessToken, createGraphClient, device_code, bind, try_catch,
    set_accessToken, writeFileSync, get_accessToken, set_graphClient, throw,
    console_error, emit, ret.
  cbn [files dirs trace accessToken graphClient fst snd].
  rewrite Hwrite. cbn [files dirs trace accessToken graphClient fst snd].
  rewrite Hfalsy. cbn [trace]. rewrite Hflow.
  destruct result as [token | msg |];
    cbn [files dirs trace accessToken graphClient fst snd record_event].
  - rewrite Hwrite.
    destruct prompt; cbn [files dirs trace accessToken graphClient fst snd
                            record_event];
      repeat split; apply insert_insert_eq.
  - destruct prompt; cbn [files dirs trace accessToken graphClient fst snd
                            record_event]; repeat split.
  - destruct prompt; cbn [files dirs trace accessToken graphClient fst snd
                            record_event]; repeat split.
Qed.

End Session.

Lemma saved_token_is_loaded_witness :
  "eyJ0.abc" <> EmptyString /\
  fst (loadToken (H := Reference.engine)
         (snd (McpSession.saveAccessToken (H := Reference.engine) three_pages
                 (fun _ => (None, Throw "no device code"))
                 (VStr "eyJ0.abc") (world_with_token "old token")))) =
    Ok (Token (VStr "eyJ0.abc")).
Proof.
  assert (Ht : "eyJ0.abc" <> EmptyString) by discriminate.
  split; [exact Ht |].
  destruct (saved_token_is_loaded (H := Reference.engine) three_pages
              (fun _ => (None, Throw "no device code")) "eyJ0.abc"
              (world_with_token "old token") Ht eq_refl eq_refl)
    as (w' & Hrun & _ & _ & _ & _ & Hload & _).
  rewrite Hrun. exact Hload.
Defined.

Lemma save_without_a_token_asks_for_one_witness :
  let run :=
    McpSession.saveAccessToken (H := Reference.engine) three_pages
      (fun _ => (Some "To sign in, open the page and enter the code.",
                 Throw "The device code has expired"))
      (VStr EmptyString) (world_with_token "eyJ0.abc") in
  fst run =
    Throw ("Failed to save access token: Authentication failed: " ++
           "The device code has expired") /\
  files (snd run) !! tokenFilePath =
    Some (McpSession.token_file (H := Reference.engine) (VStr EmptyString)).
Proof.
  intros run.
  pose proof (save_without_a_token_asks_for_one (H := Reference.engine)
                three_pages
                (fun _ => (Some "To sign in, open the page and enter the code.",
                           Throw "The device code has expired"))
                (VStr EmptyString) (world_with_token "eyJ0.abc")
                (Some "To sign in, open the page and enter the code.")
                (Throw "The device code has expired")
                eq_refl (fun _ => eq_refl) eq_refl) as (Hfst & Hfiles & _).
  split; [exact Hfst |].
  unfold run. rewrite Hfiles. apply lookup_insert_eq.
Defined.

(** ** Searching from the command line *)

Section SearchScript.
Context `{Engine} (env : Env).
Variable dash : string.

Lemma script_follow_links_all (rest : list collection) :
  forall (fuel : nat) (current : collection) (acc : list page) (w : World)
         (Q : outcome (list page) -> World -> Prop),
    continues env (network (trace w)) current rest ->
    (length rest <= fuel)%nat ->
    (forall w', Q (Ok (acc ++ pages_of rest)%list) w') ->
    wp (SearchPages.follow_links env fuel current acc) w Q.
Proof.
  induction rest as [|next rest IH]; intros fuel current acc w Q Hserve Hfuel HQ.
  - cbn in Hserve. destruct fuel; cbn [SearchPages.follow_links];
      rewrite Hserve; wp_step; rewrite <- (app_nil_r acc); apply HQ.
  - destruct Hserve as (Hlink & Hget & Hrest).
    destruct fuel as [|fuel]; [cbn in Hfuel; lia |].
    cbn [SearchPages.follow_links]. rewrite Hlink.
    wp_step. apply wp_api_get_collection. rewrite Hget.
    apply IH; [exact Hrest | cbn in Hfuel; lia |].
    intros w'. rewrite <- app_assoc, <- pages_of_cons. apply HQ.
Qed.

Lemma wp_script_print_pages (pages : list page) :
  forall (index : nat) (w : World) (Q : outcome unit -> World -> Prop),
    (forall w', Q (Ok tt) w') ->
    wp (SearchPages.print_pages dash index pages) w Q.
Proof.
  induction pages as [|p pages IH]; intros index w Q HQ;
    cbn [SearchPages.print_pages]; repeat wp_step; [apply HQ |].
  now apply IH.
Qed.

Lemma section_flag_is_no_term (term : string) :
  startsWith term "--" = false -> startsWith term "--section-id=" = false.
Proof.
  intros Hplain.
  destruct (startsWith term "--section-id=") eqn:Hs; [| reflexivity].
  apply startsWith_spec in Hs as [post ->].
  assert (Hd : startsWith ("--section-id=" ++ post) "--" = true)
    by (apply startsWith_spec; now exists ("section-id=" ++ post)).
  congruence.
Qed.

Lemma flags_keep_the_term (after : list string) :
  forall opts : SearchPages.options,
    Forall (fun arg => startsWith arg "--" = true) after ->
    SearchPages.searchTerm (fold_left SearchPages.step after opts) =
      SearchPages.searchTerm opts.
Proof.
  induction after as [| arg after IH]; intros opts Hflags; [reflexivity |].
  inversion Hflags as [| ? ? Harg Hafter]; subst. cbn [fold_left].
  rewrite (IH _ Hafter). unfold SearchPages.step. rewrite Harg.
  now destruct (startsWith arg "--section-id=").
Qed.

Lemma others_keep_the_section (after : list string) :
  forall opts : SearchPages.options,
    Forall (fun arg => startsWith arg "--section-id=" = false) after ->
    SearchPages.sectionId (fold_left SearchPages.step after opts) =
      SearchPages.sectionId opts.
Proof.
  induction after as [| arg after IH]; intros opts Hflags; [reflexivity |].
  inversion Hflags as [| ? ? Harg Hafter]; subst. cbn [fold_left].
  rewrite (IH _ Hafter). unfold SearchPages.step. rewrite Harg.
  now destruct (startsWith arg "--").
Qed.

(** The arguments of [search-pages.js], in any order: the term is the last
    argument that does not start with two dashes, wherever the options
    stand, before it or after it, and there is none when every argument
    starts with two dashes; the section is the value of the last
    [--section-id=], its quotes stripped. The script trims the term: with
    a term that is not blank it lists the pages, of all the pages of the
    service and in their order, whose title holds the trimmed term,
    whatever the case of the letters; with a blank term it lists all the
    pages. *)
Theorem search_script_trims_the_term
        (term data : string) (sid : option string) (fuel : nat) (w : World)
        (first : collection) (rest : list collection) :
  let url :=
    if given sid
    then "/me/onenote/sections/" ++ default EmptyString sid ++ "/pages"
    else "/me/onenote/pages" in
  files w !! tokenFilePath = Some data ->
  truthy (decodeToken data) = true ->
  get_collection env (network (trace w)) url = Ok first ->
  continues env (ApiGet url :: network (trace w)) first rest ->
  (length rest <= fuel)%nat ->
  Forall (fun p => title_text p <> None) (pages_of (first :: rest)) ->
  (forall before after : list string,
     startsWith term "--" = false ->
     Forall (fun arg => startsWith arg "--" = true) after ->
     SearchPages.searchTerm (SearchPages.parseArgs (before ++ term :: after)) =
       Some term) /\
  (forall args : list string,
     Forall (fun arg => startsWith arg "--" = true) args ->
     SearchPages.searchTerm (SearchPages.parseArgs args) = None) /\
  (forall (before after : list string) (id : string),
     Forall (fun arg => startsWith arg "--section-id=" = false) after ->
     SearchPages.sectionId
       (SearchPages.parseArgs (before ++ ("--section-id=" ++ id) :: after)) =
       Some (Args.strip_quotes id)) /\
  (forall opts : SearchPages.options,
     SearchPages.searchTerm opts = Some term ->
     SearchPages.sectionId opts = sid ->
     fst (SearchPages.searchPages env dash opts fuel w) =
       Ok (inr (if String.eqb (trim term) EmptyString
                then pages_of (first :: rest)
                else List.filter (title_has (toLowerCase (trim term)))
                                 (pages_of (first :: rest))))).
Proof.
  intros url Hfile Htoken Hfirst Hserve Hfuel Htitles.
  split; [| split; [| split]].
  - intros before after Hplain Hflags. unfold SearchPages.parseArgs.
    rewrite fold_left_app. cbn [fold_left].
    rewrite (flags_keep_the_term after _ Hflags). unfold SearchPages.step.
    now rewrite (section_flag_is_no_term term Hplain), Hplain.
  - intros args Hflags. unfold SearchPages.parseArgs.
    now rewrite (flags_keep_the_term args _ Hflags).
  - intros before after id Hafter. unfold SearchPages.parseArgs.
    rewrite fold_left_app. cbn [fold_left].
    rewrite (others_keep_the_section after _ Hafter). unfold SearchPages.step.
    assert (Hflag : startsWith ("--section-id=" ++ id) "--section-id=" = true)
      by (apply startsWith_spec; now exists id).
    now rewrite Hflag.
  - intros [term' sid'] Hterm Hsid.
    cbn [SearchPages.searchTerm SearchPages.sectionId] in Hterm, Hsid.
    subst term' sid'.
    match goal with
    | |- fst (?m w) = ?r => change (wp m w (fun o _ => o = r))
    end.
    unfold SearchPages.searchPages.
    cbn [SearchPages.sectionId SearchPages.searchTerm default].
    fold url.
    apply wp_try_catch, wp_bind, wp_existsSync_exact.
    rewrite Hfile. rewrite bool_decide_eq_true_2 by eauto. cbn [orb negb].
    wp_step. unfold wp at 1, readFileSync. rewrite Hfile. cbn [fst snd].
    rewrite Htoken. cbn [negb]. wp_step. apply wp_api_get_collection.
    rewrite Hfirst. wp_step.
    apply (script_follow_links_all rest); [exact Hserve | exact Hfuel |].
    intros w1. rewrite <- pages_of_cons. wp_step.
    unfold SearchPages.hasSearchTerm. cbn [SearchPages.searchTerm].
    change (Datatypes.id term) with term.
    assert (Hblank : negb (String.eqb term EmptyString) &&
                     (0 <? String.length (trim term))%nat =
                     negb (String.eqb (trim term) EmptyString)).
    { destruct term as [|c t]; [reflexivity |]. cbn [String.eqb negb andb].
      now destruct (trim (String c t)). }
    rewrite Hblank.
    destruct (String.eqb (trim term) EmptyString); cbn [negb].
    + repeat wp_step.
      destruct (pages_of (first :: rest)) as [|p ps]; repeat wp_step;
        [reflexivity |].
      apply wp_script_print_pages. intros w2. repeat wp_step. reflexivity.
    + wp_step. rewrite (filter_by_title_spec _ _ Htitles). repeat wp_step.
      destruct (List.filter _ _) as [|p ps]; repeat wp_step; [reflexivity |].
      apply wp_script_print_pages. intros w2. repeat wp_step. reflexivity.
Qed.

End SearchScript.

Lemma search_script_trims_the_term_witness :
  SearchPages.parseArgs ["  GE 2 "; "--section-id=s1"] =
    SearchPages.mkOptions (Some "  GE 2 ") (Some "s1") /\
  fst (SearchPages.searchPages (H := Reference.engine) three_pages "-"
         (SearchPages.parseArgs ["  GE 2 "; "--section-id=s1"]) 2
         (world_with_token "eyJ0.abc")) =
    Ok (inr [sample_page "2"; sample_page "2"]).
Proof.
  split; [reflexivity |].
  refine (proj2 (proj2 (proj2
            (search_script_trims_the_term (H := Reference.engine) three_pages
               "-" "  GE 2 " "eyJ0.abc" (Some "s1") 2
               (world_with_token "eyJ0.abc") first_of_s1
               [second_of_s1; third_of_s1] eq_refl eq_refl eq_refl _
               (le_n 2) _)))
            (SearchPages.parseArgs ["  GE 2 "; "--section-id=s1"])
            eq_refl eq_refl).
  - cbn. repeat split; reflexivity.
  - repeat constructor; discriminate.
Defined.

(** ** Pages that share a file name *)

Section SharedName.
Import BulkExport.
Context `{Engine} (env : Env).

Lemma attempt_leaves_the_file (pageId pageTitle : string) (fastMode : bool)
      (w : World) :
  wp (attempt env pageId pageTitle fastMode) w
     (fun o w' =>
        forall name,
          o = Ok (Downloaded name) -> is_Some (files w' !! (OUTPUT_DIR ++ name))).
Proof.
  unfold attempt. wp_step.
  destruct fastMode;
    [apply wp_hasRecentFileByTitle; intros [filename |] | wp_step];
    cbv beta iota.
  all: repeat first
         [ wp_step
         | apply wp_existsSync_exact; cbv beta iota
         | apply wp_api_get_page; cbv beta iota
         | apply wp_fetch; cbv beta iota
         | apply wp_mkdir_done; cbv beta iota
         | apply wp_write_cases; [intros ? | intros ? ? |]; cbv beta iota
         | lazymatch goal with
           | |- wp (if ?b then _ else _) _ _ => destruct b eqn:?
           | |- wp (match ?x with _ => _ end) _ _ => destruct x eqn:?
           | |- match ?x with _ => _ end => destruct x eqn:?
           end ].
  all: intros name Hname; try discriminate Hname.
  all: injection Hname as <-.
  all: cbn [files record_event with_file]; rewrite lookup_insert_eq; eauto.
Qed.

Lemma downloadPage_leaves_the_file (pageId pageTitle : string) (fastMode : bool)
      (retries : nat) :
  forall w : World,
    wp (downloadPage_retrying env retries pageId pageTitle fastMode) w
       (fun o w' =>
          forall name,
            o = Ok (Downloaded name) ->
            is_Some (files w' !! (OUTPUT_DIR ++ name))).
Proof.
  induction retries as [|retries IH]; intros w;
    cbn [downloadPage_retrying]; apply wp_try_catch;
    apply (wp_mono _ _ _ _ (attempt_leaves_the_file pageId pageTitle fastMode w));
    intros [r | msg |] w1 Hw1; cbv beta iota; try exact Hw1.
  - repeat wp_step. intros name Hname. discriminate Hname.
  - wp_step. wp_step. apply IH.
Qed.

(** Two pages that share a file name: once [downloadPage] has saved a
    page, a page whose title and date give the same file name is taken
    for saved. Its metadata is asked for, its content is not, no file
    changes, and the outcome is the skip [already exists]. *)
Theorem shared_file_name_hides_a_page
        (w w1 : World) (firstId firstTitle pageId pageTitle name : string)
        (fastMode : bool) (retryCount : nat) (p : page) :
  downloadPage env firstId firstTitle fastMode retryCount w =
    (Ok (Downloaded name), w1) ->
  get_page env (network (trace w1)) (metadata_url pageId) = Ok p ->
  Bulk.shouldSkipByDate p = false ->
  expected_name pageTitle p = name ->
  let run := downloadPage env pageId pageTitle false 0 w1 in
  fst run = Ok (Skipped "already exists") /\
  network (trace (snd run)) = ApiGet (metadata_url pageId) :: network (trace w1) /\
  files (snd run) = files w1.
Proof.
  intros Hfirst Hget Hdate Hname.
  pose proof (downloadPage_leaves_the_file firstId firstTitle fastMode
                (1 - retryCount) w) as Hfile.
  unfold wp in Hfile. fold (downloadPage env firstId firstTitle fastMode retryCount)
    in Hfile.
  rewrite Hfirst in Hfile. specialize (Hfile name eq_refl). cbn [snd] in Hfile.
  cbv zeta.
  match goal with
  | |- fst (?m w1) = ?r /\ _ =>
      change (wp m w1
                (fun o w' =>
                   o = r /\
                   network (trace w') =
                     ApiGet (metadata_url pageId) :: network (trace w1) /\
                   files w' = files w1))
  end.
  unfold downloadPage. cbn [Nat.sub downloadPage_retrying].
  apply wp_try_catch. unfold attempt. repeat wp_step.
  apply wp_api_get_page.
  change ("/me/onenote/pages/" ++ pageId) with (metadata_url pageId).
  rewrite network_silent by reflexivity. rewrite Hget, Hdate.
  wp_step. apply wp_existsSync_exact.
  fold (expected_name pageTitle p). rewrite Hname.
  cbn [files record_event].
  rewrite (bool_decide_eq_true_2 _ Hfile). cbn [orb].
  repeat wp_step. repeat split.
Qed.

End SharedName.

Lemma shared_file_name_hides_a_page_witness :
  let first := mkPage (VStr "p1") (VStr "Plan: A") (VStr "2022-06-01T12:34:56Z")
                      VUndefined in
  let second := mkPage (VStr "p2") (VStr "Plan/ A") (VStr "2022-06-01T08:00:00Z")
                       VUndefined in
  let env :=
    static_service
      [(metadata_url "p1", Ok first); (metadata_url "p2", Ok second)] []
      [(content_url "p1", Ok (mkResponse true 200 "OK" "<html>one</html>"))] in
  let w1 :=
    snd (BulkExport.downloadPage (H := Reference.engine) env "p1" "Plan: A"
           false 0 ready_world) in
  fst (BulkExport.downloadPage (H := Reference.engine) env "p2" "Plan/ A"
         false 0 w1) =
    Ok (BulkExport.Skipped "already exists").
Proof.
  intros first second env w1.
  assert (Hfirst :
    BulkExport.downloadPage (H := Reference.engine) env "p1" "Plan: A" false 0
      ready_world =
      (Ok (BulkExport.Downloaded "Plan_ A--20220601.html"), w1)).
  { apply injective_projections; [vm_compute; reflexivity | reflexivity]. }
  exact (proj1 (shared_file_name_hides_a_page (H := Reference.engine) env
                  ready_world w1 "p1" "Plan: A" "p2" "Plan/ A"
                  "Plan_ A--20220601.html" false 0 second
                  Hfirst eq_refl eq_refl eq_refl)).
Defined.

(** ** The file of a retrieved page *)

Section PathFacts.

Lemma includes_slash (c : ascii) (s : string) :
  includes (String c s) "/" = Ascii.eqb "/" c || includes s "/".
Proof.
  destruct s; cbn [includes startsWith]; now rewrite andb_true_r.
Qed.

Lemma segments_cons (s : string) :
  exists seg more, Path.segments s = seg :: more.
Proof.
  destruct s as [| c s]; [now eexists _, _ |].
  cbn [Path.segments]. destruct (Ascii.eqb c "/"); [now eexists _, _ |].
  destruct (Path.segments s); now eexists _, _.
Qed.

Lemma segments_plain (a b : string) :
  includes a "/" = false ->
  Path.segments (a ++ b) =
    match Path.segments b with
    | seg :: more => (a ++ seg) :: more
    | [] => [a]
    end.
Proof.
  induction a as [| c a IH]; intros Hplain.
  - change (EmptyString ++ b) with b.
    now destruct (segments_cons b) as (seg & more & ->).
  - rewrite includes_slash in Hplain. apply orb_false_iff in Hplain.
    destruct Hplain as [Hc Ha]. rewrite text_app_unit.
    cbn [Path.segments]. rewrite Ascii.eqb_sym, Hc, (IH Ha).
    destruct (segments_cons b) as (seg & more & ->).
    now rewrite text_app_unit.
Qed.

Lemma segments_one (a : string) :
  includes a "/" = false -> Path.segments a = [a].
Proof.
  intros Hplain. rewrite <- (text_app_empty a) at 1.
  rewrite (segments_plain a EmptyString Hplain). cbn [Path.segments].
  now rewrite text_app_empty.
Qed.

Lemma segments_two (a b : string) :
  includes a "/" = false -> includes b "/" = false ->
  Path.segments (a ++ "/" ++ b) = [a; b].
Proof.
  intros Ha Hb. rewrite (segments_plain a _ Ha).
  change ("/" ++ b) with (String "/" b).
  cbn [Path.segments Ascii.eqb Bool.eqb]. cbv iota.
  now rewrite (segments_one b Hb), text_app_empty.
Qed.

Lemma endsWithSlash_plain (a : string) :
  includes a "/" = false -> Path.endsWithSlash a = false.
Proof.
  induction a as [| c a IH]; [reflexivity |]. intros Ha.
  rewrite includes_slash in Ha. apply orb_false_iff in Ha.
  destruct Ha as [Hc Ha]. cbn [Path.endsWithSlash].
  destruct a; [now rewrite Ascii.eqb_sym | now apply IH].
Qed.

Lemma endsWithSlash_app (a b : string) :
  b <> EmptyString -> Path.endsWithSlash (a ++ b) = Path.endsWithSlash b.
Proof.
  intros Hb. induction a as [| c a IH]; [reflexivity |].
  rewrite text_app_unit. cbn [Path.endsWithSlash]. rewrite IH.
  destruct (a ++ b) eqn:Hab; [| reflexivity].
  destruct a; [now destruct Hb | discriminate Hab].
Qed.

Lemma join_two (a b : string) :
  includes a "/" = false -> includes b "/" = false ->
  (forall seg, In seg [""; "."; ".."] -> String.eqb a seg = false) ->
  (forall seg, In seg [""; "."; ".."] -> String.eqb b seg = false) ->
  Path.join a b = a ++ "/" ++ b.
Proof.
  intros Ha Hb Na Nb.
  pose proof (Na "" ltac:(cbn; tauto)) as Na0.
  pose proof (Na "." ltac:(cbn; tauto)) as Na1.
  pose proof (Na ".." ltac:(cbn; tauto)) as Na2.
  pose proof (Nb "" ltac:(cbn; tauto)) as Nb0.
  pose proof (Nb "." ltac:(cbn; tauto)) as Nb1.
  pose proof (Nb ".." ltac:(cbn; tauto)) as Nb2.
  unfold Path.join, Path.normalize. rewrite Na0, Nb0.
  assert (Hne : forall rest, String.eqb (a ++ rest) "" = false).
  { intros rest. destruct a; [discriminate Na0 | reflexivity]. }
  assert (Hstart : forall rest, startsWith (a ++ rest) "/" = false).
  { intros rest. destruct a as [| c a]; [discriminate Na0 |].
    rewrite includes_slash in Ha. apply orb_false_iff in Ha.
    rewrite text_app_unit. cbn [startsWith]. now rewrite (proj1 Ha). }
  rewrite Hne, Hstart. cbv zeta. rewrite (segments_two a b Ha Hb).
  cbn [negb Path.normalizeString]. rewrite Na0, Na1, Na2, Nb0, Nb1, Nb2.
  cbn [orb rev app JsString.join]. rewrite Hne.
  rewrite <- (text_app_assoc a "/" b).
  rewrite endsWithSlash_app by (intros ->; discriminate Nb0).
  rewrite (endsWithSlash_plain b Hb), text_app_assoc.
  change ("" ++ ?x) with x. now rewrite !text_app_empty.
Qed.

Lemma includes_slash_app (a b : string) :
  includes a "/" = false -> includes b "/" = false ->
  includes (a ++ b) "/" = false.
Proof.
  induction a as [| c a IH]; intros Ha Hb; [exact Hb |].
  rewrite text_app_unit, includes_slash. rewrite includes_slash in Ha.
  apply orb_false_iff in Ha. destruct Ha as [Hc Ha].
  now rewrite Hc, (IH Ha Hb).
Qed.

Lemma safe_unit_plain (c : ascii) :
  Ascii.eqb "/" (lower_unit (if is_alnum c then c else "_"%char)) = false.
Proof.
  destruct c as [[] [] [] [] [] [] [] []]; reflexivity.
Qed.

Lemma safe_name_plain (t : string) :
  includes (toLowerCase (replace_non_alnum t)) "/" = false.
Proof.
  induction t as [| c t IH]; [reflexivity |].
  cbn [replace_non_alnum toLowerCase]. rewrite includes_slash, IH.
  now rewrite safe_unit_plain.
Qed.

Lemma marked_segment (a b : string) (seg : string) :
  includes seg "_" = false -> String.eqb (a ++ "_" ++ b) seg = false.
Proof.
  intros Hseg. apply String.eqb_neq. intros <-.
  assert (Hin : includes (a ++ "_" ++ b) "_" = true).
  { clear Hseg. induction a as [| c a IH].
    { change (EmptyString ++ "_" ++ b) with (String "_" b).
      now destruct b. }
    rewrite text_app_unit. cbn [includes]. rewrite IH. apply orb_true_r. }
  congruence.
Qed.

Example path_join_cases :
  Path.join "a" "../../b" = "../b" /\
  Path.join "/a" "../../b" = "/b" /\
  Path.join "" "" = "." /\
  Path.join "a" ".." = "." /\
  Path.normalize "a//b/./c/" = "a/b/c/" /\
  Path.normalize "./" = "./" /\
  Path.normalize "a/../.." = ".." /\
  Path.normalize "a/.../b" = "a/.../b" /\
  Path.join outputDir "notes_/../../y.html" = "y.html".
Proof. repeat split; vm_compute; reflexivity. Qed.

(** A name that holds no [/] is put below the directory as it is. *)
Lemma join_plain_name (a b : string) :
  includes a "/" = false -> includes b "/" = false ->
  Path.join outputDir (a ++ "_" ++ b ++ ".html") =
    outputDir ++ "/" ++ a ++ "_" ++ b ++ ".html".
Proof.
  intros Ha Hb. apply join_two.
  - reflexivity.
  - apply includes_slash_app; [exact Ha |].
    change ("_" ++ b ++ ".html") with (String "_" (b ++ ".html")).
    rewrite includes_slash. cbn [Ascii.eqb Bool.eqb orb].
    now apply includes_slash_app.
  - intros seg [<- | [<- | [<- | []]]]; reflexivity.
  - intros seg [<- | [<- | [<- | []]]]; now apply marked_segment.
Qed.

End PathFacts.

Section BulkPath.
Context `{Engine}.

Lemma segments_app (a b : string) :
  Path.segments (a ++ "/" ++ b) = (Path.segments a ++ Path.segments b)%list.
Proof.
  induction a as [| c a IH]; [reflexivity |].
  rewrite text_app_unit. cbn [Path.segments]. rewrite IH.
  destruct (Ascii.eqb c "/"); [reflexivity |].
  now destruct (segments_cons a) as (seg & more & ->).
Qed.

Lemma normalizeString_app (allow : bool) (xs ys : list string) :
  forall kept : list string,
    Path.normalizeString allow kept (xs ++ ys) =
      Path.normalizeString allow (rev (Path.normalizeString allow kept xs)) ys.
Proof.
  induction xs as [| x xs IH]; intros kept.
  - cbn [app Path.normalizeString]. now rewrite rev_involutive.
  - cbn [app Path.normalizeString].
    destruct (String.eqb x "" || String.eqb x "."); [apply IH |].
    destruct (String.eqb x ".."); [| apply IH].
    destruct kept as [| last before]; [apply IH |].
    destruct (String.eqb last ".."); apply IH.
Qed.

Lemma join_last (xs : list string) (x name : string) :
  JsString.join "/" ((x :: xs) ++ [name]) =
    JsString.join "/" (x :: xs) ++ "/" ++ name.
Proof.
  revert x. induction xs as [| y xs IH]; intros x; [reflexivity |].
  change (JsString.join "/" ((x :: y :: xs) ++ [name]))
    with (x ++ "/" ++ JsString.join "/" ((y :: xs) ++ [name])).
  rewrite IH.
  change (JsString.join "/" (x :: y :: xs))
    with (x ++ "/" ++ JsString.join "/" (y :: xs)).
  now rewrite !text_app_assoc.
Qed.

(** [path.join(OUTPUT_DIR, filename)] for a name that is one segment: the
    directory ends with a separator, and the path is the directory and
    the name in a row. *)
Lemma output_path_is_joined (name : string) :
  includes name "/" = false ->
  (forall seg, In seg [""; "."; ".."] -> String.eqb name seg = false) ->
  Path.join BulkExport.OUTPUT_DIR name = BulkExport.OUTPUT_DIR ++ name.
Proof.
  intros Hplain Hnormal.
  pose proof (Hnormal "" ltac:(cbn; tauto)) as N0.
  pose proof (Hnormal "." ltac:(cbn; tauto)) as N1.
  pose proof (Hnormal ".." ltac:(cbn; tauto)) as N2.
  unfold Path.join, Path.normalize.
  change (String.eqb BulkExport.OUTPUT_DIR "") with false. rewrite N0.
  cbv iota.
  replace (String.eqb (BulkExport.OUTPUT_DIR ++ "/" ++ name) "") with false
    by reflexivity.
  assert (Hstart : startsWith (BulkExport.OUTPUT_DIR ++ "/" ++ name) "/" = true).
  { apply startsWith_spec. eexists. reflexivity. }
  rewrite Hstart. cbv zeta iota. cbn [negb].
  rewrite segments_app, (segments_one name Hplain), normalizeString_app.
  assert (Hend : Path.endsWithSlash (BulkExport.OUTPUT_DIR ++ "/" ++ name) = false).
  { rewrite <- text_app_assoc.
    rewrite endsWithSlash_app by (intros ->; discriminate N0).
    exact (endsWithSlash_plain name Hplain). }
  rewrite Hend.
  set (kept := Path.normalizeString false [] (Path.segments BulkExport.OUTPUT_DIR)).
  vm_compute in kept. subst kept.
  cbn [rev app Path.normalizeString]. rewrite N0, N1, N2. cbn [orb].
  cbn [Path.normalizeString rev app].
  rewrite text_app_empty. vm_compute. reflexivity.
Qed.

Lemma plain_digits (s : string) :
  all_units is_digit s = true -> includes s "/" = false.
Proof.
  induction s as [| c s IH]; [reflexivity |]. cbn [all_units]. intros Hall.
  apply andb_true_iff in Hall as [Hc Hall]. rewrite includes_slash, (IH Hall).
  destruct (Ascii.eqb_spec "/" c) as [<- |]; [discriminate Hc | reflexivity].
Qed.

Lemma plain_number (z : Z) : includes (pretty z) "/" = false.
Proof.
  destruct z as [| q | q].
  - reflexivity.
  - apply plain_digits. now destruct (pretty_Z_text (Z.pos q)).
  - change (pretty (Z.neg q)) with ("-" ++ pretty (Z.pos q)).
    change ("-" ++ pretty (Z.pos q)) with (String "-" (pretty (Z.pos q))).
    rewrite includes_slash. cbn [Ascii.eqb Bool.eqb orb].
    apply plain_digits. now destruct (pretty_Z_text (Z.pos q)).
Qed.

Lemma plain_padded (s : string) :
  includes s "/" = false -> includes (padStart2 s) "/" = false.
Proof.
  intros Hs. destruct s as [| c [| d s]]; [reflexivity | | exact Hs].
  cbn [padStart2]. now rewrite includes_slash, Hs.
Qed.

Lemma plain_date (d : value) : includes (BulkExport.formatDate d) "/" = false.
Proof.
  unfold BulkExport.formatDate. destruct (Date_new d) as [t |]; [| reflexivity].
  destruct (Date_local t) as [[year month] day].
  repeat apply includes_slash_app; try apply plain_padded; apply plain_number.
Qed.

Lemma sanitized_unit_plain (c : ascii) :
  Ascii.eqb "/" (if unsafe_unit c then "_"%char else c) = false.
Proof. destruct c as [[] [] [] [] [] [] [] []]; reflexivity. Qed.

Lemma plain_sanitized (t : string) : includes (sanitizeFilename t) "/" = false.
Proof.
  induction t as [| c t IH]; [reflexivity |].
  cbn [sanitizeFilename]. now rewrite includes_slash, IH, sanitized_unit_plain.
Qed.

(** The path of the file [downloadPage] writes is the one [path.join]
    makes of the output directory and the file name, whatever the title
    and the date. *)
Lemma expected_path_is_joined (pageTitle : string) (p : page) :
  Path.join BulkExport.OUTPUT_DIR (expected_name pageTitle p) =
    expected_path pageTitle p.
Proof.
  unfold expected_path. apply output_path_is_joined.
  - unfold expected_name.
    repeat apply includes_slash_app;
      first [apply plain_sanitized | apply plain_date | reflexivity].
  - intros seg Hseg. unfold expected_name. apply String.eqb_neq. intros Heq.
    apply (f_equal (fun s => includes s "-")) in Heq.
    assert (Hdash : includes (sanitizeFilename pageTitle ++ "--" ++
                              BulkExport.formatDate (lastModifiedDateTime p) ++
                              ".html") "-" = true).
    { generalize (sanitizeFilename pageTitle) as a.
      induction a as [| c a IH]; [reflexivity |].
      rewrite text_app_unit. cbn [includes]. rewrite IH. apply orb_true_r. }
    rewrite Hdash in Heq.
    destruct Hseg as [<- | [<- | [<- | []]]]; discriminate Heq.
Qed.

End BulkPath.

Section Climb.

Lemma climbs_cons (seg : string) (segs : list string) :
  climbs (seg :: segs) =
    ((if String.eqb seg ".." then 1 else 0) + climbs segs)%nat.
Proof. unfold climbs. cbn [List.filter]. now destruct (String.eqb seg ".."). Qed.

Lemma normalize_keeps_below (allow : bool) (segs : list string) :
  forall kept : list string,
    Forall (fun seg => seg <> "..") kept ->
    (climbs segs <= length kept)%nat ->
    Forall (fun seg => seg <> "..") (Path.normalizeString allow kept segs).
Proof.
  induction segs as [| seg segs IH]; intros kept Hkept Hclimbs.
  - cbn [Path.normalizeString]. now apply List.Forall_rev.
  - rewrite climbs_cons in Hclimbs. cbn [Path.normalizeString].
    destruct (String.eqb_spec seg "") as [-> | Hempty]; cbn [orb].
    { apply IH; [exact Hkept | cbn in Hclimbs; lia]. }
    destruct (String.eqb_spec seg ".") as [-> | Hdot].
    { apply IH; [exact Hkept | cbn in Hclimbs; lia]. }
    destruct (String.eqb_spec seg "..") as [-> | Hup].
    + destruct kept as [| last before]; [cbn in Hclimbs; lia |].
      inversion Hkept as [| ? ? Hlast Hbefore]; subst.
      destruct (String.eqb_spec last "..") as [-> | _]; [now destruct Hlast |].
      apply IH; [exact Hbefore | cbn in Hclimbs; lia].
    + apply IH; [now constructor | cbn [length]; lia].
Qed.

Lemma climbs_in_a_text (tail : string) :
  includes tail "/" = false ->
  (forall seg, In seg [""; "."; ".."] -> String.eqb tail seg = false) ->
  forall (n : nat) (s : string),
    (String.length s <= n)%nat ->
    (3 * climbs (Path.segments (s ++ tail)) <= String.length s)%nat.
Proof.
  intros Hplain Hnormal.
  pose proof (Hnormal "" ltac:(cbn; tauto)) as N0.
  pose proof (Hnormal "." ltac:(cbn; tauto)) as N1.
  pose proof (Hnormal ".." ltac:(cbn; tauto)) as N2.
  assert (Hnil : forall seg more, Path.segments tail = seg :: more -> seg = tail /\ more = []).
  { intros seg more. rewrite (segments_one tail Hplain). now intros [= <- <-]. }
  induction n as [n IH] using lt_wf_ind. intros s Hn.
  destruct s as [| c s].
  { change (EmptyString ++ tail) with tail. rewrite (segments_one tail Hplain).
    rewrite climbs_cons, N2. cbn. lia. }
  rewrite text_app_unit. cbn [Path.segments String.length].
  destruct (Ascii.eqb_spec c "/") as [-> | Hc].
  { rewrite climbs_cons. cbn [String.eqb].
    pose proof (IH (String.length s) ltac:(cbn in Hn; lia) s (le_n _)). lia. }
  destruct (segments_cons (s ++ tail)) as (seg0 & more & Hsegs).
  pose proof (IH (String.length s) ltac:(cbn in Hn; lia) s (le_n _)) as IHs.
  rewrite Hsegs in IHs |- *. rewrite climbs_cons in IHs |- *.
  destruct (String.eqb_spec (String c seg0) "..") as [Hup | _]; [| lia].
  injection Hup as -> ->.
  (* the segment is [..]: two more units and a separator follow *)
  destruct s as [| c1 s1].
  { change (EmptyString ++ tail) with tail in Hsegs.
    apply Hnil in Hsegs as [<- _]. discriminate N1. }
  rewrite text_app_unit in Hsegs. cbn [Path.segments] in Hsegs.
  destruct (Ascii.eqb_spec c1 "/") as [-> | Hc1]; [discriminate Hsegs |].
  destruct (segments_cons (s1 ++ tail)) as (seg1 & more1 & Hsegs1).
  rewrite Hsegs1 in Hsegs. injection Hsegs as -> -> ->.
  destruct s1 as [| c2 s2].
  { change (EmptyString ++ tail) with tail in Hsegs1.
    apply Hnil in Hsegs1 as [<- _]. discriminate N0. }
  rewrite text_app_unit in Hsegs1. cbn [Path.segments] in Hsegs1.
  destruct (Ascii.eqb_spec c2 "/") as [-> | Hc2].
  - injection Hsegs1 as <-.
    pose proof (IH (String.length s2) ltac:(cbn in Hn; lia) s2 (le_n _)).
    cbn [String.length]. lia.
  - destruct (segments_cons (s2 ++ tail)) as (seg2 & more2 & Hsegs2).
    rewrite Hsegs2 in Hsegs1. discriminate Hsegs1.
Qed.

Lemma segments_are_plain (s : string) :
  Forall (fun seg => includes seg "/" = false) (Path.segments s).
Proof.
  induction s as [| c s IH]; [now repeat constructor |].
  cbn [Path.segments]. destruct (Ascii.eqb_spec c "/") as [-> | Hc].
  - now constructor.
  - destruct (segments_cons s) as (seg & more & Hs). rewrite Hs in IH |- *.
    inversion IH as [| ? ? Hseg Hmore]; subst. constructor; [| exact Hmore].
    rewrite includes_slash, Hseg.
    destruct (Ascii.eqb_spec "/" c) as [<- |]; [now destruct Hc | reflexivity].
Qed.

Lemma normalize_keeps (P : string -> Prop) (allow : bool) (segs : list string) :
  P ".." ->
  forall kept : list string,
    Forall P kept -> Forall P segs ->
    Forall P (Path.normalizeString allow kept segs).
Proof.
  intros Hup. induction segs as [| seg segs IH]; intros kept Hkept Hsegs.
  - cbn [Path.normalizeString]. now apply List.Forall_rev.
  - inversion Hsegs as [| ? ? Hseg Hrest]; subst. cbn [Path.normalizeString].
    destruct (String.eqb seg "" || String.eqb seg "."); [now apply IH |].
    destruct (String.eqb seg "..").
    + destruct kept as [| last before].
      * destruct allow; apply IH; auto.
      * inversion Hkept; subst.
        destruct (String.eqb last ".."); [destruct allow |]; apply IH; auto.
    + apply IH; auto.
Qed.

Lemma segments_join (segs : list string) :
  segs <> [] ->
  Forall (fun seg => includes seg "/" = false) segs ->
  Path.segments (JsString.join "/" segs) = segs.
Proof.
  induction segs as [| x segs IH]; [now intros [] |]. intros _ Hplain.
  inversion Hplain as [| ? ? Hx Hsegs]; subst.
  destruct segs as [| y segs]; [now apply segments_one |].
  change (JsString.join "/" (x :: y :: segs))
    with (x ++ "/" ++ JsString.join "/" (y :: segs)).
  rewrite segments_app, (segments_one x Hx), IH by (auto; discriminate).
  reflexivity.
Qed.

(** The file of a retrieved page is in the directory of the script or
    below it, whatever the page id: no segment of its path is [..]. *)
Lemma retrieved_path_stays_below (a pageId : string) :
  includes a "/" = false ->
  Forall (fun seg => seg <> "..")
         (Path.segments
            (Path.join outputDir
               (a ++ "_" ++ substring0 8 pageId ++ ".html"))).
Proof.
  intros Ha.
  set (id8 := substring0 8 pageId).
  set (name := a ++ "_" ++ id8 ++ ".html").
  set (segs := Path.normalizeString true []
                 (Path.segments (outputDir ++ "/" ++ name))).
  assert (Hjoin : Path.join outputDir name =
                  if String.eqb (JsString.join "/" segs) ""
                  then "." else JsString.join "/" segs).
  { unfold Path.join, Path.normalize.
    change (String.eqb outputDir "") with false. cbv iota.
    replace (String.eqb name "") with false
      by (symmetry; apply marked_segment; reflexivity).
    replace (String.eqb (outputDir ++ "/" ++ name) "") with false by reflexivity.
    change (startsWith (outputDir ++ "/" ++ name) "/") with false.
    cbv zeta iota. cbn [negb]. fold segs.
    assert (Hend : Path.endsWithSlash (outputDir ++ "/" ++ name) = false).
    { unfold name. rewrite <- !text_app_assoc.
      now rewrite endsWithSlash_app by discriminate. }
    rewrite Hend. destruct (String.eqb (JsString.join "/" segs) "");
      [reflexivity |].
    change ("" ++ ?x) with x. now rewrite text_app_empty. }
  assert (Hplain : Forall (fun seg => includes seg "/" = false) segs).
  { apply normalize_keeps; [reflexivity | constructor | apply segments_are_plain]. }
  assert (Hbelow : Forall (fun seg => seg <> "..") segs).
  { unfold segs. rewrite segments_app.
    change (Path.segments outputDir) with [outputDir]. cbn [app].
    assert (Hmark : includes (a ++ "_") "/" = false)
      by (apply includes_slash_app; [exact Ha | reflexivity]).
    unfold name. rewrite <- (text_app_assoc a "_" (id8 ++ ".html")).
    rewrite (segments_plain (a ++ "_") (id8 ++ ".html") Hmark).
    destruct (segments_cons (id8 ++ ".html")) as (seg0 & more & Hsegs).
    rewrite Hsegs.
    assert (Hclimbs : (3 * climbs (seg0 :: more) <= 8)%nat).
    { rewrite <- Hsegs.
      etransitivity;
        [apply (climbs_in_a_text ".html" eq_refl) with (n := String.length id8);
           [| apply le_n] |].
      - intros seg [<- | [<- | [<- | []]]]; reflexivity.
      - apply substring0_length. }
    rewrite climbs_cons in Hclimbs.
    cbn [Path.normalizeString].
    change (String.eqb outputDir "") with false.
    change (String.eqb outputDir ".") with false.
    change (String.eqb outputDir "..") with false. cbn [orb]. cbv iota.
    rewrite (text_app_assoc a "_" seg0).
    rewrite !marked_segment by reflexivity. cbn [orb]. cbv iota.
    apply normalize_keeps_below.
    - constructor; [| constructor; [discriminate | constructor]].
      apply String.eqb_neq. now apply marked_segment.
    - cbn [length]. lia. }
  rewrite Hjoin.
  destruct (String.eqb_spec (JsString.join "/" segs) "") as [_ | Hbody].
  - repeat constructor. discriminate.
  - rewrite segments_join; [exact Hbelow | | exact Hplain].
    intros Hnil. rewrite Hnil in Hbody. now apply Hbody.
Qed.

End Climb.

Section RetrievedPage.
Context `{Engine} (env : Env).

Lemma getPageContent_saves
      (pageId t content data : string) (p : page) (w : World) :
  let path :=
    Path.join outputDir
      (toLowerCase (replace_non_alnum t) ++ "_" ++ substring0 8 pageId ++
       ".html") in
  files w !! tokenFilePath = Some data ->
  truthy (decodeToken data) = true ->
  get_page env (network (trace w)) (metadata_url pageId) = Ok p ->
  title p = VStr t ->
  Bulk.shouldSkipPageByTitle t = false ->
  Bulk.shouldSkipByDate p = false ->
  get_content env (ApiGet (metadata_url pageId) :: network (trace w))
              (metadata_url pageId ++ "/content") = Ok (VStr content) ->
  (forall tr, write_error env tr path = None) ->
  wp (GetPageContent.getPageContent env pageId) w
     (fun o w' =>
        o = Ok tt /\
        files w' = <[path := content]> (files w) /\
        In (ConsoleLog (snippet_of content)) (trace w') /\
        network (trace w') =
          ApiGet (metadata_url pageId ++ "/content") ::
          ApiGet (metadata_url pageId) :: network (trace w)).
Proof.
  intros path Hfile Htoken Hget Ht Htitle Hdate Hcontent Hwrite.
  unfold GetPageContent.getPageContent.
  apply wp_try_catch, wp_bind. unfold wp at 1.
  rewrite (loadToken_present w data Hfile), Htoken. cbn [fst snd].
  wp_step. wp_step. wp_step.
  apply wp_api_get_page.
  change ("/me/onenote/pages/" ++ pageId) with (metadata_url pageId).
  rewrite network_silent by reflexivity. rewrite Hget.
  wp_step. wp_step. wp_step. unfold wp at 1.
  rewrite (cli_shouldSkipPage_unfold p t _ (title_text_of_string p t Ht)).
  unfold Bulk.shouldSkipPageByTitle in Htitle.
  rewrite (orb_comm (includes (toLowerCase t) "private")), Htitle.
  cbv iota. rewrite Hdate. cbn [fst snd].
  wp_step. wp_step. wp_step.
  apply wp_api_get_content.
  change ("/me/onenote/pages/" ++ pageId ++ "/content")
    with (metadata_url pageId ++ "/content").
  rewrite 2!network_silent by reflexivity.
  rewrite network_request, network_silent by reflexivity.
  rewrite Hcontent. repeat wp_step. cbn [content_text]. repeat wp_step.
  apply wp_existsSync_exact.
  rewrite Ht. cbn [safeFileName].
  fold path.
  destruct (bool_decide (is_Some (files w !! outputDir)) ||
            bool_decide (outputDir ∈ dirs w)) eqn:Hpresent;
    cbn [negb files dirs record_event]; rewrite Hpresent; cbn [negb];
    repeat first
      [ wp_step
      | apply wp_mkdir_done; cbv beta iota
      | apply wp_write_done; [apply Hwrite |] ].
  all: split; [reflexivity |]; split; [reflexivity |]; split;
    [cbn [trace record_event]; auto 10 using in_eq, in_cons | reflexivity].
Qed.

(** [get-page-content.js] saves a page that passes the filter at the path
    that [path.join] makes of the output directory and of a name: the
    title in lower case letters, digits and underscores, an underscore,
    the first eight units of the page id, and [.html]. The file holds the
    content as it was received, whatever was there before, and the snippet
    of that content is printed. When the first eight units of the id hold
    no [/], the file is the one of that name in the output directory; a
    [/] among them is a separator of the path, which may then lead out of
    the output directory but never above the directory of the script: no
    segment of the path is [..]. *)
Theorem retrieved_page_is_saved_at_the_joined_path
        (pageId t content data : string) (p : page) (w : World) :
  let name :=
    toLowerCase (replace_non_alnum t) ++ "_" ++ substring0 8 pageId ++ ".html" in
  let path := Path.join outputDir name in
  files w !! tokenFilePath = Some data ->
  truthy (decodeToken data) = true ->
  get_page env (network (trace w)) (metadata_url pageId) = Ok p ->
  title p = VStr t ->
  Bulk.shouldSkipPageByTitle t = false ->
  Bulk.shouldSkipByDate p = false ->
  get_content env (ApiGet (metadata_url pageId) :: network (trace w))
              (metadata_url pageId ++ "/content") = Ok (VStr content) ->
  (forall tr, write_error env tr path = None) ->
  let run := GetPageContent.getPageContent env pageId w in
  fst run = Ok tt /\
  files (snd run) = <[path := content]> (files w) /\
  In (ConsoleLog (snippet_of content)) (trace (snd run)) /\
  network (trace (snd run)) =
    ApiGet (metadata_url pageId ++ "/content") ::
    ApiGet (metadata_url pageId) :: network (trace w) /\
  (includes (substring0 8 pageId) "/" = false ->
   path = outputDir ++ "/" ++ name) /\
  Forall (fun seg => seg <> "..") (Path.segments path).
Proof.
  intros name path Hfile Htoken Hget Ht Htitle Hdate Hcontent Hwrite run.
  destruct (getPageContent_saves pageId t content data p w
              Hfile Htoken Hget Ht Htitle Hdate Hcontent Hwrite)
    as (Hok & Hfiles & Hlog & Hnet).
  repeat (split; [assumption |]). split.
  - intros Hid. apply join_plain_name; [apply safe_name_plain | exact Hid].
  - apply retrieved_path_stays_below, safe_name_plain.
Qed.

End RetrievedPage.

(** An id whose first eight units hold [/../]: the file is written beside
    the segment that the title and the start of the id make, not below the
    output directory under the whole name. *)
Lemma retrieved_page_is_saved_at_the_joined_path_witness :
  let p := mkPage (VStr "0-ab/../cd9") (VStr "Trip: Rome & Pisa")
                  (VStr "2023-03-01T10:00:00Z") VUndefined in
  let env :=
    content_service
      [(metadata_url "0-ab/../cd9", Ok p)]
      [(metadata_url "0-ab/../cd9" ++ "/content",
        Ok (VStr "<html><p>Colosseum</p></html>"))] in
  let run :=
    GetPageContent.getPageContent (H := Reference.engine) env "0-ab/../cd9"
      (world_with_token "eyJ0.abc") in
  files (snd run) !! "output/.html" = Some "<html><p>Colosseum</p></html>" /\
  files (snd run) !! "output/trip__rome___pisa_0-ab/../.html" = None /\
  In (ConsoleLog "Colosseum") (trace (snd run)).
Proof.
  intros p env run.
  destruct (retrieved_page_is_saved_at_the_joined_path (H := Reference.engine)
              env "0-ab/../cd9"
              "Trip: Rome & Pisa" "<html><p>Colosseum</p></html>" "eyJ0.abc" p
              (world_with_token "eyJ0.abc")
              eq_refl eq_refl eq_refl eq_refl eq_refl eq_refl eq_refl
              (fun _ => eq_refl)) as (_ & Hfiles & Hsnippet & _).
  split; [| split; [| exact Hsnippet]].
  - unfold run. rewrite Hfiles. apply lookup_insert_eq.
  - unfold run. rewrite Hfiles. vm_compute. reflexivity.
Defined.
